(* ===== verification/_CoqProject ===== *)
-Q . S2P
Prelude.v
PyStr.v
Json.v
Effects.v
Base64.v
Binascii.v
Fixtures.v
Config.v
Submission.v
Client.v
Poller.v
Sync.v
Router.v
Async.v
Atomic.v
Blocks.v
Interleave.v
Startup.v
Budget.v
Taxonomy.v
