(* ===== verification/Prelude.v ===== *)
(** * Verification of the video-generation proxy (open_webui/routers/videos.py)

    The program is one FastAPI router, [src/open-webui-source/backend/
    open_webui/routers/videos.py].  It proxies video-generation jobs to a
    remote provider: it stores an admin-editable provider configuration,
    submits jobs, forwards status / list / delete calls, streams the finished
    media, and offers a blocking mode that submits a job and polls it until it
    completes, fails or a timeout elapses.  All job state lives at the provider;
    the only state of the process is the configuration record.  What the
    module leaves behind besides is its log and, from its import, a cache
    directory.

    ** The parts of the program and the files that model them

    In dependency order:

    - [Prelude] (this file): libraries, the scope [videos_scope], the hint
      database [videos], shared tactics and the generic facts on strings and
      integers and sums that several components use, with the check of a
      property of all numbers below a bound by enumeration
      ([below_forallb]).
    - [PyStr]: the Python [str] operations the router calls ([startswith],
      [split(sep, 1)], [split(sep)[0]], [lstrip(chars)], truthiness), as
      functions on [string], with their characterisations.
    - [Json]: the values the handlers pass around ([None], booleans, integers,
      strings, lists, dicts) as the inductive type [JSON], with truthiness,
      [or], [==], [dict.get], and [getattr] / attribute assignment on the
      configuration object.
    - [Effects]: what a handler can do.  The world ([World]) is the attribute
      store [request.app.state.config], the clock, the record of the
      requests sent to the provider, and the log of the module.  A handler
      is a computation [M A]: a function from the world to a result ([Ok],
      [Raise] of a Python exception, or [OutOfFuel]) and the world after.
      The provider is the oracle [Upstream]: its answer to the [n]-th
      request (a connection failure, or a response, after some latency).
      [Platform] states what the router assumes of the modules it imports.
      The logger [log] of the module is [log_info] and [log_exception], which
      add a record to the log when the level set at import ([log_level],
      [isEnabledFor]) lets it pass.  The file proves the monad laws, the
      equations of [try_except], and the predicates that the handlers are
      measured against: [forward] (configuration untouched, clock monotone,
      request record and log only extended), [offline] (nothing sent),
      [inert] (the world as it was), [quiet] (nothing but the log changed),
      [raising] (what an [except] clause does) and [total] (never out of
      fuel), each with one lemma per primitive and the tactic [effects] that
      follows the structure of a computation.
    - [Base64]: base64 as RFC 4648 defines it, a decoder of canonical
      padded text and the encoder, with the proof that decoding undoes
      encoding.  It is the reference for the decoder that the code calls.
    - [Binascii]: [base64.b64decode] as line 200 calls it (a [str], the
      standard alphabet, [validate=False]): the check that the text is
      ASCII and the loop of [binascii.a2b_base64] over the state [A2b]
      ([quad_pos], [leftchar], [pads] and the bytes written), one turn per
      character ([a2b_loop]), with the two errors it raises after the loop.
      The library is not under src/; the model follows its implementation
      in CPython.
    - [Fixtures]: users, platforms, scripted providers, responses and worlds
      at which the properties are instantiated.
    - [Config]: [class VideosConfig], [get_config], [update_config] and
      [get_models]; the guards on engine and API key that the other handlers
      share; validation against the response model.
    - [Submission]: [class CreateVideoForm] and [video_generations], the whole
      handler: guards, defaults, headers, the handling of [input_reference],
      the JSON or multipart request, the two calls to the logger and both
      [except] clauses.  [submission_result] is the specification of the try
      block as a value, [submission_log] that of what it logs.
    - [Client]: [list_videos], [get_video], [get_video_content] and
      [delete_video], with [fetch_result] and [content_result] as the
      specification of their try blocks, [fetch_failure] and [failure_log]
      as that of what they log, and [generate] for the chunks of the
      streamed body, which are those of [requests] ([Platform]'s
      [iter_content]).
    - [Poller]: the status poller of the specification as an abstract
      machine, a function ([poller_step], [poller_run]) and a transition
      relation ([transition]) that are proved to be the same machine, with
      its termination, its timeout window and its life cycle.
    - [Sync]: [video_generations_sync]: the submission, the test of the id,
      and the [while] loop [poll_loop]; the proof that the loop implements
      the machine of [Poller] ([poll_loop_simulates], [poll_loop_refines]),
      and the properties of the blocking mode that follow.
    - [Router]: the nine [@router] declarations as the table [route_table],
      the routing of a request to the first route that matches
      ([dispatch]), the dependencies and the validation of each handler's
      parameters ([endpoint]), the mapping of an exception to a reply, and
      the service of one request ([serve]) and of a sequence ([serve_all]).
      The authorization collaborator is the interface [Auth].  [class
      VideoStatus] and the check of a value against it are here too.
    - [Async]: the handlers as coroutines.  The files above model a handler
      as one computation, from the world before to the world after; this
      file keeps the two [await]s that suspend ([await_request] for [await
      asyncio.to_thread(requests...)], [await_sleep] for [await
      asyncio.sleep]).  A coroutine ([Coro]) runs one block and leaves a
      task ([Task]) that is done or waits, with what it does when it is
      resumed.  Each [async def] is written again over these ([get_video_c],
      [poll_loop_c], [video_generations_sync_c], ..., [serve_c]), from the
      same pieces as its sequential model, and is proved to be that model
      when it runs alone ([run_solo]).
    - [Atomic]: the handlers that await once.  Their reply is settled by
      their first block ([settled], [settles]); only the blocking mode
      depends on what happens while it waits.
    - [Blocks]: what the blocks of a handler guarantee in whatever world
      they are resumed ([task_sat], [starts], [keeps]), with one rule per
      combinator of [Async], and the two guarantees of the handlers:
      [sends_configured] and the bound on the fuel of the polling loop under
      any resumption times ([starts_poll_loop]).
    - [Interleave]: the event loop.  A pool of tasks, events ([Arrive],
      [Resume], [Elapse]) and the run of a schedule ([run_events]); the
      invariants of every schedule, the schedule [serial] that is
      [Router.serve_all], and what an update of the configuration does to a
      blocking call that is polling.
    - [Startup]: what the import of the module does to the file system:
      [VIDEO_CACHE_DIR] and its [mkdir(parents=True, exist_ok=True)], over
      a model of [os.mkdir] and of [Path.mkdir].  No other file depends on
      it: no handler touches the directory.
    - [Budget]: how many requests the handlers send.  [task_within] and
      [starts_within] count what the blocks of a coroutine add to the
      record of requests, in whatever worlds they are resumed, with one
      rule per combinator of [Async]; [max_polls] is the number of polls
      that a timeout and an interval leave room for, [request_budget] what
      a request may send by its route, [schedule_budget] the sum over the
      arrivals of a schedule.
    - [Taxonomy]: the errors of section 7 of the specification ([Fault],
      with [fault_status] and [fault_detail]) and a specification by
      postconditions, [yields Q E m]: the computation [m] returns a value
      of [Q] or raises an exception of [E].  It has one rule per combinator
      and primitive of [Effects], and one lemma per handler that says which
      faults the handler raises and which Python errors leave it uncaught.

    ** Modelling conventions

    - A Python [str] is a Rocq [string] (a sequence of 8-bit characters).  The
      router only splits and strips on ASCII characters, which never occur
      inside a multi-byte UTF-8 sequence, so the byte-level functions agree
      with the code-point-level ones of Python on UTF-8 text.
    - A Python [dict] with string keys is a [gmap string _]; [None] is the
      [None] of an [option] (or [JNull] inside a JSON value).  The headers of
      a response are looked up by their lower-case name.
    - Code that is not under src/ is a parameter with the laws that the
      handlers rely on, or a model of the library as it is documented.
      [Platform] has two laws: [include_user_info_headers] keeps the
      Authorization and Content-Type headers it is given (with a helper that
      dropped Content-Type, [del headers["Content-Type"]] at line 206 would
      raise [KeyError] ahead of the [try]; the law excludes it), and the
      pieces of [iter_content] add up to the body of the response (no size
      of the pieces is assumed: where a piece ends is the transport's
      choice).  [Binascii] follows CPython's decoder, [Startup] follows
      [pathlib.Path.mkdir]; [Poller] and [Taxonomy.Fault] are written from
      the specification (sections 4.3 and 7), not from code.
    - In the sequential model ([Config] to [Router]) an [await] is
      sequencing: one handler runs from its first line to its last without
      another request in between.  In [Async] an [await] of a request or of
      a sleep ends a block: the request is on the provider's record when
      the block ends, and the task may be resumed at any time from the
      moment the clock reaches its wake-up time (the latency of the
      exchange, or the sleep, after the block ended).  An [await] of another
      handler of the module ([await get_config], [await video_generations],
      [await get_video]) suspends only where that handler does.
    - The event loop is not part of the module: [Interleave.step] takes any
      event at any time.  No fairness is assumed; a task that is never
      resumed again stands for a call that was cancelled.  What is proved of
      every schedule therefore holds of the schedules of the real loop.
    - Time is counted in ticks, [TICKS_PER_SECOND] (1000) to the second.  A
      call to the provider takes the latency of its exchange; [asyncio.sleep]
      takes its argument when that is positive and no time otherwise;
      everything else takes no time.  [timeout] and [poll_interval] are
      integers, as the handler declares them.
    - [str()] of a list or a dict is the parameter [repr_container] of the
      class [PyRepr]; [str()] of the other values is defined.
    - The log is the list of the records that the logger of the module hands
      on, oldest first: level, message and, for [log.exception], the
      exception that is being handled (which stands for its traceback).
      Where the records go from there (the handlers and formatters of the
      logging configuration) is outside the module.
    - A path of the file system is the list of its components from the last
      to the first; the file system is a finite map from paths to [Dir] or
      [File], the root being a directory that is always there.
    - Every definition that models code keeps the name the code gives it;
      where one handler is cut in pieces (its request, its try block), the
      pieces are named after what they build.

    ** Fuel

    The only loop of the program is the [while] of [video_generations_sync].
    [poll_loop] is recursive on a fuel, one unit per evaluation of the loop
    condition, and answers [OutOfFuel] when it runs out.  With a positive
    [poll_interval] every turn that does not end the loop moves the clock by
    at least the interval, so [sync_fuel timeout poll_interval], that is
    [timeout / poll_interval + 2] turns, always suffices
    ([video_generations_sync_returns]), and a larger fuel changes nothing
    ([poll_loop_fuel_monotone]).  With a non-positive interval no fuel
    suffices against a provider that answers at once ([poll_loop_busy]): the
    loop of the program has no bound of its own there.  The coroutine
    [poll_loop_c] takes the same fuel, and the same fuel suffices under
    every schedule ([Blocks.starts_poll_loop], [run_events_answers]): a task
    is resumed when its wake-up time has passed, never before, so a turn of
    the loop still moves the clock by the interval at least.  The bounds of
    [Budget] do not depend on the fuel: a run that is out of fuel has sent
    no more than one that is not.

    ** What the theorems show

    - Configuration ([Config]): an update is read back and idempotent, the
      store stays typed under any sequence of updates, [get_models] answers
      by engine.
    - Submission ([Submission]): the request sent for each shape of the form
      (no reference, data URI, URL, anything else), the two 400s, the
      propagation of the provider's error status, what the handler raises on
      a malformed data URI, that at most one POST is sent, the MIME type that
      [lstrip] leaves, that an image comes out of a data URI as it went in,
      that the payload is read leniently ([reference_file_lenient]) and that
      a payload without its padding or outside ASCII makes the handler raise
      ahead of its try block ([video_generations_unpadded_payload]), and the
      null that a stored [None] puts in the data.
    - The decoder ([Binascii]): on text that the decoder of RFC 4648 accepts
      the loop returns the same bytes ([a2b_base64_reference]); characters
      outside the alphabet and pads ahead of the second character of a group
      change nothing ([a2b_base64_filter]); what follows the padding that
      completes a group is not read ([a2b_base64_padded]); decoding undoes
      [b64encode] ([b64decode_b64encode]); text of the alphabet whose length
      is not a multiple of four is refused with the message of the library
      ([b64decode_unpadded]); the state stays well formed, each byte stored
      has eight bits ([a2b_data_stored]) and the result fits the buffer
      that the library allocates ([a2b_base64_length]).  The bit-level
      identities between four sextets and three octets are checked on all
      values below 64 by enumeration.
    - Pass-through and streaming ([Client]): the request of each handler,
      the 400 without a key, the 500 for every upstream failure, the chunks
      of the streamed body.
    - The log ([Submission], [Client], [Sync]): an accepted job is logged
      with the provider's answer at level INFO; a failure of the call or of
      the decoding is logged with its exception at level ERROR by the
      handler that answers 500 for it, the pass-through handlers logging an
      error status of the provider as such a failure and [video_generations]
      passing it on unlogged; the loop of the blocking mode logs nothing of
      its own (a timeout and a failed job leave no record); what is logged
      is decided by what the provider answers, not by the request or the
      configuration.  Under every schedule the log only grows
      ([Interleave.run_events_monotone]).
    - The import ([Startup]): the cache directory is made with the
      directories that are missing on the way, a second import changes
      nothing, a file in the way makes the import raise, and nothing that
      was on the disk is removed or changed.
    - Poller and blocking mode ([Poller], [Sync]): refinement of the machine
      by the loop, termination, the window in which a timeout is detected,
      the exact number of polls of a pending-then-completed job, no retry
      after a failed poll, the answers for a missing id and a non-positive
      timeout, the life cycle of a job, and the end-to-end scenario of the
      specification.
    - All handlers ([handlers_forward] in [Sync]): none but [update_config]
      changes the configuration.
    - The router ([Router]): which handler a GET of one segment reaches, that
      only an admin's valid update changes the configuration, that the store
      stays typed over any sequence of requests, that an unverified bearer
      has no effect, that every request is answered, and a sequence of four
      requests from refusal to a completed job.

    - Coroutines ([Async]): run alone, every handler and the service of a
      request are the sequential ones ([run_solo_video_generations_sync],
      [run_solo_serve_c]).  These lemmas, and [Interleave.serial_run] for a
      sequence of requests, check the two models of the handlers against
      each other; they are used by the theorems on schedules and are not
      properties of the program themselves.
    - Atomicity ([Atomic]): the reply of every request but a blocking call
      is that of the sequential model in the world of its arrival, whatever
      is interleaved with it ([serve_c_settled], and [arrival_decides] for
      the schedules of [Interleave]).
    - Concurrency ([Blocks], [Interleave]): under every schedule the
      configuration is that of the admin's updates in the order of their
      arrival and stays typed; the clock and the record of requests only
      grow; every request sent carries the key and goes to the base URL of
      one configuration that was in force, with a key that was set; every
      task that ends has a reply, and none runs out of the fuel of
      [sync_fuel]; a task that is resumed often enough ends; the sequential
      service of [Router.serve_all] is the schedule [serial].  A turn of the
      polling loop reads the configuration anew: after an update the polls
      of a job already submitted follow the new key and base URL, and a key
      that is removed ends the blocking call with status 400.
    - Requests sent ([Budget]): a blocking call with a positive interval
      sends its submission and at most one poll per interval of its
      timeout, rounded up ([video_generations_sync_budget]), a bound that a
      provider which answers at once and never finishes the job makes it
      reach ([poll_loop_budget_reached]); every other handler sends one
      request at most; requests served one after the other send no more
      than the sum of their budgets ([serve_all_budget]), and neither does
      any schedule of the event loop ([run_events_budget]): being resumed
      late costs a blocking call polls and never adds one.
    - [VideoStatus] ([Router]): the status of a job is passed on as the
      provider sends it, whether or not it has the declared shape.
    - Errors ([Taxonomy]): every [HTTPException] that a handler raises is a
      fault of the taxonomy with its status and detail; the pass-through
      handlers raise two of them (no key, internal fault) and never pass the
      status of the provider on ([pass_through_faults]); the blocking mode
      returns the answer of a completed job or raises a fault or lets out a
      [ValueError], a [binascii.Error] or an [AttributeError]
      ([video_generations_sync_taxonomy]); the router answers every request
      with one of seven statuses, an error status of the provider, or the
      refusal of the authorization ([serve_status]).  The postconditions do
      not look at the world, so the same holds of the coroutines in
      whatever worlds their blocks are resumed ([c_yields], by the rules of
      [Blocks]), and of the replies of every schedule of the event loop
      ([run_events_status]).

    Each property is stated for every input (form, configuration, provider,
    world) that satisfies its hypotheses, and instantiated at a run of
    [Fixtures] where it has hypotheses.

    ** What is not modelled

    - Inside the framework: the parsing of a request into path segments,
      query and body, the coercions of pydantic (validation is modelled
      strictly: a value validates when it has the declared type), the body
      of a 422, and the mounting prefix of the router.
    - How credentials are verified: [Auth] only says that the two checks
      exist and that an admin is a verified user.
    - Of logging: where the records go and how they are formatted (the
      handlers of the logging configuration, the text of a traceback),
      [logging.disable], and what the framework and the server log
      themselves for a request or for an exception that no handler of the
      module catches.
    - Of the file system: permissions, symbolic links, a disk that is full
      or read-only, and a directory that another process makes or removes
      while the import runs.  The imports at the top of the file and the
      construction of the [APIRouter] object have no model of their own: the
      names they bind are the fields of [Platform] and the table of
      [Router].
    - Inside the event loop: which task it resumes next, the worker threads
      of [asyncio.to_thread] (a call to the provider is its request, its
      latency and its answer), and the cancellation of a task when the
      caller disconnects, other than as a task that is not resumed again.
    - Floats: a JSON number is an integer, and [time.time()] is the clock in
      ticks.  A body of the provider with a number that is no integer is
      outside the model.
    - The class of [request.app.state.config] (not under src/): the store is
      a plain map from attribute names to values; whatever the class does
      on assignment besides storing (persisting, notifying) is not
      modelled.
    - The sizes of the chunks of a streamed body: they are the transport's
      choice.  Only their sum, the body, is assumed.
    - Of [base64]: the arguments that the code does not use ([altchars],
      [validate=True], a [bytes] argument) and the strict mode of
      [binascii.a2b_base64]. *)

From stdpp Require Export base tactics option list strings gmap pretty.
From Stdlib Require Export ZArith Lia.

(** ** Scope and hint database *)

Declare Scope videos_scope.
Delimit Scope videos_scope with videos.

Create HintDb videos discriminated.
Create HintDb routes discriminated.
Create Rewrite HintDb videos.

(** ** Tactics *)

(** [split_branch]: split on the innermost [if] / [match] scrutinee of the
    goal, remembering the equation; the handlers are sequences of guards, and
    most proofs about them walk these guards in order. *)
Ltac split_branch :=
  match goal with
  | |- context [if ?b then _ else _] => destruct b eqn:?
  | |- context [match ?x with _ => _ end] => destruct x eqn:?
  end.

(** [simp_videos]: normalise with the rewrite database [videos] (appends
    re-associated to the right, attributes read back after an assignment). *)
Ltac simp_videos := autorewrite with videos.

(** ** Characters and strings *)

(** stdpp blocks [simpl] on string append; the models build URLs, headers and
    messages by appending to literals, so let it reduce when the left operand
    is a constructor. *)
#[global] Arguments String.append !_ _ / : simpl nomatch.

(** The double-quote character, for strings that contain one. *)
Definition dquote : string := String (Ascii.ascii_of_nat 34) EmptyString.

Lemma string_app_nil_r (s : string) : s +:+ "" = s.
Proof. induction s as [|a s IH]; simpl; [done | by rewrite IH]. Qed.

Lemma string_app_assoc (s1 s2 s3 : string) :
  (s1 +:+ s2) +:+ s3 = s1 +:+ (s2 +:+ s3).
Proof. induction s1 as [|a s1 IH]; simpl; [done | by rewrite IH]. Qed.

Lemma string_app_length (s1 s2 : string) :
  String.length (s1 +:+ s2) = (String.length s1 + String.length s2)%nat.
Proof. induction s1 as [|a s1 IH]; simpl; [done | by rewrite IH]. Qed.

Lemma string_app_cons (a : Ascii.ascii) (s1 s2 : string) :
  String a s1 +:+ s2 = String a (s1 +:+ s2).
Proof. done. Qed.

#[export] Hint Rewrite string_app_nil_r string_app_assoc string_app_cons : videos.

(** A string is a prefix of what it is extended to. *)
Lemma string_prefix_app (s1 s2 : string) : String.prefix s1 (s1 +:+ s2) = true.
Proof.
  induction s1 as [|a s1 IH]; [by destruct s2|]. cbn [String.append String.prefix].
  by destruct (Ascii.ascii_dec a a).
Qed.

(** A string is empty exactly when its length is zero. *)
Lemma string_length_zero (s : string) : String.length s = 0%nat <-> s = "".
Proof. destruct s; simpl; split; intros; done. Qed.

(** ** Integers *)

(** Induction on a list three elements at a time: the shape of a byte
    sequence under base64. *)
Lemma list_ind3 {A} (P : list A -> Prop) :
  P [] -> (forall x, P [x]) -> (forall x y, P [x; y]) ->
  (forall x y z l, P l -> P (x :: y :: z :: l)) ->
  forall l, P l.
Proof.
  intros H0 H1 H2 H3 l.
  enough (P l /\ (forall x, P (x :: l)) /\ (forall x y, P (x :: y :: l))) by tauto.
  induction l as [|a l (IH0 & IH1 & IH2)]; [by auto|].
  split; [apply IH1|]. split; [intros x; apply IH2|]. intros x y. by apply H3.
Qed.

(** The number of whole steps of size [p] that fit below [t]: the bound that
    the polling loop's termination argument uses. *)
Lemma Z_div_steps_bound (t p i : Z) :
  (0 < p)%Z -> (i * p < t)%Z -> (i <= t / p)%Z.
Proof.
  intros Hp Hlt. apply Z.div_le_lower_bound; [done | lia].
Qed.

(** ** Sums *)

(** Replacing one summand. *)
Lemma sum_list_insert (l : list nat) (i n m : nat) :
  l !! i = Some n -> (sum_list (<[i := m]> l) + n = sum_list l + m)%nat.
Proof.
  revert i. induction l as [|x l IH]; intros [|i] E; simplify_eq/=; [lia|].
  specialize (IH i E). lia.
Qed.

(** ** Checking a property below a bound *)

(** A decidable property of the numbers below [n] holds when it evaluates
    to [true] on each of them. *)
Lemma below_forallb (n : nat) (p : N -> bool) :
  forallb p (N.of_nat <$> seq 0 n) = true -> forall a, (a < N.of_nat n)%N -> p a = true.
Proof.
  intros H a Ha. rewrite forallb_forall in H. apply H.
  apply list_elem_of_In, list_elem_of_fmap. exists (N.to_nat a).
  split; [lia|]. apply elem_of_seq. lia.
Qed.

Lemma below_forallb2 (n : nat) (p : N -> N -> bool) :
  forallb (fun a => forallb (p a) (N.of_nat <$> seq 0 n)) (N.of_nat <$> seq 0 n) = true ->
  forall a b, (a < N.of_nat n)%N -> (b < N.of_nat n)%N -> p a b = true.
Proof.
  intros H a b Ha Hb. apply (below_forallb n (p a)); [|done].
  by apply (below_forallb n (fun a => forallb (p a) (N.of_nat <$> seq 0 n))).
Qed.
