(* ===== verification/PyStr.v ===== *)
(** * PyStr: the Python [str] operations the router relies on

    [video_generations] tests strings for truthiness, asks whether a reference starts with ["data:"] or
    ["http"], cuts a data URI with [split(",", 1)] and [split(";")[0]], and
    strips its scheme with [lstrip("data:")].  This file gives these
    operations as executable functions on [string] and proves what each one
    computes.  Separators are single characters, as in every call of the
    router. *)

From S2P Require Import Prelude.
From Stdlib Require Import Ascii.

(** ** Truthiness *)

(** [bool(s)] for a [str]: true unless the string is empty. *)
Definition str_truthy (s : string) : bool :=
  match s with
  | EmptyString => false
  | String _ _ => true
  end.

(** ** [str.startswith] *)

Fixpoint str_startswith (s prefix : string) {struct prefix} : bool :=
  match prefix, s with
  | EmptyString, _ => true
  | String _ _, EmptyString => false
  | String a p', String b s' => bool_decide (a = b) && str_startswith s' p'
  end.

(** ** [str.split] with a one-character separator *)

(** [maxsplit]: [None] is Python's default (-1, no limit), [Some n] allows at
    most [n] cuts. *)
Definition may_split (maxsplit : option nat) : bool :=
  match maxsplit with
  | Some O => false
  | _ => true
  end.

Definition after_split (maxsplit : option nat) : option nat :=
  match maxsplit with
  | Some n => Some (pred n)
  | None => None
  end.

(** [s.split(sep, maxsplit)].  The result is never empty: a string without
    the separator gives the one-element list [[s]]. *)
Fixpoint str_split (sep : ascii) (maxsplit : option nat) (s : string) : list string :=
  match s with
  | EmptyString => [EmptyString]
  | String a s' =>
      if bool_decide (a = sep) && may_split maxsplit
      then EmptyString :: str_split sep (after_split maxsplit) s'
      else match str_split sep maxsplit s' with
           | h :: t => String a h :: t
           | [] => [String a EmptyString]
           end
  end.

(** [sep.join(parts)]. *)
Fixpoint str_join (sep : ascii) (parts : list string) : string :=
  match parts with
  | [] => EmptyString
  | [p] => p
  | p :: rest => p +:+ String sep (str_join sep rest)
  end.

(** ** [str.lstrip(chars)] *)

(** Membership of a character in the set that [chars] spells. *)
Fixpoint char_in (a : ascii) (chars : string) : bool :=
  match chars with
  | EmptyString => false
  | String c cs => bool_decide (a = c) || char_in a cs
  end.

(** [s.lstrip(chars)]: drops leading characters for as long as they belong
    to the set [chars]; [chars] is a set of characters, not a prefix. *)
Fixpoint str_lstrip (s chars : string) : string :=
  match s with
  | EmptyString => EmptyString
  | String a s' => if char_in a chars then str_lstrip s' chars else s
  end.

(** [s.removeprefix(p)]: the operation that removes a literal prefix, for
    comparison with [str_lstrip]. *)
Fixpoint str_removeprefix_go (s prefix : string) {struct prefix} : option string :=
  match prefix, s with
  | EmptyString, _ => Some s
  | String _ _, EmptyString => None
  | String a p', String b s' =>
      if bool_decide (a = b) then str_removeprefix_go s' p' else None
  end.

Definition str_removeprefix (s prefix : string) : string :=
  default s (str_removeprefix_go s prefix).

(** Every character of [s] belongs to the set [chars]. *)
Fixpoint all_in (s chars : string) : bool :=
  match s with
  | EmptyString => true
  | String a s' => char_in a chars && all_in s' chars
  end.

(** [s] is empty or starts with a character outside [chars]. *)
Definition head_outside (s chars : string) : bool :=
  match s with
  | EmptyString => true
  | String a _ => negb (char_in a chars)
  end.

(** * Properties *)

Section Truthiness.
Implicit Types (s : string).

Lemma str_truthy_false s : str_truthy s = false <-> s = "".
Proof. destruct s; simpl; split; intros; done. Qed.

Lemma str_truthy_true s : str_truthy s = true <-> s <> "".
Proof. destruct s; simpl; split; intros; done. Qed.

End Truthiness.

Section Startswith.
Implicit Types (s p t : string).

Lemma str_startswith_app p t : str_startswith (p +:+ t) p = true.
Proof.
  induction p as [|a p IH]; simpl; [done|].
  rewrite bool_decide_eq_true_2 by done. exact IH.
Qed.

(** [s.startswith(p)] holds exactly when [s] is [p] followed by something. *)
Lemma str_startswith_spec s p :
  str_startswith s p = true <-> exists t, s = p +:+ t.
Proof.
  split.
  - revert s. induction p as [|a p IH]; intros s H; simpl in *.
    + by exists s.
    + destruct s as [|b s]; [done|].
      apply andb_true_iff in H as [Hab Hs].
      apply bool_decide_eq_true in Hab as ->.
      destruct (IH _ Hs) as [t ->]. by exists t.
  - intros [t ->]. apply str_startswith_app.
Qed.

Lemma str_startswith_empty s : str_startswith s "" = true.
Proof. by destruct s. Qed.

Lemma str_startswith_truthy s p :
  p <> "" -> str_startswith s p = true -> str_truthy s = true.
Proof. destruct p, s; simpl; intros; done. Qed.

End Startswith.

Section Split.
Context (sep : ascii).
Implicit Types (s h : string) (m : option nat) (l : list string).

(** The two equations of [str_split] on a non-empty string. *)
Lemma str_split_cut m s :
  may_split m = true ->
  str_split sep m (String sep s) = "" :: str_split sep (after_split m) s.
Proof. intros Hm. cbn [str_split]. by rewrite bool_decide_eq_true_2, Hm. Qed.

Lemma str_split_keep m a s :
  a <> sep \/ may_split m = false ->
  str_split sep m (String a s) =
  match str_split sep m s with
  | h :: t => String a h :: t
  | [] => [String a ""]
  end.
Proof.
  intros H. cbn [str_split].
  destruct H as [H | ->]; [by rewrite bool_decide_eq_false_2 | by rewrite andb_false_r].
Qed.

(** Case analysis on the first character. *)
Lemma str_split_cases m a s :
  (a = sep /\ may_split m = true) \/ (a <> sep \/ may_split m = false).
Proof. destruct (decide (a = sep)), (may_split m); auto. Qed.

Lemma str_split_nonempty m s : str_split sep m s <> [].
Proof.
  revert m. induction s as [|a s IH]; intros m; [done|].
  destruct (str_split_cases m a s) as [[-> Hm] | H].
  - by rewrite str_split_cut.
  - rewrite str_split_keep by done. specialize (IH m).
    by destruct (str_split sep m s).
Qed.

(** With [maxsplit = n] the result has at least one and at most [n + 1]
    elements. *)
Lemma str_split_length_le n s :
  (1 <= length (str_split sep (Some n) s) <= S n)%nat.
Proof.
  revert n. induction s as [|a s IH]; intros n; [simpl; lia|].
  destruct (str_split_cases (Some n) a s) as [[-> Hm] | H].
  - rewrite str_split_cut by done. destruct n as [|n]; [done|].
    specialize (IH n). simpl in *. lia.
  - rewrite str_split_keep by done. specialize (IH n).
    destruct (str_split sep (Some n) s); simpl in *; lia.
Qed.

(** C: [split] cuts nothing away: joining the parts of [s.split(sep)] or
    [s.split(sep, n)] with [sep] gives [s] back. *)
Lemma str_join_split m s : str_join sep (str_split sep m s) = s.
Proof.
  revert m. induction s as [|a s IH]; intros m; [done|].
  destruct (str_split_cases m a s) as [[-> Hm] | H].
  - rewrite str_split_cut by done.
    pose proof (str_split_nonempty (after_split m) s) as Hne.
    specialize (IH (after_split m)).
    destruct (str_split sep (after_split m) s) as [|h t]; [done|].
    cbn [str_join] in *. by rewrite IH.
  - rewrite str_split_keep by done.
    pose proof (str_split_nonempty m s) as Hne. specialize (IH m).
    destruct (str_split sep m s) as [|h [|h' t]]; [done| |]; cbn [str_join] in *;
      simpl; by rewrite IH.
Qed.

(** A string without the separator is returned whole. *)
Lemma str_split_absent m s :
  char_in sep s = false -> str_split sep m s = [s].
Proof.
  revert m. induction s as [|a s IH]; intros m H; simpl in H; [done|].
  apply orb_false_iff in H as [Hne%bool_decide_eq_false Hs].
  rewrite str_split_keep by (left; congruence). by rewrite IH.
Qed.

(** The first element holds no separator when a cut is allowed. *)
Lemma str_split_head_clean m s h l :
  may_split m = true -> str_split sep m s = h :: l -> char_in sep h = false.
Proof.
  revert h l. induction s as [|a s IH]; intros h l Hm H.
  - by inv H.
  - destruct (str_split_cases m a s) as [[-> _] | [Ha | Hm']]; [| |congruence].
    + rewrite str_split_cut in H by done. by inv H.
    + rewrite str_split_keep in H by auto.
      assert (char_in sep (String a "") = false) as Ha'.
      { simpl. by rewrite bool_decide_eq_false_2 by congruence. }
      destruct (str_split sep m s) as [|h' t] eqn:E; inv H; [done|].
      simpl. rewrite bool_decide_eq_false_2 by congruence. simpl. eauto.
Qed.

(** [s.split(sep, 1)] when the separator occurs: exactly two parts, the text
    before the first separator and everything after it. *)
Lemma str_split_once h s :
  char_in sep h = false ->
  str_split sep (Some 1%nat) (h +:+ String sep s) = [h; s].
Proof.
  intros Hh. induction h as [|a h IH]; simpl in Hh.
  - simpl String.append. rewrite str_split_cut by done. simpl after_split.
    f_equal. clear. induction s as [|b s IH]; [done|].
    rewrite str_split_keep by auto. by rewrite IH.
  - apply orb_false_iff in Hh as [Hne%bool_decide_eq_false Hh].
    simpl String.append. rewrite str_split_keep by (left; congruence).
    by rewrite IH.
Qed.

(** [s.split(sep)[0]] when the separator occurs: the text before it. *)
Lemma str_split_head h s :
  char_in sep h = false ->
  head (str_split sep None (h +:+ String sep s)) = Some h.
Proof.
  intros Hh. induction h as [|a h IH]; simpl in Hh.
  - simpl String.append. by rewrite str_split_cut.
  - apply orb_false_iff in Hh as [Hne%bool_decide_eq_false Hh].
    simpl String.append. rewrite str_split_keep by (left; congruence).
    specialize (IH Hh).
    destruct (str_split sep None (h +:+ String sep s)); simpl in *; by simplify_eq.
Qed.

End Split.

Section Lstrip.
Context (chars : string).
Implicit Types (s p m : string) (a : ascii).

Lemma char_in_app a s p : char_in a (s +:+ p) = char_in a s || char_in a p.
Proof.
  induction s as [|c s IH]; simpl; [done|]. by rewrite IH, orb_assoc.
Qed.

(** What is stripped is a run of characters of the set, and what is left
    does not start with one. *)
Lemma str_lstrip_spec s :
  exists p, s = p +:+ str_lstrip s chars
            /\ all_in p chars = true
            /\ head_outside (str_lstrip s chars) chars = true.
Proof.
  induction s as [|a s (p & Hs & Hp & Hh)]; simpl.
  - by exists "".
  - destruct (char_in a chars) eqn:E.
    + exists (String a p). simpl. rewrite E, Hp. by rewrite <- Hs.
    + exists "". simpl. by rewrite E.
Qed.

Lemma str_lstrip_fixed s : head_outside s chars = true -> str_lstrip s chars = s.
Proof. destruct s as [|a s]; simpl; [done|]. by intros ->%negb_true_iff. Qed.

Lemma str_lstrip_app p m :
  all_in p chars = true -> str_lstrip (p +:+ m) chars = str_lstrip m chars.
Proof.
  induction p as [|a p IH]; simpl; [done|].
  intros [-> Hp]%andb_true_iff. auto.
Qed.

(** Stripping a prefix made of set characters gives back the rest exactly
    when the rest does not itself start with a set character. *)
Lemma str_lstrip_prefix_exact p m :
  all_in p chars = true ->
  (str_lstrip (p +:+ m) chars = m <-> head_outside m chars = true).
Proof.
  intros Hp. rewrite str_lstrip_app by done. split.
  - intros H. destruct (str_lstrip_spec m) as (q & _ & _ & Hh). by rewrite H in Hh.
  - apply str_lstrip_fixed.
Qed.

Lemma str_lstrip_length s : (String.length (str_lstrip s chars) <= String.length s)%nat.
Proof. induction s as [|a s IH]; simpl; [done|]. split_branch; simpl; lia. Qed.

(** When the rest starts with a set character, [lstrip] eats into it. *)
Lemma str_lstrip_eats p a m :
  all_in p chars = true -> char_in a chars = true ->
  (String.length (str_lstrip (p +:+ String a m) chars) < String.length (String a m))%nat.
Proof.
  intros Hp Ha. rewrite str_lstrip_app by done. simpl. rewrite Ha.
  pose proof (str_lstrip_length m). lia.
Qed.

End Lstrip.

Section Removeprefix.
Implicit Types (s p m : string).

Lemma str_removeprefix_go_app p m : str_removeprefix_go (p +:+ m) p = Some m.
Proof.
  induction p as [|a p IH]; simpl; [by destruct m|].
  by rewrite bool_decide_eq_true_2.
Qed.

Lemma str_removeprefix_app p m : str_removeprefix (p +:+ m) p = m.
Proof. unfold str_removeprefix. by rewrite str_removeprefix_go_app. Qed.

Lemma all_in_weaken s c p : all_in s p = true -> all_in s (String c p) = true.
Proof.
  induction s as [|b s IH]; simpl; [done|].
  intros [-> Hs]%andb_true_iff. rewrite orb_true_r. simpl. auto.
Qed.

Lemma all_in_self p : all_in p p = true.
Proof.
  induction p as [|a p IH]; simpl; [done|].
  rewrite bool_decide_eq_true_2 by done. simpl. by apply all_in_weaken.
Qed.

(** C: [lstrip(p)] is not [removeprefix(p)]: on [p + m] the two agree
    exactly when [m] does not start with a character that occurs in [p]. *)
Lemma str_lstrip_removeprefix p m :
  str_lstrip (p +:+ m) p = str_removeprefix (p +:+ m) p
  <-> head_outside m p = true.
Proof.
  rewrite str_removeprefix_app. apply str_lstrip_prefix_exact, all_in_self.
Qed.

End Removeprefix.
