(* ===== verification/Json.v ===== *)
(** * Json: the dynamic values the router handles

    [r.json()], [request.app.state.config] attributes, HTTP exception details
    and the bodies sent upstream are Python values built from [None], [bool],
    [int], [str], [list] and [dict].  [JSON] is that universe; this file gives
    the operations the handlers apply to such values: truthiness ([if not x],
    [x or y]), [==] against a string literal, [dict.get], [type(x).__name__]
    and [str(x)] as f-strings compute it.  Floats are left out: no handler
    computes with numbers, and the provider's job objects carry integers. *)

From S2P Require Import Prelude PyStr.

#[local] Set Warnings "-register-all".

Inductive JSON : Type :=
| JNull
| JBool (b : bool)
| JInt (z : Z)
| JStr (s : string)
| JList (l : list JSON)
| JDict (d : gmap string JSON).

#[export] Instance JSON_inhabited : Inhabited JSON := populate JNull.

(** An [Optional[str]] as a value. *)
Definition of_opt_str (o : option string) : JSON :=
  match o with
  | Some s => JStr s
  | None => JNull
  end.

(** [bool(v)]: [None], [False], [0], [""], [[]] and [{}] are false. *)
Definition json_truthy (v : JSON) : bool :=
  match v with
  | JNull => false
  | JBool b => b
  | JInt z => negb (z =? 0)%Z
  | JStr s => str_truthy s
  | JList l => match l with [] => false | _ :: _ => true end
  | JDict d => negb (size d =? 0)%nat
  end.

(** [a or b]. *)
Definition json_or (a b : JSON) : JSON :=
  if json_truthy a then a else b.

(** [v == s] for a string literal [s]: only an equal [str] compares equal. *)
Definition json_eq_str (v : JSON) (s : string) : bool :=
  match v with
  | JStr s' => bool_decide (s' = s)
  | _ => false
  end.

(** [type(v).__name__]. *)
Definition type_name (v : JSON) : string :=
  match v with
  | JNull => "NoneType"
  | JBool _ => "bool"
  | JInt _ => "int"
  | JStr _ => "str"
  | JList _ => "list"
  | JDict _ => "dict"
  end.

(** [v.get(key, default)]: defined on a [dict] only; [None] stands for the
    [AttributeError] that any other value raises. *)
Definition dict_get (v : JSON) (key : string) (dflt : JSON) : option JSON :=
  match v with
  | JDict d => Some (default dflt (d !! key))
  | _ => None
  end.

(** [getattr(obj, name, default)] on an attribute store. *)
Definition getattr (obj : gmap string JSON) (name : string) (dflt : JSON) : JSON :=
  default dflt (obj !! name).

(** [setattr(obj, name, v)]. *)
Definition setattr (obj : gmap string JSON) (name : string) (v : JSON) : gmap string JSON :=
  <[name := v]> obj.

(** [repr] of a container ([list], [dict]) is Python's own business: quoting
    and escaping of the strings inside follow rules the router never looks
    at.  The development takes it as an operation of the runtime. *)
Class PyRepr := repr_container : JSON -> string.

(** [str(v)], which is what an f-string puts for [{v}]. *)
Definition py_str `{PyRepr} (v : JSON) : string :=
  match v with
  | JNull => "None"
  | JBool true => "True"
  | JBool false => "False"
  | JInt z => pretty z
  | JStr s => s
  | JList _ | JDict _ => repr_container v
  end.

(** * Properties *)

Section JsonFacts.
Context `{PyRepr}.
Implicit Types (v a b : JSON) (s : string) (d : gmap string JSON).

Lemma json_truthy_of_opt_str o :
  json_truthy (of_opt_str o) = match o with Some s => str_truthy s | None => false end.
Proof. by destruct o. Qed.

Lemma json_truthy_str_iff s : json_truthy (JStr s) = true <-> s <> "".
Proof. apply str_truthy_true. Qed.

Lemma json_or_truthy a b : json_truthy a = true -> json_or a b = a.
Proof. unfold json_or. by intros ->. Qed.

Lemma json_or_falsy a b : json_truthy a = false -> json_or a b = b.
Proof. unfold json_or. by intros ->. Qed.

(** [x or d] never yields a falsy [x]: it is [x] when truthy, else [d]. *)
Lemma json_or_cases a b :
  (json_truthy a = true /\ json_or a b = a) \/ (json_truthy a = false /\ json_or a b = b).
Proof. unfold json_or. destruct (json_truthy a); auto. Qed.

Lemma json_eq_str_spec v s : json_eq_str v s = true <-> v = JStr s.
Proof.
  destruct v; simpl; try (split; [done | intros; simplify_eq]).
  rewrite bool_decide_eq_true. split; [by intros -> | by intros [= ->]].
Qed.

Lemma json_eq_str_refl s : json_eq_str (JStr s) s = true.
Proof. by apply json_eq_str_spec. Qed.

Lemma json_eq_str_ne s s' : s <> s' -> json_eq_str (JStr s) s' = false.
Proof. intros. simpl. by apply bool_decide_eq_false_2. Qed.

Lemma py_str_str s : py_str (JStr s) = s.
Proof. done. Qed.

Lemma dict_get_dict d k dflt : dict_get (JDict d) k dflt = Some (default dflt (d !! k)).
Proof. done. Qed.

Lemma dict_get_is_dict v k dflt : is_Some (dict_get v k dflt) <-> exists d, v = JDict d.
Proof.
  destruct v; simpl; split; try (intros [? ?]; done); eauto.
Qed.

Lemma getattr_setattr_eq obj name v dflt : getattr (setattr obj name v) name dflt = v.
Proof. unfold getattr, setattr. by rewrite lookup_insert_eq. Qed.

Lemma getattr_setattr_ne obj name name' v dflt :
  name <> name' -> getattr (setattr obj name v) name' dflt = getattr obj name' dflt.
Proof. intros. unfold getattr, setattr. by rewrite lookup_insert_ne. Qed.

Lemma getattr_missing obj name dflt : obj !! name = None -> getattr obj name dflt = dflt.
Proof. unfold getattr. by intros ->. Qed.

End JsonFacts.

#[export] Hint Rewrite @py_str_str @getattr_setattr_eq json_eq_str_refl : videos.
#[export] Hint Rewrite @getattr_setattr_ne using congruence : videos.
