(* ===== verification/Effects.v ===== *)
(** * Effects: the world the handlers run in

    A handler of the router reads and writes [request.app.state.config],
    performs blocking HTTP calls through [requests] (wrapped in
    [asyncio.to_thread]), reads the clock ([time.time]), sleeps
    ([asyncio.sleep]) and raises exceptions.  This file models that as a
    state-and-exception monad [M] over a [World]:

    - [app_config]: the attribute store behind [request.app.state.config];
    - [now]: the clock, in ticks of 1/[TICKS_PER_SECOND] second;
    - [sent]: the outbound HTTP requests issued so far, oldest first;
    - [logged]: the records that the logger of the module ([log]) has handed
      to its handlers, oldest first.

    The provider is an [Upstream]: for the [n]-th outbound request it says how
    long the exchange takes and what comes back (a response, or a transport
    failure).  Theorems quantify over every [Upstream]; witnesses pick one.

    The parts of the platform the router imports but that are not in this
    repository ([include_user_info_headers], [repr], [SRC_LOG_LEVELS],
    [CACHE_DIR], the chunking of [requests]' [iter_content]) are the fields
    of the class [Platform], with the laws the handlers rely on.

    A computation ends in [Ok], in [Raise] (a Python exception), or in
    [OutOfFuel], which only the polling loop of [Sync] can produce. *)

From S2P Require Import Prelude PyStr Json.
From Stdlib Require Import Ascii.

(** ** HTTP messages *)

Abbreviation bytes := (list ascii).

Inductive Method := POST | GET | DELETE.

(** One part of [files=]: [(filename, fileobj, content_type)]. *)
Record FilePart := {
  file_name : string;
  file_content : bytes;
  file_mime : string }.

(** How [requests] is asked to encode the body: nothing, [json=data], or
    [data=data, files=files] (a multipart form). *)
Inductive Payload :=
| NoBody
| JsonBody (data : gmap string JSON)
| MultipartBody (data : gmap string JSON) (files : gmap string FilePart).

Record HttpRequest := {
  req_method : Method;
  req_url : string;
  req_headers : gmap string string;
  req_params : gmap string JSON;
  req_body : Payload;
  req_stream : bool }.

(** A [requests.Response].  [resp_headers] has lower-case keys, which is how
    the case-insensitive header dict of [requests] is looked up here;
    [resp_json] is what [r.json()] gives (an error message when the body is
    not JSON); [resp_broken] is the error that ends the body after
    [resp_content] when the transfer fails midway. *)
Record Response := {
  status_code : Z;
  reason : string;
  resp_url : string;
  resp_headers : gmap string string;
  resp_json : string + JSON;
  resp_content : bytes;
  resp_broken : option string }.

Inductive Outcome :=
| ConnectionFailed (msg : string)
| Replied (r : Response).

Record Exchange := {
  latency : N;
  outcome : Outcome }.

(** The provider: the exchange that answers the [n]-th outbound request. *)
Class Upstream := upstream_reply : nat -> HttpRequest -> Exchange.

(** ** The platform around the router *)

(** The authenticated user that [Depends(get_verified_user)] supplies. *)
Record User := {
  user_id : string;
  user_name : string;
  user_email : string;
  user_role : string }.

Class Platform := {
  platform_repr :: PyRepr;
  (** [open_webui.env.ENABLE_FORWARD_USER_INFO_HEADERS] *)
  ENABLE_FORWARD_USER_INFO_HEADERS : bool;
  (** [open_webui.utils.headers.include_user_info_headers] *)
  include_user_info_headers : gmap string string -> User -> gmap string string;
  (** it adds identity headers and keeps the ones the router has set *)
  include_user_info_headers_keeps h u k :
    k = "Authorization" \/ k = "Content-Type" ->
    include_user_info_headers h u !! k = h !! k;
  (** [open_webui.env.SRC_LOG_LEVELS], each level by its number *)
  SRC_LOG_LEVELS : gmap string Z;
  (** the level that a logger whose own level is NOTSET takes from its
      parents *)
  inherited_level : Z;
  (** [open_webui.config.CACHE_DIR], by its components from the last to the
      first *)
  CACHE_DIR : list string;
  (** [r.iter_content(chunk_size)] of [requests] on a streamed response: the
      pieces in which the body is delivered.  Where a piece ends is decided
      by the transport, not by the router *)
  iter_content : nat -> Response -> list bytes;
  (** what the pieces add up to is the body ([r.content] is their join) *)
  iter_content_body chunk_size r :
    (0 < chunk_size)%nat -> concat (iter_content chunk_size r) = resp_content r }.

(** ** Exceptions *)

Inductive ExnClass :=
| ConnectionError
| JSONDecodeError
| ValueError
| BinasciiError
| AttributeError
| KeyError.

Inductive Exn :=
| HTTPException (code : Z) (detail : JSON)
| HTTPError (msg : string) (response : Response)
| PyError (cls : ExnClass) (msg : string).

(** [str(e)]. *)
Definition exn_str `{PyRepr} (e : Exn) : string :=
  match e with
  | HTTPException code detail => pretty code +:+ ": " +:+ py_str detail
  | HTTPError msg _ => msg
  | PyError _ msg => msg
  end.

(** ** The log *)

(** [logging.INFO] and [logging.ERROR]. *)
Definition logging_INFO : Z := 20.
Definition logging_ERROR : Z := 40.

(** A record of the log: its level, its message and, for [log.exception],
    the exception that is being handled, whose traceback goes with the
    record. *)
Record LogRecord := {
  rec_level : Z;
  rec_message : string;
  rec_exc_info : option Exn }.

(** [log.setLevel(SRC_LOG_LEVELS.get("VIDEOS", logging.INFO))] *)
Definition log_level `{Platform} : Z :=
  default logging_INFO (SRC_LOG_LEVELS !! "VIDEOS").

(** [log.isEnabledFor(level)]: the level of the logger decides, or that of
    its parents when its own is NOTSET (0). *)
Definition isEnabledFor `{Platform} (level : Z) : bool :=
  ((if (log_level =? 0)%Z then inherited_level else log_level) <=? level)%Z.

(** What a call to the logger at [level] adds to the log. *)
Definition emitted `{Platform} (level : Z) (message : string) (exc : option Exn)
  : list LogRecord :=
  if isEnabledFor level
  then [{| rec_level := level; rec_message := message; rec_exc_info := exc |}]
  else [].

(** ** The monad *)

Record World := {
  app_config : gmap string JSON;
  now : Z;
  sent : list HttpRequest;
  logged : list LogRecord }.

Inductive Res (A : Type) :=
| Ok (a : A)
| Raise (e : Exn)
| OutOfFuel.

Arguments Ok {A} a.
Arguments Raise {A} e.
Arguments OutOfFuel {A}.

Definition M (A : Type) : Type := World -> Res A * World.

Definition ret {A} (a : A) : M A := fun w => (Ok a, w).

Definition bind {A B} (m : M A) (k : A -> M B) : M B :=
  fun w =>
    match m w with
    | (Ok a, w') => k a w'
    | (Raise e, w') => (Raise e, w')
    | (OutOfFuel, w') => (OutOfFuel, w')
    end.

#[export] Instance M_ret : MRet M := @ret.
#[export] Instance M_bind : MBind M := fun A B k m => bind m k.

Definition raise {A} (e : Exn) : M A := fun w => (Raise e, w).

Definition out_of_fuel {A} : M A := fun w => (OutOfFuel, w).

(** A result that is an exception or a value, as the outcome of a
    computation. *)
Definition res_of {A} (r : Exn + A) : Res A :=
  match r with
  | inl e => Raise e
  | inr a => Ok a
  end.

(** [try: body / except ...: handler].  [handler e] is [None] when no
    [except] clause matches [e], which then propagates. *)
Definition try_except {A} (body : M A) (handler : Exn -> option (M A)) : M A :=
  fun w =>
    match body w with
    | (Raise e, w') =>
        match handler e with
        | Some h => h w'
        | None => (Raise e, w')
        end
    | r => r
    end.

Notation "'try_' body 'except_' e '=>' h" := (try_except body (fun e => h))
  (at level 10, body at level 9, e name, h at level 200, only parsing) : videos_scope.

(** ** Primitive operations *)

(** [request.app.state.config] *)
Definition read_config : M (gmap string JSON) := fun w => (Ok (app_config w), w).

Definition write_config (c : gmap string JSON) : M unit :=
  fun w => (Ok tt, {| app_config := c; now := now w; sent := sent w;
                      logged := logged w |}).

Definition TICKS_PER_SECOND : Z := 1000.

(** [time.time()], in ticks. *)
Definition time_time : M Z := fun w => (Ok (now w), w).

(** [await asyncio.sleep(delay)]: a delay of zero or less returns at once. *)
Definition asyncio_sleep (delay : Z) : M unit :=
  fun w => (Ok tt, {| app_config := app_config w;
                      now := now w + Z.max 0 delay * TICKS_PER_SECOND;
                      sent := sent w;
                      logged := logged w |}).

(** The world once the request [req] has been answered: the exchange took
    its latency and [req] is on record. *)
Definition after_request `{Upstream} (w : World) (req : HttpRequest) : World :=
  {| app_config := app_config w;
     now := now w + Z.of_N (latency (upstream_reply (length (sent w)) req));
     sent := sent w ++ [req];
     logged := logged w |}.

(** [await asyncio.to_thread(requests.<method>, ...)]: the request goes out,
    the exchange takes its latency, and a response or a transport error
    comes back. *)
Definition requests_request `{Upstream} (req : HttpRequest) : M Response :=
  fun w =>
    match outcome (upstream_reply (length (sent w)) req) with
    | Replied r => (Ok r, after_request w req)
    | ConnectionFailed msg => (Raise (PyError ConnectionError msg), after_request w req)
    end.

(** The message of the [HTTPError] that [raise_for_status] builds, if the
    status is an error status. *)
Definition http_error_msg (r : Response) : option string :=
  if (400 <=? status_code r)%Z && (status_code r <? 500)%Z then
    Some (pretty (status_code r) +:+ " Client Error: " +:+ reason r
          +:+ " for url: " +:+ resp_url r)
  else if (500 <=? status_code r)%Z && (status_code r <? 600)%Z then
    Some (pretty (status_code r) +:+ " Server Error: " +:+ reason r
          +:+ " for url: " +:+ resp_url r)
  else None.

(** [r.raise_for_status()] *)
Definition raise_for_status (r : Response) : M unit :=
  match http_error_msg r with
  | Some msg => raise (HTTPError msg r)
  | None => mret tt
  end.

(** [r.json()] *)
Definition response_json (r : Response) : M JSON :=
  match resp_json r with
  | inr v => mret v
  | inl msg => raise (PyError JSONDecodeError msg)
  end.

(** [v.get(key, default)] on a value that may not be a dict. *)
Definition py_get (v : JSON) (key : string) (dflt : JSON) : M JSON :=
  match dict_get v key dflt with
  | Some x => mret x
  | None =>
      raise (PyError AttributeError
               ("'" +:+ type_name v +:+ "' object has no attribute 'get'"))
  end.

(** The world with the records [l] added to the log. *)
Definition log_to (l : list LogRecord) (w : World) : World :=
  {| app_config := app_config w; now := now w; sent := sent w;
     logged := logged w ++ l |}.

(** [log.info(message)] *)
Definition log_info `{Platform} (message : string) : M unit :=
  fun w => (Ok tt, log_to (emitted logging_INFO message None) w).

(** [log.exception(message)] in the [except] clause that handles [e]: a
    record at level ERROR with the exception attached. *)
Definition log_exception `{Platform} (message : string) (e : Exn) : M unit :=
  fun w => (Ok tt, log_to (emitted logging_ERROR message (Some e)) w).

(** ** What a computation may change *)

(** [w'] is a later state of [w] under the same configuration: the clock has
    not gone back, the requests sent so far are still there and so are the
    records of the log. *)
Definition later_world (w w' : World) : Prop :=
  app_config w' = app_config w /\ (now w <= now w')%Z /\
  sent w `prefix_of` sent w' /\ logged w `prefix_of` logged w'.

(** A computation that only moves the world forward. *)
Definition forward {A} (m : M A) : Prop := forall w, later_world w (m w).2.

(** A computation that sends nothing. *)
Definition offline {A} (m : M A) : Prop := forall w, sent (m w).2 = sent w.

(** A computation that leaves the world as it is. *)
Definition inert {A} (m : M A) : Prop := forall w, (m w).2 = w.

(** A computation that writes to the log and leaves the rest of the world as
    it is. *)
Definition quiet {A} (m : M A) : Prop := forall w, exists l, (m w).2 = log_to l w.

(** A computation whose result and whose records do not depend on the
    world, and that does nothing else to it. *)
Definition constant {A} (m : M A) : Prop :=
  exists r l, forall w, m w = (r, log_to l w).

(** What an [except] clause of the router does: it logs, or not, and raises
    an exception of its own, whatever the world. *)
Definition raising {A} (m : M A) : Prop :=
  exists x l, forall w, m w = (Raise x, log_to l w).

(** A computation that never runs out of fuel. *)
Definition total {A} (m : M A) : Prop := forall w, (m w).1 <> OutOfFuel.

(** Pointwise equality of computations. *)
Definition meq {A} (m1 m2 : M A) : Prop := forall w, m1 w = m2 w.

Infix "=m=" := meq (at level 70) : videos_scope.

(** * Properties *)

#[local] Open Scope videos_scope.

Section Monad.
Implicit Types (w : World).

Lemma run_bind {A B} (m : M A) (k : A -> M B) w :
  (m ≫= k) w = match m w with
               | (Ok a, w') => k a w'
               | (Raise e, w') => (Raise e, w')
               | (OutOfFuel, w') => (OutOfFuel, w')
               end.
Proof. done. Qed.

Lemma run_ret {A} (a : A) w : (mret a : M A) w = (Ok a, w).
Proof. done. Qed.

Lemma bind_ok {A B} (m : M A) (k : A -> M B) w a w' :
  m w = (Ok a, w') -> (m ≫= k) w = k a w'.
Proof. rewrite run_bind. by intros ->. Qed.

Lemma bind_raise {A B} (m : M A) (k : A -> M B) w e w' :
  m w = (Raise e, w') -> (m ≫= k) w = (Raise e, w').
Proof. rewrite run_bind. by intros ->. Qed.

Lemma bind_out_of_fuel {A B} (m : M A) (k : A -> M B) w w' :
  m w = (OutOfFuel, w') -> (m ≫= k) w = (OutOfFuel, w').
Proof. rewrite run_bind. by intros ->. Qed.

Lemma bind_ret_l {A B} (a : A) (k : A -> M B) : (mret a ≫= k) =m= k a.
Proof. done. Qed.

Lemma bind_ret_r {A} (m : M A) : (m ≫= mret) =m= m.
Proof. intros w. rewrite run_bind. by destruct (m w) as [[] ?]. Qed.

Lemma bind_assoc {A B C} (m : M A) (k : A -> M B) (h : B -> M C) :
  ((m ≫= k) ≫= h) =m= (m ≫= fun a => k a ≫= h).
Proof. intros w. rewrite !run_bind. by destruct (m w) as [[] ?]. Qed.

Lemma bind_raise_l {A B} (e : Exn) (k : A -> M B) : (raise e ≫= k) =m= raise e.
Proof. done. Qed.

End Monad.

#[export] Instance meq_equiv {A} : Equivalence (@meq A).
Proof.
  split; [by intros m w | by intros m1 m2 E w | ].
  intros m1 m2 m3 E1 E2 w. by rewrite E1.
Qed.

#[export] Instance bind_proper {A B} :
  Proper (pointwise_relation A meq ==> meq ==> meq) (@mbind M _ A B).
Proof.
  intros k1 k2 Ek m1 m2 Em w. unfold mbind, M_bind, bind. rewrite (Em w).
  destruct (m2 w) as [[] ?]; [apply Ek | done..].
Qed.

#[export] Instance try_except_proper {A} :
  Proper (meq ==> eq ==> meq) (@try_except A).
Proof. intros m1 m2 Em h ? <- w. unfold try_except. by rewrite (Em w). Qed.

Section TryExcept.
Context {A : Type}.
Implicit Types (m : M A) (handler : Exn -> option (M A)) (w : World).

Lemma try_ok m handler w a w' :
  m w = (Ok a, w') -> try_except m handler w = (Ok a, w').
Proof. unfold try_except. by intros ->. Qed.

Lemma try_caught m handler w e w' h :
  m w = (Raise e, w') -> handler e = Some h -> try_except m handler w = h w'.
Proof. unfold try_except. by intros -> ->. Qed.

Lemma try_uncaught m handler w e w' :
  m w = (Raise e, w') -> handler e = None -> try_except m handler w = (Raise e, w').
Proof. unfold try_except. by intros -> ->. Qed.

Lemma try_out_of_fuel m handler w w' :
  m w = (OutOfFuel, w') -> try_except m handler w = (OutOfFuel, w').
Proof. unfold try_except. by intros ->. Qed.

End TryExcept.

(** ** [later_world] is a preorder, and the primitives respect it *)

#[export] Instance later_world_preorder : PreOrder later_world.
Proof.
  split.
  - intros w. by repeat split.
  - intros w1 w2 w3 (Hc1 & Hn1 & Hs1 & Hl1) (Hc2 & Hn2 & Hs2 & Hl2).
    repeat split; [congruence | lia | by etrans..].
Qed.

(** ** The log only grows *)

Section Log.
Implicit Types (w : World) (l : list LogRecord).

Lemma log_to_nil w : log_to [] w = w.
Proof. destruct w. unfold log_to. cbn. by rewrite app_nil_r. Qed.

Lemma log_to_app l1 l2 w : log_to l2 (log_to l1 w) = log_to (l1 ++ l2) w.
Proof. unfold log_to. cbn. by rewrite (assoc_L _). Qed.

Lemma later_log_to l w : later_world w (log_to l w).
Proof. split_and!; cbn; [done | lia | done | by apply prefix_app_r]. Qed.

Lemma logged_log_to l w : logged (log_to l w) = logged w ++ l.
Proof. done. Qed.

Lemma after_request_log_to `{Upstream} l w req :
  after_request (log_to l w) req = log_to l (after_request w req).
Proof. done. Qed.

(** What a call to the logger adds is one record at the level of the call,
    or nothing. *)
Lemma emitted_enabled `{Platform} level message exc :
  isEnabledFor level = true ->
  emitted level message exc =
    [{| rec_level := level; rec_message := message; rec_exc_info := exc |}].
Proof. unfold emitted. by intros ->. Qed.

Lemma emitted_disabled `{Platform} level message exc :
  isEnabledFor level = false -> emitted level message exc = [].
Proof. unfold emitted. by intros ->. Qed.

Lemma emitted_level `{Platform} level message exc :
  Forall (fun r => rec_level r = level) (emitted level message exc).
Proof. unfold emitted. destruct (isEnabledFor level); by repeat constructor. Qed.

(** A logger at its default level, INFO, lets both kinds of record pass. *)
Lemma isEnabledFor_default `{Platform} level :
  SRC_LOG_LEVELS !! "VIDEOS" = None ->
  isEnabledFor level = (logging_INFO <=? level)%Z.
Proof. unfold isEnabledFor, log_level. by intros ->. Qed.

End Log.

#[export] Hint Rewrite log_to_nil log_to_app : videos.

Section Forward.
Context `{Upstream}.

Lemma forward_ret {A} (a : A) : forward (mret a : M A).
Proof. intros w. reflexivity. Qed.

Lemma forward_raise {A} e : forward (raise e : M A).
Proof. intros w. reflexivity. Qed.

Lemma forward_out_of_fuel {A} : forward (out_of_fuel : M A).
Proof. intros w. reflexivity. Qed.

Lemma forward_bind {A B} (m : M A) (k : A -> M B) :
  forward m -> (forall a, forward (k a)) -> forward (m ≫= k).
Proof.
  intros Hm Hk w. rewrite run_bind. specialize (Hm w).
  destruct (m w) as [[a| |] w']; simpl in *; [|done..].
  etrans; [exact Hm | apply Hk].
Qed.

Lemma forward_try {A} (m : M A) handler :
  forward m -> (forall e h, handler e = Some h -> forward h) ->
  forward (try_except m handler).
Proof.
  intros Hm Hh w. unfold try_except. specialize (Hm w).
  destruct (m w) as [[a|e|] w']; simpl in *; [done| |done].
  destruct (handler e) as [h|] eqn:E; [|done].
  etrans; [exact Hm | by eapply Hh].
Qed.

Lemma forward_read_config : forward read_config.
Proof. intros w. reflexivity. Qed.

Lemma forward_time_time : forward time_time.
Proof. intros w. reflexivity. Qed.

Lemma forward_asyncio_sleep d : forward (asyncio_sleep d).
Proof.
  intros w. repeat split; simpl; [|done..]. unfold TICKS_PER_SECOND. lia.
Qed.

Lemma forward_requests_request req : forward (requests_request req).
Proof.
  intros w. unfold requests_request.
  destruct (outcome _); repeat split; simpl; try lia; try done; by apply prefix_app_r.
Qed.

Lemma forward_log_info `{Platform} message : forward (log_info message).
Proof. intros w. apply later_log_to. Qed.

Lemma forward_log_exception `{Platform} message e : forward (log_exception message e).
Proof. intros w. apply later_log_to. Qed.

Lemma forward_raise_for_status r : forward (raise_for_status r).
Proof. unfold raise_for_status. destruct (http_error_msg r); intros w; reflexivity. Qed.

Lemma forward_response_json r : forward (response_json r).
Proof. unfold response_json. destruct (resp_json r); intros w; reflexivity. Qed.

Lemma forward_py_get v k d : forward (py_get v k d).
Proof. unfold py_get. destruct (dict_get v k d); intros w; reflexivity. Qed.

Lemma forward_if {A} (b : bool) (m1 m2 : M A) :
  forward m1 -> forward m2 -> forward (if b then m1 else m2).
Proof. by destruct b. Qed.

End Forward.

#[export] Hint Resolve @forward_ret @forward_raise @forward_out_of_fuel
  @forward_read_config @forward_time_time @forward_asyncio_sleep
  @forward_requests_request @forward_raise_for_status @forward_response_json
  @forward_py_get @forward_log_info @forward_log_exception : videos.

(** ** Computations that send nothing *)

Section Offline.

Lemma offline_ret {A} (a : A) : offline (mret a : M A).
Proof. done. Qed.

Lemma offline_raise {A} e : offline (raise e : M A).
Proof. done. Qed.

Lemma offline_bind {A B} (m : M A) (k : A -> M B) :
  offline m -> (forall a, offline (k a)) -> offline (m ≫= k).
Proof.
  intros Hm Hk w. rewrite run_bind. specialize (Hm w).
  destruct (m w) as [[a| |] w']; simpl in *; [|done..].
  by rewrite Hk.
Qed.

Lemma offline_read_config : offline read_config.
Proof. done. Qed.

Lemma offline_write_config c : offline (write_config c).
Proof. done. Qed.

Lemma offline_time_time : offline time_time.
Proof. done. Qed.

Lemma offline_asyncio_sleep d : offline (asyncio_sleep d).
Proof. done. Qed.

Lemma offline_log_info `{Platform} message : offline (log_info message).
Proof. done. Qed.

Lemma offline_log_exception `{Platform} message e : offline (log_exception message e).
Proof. done. Qed.

End Offline.

#[export] Hint Resolve @offline_ret @offline_raise @offline_read_config
  @offline_write_config @offline_time_time @offline_asyncio_sleep
  @offline_log_info @offline_log_exception : videos.

(** ** Computations that leave the world as it is *)

Section Inert.

Lemma inert_ret {A} (a : A) : inert (mret a : M A).
Proof. done. Qed.

Lemma inert_raise {A} e : inert (raise e : M A).
Proof. done. Qed.

Lemma inert_out_of_fuel {A} : inert (out_of_fuel : M A).
Proof. done. Qed.

Lemma inert_bind {A B} (m : M A) (k : A -> M B) :
  inert m -> (forall a, inert (k a)) -> inert (m ≫= k).
Proof.
  intros Hm Hk w. rewrite run_bind. specialize (Hm w).
  destruct (m w) as [[a| |] w']; simpl in *; [|done..].
  by rewrite Hk.
Qed.

Lemma inert_try {A} (m : M A) handler :
  inert m -> (forall e h, handler e = Some h -> inert h) -> inert (try_except m handler).
Proof.
  intros Hm Hh w. unfold try_except. specialize (Hm w).
  destruct (m w) as [[a|e|] w']; simpl in *; [done| |done].
  destruct (handler e) as [h|] eqn:E; [|done]. by rewrite (Hh e h E).
Qed.

Lemma inert_read_config : inert read_config.
Proof. done. Qed.

Lemma inert_time_time : inert time_time.
Proof. done. Qed.

Lemma inert_raise_for_status r : inert (raise_for_status r).
Proof. unfold raise_for_status. by destruct (http_error_msg r). Qed.

Lemma inert_response_json r : inert (response_json r).
Proof. unfold response_json. by destruct (resp_json r). Qed.

Lemma inert_py_get v k d : inert (py_get v k d).
Proof. unfold py_get. by destruct (dict_get v k d). Qed.

(** What is inert moves the world forward and sends nothing. *)
Lemma inert_forward {A} (m : M A) : inert m -> forward m.
Proof. intros Hm w. by rewrite Hm. Qed.

Lemma inert_offline {A} (m : M A) : inert m -> offline m.
Proof. intros Hm w. by rewrite Hm. Qed.

End Inert.

#[export] Hint Resolve @inert_ret @inert_raise @inert_out_of_fuel @inert_read_config
  @inert_time_time @inert_raise_for_status @inert_response_json @inert_py_get : videos.

(** ** Computations that do no more than log *)

Section Quiet.

Lemma inert_quiet {A} (m : M A) : inert m -> quiet m.
Proof. intros Hm w. exists []. by rewrite Hm, log_to_nil. Qed.

Lemma quiet_bind {A B} (m : M A) (k : A -> M B) :
  quiet m -> (forall a, quiet (k a)) -> quiet (m ≫= k).
Proof.
  intros Hm Hk w. rewrite run_bind. destruct (Hm w) as [l Hl].
  destruct (m w) as [[a| |] w']; simpl in *; subst w'; [|by exists l..].
  destruct (Hk a (log_to l w)) as [l' Hl']. exists (l ++ l').
  by rewrite Hl', log_to_app.
Qed.

Lemma quiet_try {A} (m : M A) handler :
  quiet m -> (forall e h, handler e = Some h -> quiet h) -> quiet (try_except m handler).
Proof.
  intros Hm Hh w. unfold try_except. destruct (Hm w) as [l Hl].
  destruct (m w) as [[a|e|] w']; simpl in *; subst w'; [by exists l| |by exists l].
  destruct (handler e) as [h|] eqn:E; [|by exists l].
  destruct (Hh e h E (log_to l w)) as [l' Hl']. exists (l ++ l').
  by rewrite Hl', log_to_app.
Qed.

Lemma quiet_log_info `{Platform} message : quiet (log_info message).
Proof. intros w. by eexists. Qed.

Lemma quiet_log_exception `{Platform} message e : quiet (log_exception message e).
Proof. intros w. by eexists. Qed.

Lemma quiet_forward {A} (m : M A) : quiet m -> forward m.
Proof. intros Hm w. destruct (Hm w) as [l ->]. apply later_log_to. Qed.

Lemma quiet_offline {A} (m : M A) : quiet m -> offline m.
Proof. intros Hm w. by destruct (Hm w) as [l ->]. Qed.

Lemma constant_ret {A} (a : A) : constant (mret a : M A).
Proof. exists (Ok a), []. intros w. by rewrite log_to_nil. Qed.

Lemma constant_raise {A} e : constant (raise e : M A).
Proof. exists (Raise e), []. intros w. by rewrite log_to_nil. Qed.

Lemma constant_bind {A B} (m : M A) (k : A -> M B) :
  constant m -> (forall a, constant (k a)) -> constant (m ≫= k).
Proof.
  intros ([a|e|] & l & Hm) Hk.
  - destruct (Hk a) as (r & l' & Hr). exists r, (l ++ l'). intros w.
    by rewrite run_bind, Hm, Hr, log_to_app.
  - exists (Raise e), l. intros w. by rewrite run_bind, Hm.
  - exists OutOfFuel, l. intros w. by rewrite run_bind, Hm.
Qed.

Lemma constant_raise_for_status r : constant (raise_for_status r).
Proof.
  unfold raise_for_status. destruct (http_error_msg r); [apply constant_raise|apply constant_ret].
Qed.

Lemma constant_response_json r : constant (response_json r).
Proof.
  unfold response_json. destruct (resp_json r); [apply constant_raise|apply constant_ret].
Qed.

Lemma constant_log_info `{Platform} message : constant (log_info message).
Proof. by eexists _, _. Qed.

Lemma constant_log_exception `{Platform} message e : constant (log_exception message e).
Proof. by eexists _, _. Qed.

Lemma constant_quiet {A} (m : M A) : constant m -> quiet m.
Proof. intros (r & l & Hm) w. exists l. by rewrite Hm. Qed.

End Quiet.

#[export] Hint Resolve @quiet_log_info @quiet_log_exception
  @constant_ret @constant_raise @constant_raise_for_status @constant_response_json
  @constant_log_info @constant_log_exception : videos.
#[export] Hint Resolve inert_quiet | 10 : videos.

(** ** Computations that never run out of fuel *)

Section Total.
Context `{Upstream}.

Lemma total_ret {A} (a : A) : total (mret a : M A).
Proof. done. Qed.

Lemma total_raise {A} e : total (raise e : M A).
Proof. done. Qed.

Lemma total_bind {A B} (m : M A) (k : A -> M B) :
  total m -> (forall a, total (k a)) -> total (m ≫= k).
Proof.
  intros Hm Hk w. rewrite run_bind. specialize (Hm w).
  destruct (m w) as [[a| |] w']; simpl in *; [apply Hk|done..].
Qed.

Lemma total_try {A} (m : M A) handler :
  total m -> (forall e h, handler e = Some h -> total h) ->
  total (try_except m handler).
Proof.
  intros Hm Hh w. unfold try_except. specialize (Hm w).
  destruct (m w) as [[a|e|] w']; simpl in *; [done| |done].
  destruct (handler e) as [h|] eqn:E; [by eapply Hh|done].
Qed.

Lemma total_read_config : total read_config.
Proof. done. Qed.

Lemma total_write_config c : total (write_config c).
Proof. done. Qed.

Lemma total_time_time : total time_time.
Proof. done. Qed.

Lemma total_asyncio_sleep d : total (asyncio_sleep d).
Proof. done. Qed.

Lemma total_requests_request req : total (requests_request req).
Proof. intros w. unfold requests_request. by destruct (outcome _). Qed.

Lemma total_raise_for_status r : total (raise_for_status r).
Proof. unfold raise_for_status. by destruct (http_error_msg r). Qed.

Lemma total_response_json r : total (response_json r).
Proof. unfold response_json. by destruct (resp_json r). Qed.

Lemma total_py_get v k d : total (py_get v k d).
Proof. unfold py_get. by destruct (dict_get v k d). Qed.

Lemma total_log_info `{Platform} message : total (log_info message).
Proof. done. Qed.

Lemma total_log_exception `{Platform} message e : total (log_exception message e).
Proof. done. Qed.

End Total.

#[export] Hint Resolve @total_ret @total_raise @total_read_config
  @total_write_config @total_time_time @total_asyncio_sleep
  @total_requests_request @total_raise_for_status @total_response_json
  @total_py_get @total_log_info @total_log_exception : videos.

(** ** Automation for [forward], [total], [inert] and [quiet]

    [effects] proves that a computation built from the primitives with
    [bind], [try_except] and case distinctions moves the world forward,
    never runs out of fuel, or leaves the world (but for the log) as it is,
    by following its structure. *)

Section Raising.
Context {A : Type}.
Implicit Types (h : M A) (handler : Exn -> option (M A)).

Lemma raising_raise x : raising (raise x : M A).
Proof. exists x, []. intros w. by rewrite log_to_nil. Qed.

Lemma raising_log_exception `{Platform} message e x :
  raising (log_exception message e;; raise x : M A).
Proof. by eexists _, _. Qed.

Lemma raising_constant h : raising h -> constant h.
Proof. intros (x & l & Hh). by exists (Raise x), l. Qed.

Lemma raising_total h : raising h -> total h.
Proof. intros (x & l & Hh) w. by rewrite Hh. Qed.

Lemma raising_quiet h : raising h -> quiet h.
Proof. intros Hh. by apply constant_quiet, raising_constant. Qed.

Lemma raising_forward h : raising h -> forward h.
Proof. intros Hh. by apply quiet_forward, raising_quiet. Qed.

(** The same of the clauses of a [try] that all log and raise. *)
Lemma forward_handler_raise handler :
  (forall e h, handler e = Some h -> raising h) ->
  forall e h, handler e = Some h -> forward h.
Proof. intros Hh e h E. by eapply raising_forward, Hh. Qed.

Lemma total_handler_raise handler :
  (forall e h, handler e = Some h -> raising h) ->
  forall e h, handler e = Some h -> total h.
Proof. intros Hh e h E. by eapply raising_total, Hh. Qed.

Lemma constant_handler_raise handler :
  (forall e h, handler e = Some h -> raising h) ->
  forall e h, handler e = Some h -> constant h.
Proof. intros Hh e h E. by eapply raising_constant, Hh. Qed.

Lemma quiet_handler_raise handler :
  (forall e h, handler e = Some h -> raising h) ->
  forall e h, handler e = Some h -> quiet h /\ total h.
Proof. intros Hh e h E. split; [eapply raising_quiet|eapply raising_total]; by eapply Hh. Qed.

End Raising.

Ltac effects_step :=
  match goal with
  | |- forward (_ ≫= _) => apply forward_bind; [|intros ?]
  | |- total (_ ≫= _) => apply total_bind; [|intros ?]
  | |- inert (_ ≫= _) => apply inert_bind; [|intros ?]
  | |- forward (try_except _ _) => apply forward_try
  | |- inert (try_except _ _) => apply inert_try
  | |- quiet (_ ≫= _) => apply quiet_bind; [|intros ?]
  | |- quiet (try_except _ _) => apply quiet_try
  | |- quiet (if ?b then _ else _) => destruct b
  | |- quiet (match ?x with _ => _ end) => destruct x
  | |- constant (_ ≫= _) => apply constant_bind; [|intros ?]
  | |- inert (if ?b then _ else _) => destruct b
  | |- inert (match ?x with _ => _ end) => destruct x
  | |- total (try_except _ _) => apply total_try
  | |- forward (if ?b then _ else _) => destruct b
  | |- total (if ?b then _ else _) => destruct b
  | |- forward (match ?x with _ => _ end) => destruct x
  | |- total (match ?x with _ => _ end) => destruct x
  end.

Ltac effects := repeat effects_step; eauto with videos.

(** ** The primitives, run *)

Section Run.
Context `{Upstream}.
Implicit Types (w : World) (r : Response).

(** A successful status lets [raise_for_status] pass. *)
Lemma http_error_msg_ok r :
  (status_code r < 400 \/ 600 <= status_code r)%Z -> http_error_msg r = None.
Proof.
  intros Hs. unfold http_error_msg.
  destruct (400 <=? status_code r)%Z eqn:E1, (status_code r <? 500)%Z eqn:E2,
    (500 <=? status_code r)%Z eqn:E3, (status_code r <? 600)%Z eqn:E4; simpl; try done; lia.
Qed.

(** An error status (400 to 599) makes it raise. *)
Lemma http_error_msg_error r :
  (400 <= status_code r < 600)%Z -> is_Some (http_error_msg r).
Proof.
  intros Hs. unfold http_error_msg.
  destruct (400 <=? status_code r)%Z eqn:E1, (status_code r <? 500)%Z eqn:E2,
    (500 <=? status_code r)%Z eqn:E3, (status_code r <? 600)%Z eqn:E4; simpl; eauto; lia.
Qed.

Lemma run_requests_replied req w r :
  outcome (upstream_reply (length (sent w)) req) = Replied r ->
  requests_request req w = (Ok r, after_request w req).
Proof. unfold requests_request. by intros ->. Qed.

Lemma run_requests_failed req w msg :
  outcome (upstream_reply (length (sent w)) req) = ConnectionFailed msg ->
  requests_request req w = (Raise (PyError ConnectionError msg), after_request w req).
Proof. unfold requests_request. by intros ->. Qed.

Lemma requests_request_world req w : (requests_request req w).2 = after_request w req.
Proof. unfold requests_request. by destruct (outcome _). Qed.

Lemma later_after_request w req : later_world w (after_request w req).
Proof. repeat split; simpl; [lia | by apply prefix_app_r | done]. Qed.

Lemma sent_after_request w req : sent (after_request w req) = sent w ++ [req].
Proof. done. Qed.

Lemma config_after_request w req : app_config (after_request w req) = app_config w.
Proof. done. Qed.

End Run.
