(* ===== verification/Base64.v ===== *)
(** * Base64: the encoding of RFC 4648

    [video_generations] hands the payload of a data URI to
    [base64.b64decode], which [Binascii] models as the library implements
    it.  This file is the reference that model is measured against: RFC 4648
    decoding of the standard alphabet, four characters at a time, with ["="]
    padding in the last group, a character outside the alphabet or a wrong
    length being an error; and the encoder [base64.b64encode], its inverse:
    decoding what it produces gives the bytes back
    ([b64decode_encode]). *)

From S2P Require Import Prelude.
From Stdlib Require Import Ascii NArith.

#[local] Open Scope N_scope.

(** The value of a character of the alphabet [A-Z a-z 0-9 + /]. *)
Definition b64_value (c : ascii) : option N :=
  let n := N_of_ascii c in
  if (65 <=? n) && (n <=? 90) then Some (n - 65)
  else if (97 <=? n) && (n <=? 122) then Some (n - 71)
  else if (48 <=? n) && (n <=? 57) then Some (n + 4)
  else if n =? 43 then Some 62
  else if n =? 47 then Some 63
  else None.

(** The character of a value below 64. *)
Definition b64_char (v : N) : ascii :=
  ascii_of_N (if v <? 26 then v + 65
              else if v <? 52 then v + 71
              else if v <? 62 then v - 4
              else if v =? 62 then 43
              else 47).

Definition is_pad (c : ascii) : bool := (N_of_ascii c =? 61).

Definition pad : ascii := ascii_of_N 61.

(** The three bytes of four 6-bit values. *)
Definition b64_bytes (a b c d : N) : list ascii :=
  let n := ((a * 64 + b) * 64 + c) * 64 + d in
  [ascii_of_N (n / 65536); ascii_of_N ((n / 256) mod 256); ascii_of_N (n mod 256)].

Definition incorrect_padding : string := "Incorrect padding".

Definition invalid_character : string := "Only base64 data is allowed".

(** Decode a list of characters, one group of four at a time. *)
Fixpoint b64decode_list (l : list ascii) : string + list ascii :=
  match l with
  | [] => inr []
  | a :: b :: c :: d :: rest =>
      match b64_value a, b64_value b with
      | Some va, Some vb =>
          if is_pad d then
            match rest with
            | [] =>
                if is_pad c then inr (take 1 (b64_bytes va vb 0 0))
                else match b64_value c with
                     | Some vc => inr (take 2 (b64_bytes va vb vc 0))
                     | None => inl invalid_character
                     end
            | _ :: _ => inl incorrect_padding
            end
          else
            match b64_value c, b64_value d with
            | Some vc, Some vd =>
                match b64decode_list rest with
                | inr bs => inr (b64_bytes va vb vc vd ++ bs)
                | inl e => inl e
                end
            | _, _ => inl invalid_character
            end
      | _, _ => inl invalid_character
      end
  | _ => inl incorrect_padding
  end.

Definition b64decode_strict (s : string) : string + list ascii :=
  b64decode_list (String.list_ascii_of_string s).

(** The four characters of three bytes, and the padded last groups. *)
Definition b64_quad (x y z : ascii) : list ascii :=
  let n := (N_of_ascii x * 256 + N_of_ascii y) * 256 + N_of_ascii z in
  [b64_char (n / 262144); b64_char ((n / 4096) mod 64);
   b64_char ((n / 64) mod 64); b64_char (n mod 64)].

Fixpoint b64encode_list (bs : list ascii) : list ascii :=
  match bs with
  | [] => []
  | [x] => take 2 (b64_quad x zero zero) ++ [pad; pad]
  | [x; y] => take 3 (b64_quad x y zero) ++ [pad]
  | x :: y :: z :: rest => b64_quad x y z ++ b64encode_list rest
  end.

Definition b64encode (bs : list ascii) : string :=
  String.string_of_list_ascii (b64encode_list bs).

(** * Properties *)

Example b64encode_hi : b64encode (String.list_ascii_of_string "hi") = "aGk=".
Proof. reflexivity. Qed.

Example b64decode_hi : b64decode_strict "aGk=" = inr (String.list_ascii_of_string "hi").
Proof. reflexivity. Qed.

Example b64decode_bad_length : b64decode_strict "aGk" = inl incorrect_padding.
Proof. reflexivity. Qed.

(** [split_tests]: decide every comparison of the goal. *)
Ltac split_tests :=
  repeat match goal with
         | |- context [(?a <=? ?b)] => destruct (N.leb_spec a b)
         | |- context [(?a <? ?b)] => destruct (N.ltb_spec a b)
         | |- context [(?a =? ?b)] => destruct (N.eqb_spec a b)
         end.

Lemma b64_value_code (n : N) :
  n < 256 ->
  b64_value (ascii_of_N n) =
    if (65 <=? n) && (n <=? 90) then Some (n - 65)
    else if (97 <=? n) && (n <=? 122) then Some (n - 71)
    else if (48 <=? n) && (n <=? 57) then Some (n + 4)
    else if n =? 43 then Some 62
    else if n =? 47 then Some 63
    else None.
Proof. intros Hn. unfold b64_value. by rewrite N_ascii_embedding. Qed.

(** The alphabet is decoded back to the value it encodes. *)
Lemma b64_value_char (v : N) : v < 64 -> b64_value (b64_char v) = Some v.
Proof.
  intros Hv. unfold b64_char.
  destruct (N.ltb_spec v 26); [|destruct (N.ltb_spec v 52); [|destruct (N.ltb_spec v 62);
    [|destruct (N.eqb_spec v 62)]]];
    rewrite b64_value_code by lia; split_tests; simpl; try lia; f_equal; lia.
Qed.

(** ** Decoding undoes encoding *)

Section RoundTrip.
Implicit Types (x y z : ascii) (n v : N).

Lemma is_pad_char v : v < 64 -> is_pad (b64_char v) = false.
Proof.
  intros Hv. unfold is_pad, b64_char.
  destruct (N.ltb_spec v 26); [|destruct (N.ltb_spec v 52); [|destruct (N.ltb_spec v 62);
    [|destruct (N.eqb_spec v 62)]]];
    rewrite N_ascii_embedding by lia; apply N.eqb_neq; lia.
Qed.

(** Four sextets make the 24 bits they were cut from. *)
Lemma sextets_join n :
  ((n / 262144 * 64 + (n / 4096) mod 64) * 64 + (n / 64) mod 64) * 64 + n mod 64 = n.
Proof.
  change 262144 with (64 * 64 * 64). change 4096 with (64 * 64).
  rewrite <- !N.Div0.div_div.
  pose proof (N.div_mod n 64 ltac:(done)).
  pose proof (N.div_mod (n / 64) 64 ltac:(done)).
  pose proof (N.div_mod (n / 64 / 64) 64 ltac:(done)). lia.
Qed.

Lemma sextets_bound n :
  n < 16777216 ->
  n / 262144 < 64 /\ (n / 4096) mod 64 < 64 /\ (n / 64) mod 64 < 64 /\ n mod 64 < 64.
Proof.
  intros Hn. split; [by apply N.Div0.div_lt_upper_bound|].
  split_and!; by apply N.mod_lt.
Qed.

(** Three octets are read back from the 24 bits they make. *)
Lemma octets_split x y z :
  let n := (N_of_ascii x * 256 + N_of_ascii y) * 256 + N_of_ascii z in
  n < 16777216
  /\ [ascii_of_N (n / 65536); ascii_of_N ((n / 256) mod 256); ascii_of_N (n mod 256)]
     = [x; y; z].
Proof.
  intros n. subst n. pose proof (N_ascii_bounded x). pose proof (N_ascii_bounded y).
  pose proof (N_ascii_bounded z). split; [lia|].
  set (X := N_of_ascii x) in *. set (Y := N_of_ascii y) in *. set (Z := N_of_ascii z) in *.
  change 65536 with (256 * 256). rewrite <- N.Div0.div_div.
  rewrite <- (N.div_unique ((X * 256 + Y) * 256 + Z) 256 (X * 256 + Y) Z) by lia.
  rewrite <- (N.mod_unique ((X * 256 + Y) * 256 + Z) 256 (X * 256 + Y) Z) by lia.
  rewrite <- (N.div_unique (X * 256 + Y) 256 X Y) by lia.
  rewrite <- (N.mod_unique (X * 256 + Y) 256 X Y) by lia.
  unfold X, Y, Z. by rewrite !ascii_N_embedding.
Qed.

(** The bytes of the sextets of three octets are the octets. *)
Lemma b64_bytes_octets x y z :
  let n := (N_of_ascii x * 256 + N_of_ascii y) * 256 + N_of_ascii z in
  b64_bytes (n / 262144) ((n / 4096) mod 64) ((n / 64) mod 64) (n mod 64) = [x; y; z].
Proof.
  intros n. unfold b64_bytes. rewrite sextets_join. apply octets_split.
Qed.

Lemma last_sextet_zero k : (k * 256) mod 64 = 0.
Proof. symmetry. apply (N.mod_unique _ 64 (k * 4) 0); lia. Qed.

Lemma third_sextet_zero k : (k * 65536 / 64) mod 64 = 0.
Proof.
  rewrite <- (N.div_unique (k * 65536) 64 (k * 1024) 0) by lia.
  symmetry. apply (N.mod_unique _ 64 (k * 16) 0); lia.
Qed.

(** A full group of four characters decodes to the three bytes it encodes. *)
Lemma b64decode_list_quad x y z rest :
  b64decode_list (b64_quad x y z ++ rest) =
    match b64decode_list rest with
    | inr bs => inr (x :: y :: z :: bs)
    | inl e => inl e
    end.
Proof.
  unfold b64_quad. destruct (octets_split x y z) as [Hn _].
  destruct (sextets_bound _ Hn) as (Ha & Hb & Hc & Hd).
  cbn [app b64decode_list]. rewrite !b64_value_char, is_pad_char by done.
  by rewrite (b64_bytes_octets x y z).
Qed.

(** The two padded groups. *)
Lemma b64decode_list_last1 x :
  b64decode_list (take 2 (b64_quad x zero zero) ++ [pad; pad]) = inr [x].
Proof.
  unfold b64_quad. destruct (octets_split x zero zero) as [Hn _].
  destruct (sextets_bound _ Hn) as (Ha & Hb & _ & _).
  cbn [take app b64decode_list]. rewrite !b64_value_char by done.
  change (is_pad pad) with true. cbn match.
  pose proof (b64_bytes_octets x zero zero) as Hb3. cbn zeta in Hb3.
  change (N_of_ascii zero) with 0 in *.
  replace ((N_of_ascii x * 256 + 0) * 256 + 0) with (N_of_ascii x * 65536) in * by lia.
  rewrite third_sextet_zero in Hb3.
  replace (N_of_ascii x * 65536) with (N_of_ascii x * 256 * 256) in Hb3 at 3 by lia.
  rewrite last_sextet_zero in Hb3. by rewrite Hb3.
Qed.

Lemma b64decode_list_last2 x y :
  b64decode_list (take 3 (b64_quad x y zero) ++ [pad]) = inr [x; y].
Proof.
  unfold b64_quad. destruct (octets_split x y zero) as [Hn _].
  destruct (sextets_bound _ Hn) as (Ha & Hb & Hc & _).
  cbn [take app b64decode_list]. rewrite !b64_value_char by done.
  change (is_pad pad) with true. rewrite is_pad_char by done. cbn match.
  pose proof (b64_bytes_octets x y zero) as Hb3. cbn zeta in Hb3.
  change (N_of_ascii zero) with 0 in *.
  replace ((N_of_ascii x * 256 + N_of_ascii y) * 256 + 0)
    with ((N_of_ascii x * 256 + N_of_ascii y) * 256) in * by lia.
  rewrite last_sextet_zero in Hb3. by rewrite Hb3.
Qed.

(** Decoding what [b64encode_list] produces gives the bytes back. *)
Lemma b64decode_encode_list (bs : list ascii) :
  b64decode_list (b64encode_list bs) = inr bs.
Proof.
  induction bs as [|x|x y|x y z bs IH] using list_ind3; [done|..].
  - apply b64decode_list_last1.
  - apply b64decode_list_last2.
  - change (b64encode_list (x :: y :: z :: bs))
      with (b64_quad x y z ++ b64encode_list bs).
    by rewrite b64decode_list_quad, IH.
Qed.

Lemma b64decode_encode (bs : list ascii) : b64decode_strict (b64encode bs) = inr bs.
Proof.
  unfold b64decode_strict, b64encode.
  rewrite String.list_ascii_of_string_of_list_ascii. apply b64decode_encode_list.
Qed.

End RoundTrip.
