(* ===== verification/Binascii.v ===== *)
(** * Binascii: [base64.b64decode] as the handler calls it

    [video_generations] decodes the payload of a data URI with
    [base64.b64decode(encoded)], that is with [validate=False]: the text is
    encoded as ASCII (a character outside ASCII is a [ValueError]) and handed
    to [binascii.a2b_base64], which in this mode is lenient.  Its loop reads
    one character at a time and keeps a position in the group of four
    ([quad_pos]), the bits left over from the characters read ([leftchar])
    and the number of pads seen since the last character of the alphabet
    ([pads]):

    - a character outside the alphabet that is no pad is skipped;
    - a pad is skipped too, unless it completes the padding of a group that
      has two or three characters, in which case the decoding is over and
      what follows is not looked at;
    - a character of the alphabet adds its six bits, and every character but
      the first of a group completes a byte;
    - when the input ends inside a group, the call raises [binascii.Error].

    This file models that loop ([a2b_loop], [a2b_base64], [b64decode]) and
    relates it to the decoder of RFC 4648 of [Base64], which is the
    reference: what the reference accepts, the loop decodes to the same
    bytes, and the loop accepts more. *)

From S2P Require Import Prelude PyStr Json Effects Base64.
From Stdlib Require Import Ascii NArith.

#[local] Open Scope N_scope.

(** The state of the loop. *)
Record A2b := {
  quad_pos : N;
  leftchar : N;
  pads : N;
  bin_data : bytes }.

Definition a2b_start : A2b :=
  {| quad_pos := 0; leftchar := 0; pads := 0; bin_data := [] |}.

(** [*bin_data++ = x]: the store into an [unsigned char]. *)
Definition store_byte (x : N) : ascii := ascii_of_N (x mod 256).

(** The [switch] on [quad_pos] for a character of the alphabet whose value
    is [this_ch]. *)
Definition a2b_data (s : A2b) (this_ch : N) : A2b :=
  match quad_pos s with
  | 0 =>
      {| quad_pos := 1; leftchar := this_ch; pads := 0; bin_data := bin_data s |}
  | 1 =>
      {| quad_pos := 2; leftchar := N.land this_ch 15; pads := 0;
         bin_data := bin_data s ++
           [store_byte (N.lor (N.shiftl (leftchar s) 2) (N.shiftr this_ch 4))] |}
  | 2 =>
      {| quad_pos := 3; leftchar := N.land this_ch 3; pads := 0;
         bin_data := bin_data s ++
           [store_byte (N.lor (N.shiftl (leftchar s) 4) (N.shiftr this_ch 2))] |}
  | _ =>
      {| quad_pos := 0; leftchar := 0; pads := 0;
         bin_data := bin_data s ++
           [store_byte (N.lor (N.shiftl (leftchar s) 6) this_ch)] |}
  end.

(** A pad that does not end the decoding, in a group of two or three
    characters: it is counted. *)
Definition a2b_pad (s : A2b) : A2b :=
  {| quad_pos := quad_pos s; leftchar := leftchar s; pads := pads s + 1;
     bin_data := bin_data s |}.

(** The message for an input that ends after the first character of a
    group: the count is that of the characters decoded. *)
Definition invalid_length_message (n : nat) : string :=
  "Invalid base64-encoded string: number of data characters ("
  +:+ pretty n +:+ ") cannot be 1 more than a multiple of 4".

Definition invalid_length (written : nat) : string :=
  invalid_length_message (written / 3 * 4 + 1).

(** The loop over the characters, and the test after it. *)
Fixpoint a2b_loop (s : A2b) (ascii_data : list ascii) : string + bytes :=
  match ascii_data with
  | [] =>
      if quad_pos s =? 0 then inr (bin_data s)
      else if quad_pos s =? 1 then inl (invalid_length (length (bin_data s)))
      else inl incorrect_padding
  | this_ch :: rest =>
      if is_pad this_ch then
        if 2 <=? quad_pos s then
          if 4 <=? quad_pos s + (pads s + 1) then inr (bin_data s)
          else a2b_loop (a2b_pad s) rest
        else a2b_loop s rest
      else
        match b64_value this_ch with
        | Some v => a2b_loop (a2b_data s v) rest
        | None => a2b_loop s rest
        end
  end.

(** [binascii.a2b_base64(data, strict_mode=False)]. *)
Definition a2b_base64 (ascii_data : list ascii) : string + bytes :=
  a2b_loop a2b_start ascii_data.

Definition is_ascii (c : ascii) : bool := N_of_ascii c <? 128.

Definition not_ascii_error : string :=
  "string argument should contain only ASCII characters".

(** [base64.b64decode(s)] for a [str]. *)
Definition b64decode (s : string) : Exn + bytes :=
  let data := String.list_ascii_of_string s in
  if forallb is_ascii data then
    match a2b_base64 data with
    | inr bs => inr bs
    | inl msg => inl (PyError BinasciiError msg)
    end
  else inl (PyError ValueError not_ascii_error).

Definition in_alphabet (c : ascii) : bool := bool_decide (is_Some (b64_value c)).

(** A character that the loop looks at: one of the alphabet, or a pad. *)
Definition significant (c : ascii) : bool := is_pad c || in_alphabet c.

(** The state after the characters of [l], all of the alphabet. *)
Definition a2b_read (s : A2b) (l : list ascii) : A2b :=
  foldl (fun s c => a2b_data s (default 0 (b64_value c))) s l.

(** The bytes that a group holds when [q] of its characters are read. *)
Definition written_in_group (q : N) : nat :=
  match q with
  | 0 | 1 => 0
  | 2 => 1
  | _ => 2
  end.

(** The states that the loop goes through: the position is in the group and
    the bits left over fit the byte that they will be part of. *)
Definition a2b_wf (s : A2b) : Prop :=
  quad_pos s < 4
  /\ leftchar s < match quad_pos s with 1 => 64 | 2 => 16 | 3 => 4 | _ => 1 end.

(** The state between two groups, with [out] written. *)
Definition group_start (out : bytes) : A2b :=
  {| quad_pos := 0; leftchar := 0; pads := 0; bin_data := out |}.

(** The text ends with a pad. *)
Fixpoint padded (l : list ascii) : bool :=
  match l with
  | [] => false
  | [c] => is_pad c
  | _ :: l' => padded l'
  end.

(** The state of the loop when [n] characters of the alphabet are read from
    the start, and nothing else. *)
Definition a2b_after (n : nat) (s : A2b) : Prop :=
  a2b_wf s /\
  exists k : nat,
    n = (4 * k + N.to_nat (quad_pos s))%nat
    /\ length (bin_data s) = (3 * k + written_in_group (quad_pos s))%nat.

(** * Properties *)

Example b64decode_hi_lenient :
  b64decode "aGk=" = inr (String.list_ascii_of_string "hi").
Proof. reflexivity. Qed.

Example b64decode_junk :
  b64decode "a G.k=*" = inr (String.list_ascii_of_string "hi").
Proof. reflexivity. Qed.

Example b64decode_after_padding :
  b64decode "aGk=aGk=" = inr (String.list_ascii_of_string "hi").
Proof. reflexivity. Qed.

Example b64decode_one_character :
  b64decode "aGk=" = b64decode "aGk" -> False.
Proof. discriminate. Qed.

(** ** The alphabet *)

Section Alphabet.
Implicit Types (c : ascii) (v : N).

Lemma b64_value_bound c v : b64_value c = Some v -> v < 64.
Proof. unfold b64_value. cbn zeta. split_tests; cbn; intros [= <-]; lia. Qed.

(** The pad is not of the alphabet. *)
Lemma is_pad_value c : is_pad c = true -> b64_value c = None.
Proof. unfold is_pad, b64_value. intros Hp%N.eqb_eq. by rewrite Hp. Qed.

Lemma b64_value_not_pad c v : b64_value c = Some v -> is_pad c = false.
Proof. intros Hv. destruct (is_pad c) eqn:E; [|done]. by rewrite is_pad_value in Hv. Qed.

Lemma significant_pad c : is_pad c = true -> significant c = true.
Proof. unfold significant. by intros ->. Qed.

Lemma significant_value c v : b64_value c = Some v -> significant c = true.
Proof.
  unfold significant, in_alphabet. intros ->. rewrite bool_decide_eq_true_2 by done.
  apply orb_true_r.
Qed.

Lemma not_significant c :
  significant c = false -> is_pad c = false /\ b64_value c = None.
Proof.
  unfold significant, in_alphabet. intros [Hp Hv]%orb_false_elim. split; [done|].
  apply bool_decide_eq_false in Hv. by destruct (b64_value c); [destruct Hv|].
Qed.

End Alphabet.

(** ** The bytes of a group, bit by bit *)

Section Bits.
Implicit Types (a b c d : N).

Lemma first_byte a b :
  a < 64 -> b < 64 -> N.lor (N.shiftl a 2) (N.shiftr b 4) = a * 4 + b / 16.
Proof.
  intros Ha Hb. apply N.eqb_eq.
  by apply (below_forallb2 64
              (fun a b => N.lor (N.shiftl a 2) (N.shiftr b 4) =? a * 4 + b / 16)).
Qed.

Lemma second_byte b c :
  b < 64 -> c < 64 ->
  N.lor (N.shiftl (N.land b 15) 4) (N.shiftr c 2) = b mod 16 * 16 + c / 4.
Proof.
  intros Hb Hc. apply N.eqb_eq.
  by apply (below_forallb2 64
              (fun b c => N.lor (N.shiftl (N.land b 15) 4) (N.shiftr c 2)
                          =? b mod 16 * 16 + c / 4)).
Qed.

Lemma third_byte c d :
  c < 64 -> d < 64 -> N.lor (N.shiftl (N.land c 3) 6) d = c mod 4 * 64 + d.
Proof.
  intros Hc Hd. apply N.eqb_eq.
  by apply (below_forallb2 64
              (fun c d => N.lor (N.shiftl (N.land c 3) 6) d =? c mod 4 * 64 + d)).
Qed.

(** The 24 bits of four sextets, cut into octets. *)
Lemma sextets_octets a b c d :
  a < 64 -> b < 64 -> c < 64 -> d < 64 ->
  let n := ((a * 64 + b) * 64 + c) * 64 + d in
  n / 65536 = a * 4 + b / 16
  /\ (n / 256) mod 256 = b mod 16 * 16 + c / 4
  /\ n mod 256 = c mod 4 * 64 + d.
Proof.
  intros Ha Hb Hc Hd n. subst n.
  pose proof (N.div_mod b 16 ltac:(done)). pose proof (N.mod_lt b 16 ltac:(done)).
  pose proof (N.div_mod c 4 ltac:(done)). pose proof (N.mod_lt c 4 ltac:(done)).
  set (qb := b / 16) in *. set (rb := b mod 16) in *.
  set (qc := c / 4) in *. set (rc := c mod 4) in *. clearbody qb rb qc rc.
  rewrite <- (N.div_unique _ 65536 (a * 4 + qb) (rb * 4096 + c * 64 + d)) by lia.
  rewrite <- (N.div_unique _ 256 (a * 1024 + b * 16 + qc) (rc * 64 + d)) by lia.
  rewrite <- (N.mod_unique (a * 1024 + b * 16 + qc) 256 (a * 4 + qb) (rb * 16 + qc)) by lia.
  by rewrite <- (N.mod_unique _ 256 (a * 1024 + b * 16 + qc) (rc * 64 + d)) by lia.
Qed.

(** What the loop stores is below 256: the store truncates nothing. *)
Lemma stored_bound a b :
  a < 64 -> b < 64 ->
  N.lor (N.shiftl a 2) (N.shiftr b 4) < 256
  /\ N.lor (N.shiftl (N.land a 15) 4) (N.shiftr b 2) < 256
  /\ N.lor (N.shiftl (N.land a 3) 6) b < 256.
Proof.
  intros Ha Hb. rewrite first_byte, second_byte, third_byte by done.
  pose proof (N.mod_lt a 16 ltac:(done)). pose proof (N.mod_lt a 4 ltac:(done)).
  pose proof (N.Div0.div_lt_upper_bound b 16 4 ltac:(lia)).
  pose proof (N.Div0.div_lt_upper_bound b 4 16 ltac:(lia)).
  set (q16 := b / 16) in *. set (q4 := b / 4) in *.
  set (r16 := a mod 16) in *. set (r4 := a mod 4) in *. clearbody q16 q4 r16 r4. lia.
Qed.

Lemma store_byte_small x : x < 256 -> store_byte x = ascii_of_N x.
Proof. intros Hx. unfold store_byte. by rewrite N.mod_small. Qed.

(** The bytes that the loop stores for a group are those of the reference. *)
Lemma b64_bytes_bits a b c d :
  a < 64 -> b < 64 -> c < 64 -> d < 64 ->
  b64_bytes a b c d =
    [store_byte (N.lor (N.shiftl a 2) (N.shiftr b 4));
     store_byte (N.lor (N.shiftl (N.land b 15) 4) (N.shiftr c 2));
     store_byte (N.lor (N.shiftl (N.land c 3) 6) d)].
Proof.
  intros Ha Hb Hc Hd. destruct (sextets_octets a b c d) as (E1 & E2 & E3); [done..|].
  destruct (stored_bound a b) as (B1 & _ & _); [done..|].
  destruct (stored_bound b c) as (_ & B2 & _); [done..|].
  destruct (stored_bound c d) as (_ & _ & B3); [done..|].
  rewrite !store_byte_small by done. unfold b64_bytes. cbn zeta. rewrite E1, E2, E3.
  by rewrite first_byte, second_byte, third_byte.
Qed.

End Bits.

(** ** The states of the loop *)

Section States.
Implicit Types (s : A2b) (v : N).

Lemma a2b_wf_start : a2b_wf a2b_start.
Proof. by split. Qed.

Lemma land_bound v : v < 64 -> N.land v 15 < 16 /\ N.land v 3 < 4.
Proof.
  intros Hv. split; apply N.ltb_lt.
  - by apply (below_forallb 64 (fun v => N.land v 15 <? 16)).
  - by apply (below_forallb 64 (fun v => N.land v 3 <? 4)).
Qed.

(** The position is 0, 1, 2 or 3. *)
Lemma a2b_wf_cases s :
  a2b_wf s -> quad_pos s = 0 \/ quad_pos s = 1 \/ quad_pos s = 2 \/ quad_pos s = 3.
Proof. intros [Hq _]. lia. Qed.

Lemma a2b_data_wf s v : a2b_wf s -> v < 64 -> a2b_wf (a2b_data s v).
Proof.
  intros Hs Hv. destruct (land_bound v Hv) as [H15 H3]. unfold a2b_data.
  by destruct (a2b_wf_cases s Hs) as [-> |[-> |[-> | ->]]].
Qed.

Lemma a2b_pad_wf s : a2b_wf s -> a2b_wf (a2b_pad s).
Proof. done. Qed.

(** Four characters of the alphabet from the start of a group: the bytes of
    the reference. *)
Lemma a2b_data_group s a b c d :
  quad_pos s = 0 -> a < 64 -> b < 64 -> c < 64 -> d < 64 ->
  a2b_data (a2b_data (a2b_data (a2b_data s a) b) c) d =
    {| quad_pos := 0; leftchar := 0; pads := 0;
       bin_data := bin_data s ++ b64_bytes a b c d |}.
Proof.
  intros Hq Ha Hb Hc Hd. rewrite b64_bytes_bits by done.
  unfold a2b_data. rewrite Hq. cbn. by rewrite <- !(assoc_L app).
Qed.

End States.

(** ** The loop, character by character *)

Section Loop.
Implicit Types (s : A2b) (c : ascii) (v : N) (l rest : list ascii).

Lemma a2b_loop_value s c v rest :
  b64_value c = Some v -> a2b_loop s (c :: rest) = a2b_loop (a2b_data s v) rest.
Proof. intros Hv. cbn [a2b_loop]. by rewrite (b64_value_not_pad c v Hv), Hv. Qed.

Lemma a2b_loop_skip s c rest :
  significant c = false -> a2b_loop s (c :: rest) = a2b_loop s rest.
Proof. intros [Hp Hv]%not_significant. cbn [a2b_loop]. by rewrite Hp, Hv. Qed.

(** A pad before the second character of a group is skipped. *)
Lemma a2b_loop_early_pad s c rest :
  is_pad c = true -> quad_pos s < 2 -> a2b_loop s (c :: rest) = a2b_loop s rest.
Proof. intros Hp Hq. cbn [a2b_loop]. rewrite Hp. by destruct (N.leb_spec 2 (quad_pos s)); [lia|]. Qed.

(** The pad that completes a group ends the decoding. *)
Lemma a2b_loop_last_pad s c rest :
  is_pad c = true -> 2 <= quad_pos s -> 4 <= quad_pos s + (pads s + 1) ->
  a2b_loop s (c :: rest) = inr (bin_data s).
Proof.
  intros Hp Hq Hn. cbn [a2b_loop]. rewrite Hp.
  destruct (N.leb_spec 2 (quad_pos s)); [|lia].
  by destruct (N.leb_spec 4 (quad_pos s + (pads s + 1))); [|lia].
Qed.

(** The first of the two pads of a group of two characters is counted. *)
Lemma a2b_loop_first_pad s c rest :
  is_pad c = true -> quad_pos s = 2 -> pads s = 0 ->
  a2b_loop s (c :: rest) = a2b_loop (a2b_pad s) rest.
Proof. intros Hp Hq Hn. cbn [a2b_loop]. by rewrite Hp, Hq, Hn. Qed.

(** What the loop does not look at can be left out. *)
Lemma a2b_loop_filter s l : a2b_loop s (filter (fun c => significant c) l) = a2b_loop s l.
Proof.
  revert s. induction l as [|c l IH]; intros s; [done|].
  rewrite filter_cons. destruct (decide (significant c)) as [Hc|Hc].
  - cbn [a2b_loop]. by repeat case_match; rewrite ?IH.
  - rewrite a2b_loop_skip by (by destruct (significant c)). apply IH.
Qed.

End Loop.

(** ** The loop and the reference decoder *)

Section Reference.
Implicit Types (s : A2b) (c : ascii) (v : N) (l rest : list ascii) (out bs : bytes).

(** A whole group. *)
Lemma a2b_loop_group out a b c d va vb vc vd rest :
  b64_value a = Some va -> b64_value b = Some vb ->
  b64_value c = Some vc -> b64_value d = Some vd ->
  a2b_loop (group_start out) (a :: b :: c :: d :: rest) =
    a2b_loop (group_start (out ++ b64_bytes va vb vc vd)) rest.
Proof.
  intros Ha Hb Hc Hd.
  rewrite (a2b_loop_value _ a va), (a2b_loop_value _ b vb), (a2b_loop_value _ c vc),
    (a2b_loop_value _ d vd) by done.
  by rewrite a2b_data_group by eauto using b64_value_bound.
Qed.

(** A group of three characters and a pad. *)
Lemma a2b_loop_group3 out a b c d va vb vc rest :
  b64_value a = Some va -> b64_value b = Some vb -> b64_value c = Some vc ->
  is_pad d = true ->
  a2b_loop (group_start out) (a :: b :: c :: d :: rest) =
    inr (out ++ take 2 (b64_bytes va vb vc 0)).
Proof.
  intros Ha Hb Hc Hd.
  rewrite (a2b_loop_value _ a va), (a2b_loop_value _ b vb), (a2b_loop_value _ c vc) by done.
  rewrite a2b_loop_last_pad by done.
  rewrite b64_bytes_bits by first [done|eauto using b64_value_bound].
  cbn. by rewrite <- (assoc_L app).
Qed.

(** A group of two characters and two pads. *)
Lemma a2b_loop_group2 out a b c d va vb rest :
  b64_value a = Some va -> b64_value b = Some vb ->
  is_pad c = true -> is_pad d = true ->
  a2b_loop (group_start out) (a :: b :: c :: d :: rest) =
    inr (out ++ take 1 (b64_bytes va vb 0 0)).
Proof.
  intros Ha Hb Hc Hd.
  rewrite (a2b_loop_value _ a va), (a2b_loop_value _ b vb) by done.
  rewrite a2b_loop_first_pad by done. rewrite a2b_loop_last_pad by (cbn; done || lia).
  rewrite b64_bytes_bits by first [done|eauto using b64_value_bound]. by cbn.
Qed.

Lemma padded_cons4 a b c d l :
  padded (a :: b :: c :: d :: l) = if l is [] then is_pad d else padded l.
Proof. by destruct l. Qed.

(** What the reference decodes, the loop decodes to the same bytes; it goes
    on with what follows, unless the text ended with a pad. *)
Lemma a2b_loop_reference l rest out bs :
  b64decode_list l = inr bs ->
  a2b_loop (group_start out) (l ++ rest) =
    if padded l then inr (out ++ bs) else a2b_loop (group_start (out ++ bs)) rest.
Proof.
  remember (length l) as n eqn:Hn. revert l Hn out bs.
  induction n as [n IH] using lt_wf_ind. intros l -> out bs.
  destruct l as [|a [|b [|c [|d l]]]]; [intros [= <-]; by rewrite app_nil_r|done..|].
  cbn [b64decode_list]. rewrite padded_cons4.
  destruct (b64_value a) as [va|] eqn:Ha, (b64_value b) as [vb|] eqn:Hb; try done.
  destruct (is_pad d) eqn:Hd.
  - destruct l; [|done]. destruct (is_pad c) eqn:Hc.
    + intros [= <-]. by apply a2b_loop_group2.
    + destruct (b64_value c) as [vc|] eqn:Hvc; intros [= <-]. by apply a2b_loop_group3.
  - destruct (b64_value c) as [vc|] eqn:Hc, (b64_value d) as [vd|] eqn:Hvd; try done.
    destruct (b64decode_list l) as [|bs'] eqn:Hl; [done|]. intros E.
    assert (bs = b64_bytes va vb vc vd ++ bs') as -> by congruence.
    cbn [app]. rewrite (a2b_loop_group out a b c d va vb vc vd) by done.
    rewrite (IH (length l) ltac:(cbn; lia) l eq_refl _ bs' Hl), (assoc_L app).
    by destruct l.
Qed.

End Reference.

(** ** ASCII *)

Section Ascii.
Implicit Types (c : ascii) (l : list ascii).

Lemma significant_ascii c : significant c = true -> is_ascii c = true.
Proof.
  unfold significant, in_alphabet, is_ascii, is_pad, b64_value. cbn zeta.
  intros [Hp%N.eqb_eq|Hv%bool_decide_eq_true]%orb_true_elim; apply N.ltb_lt; [lia|].
  revert Hv. split_tests; cbn; intros [v Hv]; try done; lia.
Qed.

(** What the reference accepts is made of the alphabet and of pads. *)
Lemma b64decode_list_significant l bs :
  b64decode_list l = inr bs -> forallb significant l = true.
Proof.
  remember (length l) as n eqn:Hn. revert l Hn bs.
  induction n as [n IH] using lt_wf_ind. intros l -> bs.
  destruct l as [|a [|b [|c [|d l]]]]; [done..|]. cbn [b64decode_list forallb].
  destruct (b64_value a) as [va|] eqn:Ha, (b64_value b) as [vb|] eqn:Hb; try done.
  rewrite (significant_value a va), (significant_value b vb) by done.
  destruct (is_pad d) eqn:Hd.
  - rewrite (significant_pad d Hd). destruct l; [|done].
    destruct (is_pad c) eqn:Hc; [by rewrite (significant_pad c Hc)|].
    destruct (b64_value c) as [vc|] eqn:Hvc; [|done]. by rewrite (significant_value c vc).
  - destruct (b64_value c) as [vc|] eqn:Hc, (b64_value d) as [vd|] eqn:Hvd; try done.
    rewrite (significant_value c vc), (significant_value d vd) by done.
    destruct (b64decode_list l) as [|bs'] eqn:Hl; [done|]. intros _.
    by apply (IH (length l) ltac:(cbn; lia) l eq_refl bs').
Qed.

Lemma forallb_significant_ascii l :
  forallb significant l = true -> forallb is_ascii l = true.
Proof.
  rewrite !forallb_forall. intros Hl c Hc. by apply significant_ascii, Hl.
Qed.

Lemma forallb_ascii_filter l :
  forallb is_ascii l = true ->
  forallb is_ascii (filter (fun c => significant c) l) = true.
Proof.
  rewrite !forallb_forall. intros Hl c [_ Hc]%list_elem_of_In%list_elem_of_filter.
  by apply Hl, list_elem_of_In.
Qed.

End Ascii.

(** ** [a2b_base64] and [b64decode] *)

Section Decode.
Implicit Types (l rest : list ascii) (bs : bytes) (s : string).

Lemma a2b_base64_reference l bs : b64decode_list l = inr bs -> a2b_base64 l = inr bs.
Proof.
  intros Hl. unfold a2b_base64. rewrite <- (app_nil_r l).
  change a2b_start with (group_start []). rewrite (a2b_loop_reference l [] [] bs Hl).
  by destruct (padded l).
Qed.

(** What follows the padding is not read. *)
Lemma a2b_base64_padded l rest bs :
  b64decode_list l = inr bs -> padded l = true -> a2b_base64 (l ++ rest) = inr bs.
Proof.
  intros Hl Hp. unfold a2b_base64. change a2b_start with (group_start []).
  by rewrite (a2b_loop_reference l rest [] bs Hl), Hp.
Qed.

Lemma a2b_base64_filter l : a2b_base64 (filter (fun c => significant c) l) = a2b_base64 l.
Proof. apply a2b_loop_filter. Qed.

Lemma a2b_base64_encode bs : a2b_base64 (b64encode_list bs) = inr bs.
Proof. apply a2b_base64_reference, b64decode_encode_list. Qed.

Lemma b64decode_ascii s :
  forallb is_ascii (String.list_ascii_of_string s) = true ->
  b64decode s =
    match a2b_base64 (String.list_ascii_of_string s) with
    | inr bs => inr bs
    | inl msg => inl (PyError BinasciiError msg)
    end.
Proof. intros Hs. unfold b64decode. cbn zeta. by rewrite Hs. Qed.

Lemma b64decode_b64encode bs : b64decode (b64encode bs) = inr bs.
Proof.
  unfold b64encode. rewrite b64decode_ascii; rewrite String.list_ascii_of_string_of_list_ascii.
  - by rewrite a2b_base64_encode.
  - eapply forallb_significant_ascii, b64decode_list_significant, b64decode_encode_list.
Qed.

End Decode.

(** ** How much is written *)

Section Length.
Implicit Types (s : A2b) (l : list ascii) (bs : bytes).

(** From a state of the loop: four bytes of the result take at least three
    characters of the text, those of the group that is being read
    included. *)
Lemma a2b_loop_length s l bs :
  a2b_wf s -> a2b_loop s l = inr bs ->
  (4 * length bs + 4 * written_in_group (quad_pos s)
   <= 4 * length (bin_data s) + 3 * (N.to_nat (quad_pos s) + length l))%nat.
Proof.
  revert s. induction l as [|c l IH]; intros s Hs; cbn [a2b_loop length].
  { destruct (a2b_wf_cases s Hs) as [Hq|[Hq|[Hq|Hq]]]; rewrite Hq; cbn; [|done..].
    intros [= <-]. lia. }
  destruct (is_pad c).
  - destruct (N.leb_spec 2 (quad_pos s)) as [Hq|Hq];
      [destruct (N.leb_spec 4 (quad_pos s + (pads s + 1)))|].
    + intros [= <-]. destruct (a2b_wf_cases s Hs) as [Hq'|[Hq'|[Hq'|Hq']]];
        rewrite Hq' in *; cbn; lia.
    + intros Hl. specialize (IH (a2b_pad s) (a2b_pad_wf s Hs) Hl). cbn in IH. lia.
    + intros Hl. specialize (IH s Hs Hl). lia.
  - destruct (b64_value c) as [v|] eqn:Hv.
    + intros Hl. pose proof (b64_value_bound c v Hv) as Hb.
      specialize (IH (a2b_data s v) (a2b_data_wf s v Hs Hb) Hl).
      unfold a2b_data in IH.
      destruct (a2b_wf_cases s Hs) as [Hq|[Hq|[Hq|Hq]]]; rewrite Hq in *;
        cbn in *; rewrite ?length_app in IH; cbn in IH; lia.
    + intros Hl. specialize (IH s Hs Hl). lia.
Qed.

End Length.

(** ** A text without pads *)

Section Unpadded.
Implicit Types (s : A2b) (c : ascii) (l : list ascii) (n : nat).

Lemma in_alphabet_value c : in_alphabet c = true -> exists v, b64_value c = Some v.
Proof. by intros [v Hv]%bool_decide_eq_true; exists v. Qed.

(** The loop over characters of the alphabet is [a2b_read]. *)
Lemma a2b_loop_read s l :
  forallb in_alphabet l = true -> a2b_loop s l = a2b_loop (a2b_read s l) [].
Proof.
  revert s. induction l as [|c l IH]; intros s; [done|]. cbn [forallb].
  intros [[v Hv]%in_alphabet_value Hl]%andb_true_iff.
  rewrite (a2b_loop_value s c v) by done. rewrite IH by done.
  unfold a2b_read. cbn [foldl]. by rewrite Hv.
Qed.

Lemma a2b_after_start : a2b_after 0 a2b_start.
Proof. split; [apply a2b_wf_start|]. by exists 0%nat. Qed.

Lemma a2b_after_data n s v : a2b_after n s -> v < 64 -> a2b_after (S n) (a2b_data s v).
Proof.
  intros [Hs (k & Hn & Hw)] Hv. split; [by apply a2b_data_wf|].
  unfold a2b_data.
  destruct (a2b_wf_cases s Hs) as [Hq|[Hq|[Hq|Hq]]]; rewrite Hq in *;
    [exists k..|exists (S k)]; cbn in *; rewrite ?length_app; cbn; lia.
Qed.

Lemma a2b_after_read n s l :
  a2b_after n s -> forallb in_alphabet l = true ->
  a2b_after (n + length l) (a2b_read s l).
Proof.
  revert n s. induction l as [|c l IH]; intros n s Hs; cbn [forallb length].
  { intros _. by rewrite Nat.add_0_r. }
  intros [[v Hv]%in_alphabet_value Hl]%andb_true_iff.
  replace (n + S (length l))%nat with (S n + length l)%nat by lia.
  unfold a2b_read. cbn [foldl]. rewrite Hv. apply IH; [|done].
  by eapply a2b_after_data, b64_value_bound.
Qed.

Lemma mod4_after (k q : nat) : (q < 4)%nat -> ((4 * k + q) mod 4)%nat = q.
Proof. intros Hq. symmetry. apply (Nat.mod_unique _ 4 k q); lia. Qed.

(** A text of the alphabet alone is decoded when it is made of whole
    groups, and refused otherwise: a group is not completed for it. *)
Lemma a2b_base64_unpadded l :
  forallb in_alphabet l = true ->
  a2b_base64 l =
    match (length l mod 4)%nat with
    | 0%nat => inr (bin_data (a2b_read a2b_start l))
    | 1%nat => inl (invalid_length_message (length l))
    | _ => inl incorrect_padding
    end.
Proof.
  intros Hl. unfold a2b_base64. rewrite a2b_loop_read by done.
  destruct (a2b_after_read 0 a2b_start l a2b_after_start Hl) as [Hs (k & Hn & Hw)].
  cbn [Nat.add] in Hn. rewrite Hn. cbn [a2b_loop].
  destruct (a2b_wf_cases _ Hs) as [Hq|[Hq|[Hq|Hq]]]; rewrite Hq in *;
    cbn [N.eqb Pos.eqb N.to_nat Pos.to_nat Pos.iter_op Nat.add written_in_group] in *;
    rewrite mod4_after by lia; [done| |done..].
  unfold invalid_length. rewrite Hw, Nat.add_0_r, (Nat.mul_comm 3 k), Nat.div_mul by done.
  do 2 f_equal. lia.
Qed.

Lemma in_alphabet_significant l :
  forallb in_alphabet l = true -> forallb significant l = true.
Proof.
  rewrite !forallb_forall. intros Hl c Hc. unfold significant. rewrite (Hl c Hc).
  apply orb_true_r.
Qed.

End Unpadded.

(** ** What [b64decode] takes and what it refuses *)

Section Lenient.
Implicit Types (l good rest : list ascii) (bs : bytes).

(** The text is read for its characters of the alphabet and its pads, and
    no further than the padding. *)
Lemma b64decode_lenient l good rest bs :
  forallb is_ascii l = true ->
  filter (fun c => significant c) l = good ++ rest ->
  b64decode_list good = inr bs ->
  rest = [] \/ padded good = true ->
  b64decode (String.string_of_list_ascii l) = inr bs.
Proof.
  intros Ha Hf Hg Hr.
  rewrite b64decode_ascii; rewrite String.list_ascii_of_string_of_list_ascii; [|done].
  rewrite <- a2b_base64_filter, Hf. destruct Hr as [-> |Hp].
  - by rewrite app_nil_r, (a2b_base64_reference good bs).
  - by rewrite (a2b_base64_padded good rest bs).
Qed.

Lemma b64decode_unpadded l :
  forallb in_alphabet l = true -> (length l mod 4)%nat <> 0%nat ->
  b64decode (String.string_of_list_ascii l) =
    inl (PyError BinasciiError
           (if decide ((length l mod 4)%nat = 1%nat)
            then invalid_length_message (length l) else incorrect_padding)).
Proof.
  intros Hl Hn.
  rewrite b64decode_ascii; rewrite String.list_ascii_of_string_of_list_ascii;
    [|by apply forallb_significant_ascii, in_alphabet_significant].
  rewrite a2b_base64_unpadded by done.
  by destruct (length l mod 4)%nat as [|[|[|]]].
Qed.

End Lenient.

(** ** The buffer of the result *)

Section Buffer.
Implicit Types (l : list ascii) (bs : bytes).

(** Four bytes of the result take at least three characters of the text:
    the result fits the buffer of [((ascii_len + 3) / 4) * 3] bytes that
    [a2b_base64] allocates before the loop. *)
Lemma a2b_base64_length l bs :
  a2b_base64 l = inr bs ->
  (4 * length bs <= 3 * length l)%nat /\ (length bs <= (length l + 3) / 4 * 3)%nat.
Proof.
  intros Hl. pose proof (a2b_loop_length a2b_start l bs a2b_wf_start Hl) as Hb.
  cbn in Hb. split; [lia|]. pose proof (Nat.div_mod_eq (length l + 3) 4).
  pose proof (Nat.mod_upper_bound (length l + 3) 4 ltac:(done)).
  set (q := ((length l + 3) / 4)%nat) in *. set (r := ((length l + 3) mod 4)%nat) in *.
  clearbody q r. lia.
Qed.

(** Every byte that the loop stores is stored whole: the bits left of the
    last character and those of the next one fill eight bits and no more. *)
Lemma stored_whole (bound sh1 sh2 : N) :
  forallb (fun a => forallb (fun b => (bound <=? a) ||
                                      (N.lor (N.shiftl a sh1) (N.shiftr b sh2) <? 256))
                      (N.of_nat <$> seq 0 64)) (N.of_nat <$> seq 0 64) = true ->
  forall a b, a < bound -> a < 64 -> b < 64 ->
    N.lor (N.shiftl a sh1) (N.shiftr b sh2) < 256.
Proof.
  intros Hall a b Ha Ha' Hb.
  pose proof (below_forallb2 64 _ Hall a b Ha' Hb) as H. cbn beta in H.
  apply orb_true_iff in H as [H|H]; [apply N.leb_le in H; lia | by apply N.ltb_lt].
Qed.

Lemma a2b_data_stored s v :
  a2b_wf s -> v < 64 ->
  N.lor (N.shiftl (leftchar s) (2 * quad_pos s)) (N.shiftr v (6 - 2 * quad_pos s)) < 256.
Proof.
  intros [Hq Hl] Hv.
  assert (quad_pos s = 0 \/ quad_pos s = 1 \/ quad_pos s = 2 \/ quad_pos s = 3)
    as [Hs|[Hs|[Hs|Hs]]] by lia; rewrite Hs in *.
  - apply (stored_whole 1); [by vm_compute|lia..].
  - apply (stored_whole 64); [by vm_compute|lia..].
  - apply (stored_whole 16); [by vm_compute|lia..].
  - apply (stored_whole 4); [by vm_compute|lia..].
Qed.

End Buffer.
