(* ===== verification/Fixtures.v ===== *)
(** * Fixtures: concrete platforms, providers and worlds

    The theorems of the development hold for every [Platform] and every
    [Upstream].  Their witnesses need particular ones; this file builds them:
    a platform that forwards the four identity headers of Open WebUI,
    providers that answer from a script, and the responses and worlds the
    scenarios of the specification use. *)

From S2P Require Import Prelude PyStr Json Effects Base64.

(** ** A platform *)

Definition alice : User :=
  {| user_id := "u-1"; user_name := "Alice"; user_email := "alice@example.org";
     user_role := "user" |}.

(** [include_user_info_headers] as Open WebUI defines it: the given headers
    plus the user's name, id, email and role. *)
Definition identity_headers (headers : gmap string string) (user : User)
  : gmap string string :=
  <["X-OpenWebUI-User-Role" := user_role user]>
    (<["X-OpenWebUI-User-Email" := user_email user]>
      (<["X-OpenWebUI-User-Id" := user_id user]>
        (<["X-OpenWebUI-User-Name" := user_name user]> headers))).

Lemma identity_headers_keeps (h : gmap string string) (u : User) (k : string) :
  k = "Authorization" \/ k = "Content-Type" -> identity_headers h u !! k = h !! k.
Proof.
  unfold identity_headers. intros [-> | ->]; by repeat (rewrite lookup_insert_ne by done).
Qed.

(** A transport that delivers a body in pieces of [chunk_size] bytes, the
    last one possibly shorter.  [fuel] bounds the number of pieces; the
    length of the body is enough. *)
Fixpoint slices_go (fuel chunk_size : nat) (content : bytes) : list bytes :=
  match fuel with
  | O => []
  | S fuel' =>
      match content with
      | [] => []
      | _ :: _ =>
          take chunk_size content :: slices_go fuel' chunk_size (drop chunk_size content)
      end
  end.

Definition slices (chunk_size : nat) (r : Response) : list bytes :=
  slices_go (length (resp_content r)) chunk_size (resp_content r).

Lemma concat_slices_go (fuel n : nat) (content : bytes) :
  (0 < n)%nat -> (length content <= fuel)%nat -> concat (slices_go fuel n content) = content.
Proof.
  intros Hn. revert content. induction fuel as [|fuel IH]; intros content Hl.
  - destruct content; [done | simpl in Hl; lia].
  - destruct content as [|b content]; [done|]. cbn [slices_go concat].
    rewrite IH; [apply take_drop|]. rewrite length_drop. simpl in *. lia.
Qed.

Lemma concat_slices (n : nat) (r : Response) :
  (0 < n)%nat -> concat (slices n r) = resp_content r.
Proof. intros Hn. by apply concat_slices_go. Qed.

(** [repr] of a container, abridged to its type: the scenarios never print
    one. *)
Definition type_repr : PyRepr := fun v => "<" +:+ type_name v +:+ ">".

(** The platform, with identity forwarding switched on or off and the given
    log levels; a logger without a level of its own is at WARNING, the
    default of the root logger, the cache is at /app/backend/data/cache, and
    a streamed body arrives in full pieces. *)
Definition platform_with (forwarding : bool) (levels : gmap string Z) : Platform :=
  {| platform_repr := type_repr;
     ENABLE_FORWARD_USER_INFO_HEADERS := forwarding;
     include_user_info_headers := identity_headers;
     include_user_info_headers_keeps := identity_headers_keeps;
     SRC_LOG_LEVELS := levels;
     inherited_level := 30;
     CACHE_DIR := ["cache"; "data"; "backend"; "app"];
     iter_content := slices;
     iter_content_body := concat_slices |}.

(** The platform in which no level is set for the module: its logger is at
    INFO. *)
Definition platform (forwarding : bool) : Platform := platform_with forwarding ∅.

(** ** Providers *)

(** What a scripted provider answers once its script is exhausted. *)
Definition hung_up : Exchange :=
  {| latency := 0; outcome := ConnectionFailed "Connection aborted." |}.

(** The provider that answers the [n]-th request with the [n]-th exchange of
    [script], whatever the request. *)
Definition scripted (script : list Exchange) : Upstream :=
  fun n _ => nth n script hung_up.

(** A response with a JSON body. *)
Definition json_response (code : Z) (reason : string) (v : JSON) : Response :=
  {| status_code := code;
     reason := reason;
     resp_url := "https://api.openai.com/v1/videos";
     resp_headers := <["content-type" := "application/json"]> ∅;
     resp_json := inr v;
     resp_content := [];
     resp_broken := None |}.

(** The exchange that delivers [r] after [ms] ticks. *)
Definition reply (ms : N) (r : Response) : Exchange :=
  {| latency := ms; outcome := Replied r |}.

(** A job object as the provider reports it. *)
Definition job (id status : string) : JSON :=
  JDict (<["status" := JStr status]> (<["id" := JStr id]> ∅)).

(** A finished job, with the fields the blocking mode copies. *)
Definition finished_job (id model size seconds : string) : JSON :=
  JDict (<["seconds" := JStr seconds]>
          (<["size" := JStr size]>
            (<["model" := JStr model]>
              (<["status" := JStr "completed"]> (<["id" := JStr id]> ∅))))).

(** A failed job with its error. *)
Definition failed_job (id : string) (error : JSON) : JSON :=
  JDict (<["error" := error]> (<["status" := JStr "failed"]> (<["id" := JStr id]> ∅))).

(** A successful answer with a JSON body, delivered at once. *)
Definition answers (v : JSON) : Exchange := reply 0 (json_response 200 "OK" v).

(** The provider that keeps every job in progress and answers at once. *)
Definition stalling : Upstream :=
  fun _ _ => answers (job "v1" "in_progress").

(** The provider that reports job v1 in progress twice, each answer taking
    100 ticks, and completed on the third poll. *)
Definition patient : Upstream :=
  scripted [reply 100 (json_response 200 "OK" (job "v1" "in_progress"));
            reply 100 (json_response 200 "OK" (job "v1" "in_progress"));
            reply 100 (json_response 200 "OK" (finished_job "v1" "sora-2" "1920x1080" "4"))].

(** The provider of the end-to-end scenario of the specification: it accepts
    the job as queued and reports it completed on the first poll. *)
Definition prompt_service : Upstream :=
  scripted [answers (job "v1" "queued");
            answers (finished_job "v1" "sora-2" "1920x1080" "4")].

(** The provider that reports job v1 failed for lack of quota. *)
Definition out_of_quota : Upstream :=
  scripted [answers (failed_job "v1" (JStr "quota exceeded"))].

(** The provider that cannot be reached. *)
Definition unreachable : Upstream := scripted [].

(** The provider that accepts a job without naming it. *)
Definition nameless : Upstream := scripted [answers (JDict ∅)].

(** A finished clip as the provider serves it: no content type named. *)
Definition clip : Response :=
  {| status_code := 200;
     reason := "OK";
     resp_url := "https://api.openai.com/v1/videos/v1/content";
     resp_headers := ∅;
     resp_json := inl "Expecting value: line 1 column 1 (char 0)";
     resp_content := String.list_ascii_of_string "ftypisom";
     resp_broken := None |}.

(** The provider that serves the clip. *)
Definition serving : Upstream := scripted [reply 0 clip].

(** The answer for a job the provider does not know. *)
Definition not_found : Response :=
  json_response 404 "Not Found" (JDict (<["error" := JStr "No such video"]> ∅)).

(** The provider that knows no job. *)
Definition forgetful : Upstream := scripted [reply 0 not_found].

(** The provider that answers a listing or a deletion of job v1. *)
Definition listing : Upstream :=
  scripted [answers (JDict (<["data" := JList [job "v1" "completed"]]> ∅))].

(** The provider that accepts every job as v1, queued. *)
Definition accepting : Upstream :=
  scripted [reply 0 (json_response 200 "OK" (job "v1" "queued"))].

(** The file part of the data URI ["data:image/png;base64,aGk="]. *)
Definition png_part : FilePart :=
  {| file_name := "reference.png";
     file_content := String.list_ascii_of_string "hi";
     file_mime := "image/png" |}.

(** The answer of a provider whose rate limit was reached. *)
Definition throttled : Response :=
  json_response 429 "Too Many Requests"
    (JDict (<["error" := JDict (<["message" := JStr "Rate limit reached"]> ∅)]> ∅)).

Definition throttling : Upstream := scripted [reply 0 throttled].

(** ** Worlds *)

(** A store in which only the API key was set. *)
Definition key_only (key : string) : gmap string JSON :=
  setattr ∅ "VIDEOS_OPENAI_API_KEY" (JStr key).

(** The world at time zero with nothing sent yet. *)
Definition fresh (config : gmap string JSON) : World :=
  {| app_config := config; now := 0; sent := []; logged := [] |}.

(** The world of a deployment in which the API key was set and nothing
    happened yet. *)
Definition ready : World := fresh (key_only "sk-test").

(** The platform with the forwarding of user information switched on. *)
Definition forwarding : Platform := platform true.

(** The same with the log of the module at CRITICAL. *)
Definition muted : Platform := platform_with true {["VIDEOS" := 50%Z]}.

(** * Properties *)

Lemma scripted_nth (script : list Exchange) (n : nat) (req : HttpRequest) :
  @upstream_reply (scripted script) n req = nth n script hung_up.
Proof. done. Qed.

Lemma scripted_app_r (l1 l2 : list Exchange) (n : nat) (req : HttpRequest) :
  @upstream_reply (scripted (l1 ++ l2)) (length l1 + n) req =
  @upstream_reply (scripted l2) n req.
Proof.
  unfold upstream_reply, scripted. rewrite app_nth2 by lia. f_equal. lia.
Qed.

Lemma json_response_ok (code : Z) (reason : string) (v : JSON) :
  (200 <= code < 300)%Z -> http_error_msg (json_response code reason v) = None.
Proof. intros Hc. apply http_error_msg_ok. simpl. lia. Qed.
