(* ===== verification/Config.v ===== *)
(** * Config: the provider configuration and the handlers that expose it

    Models [class VideosConfig], [get_config] (GET /config), [update_config]
    (POST /config/update) and [get_models] (GET /models) of [videos.py].

    The configuration lives in [request.app.state.config], an object whose
    attributes are read with [getattr(..., default)]: an attribute that was
    never set reads as its default.  The object is modelled as the attribute
    store [app_config] of the world; [VideosConfig] is the validated record
    that FastAPI builds from a request body and checks a response against. *)

From S2P Require Import Prelude PyStr Json Effects.

#[local] Open Scope videos_scope.

(** [class VideosConfig(BaseModel)] *)
Record VideosConfig := {
  ENABLE_VIDEO_GENERATION : bool;
  VIDEO_GENERATION_ENGINE : string;
  VIDEO_GENERATION_MODEL : string;
  VIDEO_DURATION : option string;
  VIDEO_SIZE : option string;
  VIDEO_QUALITY : option string;
  VIDEOS_OPENAI_API_BASE_URL : string;
  VIDEOS_OPENAI_API_KEY : string }.

(** The dict that [get_config] returns, from the attribute store: each
    attribute, or its default when it was never set. *)
Definition config_dict (config : gmap string JSON) : gmap string JSON :=
  list_to_map [
    ("ENABLE_VIDEO_GENERATION", getattr config "ENABLE_VIDEO_GENERATION" (JBool false));
    ("VIDEO_GENERATION_ENGINE", getattr config "VIDEO_GENERATION_ENGINE" (JStr "openai"));
    ("VIDEO_GENERATION_MODEL", getattr config "VIDEO_GENERATION_MODEL" (JStr "sora-2"));
    ("VIDEO_DURATION", getattr config "VIDEO_DURATION" (JStr "4"));
    ("VIDEO_SIZE", getattr config "VIDEO_SIZE" (JStr "1920x1080"));
    ("VIDEO_QUALITY", getattr config "VIDEO_QUALITY" (JStr "standard"));
    ("VIDEOS_OPENAI_API_BASE_URL",
       getattr config "VIDEOS_OPENAI_API_BASE_URL" (JStr "https://api.openai.com/v1"));
    ("VIDEOS_OPENAI_API_KEY", getattr config "VIDEOS_OPENAI_API_KEY" (JStr ""))
  ].

(** [get_config]: GET /config. *)
Definition get_config (user : User) : M (gmap string JSON) :=
  config ← read_config;
  mret (config_dict config).

(** The eight assignments of [update_config]. *)
Definition assign_config (form_data : VideosConfig) (config : gmap string JSON)
  : gmap string JSON :=
  let config := setattr config "ENABLE_VIDEO_GENERATION"
                  (JBool (ENABLE_VIDEO_GENERATION form_data)) in
  let config := setattr config "VIDEO_GENERATION_ENGINE"
                  (JStr (VIDEO_GENERATION_ENGINE form_data)) in
  let config := setattr config "VIDEO_GENERATION_MODEL"
                  (JStr (VIDEO_GENERATION_MODEL form_data)) in
  let config := setattr config "VIDEO_DURATION" (of_opt_str (VIDEO_DURATION form_data)) in
  let config := setattr config "VIDEO_SIZE" (of_opt_str (VIDEO_SIZE form_data)) in
  let config := setattr config "VIDEO_QUALITY" (of_opt_str (VIDEO_QUALITY form_data)) in
  let config := setattr config "VIDEOS_OPENAI_API_BASE_URL"
                  (JStr (VIDEOS_OPENAI_API_BASE_URL form_data)) in
  setattr config "VIDEOS_OPENAI_API_KEY" (JStr (VIDEOS_OPENAI_API_KEY form_data)).

(** [update_config]: POST /config/update. *)
Definition update_config (form_data : VideosConfig) (user : User) : M (gmap string JSON) :=
  config ← read_config;
  write_config (assign_config form_data config);;
  get_config user.

(** [get_models]: GET /models. *)
Definition get_models (user : User) : M JSON :=
  config ← read_config;
  let engine := getattr config "VIDEO_GENERATION_ENGINE" (JStr "openai") in
  if json_eq_str engine "openai" then
    mret (JList [
      JDict (list_to_map [("id", JStr "sora-2"); ("name", JStr "Sora 2")]);
      JDict (list_to_map [("id", JStr "sora-2-pro"); ("name", JStr "Sora 2 Pro")])
    ])
  else mret (JList []).

(** The two guards the other handlers put on the configuration: the engine
    is the supported one, and an API key is set. *)
Definition engine_ok (config : gmap string JSON) : bool :=
  json_eq_str (getattr config "VIDEO_GENERATION_ENGINE" (JStr "openai")) "openai".

Definition api_key_ok (config : gmap string JSON) : bool :=
  json_truthy (getattr config "VIDEOS_OPENAI_API_KEY" (JStr "")).

(** ** Validation against [VideosConfig] *)

Definition as_bool (v : JSON) : option bool :=
  match v with JBool b => Some b | _ => None end.

Definition as_str (v : JSON) : option string :=
  match v with JStr s => Some s | _ => None end.

Definition as_opt_str (v : JSON) : option (option string) :=
  match v with JStr s => Some (Some s) | JNull => Some None | _ => None end.

(** [response_model=VideosConfig]: the record a dict validates to, when
    every field is there with its declared type.  The reading is strict: the
    coercions of the validation library (a 0 or a 1 taken for a bool) are
    not modelled, so what validates here validates there, not the
    converse. *)
Definition validate_VideosConfig (d : gmap string JSON) : option VideosConfig :=
  enable ← d !! "ENABLE_VIDEO_GENERATION" ≫= as_bool;
  engine ← d !! "VIDEO_GENERATION_ENGINE" ≫= as_str;
  model ← d !! "VIDEO_GENERATION_MODEL" ≫= as_str;
  duration ← d !! "VIDEO_DURATION" ≫= as_opt_str;
  size ← d !! "VIDEO_SIZE" ≫= as_opt_str;
  quality ← d !! "VIDEO_QUALITY" ≫= as_opt_str;
  base_url ← d !! "VIDEOS_OPENAI_API_BASE_URL" ≫= as_str;
  api_key ← d !! "VIDEOS_OPENAI_API_KEY" ≫= as_str;
  Some {| ENABLE_VIDEO_GENERATION := enable;
          VIDEO_GENERATION_ENGINE := engine;
          VIDEO_GENERATION_MODEL := model;
          VIDEO_DURATION := duration;
          VIDEO_SIZE := size;
          VIDEO_QUALITY := quality;
          VIDEOS_OPENAI_API_BASE_URL := base_url;
          VIDEOS_OPENAI_API_KEY := api_key |}.

(** The attribute store is well typed when what [get_config] reads from it
    passes the response model. *)
Definition config_typed (config : gmap string JSON) : Prop :=
  is_Some (validate_VideosConfig (config_dict config)).

(** The configuration as a record, with the defaults of [get_config]. *)
Definition defaults : VideosConfig :=
  {| ENABLE_VIDEO_GENERATION := false;
     VIDEO_GENERATION_ENGINE := "openai";
     VIDEO_GENERATION_MODEL := "sora-2";
     VIDEO_DURATION := Some "4";
     VIDEO_SIZE := Some "1920x1080";
     VIDEO_QUALITY := Some "standard";
     VIDEOS_OPENAI_API_BASE_URL := "https://api.openai.com/v1";
     VIDEOS_OPENAI_API_KEY := "" |}.

(** The form as the dict [get_config] answers with once it has been stored. *)
Definition form_dict (form_data : VideosConfig) : gmap string JSON :=
  list_to_map [
    ("ENABLE_VIDEO_GENERATION", JBool (ENABLE_VIDEO_GENERATION form_data));
    ("VIDEO_GENERATION_ENGINE", JStr (VIDEO_GENERATION_ENGINE form_data));
    ("VIDEO_GENERATION_MODEL", JStr (VIDEO_GENERATION_MODEL form_data));
    ("VIDEO_DURATION", of_opt_str (VIDEO_DURATION form_data));
    ("VIDEO_SIZE", of_opt_str (VIDEO_SIZE form_data));
    ("VIDEO_QUALITY", of_opt_str (VIDEO_QUALITY form_data));
    ("VIDEOS_OPENAI_API_BASE_URL", JStr (VIDEOS_OPENAI_API_BASE_URL form_data));
    ("VIDEOS_OPENAI_API_KEY", JStr (VIDEOS_OPENAI_API_KEY form_data))
  ].

(** The stores that the admin can bring about: the one in which nothing was
    set, and what an update makes of such a store. *)
Inductive updated : gmap string JSON -> Prop :=
| updated_never : updated ∅
| updated_again form_data config :
    updated config -> updated (assign_config form_data config).

(** * Properties *)

(** [getattr_assign]: read one attribute back from [assign_config]. *)
Ltac getattr_assign :=
  unfold assign_config, getattr, setattr;
  repeat (rewrite lookup_insert_ne by done); by rewrite lookup_insert_eq.

Section ConfigFacts.
Implicit Types (config : gmap string JSON) (form_data : VideosConfig)
  (user : User) (w : World).

(** Reading back what [update_config] wrote gives the form's values, with no
    default left in play, whatever the store held before. *)
Lemma config_dict_assign form_data config :
  config_dict (assign_config form_data config) = form_dict form_data.
Proof. unfold config_dict, form_dict. repeat f_equal; getattr_assign. Qed.

Lemma validate_form_dict form_data :
  validate_VideosConfig (form_dict form_data) = Some form_data.
Proof. by destruct form_data as [en eng mdl [dur|] [sz|] [ql|] url key]. Qed.

(** A store in which nothing was ever set reads as the defaults. *)
Lemma config_dict_empty : validate_VideosConfig (config_dict ∅) = Some defaults.
Proof. reflexivity. Qed.

Lemma config_typed_empty : config_typed ∅.
Proof. unfold config_typed. rewrite config_dict_empty. eauto. Qed.

Lemma config_typed_assign form_data config : config_typed (assign_config form_data config).
Proof. unfold config_typed. rewrite config_dict_assign, validate_form_dict. eauto. Qed.

Lemma run_get_config user w : get_config user w = (Ok (config_dict (app_config w)), w).
Proof. done. Qed.

Lemma run_update_config form_data user w :
  update_config form_data user w =
    (Ok (config_dict (assign_config form_data (app_config w))),
     {| app_config := assign_config form_data (app_config w);
        now := now w; sent := sent w; logged := logged w |}).
Proof. done. Qed.

(** An attribute that [update_config] does not assign is left as it was. *)
Lemma assign_config_other form_data config name :
  name ∉ [ "ENABLE_VIDEO_GENERATION"; "VIDEO_GENERATION_ENGINE";
           "VIDEO_GENERATION_MODEL"; "VIDEO_DURATION"; "VIDEO_SIZE";
           "VIDEO_QUALITY"; "VIDEOS_OPENAI_API_BASE_URL";
           "VIDEOS_OPENAI_API_KEY" ] ->
  assign_config form_data config !! name = config !! name.
Proof.
  intros Hn. unfold assign_config, setattr.
  repeat (rewrite lookup_insert_ne; [|intros <-; apply Hn; set_solver]). done.
Qed.

(** [update_config] overlays the form's eight values on the store. *)
Lemma assign_config_union form_data config :
  assign_config form_data config = assign_config form_data ∅ ∪ config.
Proof.
  unfold assign_config, setattr. rewrite <- !insert_union_l. by rewrite (left_id ∅ _).
Qed.

(** [update_config] is idempotent on the store. *)
Lemma assign_config_idem form_data config :
  assign_config form_data (assign_config form_data config) = assign_config form_data config.
Proof.
  rewrite (assign_config_union _ (assign_config _ _)), (assign_config_union _ config).
  by rewrite (assoc_L _), (idemp_L _).
Qed.

Lemma offline_get_config user : offline (get_config user).
Proof. done. Qed.

Lemma offline_update_config form_data user : offline (update_config form_data user).
Proof. done. Qed.

Lemma offline_get_models user : offline (get_models user).
Proof. intros w. unfold get_models. rewrite run_bind. simpl. by split_branch. Qed.

Lemma inert_get_config user : inert (get_config user).
Proof. done. Qed.

Lemma inert_get_models user : inert (get_models user).
Proof. unfold get_models. effects. Qed.

Lemma total_get_config user : total (get_config user).
Proof. done. Qed.

Lemma total_update_config form_data user : total (update_config form_data user).
Proof. done. Qed.

Lemma total_get_models user : total (get_models user).
Proof. intros w. unfold get_models. rewrite run_bind. simpl. by split_branch. Qed.

Lemma forward_get_config user : forward (get_config user).
Proof. intros w. reflexivity. Qed.

Lemma forward_get_models user : forward (get_models user).
Proof. intros w. unfold get_models. rewrite run_bind. simpl. split_branch; reflexivity. Qed.

(** [get_models] lists the two Sora models for the engine "openai" (also when
    no engine was ever configured) and nothing for any other engine. *)
Lemma get_models_openai user w :
  getattr (app_config w) "VIDEO_GENERATION_ENGINE" (JStr "openai") = JStr "openai" ->
  exists l, get_models user w = (Ok (JList l), w) /\ length l = 2%nat.
Proof.
  intros E. unfold get_models. rewrite run_bind. simpl. rewrite E. simpl.
  eexists. split; [done|]. done.
Qed.

Lemma get_models_other user w :
  getattr (app_config w) "VIDEO_GENERATION_ENGINE" (JStr "openai") <> JStr "openai" ->
  get_models user w = (Ok (JList []), w).
Proof.
  intros E. unfold get_models. rewrite run_bind. simpl.
  destruct (json_eq_str _ _) eqn:Heq; [|done].
  by apply json_eq_str_spec in Heq.
Qed.

End ConfigFacts.

#[export] Hint Resolve offline_get_config offline_update_config offline_get_models
  forward_get_config forward_get_models total_get_config total_update_config
  total_get_models inert_get_config inert_get_models : videos.

(** * The properties of the configuration handlers *)

Section ConfigClaims.
Implicit Types (config : gmap string JSON) (form_data : VideosConfig)
  (user : User) (w : World).

(** An update is read back: [update_config] stores the eight values of
    the form and answers with them, a [get_config] that follows answers the
    same, the answer passes the response model as the form itself, and
    neither the clock nor the record of requests is touched. *)
Theorem update_config_roundtrip form_data user w :
  let w' := (update_config form_data user w).2 in
  update_config form_data user w = (Ok (form_dict form_data), w')
  /\ get_config user w' = (Ok (form_dict form_data), w')
  /\ validate_VideosConfig (form_dict form_data) = Some form_data
  /\ now w' = now w /\ sent w' = sent w.
Proof.
  intros w'. subst w'. rewrite run_update_config, run_get_config. cbn [snd app_config].
  rewrite config_dict_assign. split_and!; auto using validate_form_dict.
Qed.

(** The configuration stays well typed: whatever sequence of updates the
    store has seen, what [get_config] reads from it passes the response
    model [VideosConfig]. *)
Theorem updated_config_typed config : updated config -> config_typed config.
Proof.
  induction 1; [apply config_typed_empty | apply config_typed_assign].
Qed.

(** An update is idempotent: sending the same form twice leaves the
    store, and the answer, as after the first time. *)
Theorem update_config_idempotent form_data user w :
  let w' := (update_config form_data user w).2 in
  update_config form_data user w' = (Ok (form_dict form_data), w').
Proof.
  intros w'. subst w'. rewrite !run_update_config. cbn [snd app_config now sent].
  by rewrite assign_config_idem, config_dict_assign.
Qed.

(** C: [get_models] lists the two Sora models when the engine is "openai",
    which it is when no engine was ever set, and nothing for any other
    engine; it changes nothing. *)
Theorem get_models_by_engine user w :
  get_models user w =
    (Ok (if engine_ok (app_config w)
         then JList [JDict (list_to_map [("id", JStr "sora-2"); ("name", JStr "Sora 2")]);
                     JDict (list_to_map [("id", JStr "sora-2-pro");
                                         ("name", JStr "Sora 2 Pro")])]
         else JList []), w).
Proof.
  unfold get_models, engine_ok. rewrite run_bind. cbn [read_config].
  by destruct (json_eq_str _ _).
Qed.

End ConfigClaims.

(** * The properties at concrete runs *)

Lemma updated_config_typed_witness :
  config_typed (assign_config defaults (assign_config defaults ∅)).
Proof.
  apply (updated_config_typed (assign_config defaults (assign_config defaults ∅))).
  apply updated_again, updated_again, updated_never.
Defined.
