(* ===== verification/Submission.v ===== *)
(** * Submission: POST /generations

    Models [class CreateVideoForm] and the handler [video_generations] of
    [videos.py]: the two configuration guards, the defaults taken from the
    configuration, the request headers and body, the treatment of
    [input_reference] (inline data URI, URL, or anything else), the choice
    between a JSON and a multipart request, the translation of upstream
    failures into [HTTPException]s, and what the handler writes to the log
    ([log.info] for a job that was accepted, [log.exception] for a failure
    that becomes a 500).  The payload of a data URI is decoded by
    [Binascii.b64decode]; what the handler does with a payload that is
    damaged, unpadded or in another alphabet follows from the lemmas of
    that file. *)

From S2P Require Import Prelude PyStr Json Effects Base64 Binascii Fixtures Config.
From Stdlib Require Import Ascii.

#[local] Open Scope videos_scope.

(** [class CreateVideoForm(BaseModel)] *)
Record CreateVideoForm := {
  form_model : option string;
  form_prompt : string;
  form_input_reference : option string;
  form_seconds : option string;
  form_size : option string;
  form_quality : option string;
  form_n : Z }.

(** [del d[key]] *)
Definition py_del (d : gmap string string) (key : string) : M (gmap string string) :=
  match d !! key with
  | Some _ => mret (delete key d)
  | None => raise (PyError KeyError ("'" +:+ key +:+ "'"))
  end.

(** [bool(files)] for [files] that is [None] or a dict. *)
Definition files_truthy (files : option (gmap string FilePart)) : bool :=
  match files with
  | Some fs => negb (size fs =? 0)%nat
  | None => false
  end.

(** The message of the failed unpacking [header, encoded = [x]]. *)
Definition unpack_error : string := "not enough values to unpack (expected 2, got 1)".

Definition engine_error : JSON :=
  JStr "Only OpenAI (Sora) video generation is currently supported.".

Definition api_key_error : JSON :=
  JStr "Video generation API key is not configured. Please set it in Admin Settings > Videos.".

(** The detail of the [HTTPException] raised for an [HTTPError] [e]: the
    [error.message] of the response body when the body is a JSON object whose
    ["error"] is an object, else [str(e)]. *)
Definition error_detail (str_e : string) (response : Response) : JSON :=
  match resp_json response with
  | inr (JDict error_data) =>
      match error_data !! "error" with
      | Some (JDict err) => default (JStr str_e) (err !! "message")
      | _ => JStr str_e
      end
  | _ => JStr str_e
  end.

Section Submission.
Context {P : Platform} {U : Upstream}.

(** The headers of the outbound request, before the reference is looked at. *)
Definition build_headers (api_key : JSON) (user : User) : gmap string string :=
  let headers : gmap string string :=
    <["Content-Type" := "application/json"]>
      (<["Authorization" := "Bearer " +:+ py_str api_key]> ∅) in
  if ENABLE_FORWARD_USER_INFO_HEADERS
  then include_user_info_headers headers user
  else headers.

(** The request data: the form's values, each falling back to the
    configuration when the form leaves it out (or gives an empty string). *)
Definition build_data (config : gmap string JSON) (form_data : CreateVideoForm)
  : gmap string JSON :=
  let model := json_or (of_opt_str (form_model form_data))
                 (getattr config "VIDEO_GENERATION_MODEL" (JStr "sora-2")) in
  let seconds := json_or (of_opt_str (form_seconds form_data))
                   (getattr config "VIDEO_DURATION" (JStr "4")) in
  let size := json_or (of_opt_str (form_size form_data))
                (getattr config "VIDEO_SIZE" (JStr "1920x1080")) in
  let quality := json_or (of_opt_str (form_quality form_data))
                   (getattr config "VIDEO_QUALITY" (JStr "standard")) in
  <["quality" := quality]>
    (<["size" := size]>
      (<["seconds" := seconds]>
        (<["prompt" := JStr (form_prompt form_data)]>
          (<["model" := model]> ∅)))).

(** The file part built from an inline data URI. *)
Definition reference_file (input_reference : string) : M FilePart :=
  match str_split "," (Some 1%nat) input_reference with
  | [header; encoded] =>
      let mime_type := str_lstrip (default "" (head (str_split ";" None header))) "data:" in
      match b64decode encoded with
      | inr image_data =>
          mret {| file_name := "reference.png";
                  file_content := image_data;
                  file_mime := mime_type |}
      | inl e => raise e
      end
  | _ => raise (PyError ValueError unpack_error)
  end.

(** The handling of [input_reference]: what becomes of [files], [headers]
    and [data]. *)
Definition attach_reference (form_data : CreateVideoForm)
    (headers : gmap string string) (data : gmap string JSON)
  : M (option (gmap string FilePart) * gmap string string * gmap string JSON) :=
  let files : option (gmap string FilePart) := None in
  match form_input_reference form_data with
  | Some input_reference =>
      if str_truthy input_reference then
        if str_startswith input_reference "data:" then
          part ← reference_file input_reference;
          let files := Some (<["input_reference" := part]> ∅) in
          headers ← py_del headers "Content-Type";
          mret (files, headers, data)
        else if str_startswith input_reference "http" then
          mret (files, headers, <["input_reference" := JStr input_reference]> data)
        else mret (files, headers, data)
      else mret (files, headers, data)
  | None => mret (files, headers, data)
  end.

(** The outbound request: multipart when there are files, JSON otherwise. *)
Definition post_request (base_url : JSON) (headers : gmap string string)
    (data : gmap string JSON) (files : option (gmap string FilePart)) : HttpRequest :=
  {| req_method := POST;
     req_url := py_str base_url +:+ "/videos";
     req_headers := headers;
     req_params := ∅;
     req_body := if files_truthy files
                 then MultipartBody data (default ∅ files)
                 else JsonBody data;
     req_stream := false |}.

(** The [except] clauses of [video_generations]: the error status of the
    provider is passed on, anything else is logged and becomes a 500. *)
Definition submission_handler (e : Exn) : option (M JSON) :=
  match e with
  | HTTPError msg response =>
      Some (raise (HTTPException (status_code response) (error_detail msg response)))
  | _ =>
      Some (log_exception ("Video generation error: " +:+ exn_str e) e;;
            raise (HTTPException 500 (JStr (exn_str e))))
  end.

(** The [try] block of [video_generations] with its [except] clauses: send,
    check the status, decode the body, log it. *)
Definition send_submission (req : HttpRequest) : M JSON :=
  try_except
    (r ← requests_request req;
     raise_for_status r;;
     result ← response_json r;
     log_info ("Video generation initiated: " +:+ py_str result);;
     mret result)
    submission_handler.

(** [video_generations]: POST /generations. *)
Definition video_generations (form_data : CreateVideoForm) (user : User) : M JSON :=
  config ← read_config;
  let engine := getattr config "VIDEO_GENERATION_ENGINE" (JStr "openai") in
  if negb (json_eq_str engine "openai") then raise (HTTPException 400 engine_error)
  else
    let api_key := getattr config "VIDEOS_OPENAI_API_KEY" (JStr "") in
    if negb (json_truthy api_key) then raise (HTTPException 400 api_key_error)
    else
      let base_url :=
        getattr config "VIDEOS_OPENAI_API_BASE_URL" (JStr "https://api.openai.com/v1") in
      let headers := build_headers api_key user in
      let data := build_data config form_data in
      '(files, headers, data) ← attach_reference form_data headers data;
      send_submission (post_request base_url headers data files).

End Submission.

(** ** Specification of the client boundary *)

(** What the caller of [video_generations] gets for an exchange with the
    provider, as a value: the body of a successful response, the provider's
    status with the extracted message for an error status, and 500 with the
    error text when the call or the decoding fails. *)
Definition submission_result `{PyRepr} (ex : Exchange) : Exn + JSON :=
  match outcome ex with
  | ConnectionFailed msg => inl (HTTPException 500 (JStr msg))
  | Replied r =>
      match http_error_msg r with
      | Some msg => inl (HTTPException (status_code r) (error_detail msg r))
      | None =>
          match resp_json r with
          | inr v => inr v
          | inl msg => inl (HTTPException 500 (JStr msg))
          end
      end
  end.

(** What the [try] block writes to the log for an exchange: the answer of
    the provider to a job that it accepted, at level INFO; the exception, at
    level ERROR, when the call or the decoding fails; nothing for an error
    status of the provider. *)
Definition submission_log `{Platform} (ex : Exchange) : list LogRecord :=
  match outcome ex with
  | ConnectionFailed msg =>
      emitted logging_ERROR ("Video generation error: " +:+ msg)
        (Some (PyError ConnectionError msg))
  | Replied r =>
      match http_error_msg r with
      | Some msg => []
      | None =>
          match resp_json r with
          | inr v => emitted logging_INFO ("Video generation initiated: " +:+ py_str v) None
          | inl msg =>
              emitted logging_ERROR ("Video generation error: " +:+ msg)
                (Some (PyError JSONDecodeError msg))
          end
      end
  end.

(** The world once the [try] block is through with [req]: the request is
    answered and the log has what [submission_log] says. *)
Definition submitted `{Platform} `{Upstream} (w : World) (req : HttpRequest) : World :=
  log_to (submission_log (upstream_reply (length (sent w)) req)) (after_request w req).

(** The request that [video_generations] sends for the given files, headers
    and data under configuration [config]. *)
Definition submission_request `{Platform} (config : gmap string JSON)
    (headers : gmap string string) (data : gmap string JSON)
    (files : option (gmap string FilePart)) : HttpRequest :=
  post_request
    (getattr config "VIDEOS_OPENAI_API_BASE_URL" (JStr "https://api.openai.com/v1"))
    headers data files.

(** The headers [video_generations] starts from under [config]. *)
Definition submission_headers `{Platform} (config : gmap string JSON) (user : User)
  : gmap string string :=
  build_headers (getattr config "VIDEOS_OPENAI_API_KEY" (JStr "")) user.

(** A form that gives a prompt and leaves everything else out. *)
Definition prompt_only (prompt : string) : CreateVideoForm :=
  {| form_model := None; form_prompt := prompt; form_input_reference := None;
     form_seconds := None; form_size := None; form_quality := None; form_n := 1 |}.

(** The same form with a reference. *)
Definition with_reference (prompt ref : string) : CreateVideoForm :=
  {| form_model := None; form_prompt := prompt; form_input_reference := Some ref;
     form_seconds := None; form_size := None; form_quality := None; form_n := 1 |}.

(** * Properties *)

Section SubmissionFacts.
Context {P : Platform} {U : Upstream}.
Implicit Types (w : World) (form_data : CreateVideoForm) (user : User)
  (config : gmap string JSON) (headers : gmap string string)
  (data : gmap string JSON) (req : HttpRequest).

(** *** The try block implements the client-boundary specification *)

Lemma run_send_submission req w :
  send_submission req w =
    (res_of (submission_result (upstream_reply (length (sent w)) req)), submitted w req).
Proof.
  unfold send_submission, submitted, submission_result, submission_log, try_except,
    requests_request.
  rewrite run_bind.
  destruct (outcome _) as [msg|r]; [done|].
  rewrite run_bind. unfold raise_for_status.
  destruct (http_error_msg r) as [msg|]; [by rewrite log_to_nil|].
  rewrite run_ret, run_bind. unfold response_json.
  by destruct (resp_json r).
Qed.

(** The [try] block changes the world by the request and by the log. *)
Lemma sent_submitted req w : sent (submitted w req) = sent w ++ [req].
Proof. done. Qed.

Lemma config_submitted req w : app_config (submitted w req) = app_config w.
Proof. done. Qed.

Lemma now_submitted req w : now (submitted w req) = now (after_request w req).
Proof. done. Qed.

Lemma later_submitted req w : later_world w (submitted w req).
Proof. unfold submitted. etrans; [apply later_after_request|apply later_log_to]. Qed.

(** An error status of the provider leaves no trace in the log. *)
Lemma submitted_error_status req w r msg :
  outcome (upstream_reply (length (sent w)) req) = Replied r ->
  http_error_msg r = Some msg ->
  submitted w req = after_request w req.
Proof. unfold submitted, submission_log. intros -> ->. apply log_to_nil. Qed.

(** *** Headers *)

Lemma build_headers_content_type api_key user :
  build_headers api_key user !! "Content-Type" = Some "application/json".
Proof.
  unfold build_headers. destruct ENABLE_FORWARD_USER_INFO_HEADERS.
  - rewrite include_user_info_headers_keeps by auto. by rewrite lookup_insert_eq.
  - by rewrite lookup_insert_eq.
Qed.

Lemma build_headers_authorization api_key user :
  build_headers api_key user !! "Authorization" = Some ("Bearer " +:+ py_str api_key).
Proof.
  unfold build_headers. destruct ENABLE_FORWARD_USER_INFO_HEADERS.
  - rewrite include_user_info_headers_keeps by auto.
    rewrite lookup_insert_ne by done. by rewrite lookup_insert_eq.
  - rewrite lookup_insert_ne by done. by rewrite lookup_insert_eq.
Qed.

Lemma submission_headers_content_type config user :
  submission_headers config user !! "Content-Type" = Some "application/json".
Proof. apply build_headers_content_type. Qed.

Lemma submission_headers_authorization config user :
  submission_headers config user !! "Authorization" =
    Some ("Bearer " +:+ py_str (getattr config "VIDEOS_OPENAI_API_KEY" (JStr ""))).
Proof. apply build_headers_authorization. Qed.

(** *** The guards *)

Lemma run_video_generations_engine form_data user w :
  engine_ok (app_config w) = false ->
  video_generations form_data user w = (Raise (HTTPException 400 engine_error), w).
Proof.
  unfold engine_ok, video_generations. intros E.
  rewrite run_bind. cbn [read_config]. by rewrite E.
Qed.

Lemma run_video_generations_api_key form_data user w :
  engine_ok (app_config w) = true -> api_key_ok (app_config w) = false ->
  video_generations form_data user w = (Raise (HTTPException 400 api_key_error), w).
Proof.
  unfold engine_ok, api_key_ok, video_generations. intros E K.
  rewrite run_bind. cbn [read_config]. by rewrite E, K.
Qed.

(** Past the guards, the handler is the reference handling followed by the
    try block. *)
Lemma run_video_generations_ready form_data user w :
  engine_ok (app_config w) = true -> api_key_ok (app_config w) = true ->
  video_generations form_data user w =
    (attach_reference form_data (submission_headers (app_config w) user)
       (build_data (app_config w) form_data)
     ≫= fun '(files, headers, data) =>
          send_submission (submission_request (app_config w) headers data files)) w.
Proof.
  unfold engine_ok, api_key_ok, video_generations. intros E K.
  rewrite (run_bind read_config). cbn [read_config]. by rewrite E, K.
Qed.

(** *** The reference *)

(** [reference_file] never touches the world. *)
Lemma reference_file_world ref w : (reference_file ref w).2 = w.
Proof.
  unfold reference_file.
  destruct (str_split "," (Some 1%nat) ref) as [|? [|? [|]]]; try done.
  by destruct (b64decode _).
Qed.

(** Handling the reference leaves the [Authorization] header alone. *)
Lemma attach_reference_authorization form_data headers data w files headers' data' w' :
  attach_reference form_data headers data w = (Ok (files, headers', data'), w') ->
  headers' !! "Authorization" = headers !! "Authorization".
Proof.
  unfold attach_reference. destruct (form_input_reference form_data) as [ref|];
    [|by intros [= <- <- <- <-]].
  destruct (str_truthy ref); [|by intros [= <- <- <- <-]].
  destruct (str_startswith ref "data:");
    [|by destruct (str_startswith ref "http"); intros [= <- <- <- <-]].
  rewrite run_bind. destruct (reference_file ref w) as [[part|e|] w1]; [|done..].
  rewrite run_bind. unfold py_del. destruct (headers !! "Content-Type"); [|done].
  intros [= <- <- <- <-]. by rewrite lookup_delete_ne.
Qed.

(** ** The handler moves the world forward and always returns *)

Lemma submission_handler_raises e h : submission_handler e = Some h -> raising h.
Proof.
  destruct e; intros [= <-];
    first [apply raising_raise | apply raising_log_exception].
Qed.

Lemma forward_py_del headers k : forward (py_del headers k).
Proof. unfold py_del. effects. Qed.

Lemma total_py_del headers k : total (py_del headers k).
Proof. unfold py_del. effects. Qed.

Lemma forward_reference_file ref : forward (reference_file ref).
Proof. intros w. by rewrite reference_file_world. Qed.

Lemma total_reference_file ref : total (reference_file ref).
Proof.
  intros w. unfold reference_file.
  destruct (str_split "," (Some 1%nat) ref) as [|? [|? [|]]]; try done.
  by destruct (b64decode _).
Qed.

Lemma inert_py_del headers k : inert (py_del headers k).
Proof. unfold py_del. effects. Qed.

Lemma inert_reference_file ref : inert (reference_file ref).
Proof. intros w. apply reference_file_world. Qed.

#[local] Hint Resolve forward_py_del total_py_del forward_reference_file
  total_reference_file inert_py_del inert_reference_file : videos.

Lemma inert_attach_reference form_data headers data :
  inert (attach_reference form_data headers data).
Proof. unfold attach_reference. effects. Qed.

Lemma forward_attach_reference form_data headers data :
  forward (attach_reference form_data headers data).
Proof. unfold attach_reference. effects. Qed.

Lemma total_attach_reference form_data headers data :
  total (attach_reference form_data headers data).
Proof. unfold attach_reference. effects. Qed.

Lemma forward_send_submission req : forward (send_submission req).
Proof.
  unfold send_submission. effects.
  apply forward_handler_raise, submission_handler_raises.
Qed.

Lemma total_send_submission req : total (send_submission req).
Proof.
  unfold send_submission. effects.
  apply total_handler_raise, submission_handler_raises.
Qed.

Lemma forward_video_generations form_data user :
  forward (video_generations form_data user).
Proof.
  unfold video_generations. effects;
    eauto using forward_attach_reference, forward_send_submission.
Qed.

Lemma total_video_generations form_data user :
  total (video_generations form_data user).
Proof.
  unfold video_generations. effects;
    eauto using total_attach_reference, total_send_submission.
Qed.

(** A data URI ["data:<mime>;base64,<payload>"] is cut at the first comma
    and the first semicolon. *)
Lemma data_uri_shape (mime payload : string) :
  "data:" +:+ mime +:+ ";base64," +:+ payload =
  (("data:" +:+ mime) +:+ String ";" "base64") +:+ String "," payload.
Proof. by simp_videos. Qed.

(** The file part of a data URI is decided by the decoding of its
    payload. *)
Lemma run_reference_file_decode mime payload w :
  char_in "," mime = false -> char_in ";" mime = false ->
  reference_file ("data:" +:+ mime +:+ ";base64," +:+ payload) w =
    match b64decode payload with
    | inr image_data =>
        (Ok {| file_name := "reference.png";
               file_content := image_data;
               file_mime := str_lstrip mime "data:" |}, w)
    | inl e => (Raise e, w)
    end.
Proof.
  intros Hc Hs. unfold reference_file. rewrite data_uri_shape.
  rewrite str_split_once by (by rewrite !char_in_app, Hc).
  rewrite str_split_head by (by rewrite char_in_app, Hs).
  cbn [from_option id]. rewrite (str_lstrip_app "data:" "data:" mime) by done.
  by destruct (b64decode payload).
Qed.

Lemma run_reference_file mime payload image_data w :
  char_in "," mime = false -> char_in ";" mime = false ->
  b64decode payload = inr image_data ->
  reference_file ("data:" +:+ mime +:+ ";base64," +:+ payload) w =
    (Ok {| file_name := "reference.png";
           file_content := image_data;
           file_mime := str_lstrip mime "data:" |}, w).
Proof. intros Hc Hs Hb. by rewrite run_reference_file_decode, Hb. Qed.

Lemma run_py_del_present headers key w :
  is_Some (headers !! key) -> py_del headers key w = (Ok (delete key headers), w).
Proof. unfold py_del. by intros [? ->]. Qed.

(** No reference, or an empty one: nothing changes. *)
Lemma attach_reference_absent form_data headers data w :
  form_input_reference form_data = None \/ form_input_reference form_data = Some "" ->
  attach_reference form_data headers data w = (Ok (None, headers, data), w).
Proof. unfold attach_reference. by intros [-> | ->]. Qed.

(** A reference that starts with "http" and not with "data:" goes into the
    data, as it is. *)
Lemma attach_reference_url form_data headers data w ref :
  form_input_reference form_data = Some ref ->
  str_startswith ref "data:" = false -> str_startswith ref "http" = true ->
  attach_reference form_data headers data w =
    (Ok (None, headers, <["input_reference" := JStr ref]> data), w).
Proof.
  unfold attach_reference. intros -> Hd Hh.
  by rewrite (str_startswith_truthy ref "http"), Hd, Hh.
Qed.

(** Any other non-empty reference is dropped without a word. *)
Lemma attach_reference_other form_data headers data w ref :
  form_input_reference form_data = Some ref ->
  str_startswith ref "data:" = false -> str_startswith ref "http" = false ->
  attach_reference form_data headers data w = (Ok (None, headers, data), w).
Proof. unfold attach_reference. intros -> -> ->. by destruct (str_truthy ref). Qed.

(** A data URI that parses becomes the one file part, and the Content-Type
    header goes. *)
Lemma attach_reference_data_uri form_data headers data w ref part :
  form_input_reference form_data = Some ref ->
  str_startswith ref "data:" = true ->
  reference_file ref w = (Ok part, w) ->
  is_Some (headers !! "Content-Type") ->
  attach_reference form_data headers data w =
    (Ok (Some (<["input_reference" := part]> ∅), delete "Content-Type" headers, data), w).
Proof.
  unfold attach_reference. intros -> Hd Hf Hc.
  rewrite (str_startswith_truthy ref "data:"), Hd by done.
  rewrite (bind_ok _ _ _ _ _ Hf). cbv zeta.
  by rewrite (bind_ok _ _ _ _ _ (run_py_del_present _ _ _ Hc)).
Qed.

(** A data URI that does not parse makes the handler raise what the parsing
    raised, before anything is sent. *)
Lemma attach_reference_data_uri_raise form_data headers data w ref e :
  form_input_reference form_data = Some ref ->
  str_startswith ref "data:" = true ->
  reference_file ref w = (Raise e, w) ->
  attach_reference form_data headers data w = (Raise e, w).
Proof.
  unfold attach_reference. intros -> Hd Hf.
  rewrite (str_startswith_truthy ref "data:"), Hd by done.
  by rewrite (bind_raise _ _ _ _ _ Hf).
Qed.

(** A payload that does not decode: the handler raises what the decoder
    raised, before anything is sent. *)
Lemma run_video_generations_undecoded form_data user w mime payload e :
  engine_ok (app_config w) = true -> api_key_ok (app_config w) = true ->
  form_input_reference form_data = Some ("data:" +:+ mime +:+ ";base64," +:+ payload) ->
  char_in "," mime = false -> char_in ";" mime = false ->
  b64decode payload = inl e ->
  video_generations form_data user w = (Raise e, w).
Proof.
  intros E K Href Hc Hs Hb. rewrite run_video_generations_ready by done.
  eapply bind_raise, attach_reference_data_uri_raise; [done|apply str_startswith_app|].
  by rewrite run_reference_file_decode, Hb.
Qed.

Lemma files_truthy_singleton (part : FilePart) :
  files_truthy (Some (<["input_reference" := part]> ∅)) = true.
Proof. unfold files_truthy. by rewrite map_size_insert_None, map_size_empty. Qed.

Lemma py_del_world headers key w : (py_del headers key w).2 = w.
Proof. unfold py_del. by destruct (headers !! key). Qed.

(** Looking at the reference never touches the world. *)
Lemma attach_reference_world form_data headers data w :
  (attach_reference form_data headers data w).2 = w.
Proof.
  unfold attach_reference.
  destruct (form_input_reference form_data) as [ref|]; [|done].
  destruct (str_truthy ref); [|done].
  destruct (str_startswith ref "data:"); [|by destruct (str_startswith ref "http")].
  rewrite run_bind. pose proof (reference_file_world ref w) as Hw.
  destruct (reference_file ref w) as [[part| |] w1]; simpl in Hw; subst; try done.
  cbv zeta. rewrite run_bind. pose proof (py_del_world headers "Content-Type" w) as Hw.
  by destruct (py_del headers "Content-Type" w) as [[hs| |] w1]; simpl in Hw; subst.
Qed.

(** [error_detail] on a structured error body, and on anything else. *)
Lemma error_detail_structured str_e response error_data err message :
  resp_json response = inr (JDict error_data) ->
  error_data !! "error" = Some (JDict err) ->
  err !! "message" = Some message ->
  error_detail str_e response = message.
Proof. unfold error_detail. by intros -> -> ->. Qed.

Lemma error_detail_no_error_key str_e response error_data :
  resp_json response = inr (JDict error_data) ->
  error_data !! "error" = None ->
  error_detail str_e response = JStr str_e.
Proof. unfold error_detail. by intros -> ->. Qed.

Lemma error_detail_not_json str_e response msg :
  resp_json response = inl msg -> error_detail str_e response = JStr str_e.
Proof. unfold error_detail. by intros ->. Qed.

End SubmissionFacts.

(** * The properties of the submission handler *)

Section SubmissionClaims.
Context {P : Platform} {U : Upstream}.
Implicit Types (w : World) (form_data : CreateVideoForm) (user : User).

(** C25: without the supported engine or without an API key, POST /generations
    fails with status 400 and the world is left exactly as it was: nothing is
    sent to the provider. *)
Theorem video_generations_unconfigured form_data user w :
  engine_ok (app_config w) && api_key_ok (app_config w) = false ->
  exists detail,
    video_generations form_data user w = (Raise (HTTPException 400 detail), w).
Proof.
  intros Hc. destruct (engine_ok (app_config w)) eqn:E.
  - exists api_key_error. by apply run_video_generations_api_key.
  - exists engine_error. by apply run_video_generations_engine.
Qed.

(** C5: with no reference image (absent or empty), one POST goes to
    [<base_url>/videos] with the data as a JSON body and the JSON
    Content-Type header, and the caller gets what [submission_result] says
    for the provider's answer. *)
Theorem video_generations_json_without_reference form_data user w :
  engine_ok (app_config w) = true -> api_key_ok (app_config w) = true ->
  form_input_reference form_data = None \/ form_input_reference form_data = Some "" ->
  let config := app_config w in
  let req := submission_request config (submission_headers config user)
               (build_data config form_data) None in
  video_generations form_data user w =
    (res_of (submission_result (upstream_reply (length (sent w)) req)), submitted w req)
  /\ req_body req = JsonBody (build_data config form_data)
  /\ req_headers req !! "Content-Type" = Some "application/json".
Proof.
  intros E K Href config req. split; [|split; [done|apply build_headers_content_type]].
  rewrite run_video_generations_ready by done.
  rewrite (bind_ok _ _ _ _ _ (attach_reference_absent _ _ _ _ Href)).
  apply run_send_submission.
Qed.

(** C6: with an inline data URI that parses, the request is a multipart form
    with exactly one file part, named input_reference, beside the unchanged
    data; the Content-Type header is gone (so that the client library sets
    the boundary) and the Authorization header is still there. *)
Theorem video_generations_multipart_for_data_uri form_data user w ref part :
  engine_ok (app_config w) = true -> api_key_ok (app_config w) = true ->
  form_input_reference form_data = Some ref ->
  str_startswith ref "data:" = true ->
  reference_file ref w = (Ok part, w) ->
  let config := app_config w in
  let req := submission_request config
               (delete "Content-Type" (submission_headers config user))
               (build_data config form_data)
               (Some (<["input_reference" := part]> ∅)) in
  video_generations form_data user w =
    (res_of (submission_result (upstream_reply (length (sent w)) req)), submitted w req)
  /\ req_body req =
       MultipartBody (build_data config form_data) (<["input_reference" := part]> ∅)
  /\ req_headers req !! "Content-Type" = None
  /\ is_Some (req_headers req !! "Authorization").
Proof.
  intros E K Href Hd Hf config req. split; [|split; [|split]].
  - rewrite run_video_generations_ready by done.
    rewrite (bind_ok _ _ _ _ _
               (attach_reference_data_uri _ _ _ _ _ _ Href Hd Hf
                  (mk_is_Some _ _ (submission_headers_content_type _ _)))).
    apply run_send_submission.
  - unfold req, submission_request, post_request. cbn [req_body].
    by rewrite files_truthy_singleton.
  - apply lookup_delete_eq.
  - unfold req, submission_request, post_request. cbn [req_headers].
    rewrite lookup_delete_ne by done.
    rewrite submission_headers_authorization. eauto.
Qed.

(** C7: a reference that is a URL (it starts with "http") is passed through
    verbatim as the field input_reference of the JSON body; nothing is
    downloaded: the POST is the only request. *)
Theorem video_generations_url_passthrough form_data user w ref :
  engine_ok (app_config w) = true -> api_key_ok (app_config w) = true ->
  form_input_reference form_data = Some ref ->
  str_startswith ref "data:" = false -> str_startswith ref "http" = true ->
  let config := app_config w in
  let data := <["input_reference" := JStr ref]> (build_data config form_data) in
  let req := submission_request config (submission_headers config user) data None in
  video_generations form_data user w =
    (res_of (submission_result (upstream_reply (length (sent w)) req)), submitted w req)
  /\ req_body req = JsonBody data
  /\ data !! "input_reference" = Some (JStr ref).
Proof.
  intros E K Href Hd Hh config data req. split; [|split; [done|apply lookup_insert_eq]].
  rewrite run_video_generations_ready by done.
  rewrite (bind_ok _ _ _ _ _ (attach_reference_url _ _ _ _ _ Href Hd Hh)).
  apply run_send_submission.
Qed.

(** C36: a non-empty reference that starts neither with "data:" nor with
    "http" is ignored: the request is the one of a form without reference,
    and the caller is not told. *)
Theorem video_generations_other_reference_dropped form_data user w ref :
  engine_ok (app_config w) = true -> api_key_ok (app_config w) = true ->
  form_input_reference form_data = Some ref ->
  str_startswith ref "data:" = false -> str_startswith ref "http" = false ->
  let config := app_config w in
  let req := submission_request config (submission_headers config user)
               (build_data config form_data) None in
  video_generations form_data user w =
    (res_of (submission_result (upstream_reply (length (sent w)) req)), submitted w req)
  /\ build_data config form_data !! "input_reference" = None.
Proof.
  intros E K Href Hd Hh config req. split.
  - rewrite run_video_generations_ready by done.
    rewrite (bind_ok _ _ _ _ _ (attach_reference_other _ _ _ _ _ Href Hd Hh)).
    apply run_send_submission.
  - unfold build_data. by repeat (rewrite lookup_insert_ne by done).
Qed.

(** C37: a data URI without a comma makes the handler raise the [ValueError]
    of the failed unpacking, which is not an [HTTPException]: the caller
    gets the framework's generic 500.  Nothing is sent. *)
Theorem video_generations_data_uri_without_comma form_data user w ref :
  engine_ok (app_config w) = true -> api_key_ok (app_config w) = true ->
  form_input_reference form_data = Some ref ->
  str_startswith ref "data:" = true -> char_in "," ref = false ->
  video_generations form_data user w = (Raise (PyError ValueError unpack_error), w).
Proof.
  intros E K Href Hd Hc.
  rewrite run_video_generations_ready by done.
  apply bind_raise, attach_reference_data_uri_raise with (ref := ref); [done..|].
  unfold reference_file. by rewrite str_split_absent.
Qed.

(** Whatever the form, the configuration and the provider, POST
    /generations sends at most one request, a POST to [<base_url>/videos],
    and leaves the configuration alone. *)
Theorem video_generations_one_post form_data user w :
  let w' := (video_generations form_data user w).2 in
  app_config w' = app_config w
  /\ (w' = w
      \/ exists req, w' = submitted w req
                     /\ req_method req = POST
                     /\ req_url req =
                          py_str (getattr (app_config w) "VIDEOS_OPENAI_API_BASE_URL"
                                    (JStr "https://api.openai.com/v1")) +:+ "/videos").
Proof.
  destruct (engine_ok (app_config w)) eqn:E;
    [|rewrite run_video_generations_engine by done; auto].
  destruct (api_key_ok (app_config w)) eqn:K;
    [|rewrite run_video_generations_api_key by done; auto].
  rewrite run_video_generations_ready by done. rewrite run_bind.
  pose proof (attach_reference_world form_data (submission_headers (app_config w) user)
                (build_data (app_config w) form_data) w) as Hw.
  destruct (attach_reference _ _ _ w) as [[[[files headers] data]| |] w1];
    simpl in Hw; subst w1; cbn [snd]; auto.
  rewrite run_send_submission. cbn [snd]. split; [done|]. right. eauto.
Qed.

(** C28: the part built from ["data:<mime>;base64,<payload>"] is named
    reference.png, holds the decoded payload, and declares as its type
    [<mime>] stripped of every leading character among d, a, t and the colon
    (the argument of [lstrip] is a character set): the declared type is
    the URI's exactly when [<mime>] does not start with one of these. *)
Theorem reference_file_mime mime payload image_data w :
  char_in "," mime = false -> char_in ";" mime = false ->
  b64decode payload = inr image_data ->
  exists part,
    reference_file ("data:" +:+ mime +:+ ";base64," +:+ payload) w = (Ok part, w)
    /\ file_name part = "reference.png"
    /\ file_content part = image_data
    /\ file_mime part = str_lstrip mime "data:"
    /\ (file_mime part = mime <-> head_outside mime "data:" = true).
Proof.
  intros Hc Hs Hb. eexists. split; [by apply run_reference_file|].
  cbn [file_name file_content file_mime]. split; [done|split; [done|split; [done|]]].
  apply (str_lstrip_prefix_exact "data:" "" mime). done.
Qed.

(** C8: an error status of the provider is passed on: the caller gets the
    provider's status code, and as detail the [error.message] of the
    provider's JSON body.  The world is that of the answered request:
    nothing is written to the log. *)
Theorem video_generations_propagates_status form_data user w r msg error_data err message :
  engine_ok (app_config w) = true -> api_key_ok (app_config w) = true ->
  form_input_reference form_data = None ->
  let config := app_config w in
  let req := submission_request config (submission_headers config user)
               (build_data config form_data) None in
  outcome (upstream_reply (length (sent w)) req) = Replied r ->
  http_error_msg r = Some msg ->
  resp_json r = inr (JDict error_data) ->
  error_data !! "error" = Some (JDict err) ->
  err !! "message" = Some message ->
  video_generations form_data user w =
    (Raise (HTTPException (status_code r) message), after_request w req).
Proof.
  intros E K Href config req Hr Hm Hj He Hmsg.
  rewrite run_video_generations_ready by done.
  rewrite (bind_ok _ _ _ _ _ (attach_reference_absent _ _ _ _ (or_introl Href))).
  rewrite run_send_submission, (submitted_error_status _ _ _ _ Hr Hm).
  fold config req. unfold submission_result.
  by rewrite Hr, Hm, (error_detail_structured _ _ _ _ _ Hj He Hmsg).
Qed.

(** C23: a job that the provider accepts is logged with the provider's whole
    answer: when the provider answers the POST with a success status and a
    JSON body, the caller gets the body and (the logger letting level INFO
    pass) the log gains one record at level INFO, "Video generation
    initiated: " followed by the body as [str] prints it. *)
Theorem video_generations_logs_answer form_data user w r v :
  engine_ok (app_config w) = true -> api_key_ok (app_config w) = true ->
  form_input_reference form_data = None ->
  isEnabledFor logging_INFO = true ->
  let config := app_config w in
  let req := submission_request config (submission_headers config user)
               (build_data config form_data) None in
  outcome (upstream_reply (length (sent w)) req) = Replied r ->
  http_error_msg r = None ->
  resp_json r = inr v ->
  video_generations form_data user w =
    (Ok v,
     log_to [{| rec_level := logging_INFO;
                rec_message := "Video generation initiated: " +:+ py_str v;
                rec_exc_info := None |}]
       (after_request w req)).
Proof.
  intros E K Href Hl config req Hr Hm Hj.
  rewrite run_video_generations_ready by done.
  rewrite (bind_ok _ _ _ _ _ (attach_reference_absent _ _ _ _ (or_introl Href))).
  rewrite run_send_submission. fold config req.
  unfold submitted, submission_result, submission_log.
  by rewrite Hr, Hm, Hj, (emitted_enabled _ _ _ Hl).
Qed.

(** A call to the provider that fails, or an answer that is no JSON, is
    an internal fault of POST /generations: the caller gets status 500 with
    the text of the exception, and (the logger letting level ERROR pass) the
    exception is in the log.  An error status of the provider is no such
    fault: it is passed on and leaves the log as it is
    ([video_generations_propagates_status]). *)
Theorem video_generations_fault_logged form_data user w msg :
  engine_ok (app_config w) = true -> api_key_ok (app_config w) = true ->
  form_input_reference form_data = None ->
  isEnabledFor logging_ERROR = true ->
  let config := app_config w in
  let req := submission_request config (submission_headers config user)
               (build_data config form_data) None in
  outcome (upstream_reply (length (sent w)) req) = ConnectionFailed msg ->
  video_generations form_data user w =
    (Raise (HTTPException 500 (JStr msg)),
     log_to [{| rec_level := logging_ERROR;
                rec_message := "Video generation error: " +:+ msg;
                rec_exc_info := Some (PyError ConnectionError msg) |}]
       (after_request w req)).
Proof.
  intros E K Href Hl config req Hr.
  rewrite run_video_generations_ready by done.
  rewrite (bind_ok _ _ _ _ _ (attach_reference_absent _ _ _ _ (or_introl Href))).
  rewrite run_send_submission. fold config req.
  unfold submitted, submission_result, submission_log.
  by rewrite Hr, (emitted_enabled _ _ _ Hl).
Qed.

(** C38: a duration that the admin left empty is stored as None, and a stored
    None is not an attribute that was never set: the default of the handler
    does not apply, and a job submitted without a duration is sent with
    [seconds] null, where a store that was never updated sends "4". *)
Theorem build_data_null_after_update cfg config form_data :
  VIDEO_DURATION cfg = None -> form_seconds form_data = None ->
  build_data (assign_config cfg config) form_data !! "seconds" = Some JNull
  /\ build_data ∅ form_data !! "seconds" = Some (JStr "4").
Proof.
  intros Hc Hf. unfold build_data. rewrite Hf.
  rewrite !lookup_insert_ne, !lookup_insert_eq by done. split; [|done].
  replace (getattr (assign_config cfg config) "VIDEO_DURATION" (JStr "4"))
    with (of_opt_str (VIDEO_DURATION cfg)) by (symmetry; getattr_assign).
  by rewrite Hc.
Qed.

(** C29: the payload of a data URI is read leniently: of its characters only
    those of the base64 alphabet and the pads count, and they count no
    further than the padding.  When these characters begin with a text
    that the decoder of RFC 4648 accepts, and that text ends with a pad or
    is all of them, the file part holds the bytes of that text: whatever
    else the payload has (spaces, line ends, characters of another
    alphabet, anything after the padding) is dropped without an error. *)
Theorem reference_file_lenient mime (payload good rest : list ascii) (image : bytes) w :
  char_in "," mime = false -> char_in ";" mime = false ->
  forallb is_ascii payload = true ->
  filter (fun c => significant c) payload = good ++ rest ->
  b64decode_list good = inr image ->
  rest = [] \/ padded good = true ->
  reference_file ("data:" +:+ mime +:+ ";base64," +:+ String.string_of_list_ascii payload) w =
    (Ok {| file_name := "reference.png";
           file_content := image;
           file_mime := str_lstrip mime "data:" |}, w).
Proof.
  intros Hc Hs Ha Hf Hg Hr. apply run_reference_file; [done..|].
  by apply (b64decode_lenient payload good rest).
Qed.

(** C31: base64 without its padding is refused, and not by the handler: a
    payload made of characters of the alphabet alone whose number is no
    multiple of four makes [base64.b64decode] raise [binascii.Error]
    before the [try] block is entered, with the message for one character
    too many or for a wrong padding.  Nothing is sent or logged, and the
    caller gets the generic 500 of the framework. *)
Theorem video_generations_unpadded_payload form_data user w mime (payload : list ascii) :
  engine_ok (app_config w) = true -> api_key_ok (app_config w) = true ->
  form_input_reference form_data =
    Some ("data:" +:+ mime +:+ ";base64," +:+ String.string_of_list_ascii payload) ->
  char_in "," mime = false -> char_in ";" mime = false ->
  forallb in_alphabet payload = true -> (length payload mod 4)%nat <> 0%nat ->
  video_generations form_data user w =
    (Raise (PyError BinasciiError
              (if decide ((length payload mod 4)%nat = 1%nat)
               then invalid_length_message (length payload)
               else incorrect_padding)), w).
Proof.
  intros E K Href Hc Hs Hl Hn.
  eapply run_video_generations_undecoded; [done..|]. by apply b64decode_unpadded.
Qed.

(** A payload with a character outside ASCII is refused with a
    [ValueError], in the same way. *)
Theorem video_generations_not_ascii_payload form_data user w mime payload :
  engine_ok (app_config w) = true -> api_key_ok (app_config w) = true ->
  form_input_reference form_data = Some ("data:" +:+ mime +:+ ";base64," +:+ payload) ->
  char_in "," mime = false -> char_in ";" mime = false ->
  forallb is_ascii (String.list_ascii_of_string payload) = false ->
  video_generations form_data user w = (Raise (PyError ValueError not_ascii_error), w).
Proof.
  intros E K Href Hc Hs Ha.
  eapply run_video_generations_undecoded; [done..|]. unfold b64decode. cbn zeta. by rewrite Ha.
Qed.

End SubmissionClaims.

(** C30: an image survives the way through a data URI: the file part built
    from ["data:<mime>;base64,"] followed by the base64 encoding of the
    bytes of an image holds exactly these bytes, decoded as
    [base64.b64decode] does. *)
Theorem reference_file_roundtrip mime (image : bytes) w :
  char_in "," mime = false -> char_in ";" mime = false ->
  exists part,
    reference_file ("data:" +:+ mime +:+ ";base64," +:+ b64encode image) w
      = (Ok part, w)
    /\ file_content part = image.
Proof.
  intros Hc Hs. eexists. split.
  - apply (run_reference_file); [done..|]. exact (b64decode_b64encode image).
  - reflexivity.
Qed.

(** * Witnesses *)

Lemma video_generations_unconfigured_witness :
  exists detail,
    @video_generations (platform true) (scripted []) (prompt_only "a cat") alice (fresh ∅)
    = (Raise (HTTPException 400 detail), fresh ∅).
Proof.
  apply (@video_generations_unconfigured (platform true) (scripted [])). reflexivity.
Defined.

Lemma reference_file_mime_witness :
  exists part,
    reference_file "data:text/plain;base64,aGk=" (fresh ∅) = (Ok part, fresh ∅)
    /\ file_name part = "reference.png"
    /\ file_content part = String.list_ascii_of_string "hi"
    /\ file_mime part = "ext/plain"
    /\ (file_mime part = "text/plain" <-> false = true).
Proof.
  apply (reference_file_mime "text/plain" "aGk="); reflexivity.
Defined.

Lemma video_generations_json_without_reference_witness :
  let config := key_only "sk-test" in
  let req := @submission_request (platform true) config
               (@submission_headers (platform true) config alice)
               (build_data config (prompt_only "a cat")) None in
  @video_generations (platform true) accepting (prompt_only "a cat") alice (fresh config) =
    (res_of (@submission_result type_repr (@upstream_reply accepting 0%nat req)),
     @submitted (platform true) accepting (fresh config) req)
  /\ req_body req = JsonBody (build_data config (prompt_only "a cat"))
  /\ req_headers req !! "Content-Type" = Some "application/json".
Proof.
  apply (@video_generations_json_without_reference (platform true) accepting
           (prompt_only "a cat") alice (fresh (key_only "sk-test")));
    [reflexivity | reflexivity | by left].
Defined.

Lemma video_generations_multipart_for_data_uri_witness :
  let config := key_only "sk-test" in
  let form_data := with_reference "a cat" "data:image/png;base64,aGk=" in
  let req := @submission_request (platform true) config
               (delete "Content-Type" (@submission_headers (platform true) config alice))
               (build_data config form_data)
               (Some (<["input_reference" := png_part]> ∅)) in
  @video_generations (platform true) accepting form_data alice (fresh config) =
    (res_of (@submission_result type_repr (@upstream_reply accepting 0%nat req)),
     @submitted (platform true) accepting (fresh config) req)
  /\ req_body req =
       MultipartBody (build_data config form_data) (<["input_reference" := png_part]> ∅)
  /\ req_headers req !! "Content-Type" = None
  /\ is_Some (req_headers req !! "Authorization").
Proof.
  apply (@video_generations_multipart_for_data_uri (platform true) accepting
           (with_reference "a cat" "data:image/png;base64,aGk=") alice
           (fresh (key_only "sk-test")) "data:image/png;base64,aGk=" png_part);
    reflexivity.
Defined.

Lemma video_generations_url_passthrough_witness :
  let config := key_only "sk-test" in
  let form_data := with_reference "a cat" "https://example.org/cat.png" in
  let data := <["input_reference" := JStr "https://example.org/cat.png"]>
                (build_data config form_data) in
  let req := @submission_request (platform true) config
               (@submission_headers (platform true) config alice) data None in
  @video_generations (platform true) accepting form_data alice (fresh config) =
    (res_of (@submission_result type_repr (@upstream_reply accepting 0%nat req)),
     @submitted (platform true) accepting (fresh config) req)
  /\ req_body req = JsonBody data
  /\ data !! "input_reference" = Some (JStr "https://example.org/cat.png").
Proof.
  apply (@video_generations_url_passthrough (platform true) accepting
           (with_reference "a cat" "https://example.org/cat.png") alice
           (fresh (key_only "sk-test")) "https://example.org/cat.png");
    reflexivity.
Defined.

Lemma video_generations_other_reference_dropped_witness :
  let config := key_only "sk-test" in
  let form_data := with_reference "a cat" "ftp://example.org/cat.png" in
  let req := @submission_request (platform true) config
               (@submission_headers (platform true) config alice)
               (build_data config form_data) None in
  @video_generations (platform true) accepting form_data alice (fresh config) =
    (res_of (@submission_result type_repr (@upstream_reply accepting 0%nat req)),
     @submitted (platform true) accepting (fresh config) req)
  /\ build_data config form_data !! "input_reference" = None.
Proof.
  apply (@video_generations_other_reference_dropped (platform true) accepting
           (with_reference "a cat" "ftp://example.org/cat.png") alice
           (fresh (key_only "sk-test")) "ftp://example.org/cat.png");
    reflexivity.
Defined.

Lemma video_generations_data_uri_without_comma_witness :
  @video_generations (platform true) accepting
    (with_reference "a cat" "data:image/png;base64") alice (fresh (key_only "sk-test"))
  = (Raise (PyError ValueError unpack_error), fresh (key_only "sk-test")).
Proof.
  apply (@video_generations_data_uri_without_comma (platform true) accepting
           (with_reference "a cat" "data:image/png;base64") alice
           (fresh (key_only "sk-test")) "data:image/png;base64");
    reflexivity.
Defined.

Lemma reference_file_lenient_witness :
  reference_file "data:image/png;base64,a G.k=AAAA" (fresh ∅) =
    (Ok {| file_name := "reference.png";
           file_content := String.list_ascii_of_string "hi";
           file_mime := "image/png" |}, fresh ∅).
Proof.
  apply (reference_file_lenient "image/png" (String.list_ascii_of_string "a G.k=AAAA")
           (String.list_ascii_of_string "aGk=") (String.list_ascii_of_string "AAAA")
           (String.list_ascii_of_string "hi") (fresh ∅));
    first [reflexivity | by right].
Defined.

Lemma video_generations_unpadded_payload_witness :
  @video_generations (platform true) accepting
    (with_reference "a cat" "data:image/png;base64,aGk") alice (fresh (key_only "sk-test"))
  = (Raise (PyError BinasciiError incorrect_padding), fresh (key_only "sk-test")).
Proof.
  apply (@video_generations_unpadded_payload (platform true) accepting
           (with_reference "a cat" "data:image/png;base64,aGk") alice
           (fresh (key_only "sk-test")) "image/png" (String.list_ascii_of_string "aGk"));
    first [reflexivity | done].
Defined.

Lemma video_generations_propagates_status_witness :
  let config := app_config ready in
  let req := submission_request (H:=forwarding) config
               (submission_headers (H:=forwarding) config alice)
               (build_data config (prompt_only "a cat")) None in
  video_generations (P:=forwarding) (U:=throttling) (prompt_only "a cat") alice ready =
    (Raise (HTTPException 429 (JStr "Rate limit reached")),
     after_request (H:=throttling) ready req).
Proof.
  apply (video_generations_propagates_status (P:=forwarding) (U:=throttling)
           (prompt_only "a cat") alice ready throttled
           "429 Client Error: Too Many Requests for url: https://api.openai.com/v1/videos"
           (<["error" := JDict (<["message" := JStr "Rate limit reached"]> ∅)]> ∅)
           (<["message" := JStr "Rate limit reached"]> ∅));
    reflexivity.
Defined.

Lemma video_generations_logs_answer_witness :
  let config := app_config ready in
  let req := submission_request (H:=forwarding) config
               (submission_headers (H:=forwarding) config alice)
               (build_data config (prompt_only "a cat")) None in
  video_generations (P:=forwarding) (U:=accepting) (prompt_only "a cat") alice ready =
    (Ok (job "v1" "queued"),
     log_to [{| rec_level := logging_INFO;
                rec_message :=
                  "Video generation initiated: " +:+ py_str (H:=type_repr) (job "v1" "queued");
                rec_exc_info := None |}]
       (after_request (H:=accepting) ready req)).
Proof.
  apply (video_generations_logs_answer (P:=forwarding) (U:=accepting)
           (prompt_only "a cat") alice ready (json_response 200 "OK" (job "v1" "queued")));
    reflexivity.
Defined.

Lemma video_generations_fault_logged_witness :
  let config := app_config ready in
  let req := submission_request (H:=forwarding) config
               (submission_headers (H:=forwarding) config alice)
               (build_data config (prompt_only "a cat")) None in
  video_generations (P:=forwarding) (U:=unreachable) (prompt_only "a cat") alice ready =
    (Raise (HTTPException 500 (JStr "Connection aborted.")),
     log_to [{| rec_level := logging_ERROR;
                rec_message := "Video generation error: " +:+ "Connection aborted.";
                rec_exc_info := Some (PyError ConnectionError "Connection aborted.") |}]
       (after_request (H:=unreachable) ready req)).
Proof.
  apply (video_generations_fault_logged (P:=forwarding) (U:=unreachable)
           (prompt_only "a cat") alice ready "Connection aborted.");
    reflexivity.
Defined.

Lemma build_data_null_after_update_witness :
  let cfg := {| ENABLE_VIDEO_GENERATION := true; VIDEO_GENERATION_ENGINE := "openai";
                VIDEO_GENERATION_MODEL := "sora-2"; VIDEO_DURATION := None;
                VIDEO_SIZE := None; VIDEO_QUALITY := None;
                VIDEOS_OPENAI_API_BASE_URL := "https://api.openai.com/v1";
                VIDEOS_OPENAI_API_KEY := "sk-test" |} in
  build_data (assign_config cfg ∅) (prompt_only "a cat") !! "seconds" = Some JNull
  /\ build_data ∅ (prompt_only "a cat") !! "seconds" = Some (JStr "4").
Proof.
  apply (build_data_null_after_update
           {| ENABLE_VIDEO_GENERATION := true; VIDEO_GENERATION_ENGINE := "openai";
              VIDEO_GENERATION_MODEL := "sora-2"; VIDEO_DURATION := None;
              VIDEO_SIZE := None; VIDEO_QUALITY := None;
              VIDEOS_OPENAI_API_BASE_URL := "https://api.openai.com/v1";
              VIDEOS_OPENAI_API_KEY := "sk-test" |} ∅ (prompt_only "a cat"));
    reflexivity.
Defined.

Lemma reference_file_roundtrip_witness :
  exists part,
    reference_file
      ("data:" +:+ "image/png" +:+ ";base64," +:+ b64encode (String.list_ascii_of_string "hi"))
      ready = (Ok part, ready)
    /\ file_content part = String.list_ascii_of_string "hi".
Proof.
  apply (reference_file_roundtrip "image/png" (String.list_ascii_of_string "hi") ready);
    reflexivity.
Defined.
