(* ===== verification/Client.v ===== *)
(** * Client: the pass-through handlers

    Models [list_videos] (GET /list), [get_video] (GET /{video_id}),
    [get_video_content] (GET /{video_id}/content) and [delete_video]
    (DELETE /{video_id}) of [videos.py].  Each one checks that an API key is
    configured, builds one request to the provider and hands back what the
    provider answers; every failure of the call is logged with its
    exception and becomes an [HTTPException] with status 500.
    [get_video_content] answers with a streaming response whose body is the
    provider's, in the pieces in which [requests] delivers it when asked for
    chunks of 8192 bytes ([Platform]'s [iter_content]: where a piece ends is
    not the router's choice, and no size of the pieces is assumed). *)

From S2P Require Import Prelude PyStr Json Effects Base64 Fixtures Config.
From Stdlib Require Import Ascii.

#[local] Open Scope videos_scope.

Definition key_error : JSON := JStr "Video API key not configured.".

(** A [StreamingResponse]: the chunks its body iterator yields, the error
    that ends the iteration if the upstream transfer broke, the media type
    and the extra headers. *)
Record StreamingResponse := {
  body_chunks : list bytes;
  body_error : option string;
  media_type : string;
  extra_headers : gmap string string }.

Section Client.
Context {P : Platform} {U : Upstream}.

(** [{"Authorization": f"Bearer {api_key}"}] *)
Definition auth_headers (api_key : JSON) : gmap string string :=
  <["Authorization" := "Bearer " +:+ py_str api_key]> ∅.

(** The [except Exception as e] clause of the four handlers; [what] is the
    text with which the handler starts its log message. *)
Definition client_handler {A} (what : string) (e : Exn) : option (M A) :=
  Some (log_exception (what +:+ exn_str e) e;;
        raise (HTTPException 500 (JStr (exn_str e)))).

(** The [try] block shared by [list_videos], [get_video] and
    [delete_video]: send, check the status, return the decoded body. *)
Definition fetch_json (what : string) (req : HttpRequest) : M JSON :=
  try_except
    (r ← requests_request req;
     raise_for_status r;;
     response_json r)
    (client_handler what).

(** The request of [list_videos]: [after] is passed on only when it is
    given and not empty. *)
Definition list_request (config : gmap string JSON) (limit : Z) (after : option string)
  : HttpRequest :=
  let api_key := getattr config "VIDEOS_OPENAI_API_KEY" (JStr "") in
  let base_url :=
    getattr config "VIDEOS_OPENAI_API_BASE_URL" (JStr "https://api.openai.com/v1") in
  let headers := auth_headers api_key in
  let params : gmap string JSON := <["limit" := JInt limit]> ∅ in
  let params :=
    if json_truthy (of_opt_str after)
    then <["after" := of_opt_str after]> params
    else params in
  {| req_method := GET;
     req_url := py_str base_url +:+ "/videos";
     req_headers := headers;
     req_params := params;
     req_body := NoBody;
     req_stream := false |}.

(** [list_videos]: GET /list?limit=&after=. *)
Definition list_videos (user : User) (limit : Z) (after : option string) : M JSON :=
  config ← read_config;
  let api_key := getattr config "VIDEOS_OPENAI_API_KEY" (JStr "") in
  if negb (json_truthy api_key) then raise (HTTPException 400 key_error)
  else fetch_json "Error listing videos: " (list_request config limit after).

(** The request of [get_video]. *)
Definition status_request (config : gmap string JSON) (video_id : string) : HttpRequest :=
  let api_key := getattr config "VIDEOS_OPENAI_API_KEY" (JStr "") in
  let base_url :=
    getattr config "VIDEOS_OPENAI_API_BASE_URL" (JStr "https://api.openai.com/v1") in
  {| req_method := GET;
     req_url := py_str base_url +:+ "/videos/" +:+ video_id;
     req_headers := auth_headers api_key;
     req_params := ∅;
     req_body := NoBody;
     req_stream := false |}.

(** [get_video]: GET /{video_id}. *)
Definition get_video (video_id : string) (user : User) : M JSON :=
  config ← read_config;
  let api_key := getattr config "VIDEOS_OPENAI_API_KEY" (JStr "") in
  if negb (json_truthy api_key) then raise (HTTPException 400 key_error)
  else fetch_json "Error getting video status: " (status_request config video_id).

(** The request of [get_video_content]. *)
Definition content_request (config : gmap string JSON) (video_id : string) : HttpRequest :=
  let api_key := getattr config "VIDEOS_OPENAI_API_KEY" (JStr "") in
  let base_url :=
    getattr config "VIDEOS_OPENAI_API_BASE_URL" (JStr "https://api.openai.com/v1") in
  {| req_method := GET;
     req_url := py_str base_url +:+ "/videos/" +:+ video_id +:+ "/content";
     req_headers := auth_headers api_key;
     req_params := ∅;
     req_body := NoBody;
     req_stream := true |}.

(** [generate]: the generator handed to the [StreamingResponse].  It yields
    the pieces of [r.iter_content(chunk_size=8192)] one by one, as they
    are, and in their order. *)
Definition generate (r : Response) : list bytes := iter_content 8192 r.

(** The [StreamingResponse] built from the provider's response: the
    generator [generate], the content type of the provider (video/mp4 when
    it names none) and the attachment disposition. *)
Definition streaming_response (video_id : string) (r : Response) : StreamingResponse :=
  let content_type := default "video/mp4" (resp_headers r !! "content-type") in
  {| body_chunks := generate r;
     body_error := resp_broken r;
     media_type := content_type;
     extra_headers :=
       <["Content-Disposition" :=
           "attachment; filename=" +:+ dquote +:+ video_id +:+ ".mp4" +:+ dquote]> ∅ |}.

(** [get_video_content]: GET /{video_id}/content. *)
Definition get_video_content (video_id : string) (user : User) : M StreamingResponse :=
  config ← read_config;
  let api_key := getattr config "VIDEOS_OPENAI_API_KEY" (JStr "") in
  if negb (json_truthy api_key) then raise (HTTPException 400 key_error)
  else
    try_except
      (r ← requests_request (content_request config video_id);
       raise_for_status r;;
       mret (streaming_response video_id r))
      (client_handler "Error getting video content: ").

(** The request of [delete_video]. *)
Definition delete_request (config : gmap string JSON) (video_id : string) : HttpRequest :=
  let api_key := getattr config "VIDEOS_OPENAI_API_KEY" (JStr "") in
  let base_url :=
    getattr config "VIDEOS_OPENAI_API_BASE_URL" (JStr "https://api.openai.com/v1") in
  {| req_method := DELETE;
     req_url := py_str base_url +:+ "/videos/" +:+ video_id;
     req_headers := auth_headers api_key;
     req_params := ∅;
     req_body := NoBody;
     req_stream := false |}.

(** [delete_video]: DELETE /{video_id}. *)
Definition delete_video (video_id : string) (user : User) : M JSON :=
  config ← read_config;
  let api_key := getattr config "VIDEOS_OPENAI_API_KEY" (JStr "") in
  if negb (json_truthy api_key) then raise (HTTPException 400 key_error)
  else fetch_json "Error deleting video: " (delete_request config video_id).

End Client.

(** ** Specification of the pass-through *)

(** What the caller of a pass-through handler gets for an exchange: the
    decoded body of a successful response, and status 500 with the text of
    the error for everything else, an error status of the provider
    included. *)
Definition fetch_result (ex : Exchange) : Exn + JSON :=
  match outcome ex with
  | ConnectionFailed msg => inl (HTTPException 500 (JStr msg))
  | Replied r =>
      match http_error_msg r with
      | Some msg => inl (HTTPException 500 (JStr msg))
      | None =>
          match resp_json r with
          | inr v => inr v
          | inl msg => inl (HTTPException 500 (JStr msg))
          end
      end
  end.

(** The same for the content handler. *)
Definition content_result `{Platform} (video_id : string) (ex : Exchange)
  : Exn + StreamingResponse :=
  match outcome ex with
  | ConnectionFailed msg => inl (HTTPException 500 (JStr msg))
  | Replied r =>
      match http_error_msg r with
      | Some msg => inl (HTTPException 500 (JStr msg))
      | None => inr (streaming_response video_id r)
      end
  end.

(** The exception that the shared [try] block raises for an exchange, if it
    raises one. *)
Definition fetch_failure (ex : Exchange) : option Exn :=
  match outcome ex with
  | ConnectionFailed msg => Some (PyError ConnectionError msg)
  | Replied r =>
      match http_error_msg r with
      | Some msg => Some (HTTPError msg r)
      | None =>
          match resp_json r with
          | inr v => None
          | inl msg => Some (PyError JSONDecodeError msg)
          end
      end
  end.

(** The same for the content handler, which does not decode the body. *)
Definition content_failure (ex : Exchange) : option Exn :=
  match outcome ex with
  | ConnectionFailed msg => Some (PyError ConnectionError msg)
  | Replied r =>
      match http_error_msg r with
      | Some msg => Some (HTTPError msg r)
      | None => None
      end
  end.

(** What the [except] clause writes to the log: for an exception, one
    record at level ERROR with the handler's text, the text of the exception
    and the exception itself. *)
Definition failure_log `{Platform} (what : string) (failure : option Exn)
  : list LogRecord :=
  match failure with
  | Some e => emitted logging_ERROR (what +:+ exn_str e) (Some e)
  | None => []
  end.

(** The world once a pass-through handler is through with [req], given the
    exception that its [try] block raised, if any. *)
Definition fetched `{Platform} `{Upstream} (what : string) (failure : option Exn)
    (w : World) (req : HttpRequest) : World :=
  log_to (failure_log what failure) (after_request w req).

(** The world that the shared [try] block leaves. *)
Abbreviation fetched_at what w req :=
  (fetched what (fetch_failure (upstream_reply (length (sent w)) req)) w req).

(** * Properties *)

Section ClientFacts.
Context {P : Platform} {U : Upstream}.

(** What [generate] yields is the body of the response, in pieces. *)
Lemma generate_concat r : concat (generate r) = resp_content r.
Proof. apply iter_content_body, Nat.ltb_lt. by vm_compute. Qed.
Implicit Types (w : World) (user : User) (video_id : string) (req : HttpRequest).

(** The shared try block implements [fetch_result] and logs the exception
    of [fetch_failure]. *)
Lemma run_fetch_json what req w :
  fetch_json what req w =
    (res_of (fetch_result (upstream_reply (length (sent w)) req)), fetched_at what w req).
Proof.
  unfold fetch_json, fetched, fetch_result, fetch_failure, try_except, requests_request.
  rewrite run_bind.
  destruct (outcome _) as [msg|r]; [done|].
  rewrite run_bind. unfold raise_for_status.
  destruct (http_error_msg r) as [msg|]; [done|].
  rewrite run_ret. unfold response_json.
  destruct (resp_json r); [done|]. by rewrite log_to_nil.
Qed.

(** The request of [list_videos]. *)
Lemma run_list_videos user limit after w :
  api_key_ok (app_config w) = true ->
  let req := list_request (app_config w) limit after in
  list_videos user limit after w =
    (res_of (fetch_result (upstream_reply (length (sent w)) req)),
     fetched_at "Error listing videos: " w req).
Proof.
  intros K req. unfold api_key_ok, list_videos in *.
  rewrite run_bind. cbn [read_config]. rewrite K. apply run_fetch_json.
Qed.

Lemma run_get_video video_id user w :
  api_key_ok (app_config w) = true ->
  get_video video_id user w =
    (res_of (fetch_result
               (upstream_reply (length (sent w)) (status_request (app_config w) video_id))),
     fetched_at "Error getting video status: " w (status_request (app_config w) video_id)).
Proof.
  unfold api_key_ok, get_video. intros K.
  rewrite run_bind. cbn [read_config]. rewrite K. apply run_fetch_json.
Qed.

Lemma run_delete_video video_id user w :
  api_key_ok (app_config w) = true ->
  delete_video video_id user w =
    (res_of (fetch_result
               (upstream_reply (length (sent w)) (delete_request (app_config w) video_id))),
     fetched_at "Error deleting video: " w (delete_request (app_config w) video_id)).
Proof.
  unfold api_key_ok, delete_video. intros K.
  rewrite run_bind. cbn [read_config]. rewrite K. apply run_fetch_json.
Qed.

Lemma run_get_video_content video_id user w :
  api_key_ok (app_config w) = true ->
  let req := content_request (app_config w) video_id in
  get_video_content video_id user w =
    (res_of (content_result video_id (upstream_reply (length (sent w)) req)),
     fetched "Error getting video content: "
       (content_failure (upstream_reply (length (sent w)) req)) w req).
Proof.
  intros K req. unfold api_key_ok, get_video_content in *.
  rewrite run_bind. cbn [read_config]. rewrite K. cbn [negb].
  unfold fetched, content_result, content_failure, try_except, requests_request.
  rewrite run_bind. fold req.
  destruct (outcome _) as [msg|r]; [done|].
  rewrite run_bind. unfold raise_for_status.
  destruct (http_error_msg r) as [msg|]; [done|]. by rewrite run_ret, log_to_nil.
Qed.

(** A handler that is through has sent its request and touched nothing but
    the log. *)
Lemma sent_fetched what failure w req : sent (fetched what failure w req) = sent w ++ [req].
Proof. done. Qed.

Lemma config_fetched what failure w req :
  app_config (fetched what failure w req) = app_config w.
Proof. done. Qed.

Lemma now_fetched what failure w req :
  now (fetched what failure w req) = now (after_request w req).
Proof. done. Qed.

Lemma fetched_ok what w req : fetched what None w req = after_request w req.
Proof. apply log_to_nil. Qed.

Lemma logged_fetched what failure w req :
  logged (fetched what failure w req) = logged w ++ failure_log what failure.
Proof. done. Qed.

(** What the [except] clause logs is one record at level ERROR, if the
    logger lets it pass. *)
Lemma failure_log_enabled what e :
  isEnabledFor logging_ERROR = true ->
  failure_log what (Some e) =
    [{| rec_level := logging_ERROR; rec_message := what +:+ exn_str e;
        rec_exc_info := Some e |}].
Proof. apply emitted_enabled. Qed.

Lemma failure_log_disabled what failure :
  isEnabledFor logging_ERROR = false -> failure_log what failure = [].
Proof. destruct failure; [apply emitted_disabled|done]. Qed.

Lemma failure_log_level what failure :
  Forall (fun r => rec_level r = logging_ERROR) (failure_log what failure).
Proof. destruct failure; [apply emitted_level|constructor]. Qed.

Lemma failure_log_length what failure : (length (failure_log what failure) <= 1)%nat.
Proof.
  destruct failure; [|cbn; lia]. unfold failure_log, emitted.
  destruct (isEnabledFor _); cbn; lia.
Qed.

(** The handler answers 500 exactly when its [try] block raised, with the
    text of the exception that is logged. *)
Lemma fetch_result_failure ex :
  fetch_result ex =
    match fetch_failure ex with
    | Some e => inl (HTTPException 500 (JStr (exn_str e)))
    | None => fetch_result ex
    end.
Proof.
  unfold fetch_result, fetch_failure. destruct (outcome ex) as [msg|r]; [done|].
  destruct (http_error_msg r); [done|]. by destruct (resp_json r).
Qed.

Lemma fetch_failure_ok ex v : fetch_result ex = inr v -> fetch_failure ex = None.
Proof.
  rewrite fetch_result_failure. by destruct (fetch_failure ex).
Qed.

(** The shared [try] block, by what its exchange raises. *)
Lemma run_fetch_json_failure what req w e :
  fetch_failure (upstream_reply (length (sent w)) req) = Some e ->
  fetch_json what req w =
    (Raise (HTTPException 500 (JStr (exn_str e))), fetched what (Some e) w req).
Proof. intros E. by rewrite run_fetch_json, fetch_result_failure, E. Qed.

Lemma run_fetch_json_ok what req w :
  fetch_failure (upstream_reply (length (sent w)) req) = None ->
  exists v, fetch_json what req w = (Ok v, after_request w req).
Proof.
  intros E. rewrite run_fetch_json, E, fetched_ok. unfold fetch_failure, fetch_result in *.
  destruct (outcome _) as [msg|r]; [done|]. destruct (http_error_msg r); [done|].
  destruct (resp_json r); [done|]. by eexists.
Qed.

Lemma content_result_failure video_id ex :
  content_result video_id ex =
    match content_failure ex with
    | Some e => inl (HTTPException 500 (JStr (exn_str e)))
    | None => content_result video_id ex
    end.
Proof.
  unfold content_result, content_failure. destruct (outcome ex) as [msg|r]; [done|].
  by destruct (http_error_msg r).
Qed.

Lemma run_get_video_no_key video_id user w :
  api_key_ok (app_config w) = false ->
  get_video video_id user w = (Raise (HTTPException 400 key_error), w).
Proof.
  unfold api_key_ok, get_video. intros K. rewrite run_bind. cbn [read_config]. by rewrite K.
Qed.

(** The errors of [fetch_result] all carry status 500. *)
Lemma fetch_result_error ex x :
  fetch_result ex = inl x -> exists detail, x = HTTPException 500 detail.
Proof.
  unfold fetch_result. intros E.
  destruct (outcome ex) as [msg|r]; [by simplify_eq; eauto|].
  destruct (http_error_msg r); [by simplify_eq; eauto|].
  destruct (resp_json r); simplify_eq; eauto.
Qed.

(** ** The handlers move the world forward and always return *)

Lemma client_handler_raises {A} what e (h : M A) :
  client_handler what e = Some h -> raising h.
Proof. intros [= <-]. apply raising_log_exception. Qed.

Lemma forward_fetch_json what req : forward (fetch_json what req).
Proof.
  unfold fetch_json. effects. apply forward_handler_raise, client_handler_raises.
Qed.

Lemma total_fetch_json what req : total (fetch_json what req).
Proof.
  unfold fetch_json. effects. apply total_handler_raise, client_handler_raises.
Qed.

#[local] Hint Resolve forward_fetch_json total_fetch_json : videos.

Lemma forward_list_videos user limit after : forward (list_videos user limit after).
Proof. unfold list_videos. effects. Qed.

Lemma total_list_videos user limit after : total (list_videos user limit after).
Proof. unfold list_videos. effects. Qed.

Lemma forward_get_video video_id user : forward (get_video video_id user).
Proof. unfold get_video. effects. Qed.

Lemma total_get_video video_id user : total (get_video video_id user).
Proof. unfold get_video. effects. Qed.

Lemma forward_delete_video video_id user : forward (delete_video video_id user).
Proof. unfold delete_video. effects. Qed.

Lemma total_delete_video video_id user : total (delete_video video_id user).
Proof. unfold delete_video. effects. Qed.

Lemma forward_get_video_content video_id user : forward (get_video_content video_id user).
Proof.
  unfold get_video_content. effects. apply forward_handler_raise, client_handler_raises.
Qed.

Lemma total_get_video_content video_id user : total (get_video_content video_id user).
Proof.
  unfold get_video_content. effects. apply total_handler_raise, client_handler_raises.
Qed.

End ClientFacts.

(** * The properties of the pass-through handlers *)

Section ClientClaims.
Context {P : Platform} {U : Upstream}.
Implicit Types (w : World) (user : User) (video_id : string).

(** C26: when no API key is configured, listing, status, content and deletion
    all fail with status 400 and the same message, and the world is left as
    it was: no request reaches the provider. *)
Theorem missing_api_key_no_call user video_id limit after w :
  api_key_ok (app_config w) = false ->
  list_videos user limit after w = (Raise (HTTPException 400 key_error), w)
  /\ get_video video_id user w = (Raise (HTTPException 400 key_error), w)
  /\ get_video_content video_id user w = (Raise (HTTPException 400 key_error), w)
  /\ delete_video video_id user w = (Raise (HTTPException 400 key_error), w).
Proof.
  unfold api_key_ok, list_videos, get_video, get_video_content, delete_video.
  intros K. rewrite !run_bind. cbn [read_config]. by rewrite K.
Qed.

(** C11: with an API key and a provider that answers with a success status,
    GET /{video_id}/content sends one streaming GET to
    [<base_url>/videos/<video_id>/content] and answers with the provider's
    body in chunks, the provider's content type (video/mp4 when it names
    none) and an attachment disposition that names [<video_id>.mp4]. *)
Theorem get_video_content_streams video_id user w r :
  api_key_ok (app_config w) = true ->
  let req := content_request (app_config w) video_id in
  outcome (upstream_reply (length (sent w)) req) = Replied r ->
  http_error_msg r = None ->
  exists sr,
    get_video_content video_id user w = (Ok sr, after_request w req)
    /\ concat (body_chunks sr) = resp_content r
    /\ body_error sr = resp_broken r
    /\ media_type sr = default "video/mp4" (resp_headers r !! "content-type")
    /\ extra_headers sr !! "Content-Disposition" =
         Some ("attachment; filename=" +:+ dquote +:+ video_id +:+ ".mp4" +:+ dquote)
    /\ req_stream req = true.
Proof.
  intros K req Hr Hok. exists (streaming_response video_id r).
  split; [|split; [apply generate_concat|split; [done|split; [done|split]]]].
  - rewrite run_get_video_content by done. cbn zeta. fold req.
    unfold content_result, content_failure. by rewrite Hr, Hok, fetched_ok.
  - apply lookup_insert_eq.
  - done.
Qed.

(** C27: an error status of the provider on a status poll (a 404 for an
    unknown job, a 429, a 500) reaches the caller as status 500 with the
    text of the error: the provider's status code is not passed on, and the
    answer of the provider is logged as an exception of the handler. *)
Theorem get_video_error_status_becomes_500 video_id user w r msg :
  api_key_ok (app_config w) = true ->
  let req := status_request (app_config w) video_id in
  outcome (upstream_reply (length (sent w)) req) = Replied r ->
  http_error_msg r = Some msg ->
  get_video video_id user w =
    (Raise (HTTPException 500 (JStr msg)),
     log_to (emitted logging_ERROR ("Error getting video status: " +:+ msg)
               (Some (HTTPError msg r)))
       (after_request w req)).
Proof.
  intros K req Hr Hmsg. rewrite run_get_video by done.
  unfold fetch_result, fetched, fetch_failure. fold req. by rewrite Hr, Hmsg.
Qed.

(** C19: the failures of a pass-through handler are in the log.  The [try]
    block that [list_videos], [get_video] and [delete_video] share answers
    with the provider's body and leaves the log as it is, or it raises the
    500 whose detail is the text of the exception that ended it, and then
    (the logger letting level ERROR pass) that exception is the one record
    it has added to the log, at level ERROR, under the text of the
    handler. *)
Theorem pass_through_failure_logged what req w :
  isEnabledFor logging_ERROR = true ->
  let run := fetch_json what req w in
  (exists v, run.1 = Ok v /\ logged run.2 = logged w)
  \/ (exists e,
        run.1 = Raise (HTTPException 500 (JStr (exn_str e)))
        /\ logged run.2 =
             logged w ++ [{| rec_level := logging_ERROR;
                             rec_message := what +:+ exn_str e;
                             rec_exc_info := Some e |}]).
Proof.
  intros Hl run. subst run.
  destruct (fetch_failure (upstream_reply (length (sent w)) req)) as [e|] eqn:E.
  - right. exists e. rewrite (run_fetch_json_failure _ _ _ _ E). cbn [fst snd].
    by rewrite logged_fetched, failure_log_enabled.
  - left. destruct (run_fetch_json_ok what req w E) as [v ->]. by exists v.
Qed.

(** What a pass-through handler writes to the log is decided by what the
    provider answers: two calls whose exchanges are the same add the same
    records, whatever their requests and the worlds in which they are
    made.  The API key, which the request carries, does not reach the log
    unless the provider sends it back. *)
Theorem pass_through_log_from_provider what req1 req2 w1 w2 :
  upstream_reply (length (sent w1)) req1 = upstream_reply (length (sent w2)) req2 ->
  drop (length (logged w1)) (logged (fetch_json what req1 w1).2) =
  drop (length (logged w2)) (logged (fetch_json what req2 w2).2).
Proof.
  intros E. rewrite !run_fetch_json. cbn [snd].
  by rewrite !logged_fetched, !drop_app_length, E.
Qed.

(** Listing passes the page size on and the cursor only when there is
    one: GET [<base_url>/videos] carries [limit], and [after] when it is a
    non-empty string; the answer is the provider's body. *)
Theorem list_videos_passes_cursor user limit after w r v :
  api_key_ok (app_config w) = true ->
  let req := list_request (app_config w) limit after in
  outcome (upstream_reply (length (sent w)) req) = Replied r ->
  http_error_msg r = None -> resp_json r = inr v ->
  list_videos user limit after w = (Ok v, after_request w req)
  /\ req_params req !! "limit" = Some (JInt limit)
  /\ req_params req !! "after" =
       match after with
       | Some cursor => if str_truthy cursor then Some (JStr cursor) else None
       | None => None
       end.
Proof.
  intros K req Hr Hok Hv. split_and!.
  - rewrite run_list_videos by done. cbn zeta. fold req.
    unfold fetch_result, fetch_failure. by rewrite Hr, Hok, Hv, fetched_ok.
  - unfold req, list_request. cbn [req_params]. by case_match; simplify_map_eq.
  - unfold req, list_request. cbn [req_params].
    destruct after as [cursor|]; cbn; [|done]. by destruct cursor; simplify_map_eq.
Qed.

(** Deletion sends one DELETE to [<base_url>/videos/<video_id>] with the
    bearer token and answers with the provider's body. *)
Theorem delete_video_passes_through video_id user w r v :
  api_key_ok (app_config w) = true ->
  let req := delete_request (app_config w) video_id in
  outcome (upstream_reply (length (sent w)) req) = Replied r ->
  http_error_msg r = None -> resp_json r = inr v ->
  delete_video video_id user w = (Ok v, after_request w req)
  /\ req_method req = DELETE
  /\ req_headers req !! "Authorization" =
       Some ("Bearer " +:+ py_str (getattr (app_config w) "VIDEOS_OPENAI_API_KEY" (JStr ""))).
Proof.
  intros K req Hr Hok Hv. split_and!; [|done|apply lookup_insert_eq].
  rewrite run_delete_video by done. fold req.
  unfold fetch_result, fetch_failure. by rewrite Hr, Hok, Hv, fetched_ok.
Qed.

End ClientClaims.

(** * The properties at concrete runs *)

Lemma missing_api_key_no_call_witness :
  let w := fresh ∅ in
  list_videos (P:=forwarding) (U:=listing) alice 20 None w =
    (Raise (HTTPException 400 key_error), w)
  /\ get_video (P:=forwarding) (U:=listing) "v1" alice w =
       (Raise (HTTPException 400 key_error), w)
  /\ get_video_content (P:=forwarding) (U:=listing) "v1" alice w =
       (Raise (HTTPException 400 key_error), w)
  /\ delete_video (P:=forwarding) (U:=listing) "v1" alice w =
       (Raise (HTTPException 400 key_error), w).
Proof.
  apply (missing_api_key_no_call (P:=forwarding) (U:=listing) alice "v1" 20 None (fresh ∅)).
  reflexivity.
Defined.

Lemma get_video_content_streams_witness :
  let req := content_request (P:=forwarding) (app_config ready) "v1" in
  exists sr,
    get_video_content (P:=forwarding) (U:=serving) "v1" alice ready =
      (Ok sr, after_request (H:=serving) ready req)
    /\ concat (body_chunks sr) = resp_content clip
    /\ body_error sr = resp_broken clip
    /\ media_type sr = default "video/mp4" (resp_headers clip !! "content-type")
    /\ extra_headers sr !! "Content-Disposition" =
         Some ("attachment; filename=" +:+ dquote +:+ "v1" +:+ ".mp4" +:+ dquote)
    /\ req_stream req = true.
Proof.
  apply (get_video_content_streams (P:=forwarding) (U:=serving) "v1" alice ready clip);
    reflexivity.
Defined.

Lemma get_video_error_status_becomes_500_witness :
  let req := status_request (P:=forwarding) (app_config ready) "v1" in
  get_video (P:=forwarding) (U:=forgetful) "v1" alice ready =
    (Raise (HTTPException 500
       (JStr "404 Client Error: Not Found for url: https://api.openai.com/v1/videos")),
     log_to
       [{| rec_level := 40;
           rec_message :=
             "Error getting video status: 404 Client Error: Not Found for url: https://api.openai.com/v1/videos";
           rec_exc_info :=
             Some (HTTPError
                     "404 Client Error: Not Found for url: https://api.openai.com/v1/videos"
                     not_found) |}]
       (after_request (H:=forgetful) ready req)).
Proof.
  apply (get_video_error_status_becomes_500 (P:=forwarding) (U:=forgetful) "v1" alice ready
           not_found); reflexivity.
Defined.

Lemma pass_through_failure_logged_witness :
  let req := status_request (P:=forwarding) (app_config ready) "v1" in
  let run := fetch_json (P:=forwarding) (U:=unreachable) "Error getting video status: "
               req ready in
  (exists v, run.1 = Ok v /\ logged run.2 = logged ready)
  \/ (exists e,
        run.1 = Raise (HTTPException 500 (JStr (exn_str (H:=type_repr) e)))
        /\ logged run.2 =
             logged ready ++ [{| rec_level := logging_ERROR;
                                 rec_message :=
                                   "Error getting video status: " +:+ exn_str (H:=type_repr) e;
                                 rec_exc_info := Some e |}]).
Proof.
  apply (pass_through_failure_logged (P:=forwarding) (U:=unreachable)). reflexivity.
Defined.

Lemma pass_through_log_from_provider_witness :
  let w2 := fresh (key_only "sk-other") in
  let req1 := status_request (P:=forwarding) (app_config ready) "v1" in
  let req2 := status_request (P:=forwarding) (app_config w2) "v1" in
  drop (length (logged ready))
    (logged (fetch_json (P:=forwarding) (U:=unreachable) "Error getting video status: "
               req1 ready).2) =
  drop (length (logged w2))
    (logged (fetch_json (P:=forwarding) (U:=unreachable) "Error getting video status: "
               req2 w2).2).
Proof.
  apply (pass_through_log_from_provider (P:=forwarding) (U:=unreachable)). reflexivity.
Defined.

Lemma list_videos_passes_cursor_witness :
  let req := list_request (P:=forwarding) (app_config ready) 20 (Some "v0") in
  list_videos (P:=forwarding) (U:=listing) alice 20 (Some "v0") ready =
    (Ok (JDict (<["data" := JList [job "v1" "completed"]]> ∅)),
     after_request (H:=listing) ready req)
  /\ req_params req !! "limit" = Some (JInt 20)
  /\ req_params req !! "after" = Some (JStr "v0").
Proof.
  apply (list_videos_passes_cursor (P:=forwarding) (U:=listing) alice 20 (Some "v0") ready
           (json_response 200 "OK" (JDict (<["data" := JList [job "v1" "completed"]]> ∅))));
    reflexivity.
Defined.

Lemma delete_video_passes_through_witness :
  let req := delete_request (P:=forwarding) (app_config ready) "v1" in
  delete_video (P:=forwarding) (U:=listing) "v1" alice ready =
    (Ok (JDict (<["data" := JList [job "v1" "completed"]]> ∅)),
     after_request (H:=listing) ready req)
  /\ req_method req = DELETE
  /\ req_headers req !! "Authorization" =
       Some ("Bearer " +:+
             py_str (H:=type_repr) (getattr (app_config ready) "VIDEOS_OPENAI_API_KEY" (JStr ""))).
Proof.
  apply (delete_video_passes_through (P:=forwarding) (U:=listing) "v1" alice ready
           (json_response 200 "OK" (JDict (<["data" := JList [job "v1" "completed"]]> ∅))));
    reflexivity.
Defined.
