(* ===== verification/Poller.v ===== *)
(** * Poller: the status poller as a state machine

    The abstract specification of the polling loop of
    [video_generations_sync]: a machine that knows nothing of HTTP, JSON
    bodies or configuration.  It is given, for the [n]-th request sent, the
    verdict of the poll ([Finished], [Aborted] or [Pending]) and the time
    the exchange took, together with the deadline and the pause between two
    polls, and it does what the specification of the poller says: stop with
    a success on a finished job, stop with a failure on a job that failed or
    a poll that could not be made (no retry), pause and poll again on a
    pending job, and stop with a timeout when the deadline is reached before
    a poll starts.

    [Sync] proves that the loop of the router implements this machine
    ([poll_loop_refines]); the properties proved here (termination, the
    window in which a timeout is detected, the effect of a run of pending
    polls, stability under more fuel) then hold of the code. *)

From S2P Require Import Prelude PyStr Json Effects.

#[local] Open Scope Z_scope.

(** What one poll decides. *)
Inductive Verdict :=
| Finished (answer : JSON)
| Aborted (e : Exn)
| Pending.

(** How a run of the poller ends. *)
Inductive Ending :=
| Success (answer : JSON)
| Failure (e : Exn)
| Timeout.

(** The state of the poller: about to test the deadline, [elapsed] ticks
    after the loop was entered and with [polls] requests on record; or
    stopped. *)
Inductive Poller :=
| Polling (elapsed : Z) (polls : nat)
| Stopped (ending : Ending) (elapsed : Z) (polls : nat).

(** The life cycle of a job as the specification names it. *)
Inductive Phase := Submitted | InProgress | Completed | Failed | TimedOut.

Section Machine.
Context (verdict : nat -> Verdict) (latency : nat -> Z) (deadline pause : Z).

(** One evaluation of the loop condition and, if it holds, one poll. *)
Definition poller_step (s : Poller) : Poller :=
  match s with
  | Polling e n =>
      if e <? deadline then
        match verdict n with
        | Finished a => Stopped (Success a) (e + latency n) (S n)
        | Aborted x => Stopped (Failure x) (e + latency n) (S n)
        | Pending => Polling (e + latency n + pause) (S n)
        end
      else Stopped Timeout e n
  | Stopped _ _ _ => s
  end.

Fixpoint poller_run (fuel : nat) (s : Poller) : Poller :=
  match fuel with
  | O => s
  | S fuel' => poller_run fuel' (poller_step s)
  end.

(** The same machine as a transition relation. *)
Inductive transition : Poller -> Poller -> Prop :=
| poll_finished e n a :
    e < deadline -> verdict n = Finished a ->
    transition (Polling e n) (Stopped (Success a) (e + latency n) (S n))
| poll_aborted e n x :
    e < deadline -> verdict n = Aborted x ->
    transition (Polling e n) (Stopped (Failure x) (e + latency n) (S n))
| poll_pending e n :
    e < deadline -> verdict n = Pending ->
    transition (Polling e n) (Polling (e + latency n + pause) (S n))
| deadline_reached e n :
    deadline <= e ->
    transition (Polling e n) (Stopped Timeout e n).

(** The time taken by [k] pending polls from request [n] on, pauses
    included. *)
Fixpoint span (n k : nat) : Z :=
  match k with
  | O => 0
  | S k' => latency n + pause + span (S n) k'
  end.

End Machine.

Definition stopped (s : Poller) : bool :=
  match s with
  | Stopped _ _ _ => true
  | Polling _ _ => false
  end.

Definition elapsed_of (s : Poller) : Z :=
  match s with
  | Polling e _ | Stopped _ e _ => e
  end.

Definition polls_of (s : Poller) : nat :=
  match s with
  | Polling _ n | Stopped _ _ n => n
  end.

(** The phase of the job that a state of the poller stands for, counting
    polls from [n0]. *)
Definition phase (n0 : nat) (s : Poller) : Phase :=
  match s with
  | Polling _ n => if decide (n = n0) then Submitted else InProgress
  | Stopped (Success _) _ _ => Completed
  | Stopped (Failure _) _ _ => Failed
  | Stopped Timeout _ _ => TimedOut
  end.

(** The transitions that the specification allows between phases. *)
Definition allowed (p q : Phase) : bool :=
  match p, q with
  | Submitted, (InProgress | Completed | Failed | TimedOut) => true
  | InProgress, (InProgress | Completed | Failed | TimedOut) => true
  | _, _ => false
  end.

(** How a poll with verdict [v] ends the run, if it does. *)
Definition ending_of (v : Verdict) : option Ending :=
  match v with
  | Finished a => Some (Success a)
  | Aborted x => Some (Failure x)
  | Pending => None
  end.

(** * Properties *)

Section MachineFacts.
Context (verdict : nat -> Verdict) (latency : nat -> Z) (deadline pause : Z).

Abbreviation step := (poller_step verdict latency deadline pause).
Abbreviation run := (poller_run verdict latency deadline pause).
Abbreviation trans := (transition verdict latency deadline pause).

Implicit Types (s : Poller) (e : Z) (n k fuel : nat).

(** ** The function and the relation are the same machine *)

Lemma poller_step_transition e n : trans (Polling e n) (step (Polling e n)).
Proof.
  cbn [poller_step]. destruct (Z.ltb_spec e deadline) as [Hlt|Hge].
  - destruct (verdict n) eqn:Hv; by constructor.
  - by constructor.
Qed.

Lemma transition_poller_step s s' : trans s s' -> step s = s'.
Proof.
  intros Ht. destruct Ht as [e n a Hlt Hv|e n x Hlt Hv|e n Hlt Hv|e n Hge]; cbn [poller_step].
  1-3: rewrite (proj2 (Z.ltb_lt _ _) Hlt), Hv; done.
  by rewrite (proj2 (Z.ltb_ge _ _) Hge).
Qed.

(** The poller is deterministic: given what the provider answers and how
    long it takes, a state has at most one successor. *)
Lemma transition_deterministic s s1 s2 :
  transition verdict latency deadline pause s s1 ->
  transition verdict latency deadline pause s s2 -> s1 = s2.
Proof. intros H1%transition_poller_step H2%transition_poller_step. congruence. Qed.

Lemma transition_from_polling s s' : trans s s' -> stopped s = false.
Proof. by destruct 1. Qed.

(** ** Running *)

Lemma poller_run_S fuel s : run (S fuel) s = run fuel (step s).
Proof. done. Qed.

Lemma poller_run_stopped fuel s : stopped s = true -> run fuel s = s.
Proof.
  intros Hs. induction fuel as [|fuel IH]; [done|].
  destruct s; [done|]. exact IH.
Qed.

Lemma poller_run_add fuel1 fuel2 s : run (fuel1 + fuel2) s = run fuel2 (run fuel1 s).
Proof. revert s. induction fuel1 as [|fuel1 IH]; intros s; [done|]. apply IH. Qed.

(** Once the machine has stopped, more fuel changes nothing. *)
Lemma poller_run_stable fuel fuel' s :
  stopped (run fuel s) = true -> (fuel <= fuel')%nat -> run fuel' s = run fuel s.
Proof.
  intros Hs Hle. replace fuel' with (fuel + (fuel' - fuel))%nat by lia.
  rewrite poller_run_add. by apply poller_run_stopped.
Qed.

(** Every state reached by running is reached by transitions. *)
Lemma poller_run_rtc fuel s : rtc trans s (run fuel s).
Proof.
  revert s. induction fuel as [|fuel IH]; intros s; [done|].
  destruct s as [e n|]; [|apply IH].
  eapply rtc_l; [apply poller_step_transition | apply IH].
Qed.

(** ** Invariants of the transitions *)

(** The number of polls never goes down, and goes up by at most one. *)
Lemma transition_polls s s' :
  trans s s' -> (polls_of s <= polls_of s' <= S (polls_of s))%nat.
Proof. destruct 1; simpl; lia. Qed.

(** Time never goes back when exchanges and pauses take no negative time. *)
Lemma transition_elapsed s s' :
  (forall n, 0 <= latency n) -> 0 <= pause ->
  trans s s' -> elapsed_of s <= elapsed_of s'.
Proof. intros Hl Hp Ht. destruct Ht as [e n|e n|e n|e n]; simpl; specialize (Hl n); lia. Qed.

(** A poll is only ever started before the deadline. *)
Lemma transition_poll_in_time s s' :
  trans s s' -> polls_of s' = S (polls_of s) -> elapsed_of s < deadline.
Proof. destruct 1; simpl; intros; lia. Qed.

(** The poller follows the life cycle of a job: every transition leads
    from submitted or in progress to in progress, completed, failed or
    timed out, and none leaves a terminal phase. *)
Lemma transition_allowed n0 s s' :
  (n0 <= polls_of s)%nat -> trans s s' -> allowed (phase n0 s) (phase n0 s') = true.
Proof.
  intros Hn Ht. destruct Ht; cbn [phase polls_of] in *;
    repeat case_decide; try done; lia.
Qed.

(** ** A run of pending polls *)

Lemma span_nonneg n k :
  (forall i, 0 <= latency i) -> 0 <= pause -> 0 <= span latency pause n k.
Proof.
  intros Hl Hp. revert n. induction k as [|k IH]; intros n; cbn [span]; [done|].
  specialize (Hl n). specialize (IH (S n)). lia.
Qed.

Lemma span_S_r n k :
  span latency pause n (S k) = span latency pause n k + latency (n + k) + pause.
Proof.
  revert n. induction k as [|k IH]; intros n.
  - cbn [span]. rewrite Nat.add_0_r. lia.
  - change (span latency pause n (S (S k)))
      with (latency n + pause + span latency pause (S n) (S k)).
    rewrite IH. cbn [span]. replace (S n + k)%nat with (n + S k)%nat by lia. lia.
Qed.

Lemma span_le n k k' :
  (forall i, 0 <= latency i) -> 0 <= pause -> (k <= k')%nat ->
  span latency pause n k <= span latency pause n k'.
Proof.
  intros Hl Hp Hk. induction Hk as [|k' Hk IH]; [done|].
  rewrite span_S_r. specialize (Hl (n + k')%nat). lia.
Qed.

(** [k] pending polls, each started in time, take the machine [k] requests
    and [span n k] ticks further. *)
Lemma poller_run_pending k e n :
  (forall i, (i < k)%nat -> verdict (n + i) = Pending) ->
  (forall i, (i < k)%nat -> e + span latency pause n i < deadline) ->
  run k (Polling e n) = Polling (e + span latency pause n k) (n + k).
Proof.
  revert e n. induction k as [|k IH]; intros e n Hv Ht.
  - cbn. f_equal; lia.
  - rewrite poller_run_S. cbn [poller_step].
    specialize (Ht 0%nat ltac:(lia)) as Ht0. cbn [span] in Ht0.
    rewrite (proj2 (Z.ltb_lt _ _)) by lia.
    specialize (Hv 0%nat ltac:(lia)) as Hv0. rewrite Nat.add_0_r in Hv0. rewrite Hv0.
    rewrite IH.
    + cbn [span]. f_equal; lia.
    + intros i Hi. replace (S n + i)%nat with (n + S i)%nat by lia. apply Hv. lia.
    + intros i Hi. specialize (Ht (S i) ltac:(lia)). cbn [span] in Ht. lia.
Qed.

(** A job that stays pending is polled until the deadline: [k] polls
    started in time, and the deadline reached when the next would start. *)
Lemma poller_run_pending_timeout k fuel e n :
  (forall i, (i < k)%nat -> verdict (n + i) = Pending) ->
  (forall i, (i < k)%nat -> e + span latency pause n i < deadline) ->
  deadline <= e + span latency pause n k -> (k < fuel)%nat ->
  run fuel (Polling e n) = Stopped Timeout (e + span latency pause n k) (n + k).
Proof.
  intros Hv Ht Hd Hf. replace fuel with (k + S (fuel - S k))%nat by lia.
  rewrite poller_run_add, poller_run_pending by done. rewrite poller_run_S. cbn [poller_step].
  rewrite (proj2 (Z.ltb_ge _ _)) by done. by apply poller_run_stopped.
Qed.

(** With no latency, the pauses are all the time that passes. *)
Lemma span_pauses n k :
  (forall i, latency i = 0) -> span latency pause n k = Z.of_nat k * pause.
Proof. intros Hl. induction k as [|k IH]; [done|]. rewrite span_S_r, IH, Hl. lia. Qed.

(** With no latency and no pause, no time passes. *)
Lemma span_zero n k :
  (forall i, latency i = 0) -> pause = 0 -> span latency pause n k = 0.
Proof.
  intros Hl Hp. induction k as [|k IH]; [done|]. rewrite span_S_r, IH, Hl. lia.
Qed.

(** [k] pending polls and then one that decides. *)
Lemma poller_run_pending_then k fuel e n ending :
  (forall i, (i < k)%nat -> verdict (n + i) = Pending) ->
  ending_of (verdict (n + k)) = Some ending ->
  (forall i, (i <= k)%nat -> e + span latency pause n i < deadline) ->
  (k < fuel)%nat ->
  run fuel (Polling e n) =
    Stopped ending (e + span latency pause n k + latency (n + k)) (S (n + k)).
Proof.
  intros Hv He Ht Hf. replace fuel with (k + S (fuel - S k))%nat by lia.
  rewrite poller_run_add, poller_run_pending, poller_run_S; [|done|intros; apply Ht; lia].
  cbn [poller_step]. rewrite (proj2 (Z.ltb_lt _ _)) by (apply Ht; lia).
  destruct (verdict (n + k)); simplify_eq/=; by rewrite poller_run_stopped.
Qed.

(** ** Termination *)

(** With a positive pause, the machine stops within one step per pause that
    fits below the deadline, plus one. *)
Lemma poller_run_terminates fuel e n :
  (forall i, 0 <= latency i) -> 0 < pause ->
  deadline - e <= Z.of_nat fuel * pause ->
  stopped (run (S fuel) (Polling e n)) = true.
Proof.
  intros Hl Hp. revert e n. induction fuel as [|fuel IH]; intros e n Hd.
  - cbn. rewrite (proj2 (Z.ltb_ge _ _)) by lia. done.
  - rewrite poller_run_S. cbn [poller_step].
    destruct (Z.ltb_spec e deadline) as [Hlt|Hge].
    + destruct (verdict n); [by rewrite poller_run_stopped..|].
      apply IH. specialize (Hl n). lia.
    + by rewrite poller_run_stopped.
Qed.

(** ** The window of a timeout *)

(** A timeout is declared at or after the deadline, and, when no exchange
    takes longer than [slack], less than one [slack] and one pause after it
    (or at the time the machine was entered, if that was later). *)
Lemma poller_run_timeout_window slack fuel e n e' n' :
  (forall i, 0 <= latency i <= slack) -> 0 <= pause ->
  run fuel (Polling e n) = Stopped Timeout e' n' ->
  deadline <= e' /\ e' < Z.max (e + 1) (deadline + slack + pause).
Proof.
  intros Hl Hp. revert e n. induction fuel as [|fuel IH]; intros e n Hr; [done|].
  rewrite poller_run_S in Hr. cbn [poller_step] in Hr.
  destruct (Z.ltb_spec e deadline) as [Hlt|Hge].
  - destruct (verdict n).
    1-2: rewrite poller_run_stopped in Hr by done; done.
    apply IH in Hr. specialize (Hl n). lia.
  - rewrite poller_run_stopped in Hr by done. inv Hr. lia.
Qed.

(** A success or a failure is the verdict of the last poll made, and that
    poll was started before the deadline. *)
Lemma poller_run_verdict fuel e n ending e' n' :
  run fuel (Polling e n) = Stopped ending e' n' -> ending <> Timeout ->
  exists k e0, n' = S k /\ (n <= k)%nat /\ e0 < deadline /\ e' = e0 + latency k
    /\ match ending with
       | Success a => verdict k = Finished a
       | Failure x => verdict k = Aborted x
       | Timeout => False
       end.
Proof.
  revert e n. induction fuel as [|fuel IH]; intros e n Hr Hne; [done|].
  rewrite poller_run_S in Hr. cbn [poller_step] in Hr.
  destruct (Z.ltb_spec e deadline) as [Hlt|Hge].
  - destruct (verdict n) eqn:Hv.
    1-2: rewrite poller_run_stopped in Hr by done; inv Hr; exists n, e; by repeat split.
    destruct (IH _ _ Hr Hne) as (k & e0 & -> & Hk & ?). exists k, e0. split; [done|].
    split; [lia|done].
  - rewrite poller_run_stopped in Hr by done. by inv Hr.
Qed.

End MachineFacts.

(** * The properties at concrete runs *)

Lemma transition_deterministic_witness :
  Polling (0 + 100 + 5000) 2 = Polling (0 + 100 + 5000) 2.
Proof.
  apply (transition_deterministic (fun _ => Pending) (fun _ => 100) 10000 5000
           (Polling 0 1));
    apply poll_pending; (lia || reflexivity).
Defined.

Lemma transition_allowed_witness :
  allowed (phase 1 (Polling 0 1)) (phase 1 (Polling (0 + 100 + 5000) 2)) = true.
Proof.
  apply (transition_allowed (fun _ => Pending) (fun _ => 100) 10000 5000 1
           (Polling 0 1) (Polling (0 + 100 + 5000) 2)); [simpl; lia|].
  apply poll_pending; (lia || reflexivity).
Defined.
