(* ===== verification/Sync.v ===== *)
(** * Sync: POST /generations/sync, the blocking mode

    Models [video_generations_sync] of [videos.py]: it submits the job with
    [video_generations], takes the job id from the answer, and then polls
    [get_video] until the job reports completed (it answers with the
    location of the content), reports failed (500), or the time since the
    loop was entered reaches [timeout] seconds (408, with the job id in the
    message).  Between two polls it sleeps [poll_interval] seconds.  The
    loop logs nothing itself; what [video_generations] and [get_video] log
    is in the log of the call ([observed_log], [poll_loop_log]).

    The [while] loop is [poll_loop], a function recursive on a fuel: one unit
    of fuel is one evaluation of the loop condition.  [sync_fuel] is a fuel
    that is always enough when [poll_interval] is positive
    ([poll_loop_stops], [video_generations_sync_returns]); with a non-positive interval the loop has no
    bound of its own ([poll_loop_busy]). *)

From S2P Require Import Prelude PyStr Json Effects Base64 Fixtures Config Submission Client Poller.

#[local] Open Scope videos_scope.
#[local] Open Scope Z_scope.

Definition no_id_error : JSON := JStr "Failed to get video ID from response".

Section Sync.
Context {P : Platform} {U : Upstream}.

(** The detail of the 408. *)
Definition timeout_message (timeout : Z) (video_id : JSON) : string :=
  "Video generation timed out after " +:+ pretty timeout +:+ " seconds. Video ID: "
    +:+ py_str video_id +:+ ". You can check status at /api/v1/videos/"
    +:+ py_str video_id.

(** The detail of the 500 for a failed job. *)
Definition failure_message (error : JSON) : string :=
  "Video generation failed: " +:+ py_str error.

(** The answer for a completed job. *)
Definition completed_response (video_id status : JSON) : M JSON :=
  model ← py_get status "model" JNull;
  size ← py_get status "size" JNull;
  seconds ← py_get status "seconds" JNull;
  mret (JDict (list_to_map [
    ("id", video_id);
    ("status", JStr "completed");
    ("url", JStr ("/api/v1/videos/" +:+ py_str video_id +:+ "/content"));
    ("model", model);
    ("size", size);
    ("seconds", seconds)
  ])).

(** The [while] loop with the 408 that follows it.  [get_video] puts the id
    into its URL with an f-string, so it is given [str(video_id)]. *)
Fixpoint poll_loop (fuel : nat) (video_id : JSON) (user : User)
    (start_time timeout poll_interval : Z) : M JSON :=
  match fuel with
  | O => out_of_fuel
  | S fuel' =>
      t ← time_time;
      if t - start_time <? timeout * TICKS_PER_SECOND then
        status ← get_video (py_str video_id) user;
        st ← py_get status "status" JNull;
        if json_eq_str st "completed" then completed_response video_id status
        else if json_eq_str st "failed" then
          error ← py_get status "error" (JStr "Unknown error");
          raise (HTTPException 500 (JStr (failure_message error)))
        else
          asyncio_sleep poll_interval;;
          poll_loop fuel' video_id user start_time timeout poll_interval
      else raise (HTTPException 408 (JStr (timeout_message timeout video_id)))
  end.

(** [video_generations_sync]: POST /generations/sync?timeout=&poll_interval=. *)
Definition video_generations_sync (fuel : nat) (form_data : CreateVideoForm)
    (user : User) (timeout poll_interval : Z) : M JSON :=
  result ← video_generations form_data user;
  video_id ← py_get result "id" JNull;
  if negb (json_truthy video_id) then raise (HTTPException 500 no_id_error)
  else
    start_time ← time_time;
    poll_loop fuel video_id user start_time timeout poll_interval.

End Sync.

(** A fuel that covers every run of the loop when [poll_interval] is
    positive: one evaluation of the condition per interval that fits into the
    timeout, one for the interval that crosses it, one for the exit. *)
Definition sync_fuel (timeout poll_interval : Z) : nat :=
  S (Z.to_nat (timeout / poll_interval + 1)).

(** ** One poll, as a value *)

(** The answer for a completed job, as a value. *)
Definition completed_dict `{PyRepr} (video_id : JSON) (d : gmap string JSON) : JSON :=
  JDict (list_to_map [
    ("id", video_id);
    ("status", JStr "completed");
    ("url", JStr ("/api/v1/videos/" +:+ py_str video_id +:+ "/content"));
    ("model", default JNull (d !! "model"));
    ("size", default JNull (d !! "size"));
    ("seconds", default JNull (d !! "seconds"))
  ]).

(** The verdict on the status object of a poll that went through. *)
Definition status_verdict `{PyRepr} (video_id status : JSON) : Verdict :=
  match status with
  | JDict d =>
      let st := default JNull (d !! "status") in
      if json_eq_str st "completed" then Finished (completed_dict video_id d)
      else if json_eq_str st "failed" then
        Aborted (HTTPException 500
                   (JStr ("Video generation failed: "
                          +:+ py_str (default (JStr "Unknown error") (d !! "error")))))
      else Pending
  | _ =>
      Aborted (PyError AttributeError
                 ("'" +:+ type_name status +:+ "' object has no attribute 'get'"))
  end.

(** The verdict on the exchange of a poll. *)
Definition poll_verdict `{PyRepr} (video_id : JSON) (ex : Exchange) : Verdict :=
  match fetch_result ex with
  | inr status => status_verdict video_id status
  | inl e => Aborted e
  end.

(** The world after a sleep of [poll_interval] seconds. *)
Definition after_sleep (w : World) (poll_interval : Z) : World :=
  {| app_config := app_config w;
     now := now w + Z.max 0 poll_interval * TICKS_PER_SECOND;
     sent := sent w;
     logged := logged w |}.

(** The deadline has not been reached at [w]. *)
Definition in_time (w : World) (start_time timeout : Z) : bool :=
  now w - start_time <? timeout * TICKS_PER_SECOND.

(** ** The machine that a run of the loop drives *)

Section Observed.
Context {P : Platform} {U : Upstream}.
Context (w0 : World) (video_id : JSON) (start_time timeout poll_interval : Z).

(** The one request the loop sends, over and over. *)
Definition poll_request : HttpRequest :=
  status_request (app_config w0) (py_str video_id).

(** What the provider makes of the [n]-th request, if it is a poll. *)
Definition observed_verdict (n : nat) : Verdict :=
  poll_verdict video_id (upstream_reply n poll_request).

Definition observed_latency (n : nat) : Z :=
  Z.of_N (latency (upstream_reply n poll_request)).

Definition deadline : Z := timeout * TICKS_PER_SECOND.

Definition pause : Z := Z.max 0 poll_interval * TICKS_PER_SECOND.

(** The machine of [Poller] for this run. *)
Definition machine (fuel : nat) (s : Poller) : Poller :=
  poller_run observed_verdict observed_latency deadline pause fuel s.

(** The world that the state of the machine stands for: [e] ticks after the
    loop was entered, with every request beyond those of [w0] a poll. *)
Definition world_at (e : Z) (n : nat) : World :=
  {| app_config := app_config w0;
     now := start_time + e;
     sent := sent w0 ++ replicate (n - length (sent w0)) poll_request;
     logged := logged w0 |}.

(** What [get_video] wrote to the log if the poll before the [n]-th request
    failed: the loop logs nothing itself. *)
Definition observed_log (n : nat) : list LogRecord :=
  failure_log "Error getting video status: "
    (fetch_failure (upstream_reply (pred n) poll_request)).

(** The outcome of the loop that the state of the machine stands for. *)
Definition outcome_of (s : Poller) : Res JSON * World :=
  match s with
  | Polling e n => (OutOfFuel, world_at e n)
  | Stopped (Success a) e n => (Ok a, world_at e n)
  | Stopped (Failure x) e n => (Raise x, log_to (observed_log n) (world_at e n))
  | Stopped Timeout e n =>
      (Raise (HTTPException 408 (JStr (timeout_message timeout video_id))), world_at e n)
  end.

End Observed.

(** [l] is what a run of the loop from [w] has added to the log: nothing, or
    the one record of the poll that ended it with a 500. *)
Definition log_of_loop (w : World) (run : Res JSON * World) (l : list LogRecord) : Prop :=
  logged run.2 = logged w ++ l
  /\ (length l <= 1)%nat
  /\ Forall (fun r => rec_level r = logging_ERROR) l
  /\ (l <> [] -> exists detail, run.1 = Raise (HTTPException 500 detail)).

(** * Properties *)

Section SyncFacts.
Context {P : Platform} {U : Upstream}.
Implicit Types (w : World) (user : User) (video_id : JSON) (fuel : nat).

Lemma run_completed_response video_id d w :
  completed_response video_id (JDict d) w = (Ok (completed_dict video_id d), w).
Proof. done. Qed.

(** What the loop does with the status object of a poll. *)
Lemma poll_loop_S fuel video_id user start_time timeout poll_interval w :
  poll_loop (S fuel) video_id user start_time timeout poll_interval w =
    if in_time w start_time timeout then
      (status ← get_video (py_str video_id) user;
       st ← py_get status "status" JNull;
       if json_eq_str st "completed" then completed_response video_id status
       else if json_eq_str st "failed" then
         error ← py_get status "error" (JStr "Unknown error");
         raise (HTTPException 500 (JStr (failure_message error)))
       else
         asyncio_sleep poll_interval;;
         poll_loop fuel video_id user start_time timeout poll_interval) w
    else (Raise (HTTPException 408 (JStr (timeout_message timeout video_id))), w).
Proof.
  cbn [poll_loop]. rewrite run_bind. cbn [time_time]. unfold in_time.
  by destruct (_ <? _).
Qed.

(** One turn of the loop, past the guards: the verdict of the poll decides. *)
Lemma poll_loop_turn fuel video_id user start_time timeout poll_interval w :
  api_key_ok (app_config w) = true -> in_time w start_time timeout = true ->
  let req := status_request (app_config w) (py_str video_id) in
  poll_loop (S fuel) video_id user start_time timeout poll_interval w =
    match poll_verdict video_id (upstream_reply (length (sent w)) req) with
    | Finished a => (Ok a, after_request w req)
    | Aborted x => (Raise x, fetched_at "Error getting video status: " w req)
    | Pending =>
        poll_loop fuel video_id user start_time timeout poll_interval
          (after_sleep (after_request w req) poll_interval)
    end.
Proof.
  intros K T req. rewrite poll_loop_S, T, run_bind, run_get_video by done.
  fold req. unfold poll_verdict.
  destruct (fetch_result _) as [x|status] eqn:E; [done|]. cbn [res_of].
  rewrite (fetch_failure_ok _ _ E), fetched_ok.
  destruct status as [| | | | |d]; try done.
  rewrite run_bind. cbn [py_get dict_get status_verdict]. rewrite run_ret.
  destruct (json_eq_str _ "completed"); [done|].
  by destruct (json_eq_str _ "failed").
Qed.

(** Without an API key the first poll fails with the 400 of [get_video]. *)
Lemma poll_loop_no_key fuel video_id user start_time timeout poll_interval w :
  api_key_ok (app_config w) = false -> in_time w start_time timeout = true ->
  poll_loop (S fuel) video_id user start_time timeout poll_interval w =
    (Raise (HTTPException 400 key_error), w).
Proof.
  intros K T. rewrite poll_loop_S, T.
  by rewrite (bind_raise _ _ _ _ _ (run_get_video_no_key _ _ _ K)).
Qed.

Lemma poll_loop_deadline fuel video_id user start_time timeout poll_interval w :
  in_time w start_time timeout = false ->
  poll_loop (S fuel) video_id user start_time timeout poll_interval w =
    (Raise (HTTPException 408 (JStr (timeout_message timeout video_id))), w).
Proof. intros T. by rewrite poll_loop_S, T. Qed.

End SyncFacts.

Section Refinement.
Context {P : Platform} {U : Upstream}.
Context (w0 : World) (video_id : JSON) (user : User)
  (start_time timeout poll_interval : Z).

Abbreviation loop fuel := (poll_loop fuel video_id user start_time timeout poll_interval).
Abbreviation at_ e n := (world_at w0 video_id start_time e n).
Abbreviation run fuel s := (machine w0 video_id timeout poll_interval fuel s).
Abbreviation out s := (outcome_of w0 video_id start_time timeout s).

Lemma world_at_start : at_ (now w0 - start_time) (length (sent w0)) = w0.
Proof.
  unfold world_at. rewrite Nat.sub_diag. cbn [replicate]. rewrite app_nil_r.
  destruct w0 as [c t s l]. cbn. f_equal. lia.
Qed.

Lemma length_sent_world_at e n :
  (length (sent w0) <= n)%nat -> length (sent (at_ e n)) = n.
Proof. intros Hn. cbn. rewrite length_app, length_replicate. lia. Qed.

Lemma in_time_world_at e n :
  in_time (at_ e n) start_time timeout = (e <? deadline timeout).
Proof. unfold in_time, deadline. cbn. f_equal. lia. Qed.

(** A poll and a sleep take the world of one state to that of the next. *)
Lemma world_at_request e n :
  (length (sent w0) <= n)%nat ->
  after_request (at_ e n) (poll_request w0 video_id) =
    at_ (e + observed_latency w0 video_id n) (S n).
Proof.
  intros Hn. unfold after_request. rewrite length_sent_world_at by done.
  unfold world_at, observed_latency. cbn. f_equal; [lia|].
  replace (S n - length (sent w0))%nat with (S (n - length (sent w0))) by lia.
  by rewrite replicate_S_end, (assoc_L _).
Qed.

Lemma world_at_sleep e n :
  after_sleep (at_ e n) poll_interval = at_ (e + pause poll_interval) n.
Proof. unfold after_sleep, world_at, pause. cbn. f_equal. lia. Qed.

(** The loop simulates the machine, state by state. *)
Lemma poll_loop_simulates fuel e n :
  api_key_ok (app_config w0) = true -> (length (sent w0) <= n)%nat ->
  loop fuel (at_ e n) = out (run fuel (Polling e n)).
Proof.
  intros K. revert e n. induction fuel as [|fuel IH]; intros e n Hn; [done|].
  unfold machine. rewrite poller_run_S. cbn [poller_step].
  rewrite <- (in_time_world_at e n).
  destruct (in_time (at_ e n) start_time timeout) eqn:T.
  - rewrite poll_loop_turn by done. cbn zeta. cbn [app_config world_at].
    rewrite length_sent_world_at by done.
    fold (poll_request w0 video_id). fold (observed_verdict w0 video_id n).
    unfold fetched. rewrite world_at_request by done.
    destruct (observed_verdict w0 video_id n).
    1-2: by rewrite poller_run_stopped.
    by rewrite world_at_sleep, IH by lia.
  - rewrite poll_loop_deadline by done. by rewrite poller_run_stopped.
Qed.

Abbreviation start := (Polling (now w0 - start_time) (length (sent w0))).
Abbreviation lat := (observed_latency w0 video_id).
Abbreviation verdict := (observed_verdict w0 video_id).

(** The loop entered at [w0] is the machine started at the state of [w0]. *)
Lemma poll_loop_machine fuel :
  api_key_ok (app_config w0) = true -> loop fuel w0 = out (run fuel start).
Proof.
  intros K. trans (loop fuel (at_ (now w0 - start_time) (length (sent w0)))).
  - by rewrite world_at_start.
  - by apply poll_loop_simulates.
Qed.

(** Without an API key the loop is over after one turn. *)
Lemma poll_loop_keyless fuel :
  api_key_ok (app_config w0) = false ->
  loop (S fuel) w0 =
    (Raise (if in_time w0 start_time timeout
            then HTTPException 400 key_error
            else HTTPException 408 (JStr (timeout_message timeout video_id))), w0).
Proof.
  intros K. destruct (in_time w0 start_time timeout) eqn:T.
  - by apply poll_loop_no_key.
  - by apply poll_loop_deadline.
Qed.

Lemma outcome_of_stopped s : stopped s = true <-> (out s).1 <> OutOfFuel.
Proof. by destruct s as [|[]]. Qed.

(** The world of an outcome is that of the state, but for the log. *)
Lemma outcome_of_world s :
  app_config (out s).2 = app_config w0 /\
  now (out s).2 = start_time + elapsed_of s /\
  sent (out s).2 = sent (at_ (elapsed_of s) (polls_of s)).
Proof. by destruct s as [|[]]. Qed.

Lemma observed_latency_nonneg n : 0 <= lat n.
Proof. unfold observed_latency. lia. Qed.

Lemma pause_nonneg : 0 <= pause poll_interval.
Proof. unfold pause, TICKS_PER_SECOND. lia. Qed.

(** [sync_fuel] turns of the loop cover the deadline. *)
Lemma sync_fuel_enough e fuel :
  0 < poll_interval -> 0 <= e ->
  (Z.to_nat (timeout / poll_interval + 1) <= fuel)%nat ->
  0 < pause poll_interval /\ deadline timeout - e <= Z.of_nat fuel * pause poll_interval.
Proof.
  intros Hp He Hf. unfold pause, deadline, TICKS_PER_SECOND.
  pose proof (Z.mul_succ_div_gt timeout poll_interval Hp).
  split; [lia|]. destruct (decide (timeout < 0)); [nia|].
  pose proof (Z.div_pos timeout poll_interval). nia.
Qed.

(** With a positive interval the loop returns. *)
Lemma poll_loop_stops fuel :
  0 < poll_interval -> start_time <= now w0 ->
  (sync_fuel timeout poll_interval <= fuel)%nat -> (loop fuel w0).1 <> OutOfFuel.
Proof.
  unfold sync_fuel. intros Hp Ht Hf. destruct fuel as [|fuel]; [lia|].
  destruct (api_key_ok (app_config w0)) eqn:K; [|by rewrite poll_loop_keyless].
  rewrite poll_loop_machine by done. apply outcome_of_stopped.
  destruct (sync_fuel_enough (now w0 - start_time) fuel) as [? ?]; [lia..|].
  apply poller_run_terminates; auto using observed_latency_nonneg.
Qed.

(** A poll that is aborted carries a 500, or the [AttributeError] of a
    status that is no object; never a 408. *)
Lemma observed_verdict_aborted n x :
  verdict n = Aborted x ->
  (exists detail, x = HTTPException 500 detail) \/ (exists msg, x = PyError AttributeError msg).
Proof.
  unfold observed_verdict, poll_verdict.
  destruct (fetch_result _) as [y|status] eqn:E.
  - intros [= <-]. left. by eapply fetch_result_error.
  - destruct status as [| | | | |d]; cbn; try (intros [= <-]; eauto).
    repeat case_match; intros [= <-]; eauto.
Qed.

(** A poll that left a record in the log ended the loop with a 500. *)
Lemma observed_log_aborted k x :
  verdict k = Aborted x -> observed_log w0 video_id (S k) <> [] ->
  exists detail, x = HTTPException 500 detail.
Proof.
  unfold observed_verdict, poll_verdict, observed_log. cbn [pred].
  rewrite fetch_result_failure. destruct (fetch_failure _) as [e|]; [|done].
  intros [= <-] _. eauto.
Qed.

Lemma log_of_loop_nil w r : log_of_loop w (r, w) [].
Proof. split_and!; [by rewrite app_nil_r|cbn; lia|constructor|done]. Qed.

Lemma poll_loop_machine_log fuel :
  api_key_ok (app_config w0) = true -> exists l, log_of_loop w0 (loop fuel w0) l.
Proof.
  intros K. rewrite poll_loop_machine by done. unfold machine.
  destruct (poller_run _ _ _ _ _ _) as [e n|[a|x|] e n] eqn:R; cbn [outcome_of];
    try (exists []; split_and!; [by rewrite app_nil_r|cbn; lia|constructor|done]).
  exists (observed_log w0 video_id n).
  split_and!; [done|apply failure_log_length|apply failure_log_level|].
  apply poller_run_verdict in R as (k & e0 & -> & _ & _ & _ & Hx); [|done].
  intros Hl. destruct (observed_log_aborted k x Hx Hl) as [detail ->]. by exists detail.
Qed.

End Refinement.

Section Facade.
Context {P : Platform} {U : Upstream}.
Implicit Types (w : World) (user : User) (video_id : JSON) (fuel : nat)
  (form_data : CreateVideoForm).

(** The blocking mode is the submission, the test of the id, and the loop
    entered at the time the submission returned. *)
Lemma run_video_generations_sync fuel form_data user timeout poll_interval w :
  video_generations_sync fuel form_data user timeout poll_interval w =
    match video_generations form_data user w with
    | (Ok result, w1) =>
        match dict_get result "id" JNull with
        | Some video_id =>
            if json_truthy video_id
            then poll_loop fuel video_id user (now w1) timeout poll_interval w1
            else (Raise (HTTPException 500 no_id_error), w1)
        | None =>
            (Raise (PyError AttributeError
                      ("'" +:+ type_name result +:+ "' object has no attribute 'get'")), w1)
        end
    | (Raise e, w1) => (Raise e, w1)
    | (OutOfFuel, w1) => (OutOfFuel, w1)
    end.
Proof.
  unfold video_generations_sync. rewrite run_bind.
  destruct (video_generations form_data user w) as [[result|e|] w1]; [|done..].
  rewrite run_bind. unfold py_get. destruct (dict_get result "id" JNull) as [video_id|]; [|done].
  rewrite run_ret. by destruct (json_truthy video_id).
Qed.

Lemma forward_completed_response video_id status :
  forward (completed_response video_id status).
Proof. unfold completed_response. effects. Qed.

Lemma inert_completed_response video_id status :
  inert (completed_response video_id status).
Proof. unfold completed_response. effects. Qed.

Lemma total_completed_response video_id status :
  total (completed_response video_id status).
Proof. unfold completed_response. effects. Qed.

Lemma forward_poll_loop fuel video_id user start_time timeout poll_interval :
  forward (poll_loop fuel video_id user start_time timeout poll_interval).
Proof.
  induction fuel as [|fuel IH]; cbn [poll_loop]; effects;
    auto using forward_get_video, forward_completed_response.
Qed.

Lemma forward_video_generations_sync fuel form_data user timeout poll_interval :
  forward (video_generations_sync fuel form_data user timeout poll_interval).
Proof.
  unfold video_generations_sync. effects;
    auto using forward_video_generations, forward_poll_loop.
Qed.

(** With a positive interval and the fuel of [sync_fuel], the blocking mode
    never runs out of fuel. *)
Lemma total_video_generations_sync fuel form_data user timeout poll_interval :
  0 < poll_interval -> (sync_fuel timeout poll_interval <= fuel)%nat ->
  total (video_generations_sync fuel form_data user timeout poll_interval).
Proof.
  intros Hp Hf w. rewrite run_video_generations_sync.
  pose proof (total_video_generations form_data user w) as Hs.
  destruct (video_generations form_data user w) as [[result|e|] w1]; [|done..].
  destruct (dict_get result "id" JNull) as [video_id|]; [|done].
  destruct (json_truthy video_id); [|done]. by apply poll_loop_stops.
Qed.

End Facade.

(** * The properties of the blocking mode *)

Section SyncClaims.
Context {P : Platform} {U : Upstream}.
Implicit Types (w : World) (user : User) (video_id : JSON) (fuel : nat)
  (form_data : CreateVideoForm).

(** C1: the polling loop of [video_generations_sync] implements the poller of
    the specification: run with an API key from world [w], its outcome is
    that of a state that the machine reaches by its transitions from the
    state of [w], whatever the fuel. *)
Theorem poll_loop_refines fuel video_id user start_time timeout poll_interval w :
  api_key_ok (app_config w) = true ->
  exists s,
    rtc (transition (observed_verdict w video_id) (observed_latency w video_id)
           (deadline timeout) (pause poll_interval))
        (Polling (now w - start_time) (length (sent w))) s
    /\ poll_loop fuel video_id user start_time timeout poll_interval w =
         outcome_of w video_id start_time timeout s.
Proof.
  intros K. eexists. split; [apply poller_run_rtc|].
  by apply poll_loop_machine.
Qed.

(** C2: with a positive poll interval the blocking mode returns: on
    [sync_fuel timeout poll_interval] turns of the loop, or more, it ends
    with an answer or an error, never out of fuel, whatever the provider
    does. *)
Theorem video_generations_sync_returns fuel form_data user timeout poll_interval w :
  0 < poll_interval -> (sync_fuel timeout poll_interval <= fuel)%nat ->
  let run := video_generations_sync fuel form_data user timeout poll_interval w in
  run.1 <> OutOfFuel /\ later_world w run.2.
Proof.
  intros Hp Hf. split.
  - by apply total_video_generations_sync.
  - apply forward_video_generations_sync.
Qed.

(** The fuel is only a bound: once the loop returns on some fuel, it
    returns the same on every larger fuel. *)
Theorem poll_loop_fuel_monotone fuel fuel' video_id user start_time timeout poll_interval w :
  (fuel <= fuel')%nat ->
  (poll_loop fuel video_id user start_time timeout poll_interval w).1 <> OutOfFuel ->
  poll_loop fuel' video_id user start_time timeout poll_interval w =
    poll_loop fuel video_id user start_time timeout poll_interval w.
Proof.
  intros Hf. destruct (api_key_ok (app_config w)) eqn:K.
  - rewrite !poll_loop_machine by done. intros Hs%outcome_of_stopped.
    f_equal. by apply poller_run_stable.
  - destruct fuel as [|fuel]; [done|]. destruct fuel' as [|fuel']; [lia|].
    by rewrite !poll_loop_keyless.
Qed.

(** C33: a non-positive poll interval is not refused and makes the loop a busy
    loop: with a provider that answers at once and keeps the job pending,
    the loop sends one request per turn without the clock moving, and so
    never reaches its deadline. *)
Theorem poll_loop_busy fuel video_id user start_time timeout poll_interval w :
  api_key_ok (app_config w) = true ->
  poll_interval <= 0 ->
  in_time w start_time timeout = true ->
  (forall n, observed_verdict w video_id n = Pending) ->
  (forall n, observed_latency w video_id n = 0) ->
  poll_loop fuel video_id user start_time timeout poll_interval w =
    (OutOfFuel,
     {| app_config := app_config w; now := now w;
        sent := sent w ++ replicate fuel (poll_request w video_id);
        logged := logged w |}).
Proof.
  intros K Hp T Hv Hl. apply Z.ltb_lt in T.
  assert (pause poll_interval = 0) as Hz by (unfold pause; lia).
  rewrite poll_loop_machine by done. unfold machine.
  rewrite poller_run_pending; [|done|intros; rewrite span_zero by done; unfold deadline; lia].
  rewrite span_zero by done. cbn [outcome_of]. unfold world_at. do 2 f_equal; [lia|].
  do 2 f_equal. lia.
Qed.

(** C3: a timeout is detected at the deadline or after it, and later than
    the deadline by less than one poll and one pause: when the loop ends
    with status 408, the detail is the timeout message with the job id, and
    the time since the loop was entered lies in that window. *)
Theorem poll_loop_timeout_window fuel slack detail video_id user start_time timeout
    poll_interval w w' :
  api_key_ok (app_config w) = true ->
  (forall n, observed_latency w video_id n <= slack) ->
  poll_loop fuel video_id user start_time timeout poll_interval w =
    (Raise (HTTPException 408 detail), w') ->
  detail = JStr (timeout_message timeout video_id)
  /\ deadline timeout <= now w' - start_time
       < Z.max (now w - start_time + 1) (deadline timeout + slack + pause poll_interval).
Proof.
  intros K Hl. rewrite poll_loop_machine by done.
  destruct (machine _ _ _ _ _ _) as [e n|[a|x|] e n] eqn:R; intros [= ? <-]; try subst.
  - apply poller_run_verdict in R as (k & e0 & _ & _ & _ & _ & Hx); [|done].
    by apply observed_verdict_aborted in Hx as [[? [=]]|[? [=]]].
  - split; [done|]. replace (now _ - _) with e by (cbn; lia).
    eapply poller_run_timeout_window; [|apply pause_nonneg|exact R].
    intros i. split; [apply observed_latency_nonneg | apply Hl].
Qed.

(** C4: a job that is pending for [k] polls and completed on the next is
    answered after exactly [k + 1] requests, [k] pauses apart, with the
    answer built from the last status; it takes any fuel above [k]. *)
Theorem poll_loop_pending_then_completed k fuel d video_id user start_time timeout
    poll_interval w :
  let latency := observed_latency w video_id in
  let n := length (sent w) in
  let e := now w - start_time in
  api_key_ok (app_config w) = true ->
  (forall i, (i < k)%nat -> observed_verdict w video_id (n + i) = Pending) ->
  observed_verdict w video_id (n + k) = Finished (completed_dict video_id d) ->
  (forall i, (i <= k)%nat -> e + span latency (pause poll_interval) n i < deadline timeout) ->
  (k < fuel)%nat ->
  poll_loop fuel video_id user start_time timeout poll_interval w =
    (Ok (completed_dict video_id d),
     {| app_config := app_config w;
        now := now w + span latency (pause poll_interval) n k + latency (n + k)%nat;
        sent := sent w ++ replicate (S k) (poll_request w video_id);
        logged := logged w |}).
Proof.
  intros latency n e K Hv Hd Ht Hf. subst latency n e.
  rewrite poll_loop_machine by done. unfold machine.
  erewrite poller_run_pending_then; [|done|by rewrite Hd|done..].
  cbn [outcome_of]. unfold world_at. do 2 f_equal; [lia|]. do 2 f_equal. lia.
Qed.

(** C12: a job reported as failed ends the loop at once with status 500 and
    the provider's error in the detail; no further poll is sent. *)
Theorem poll_loop_failed_job fuel d r video_id user start_time timeout poll_interval w :
  let req := poll_request w video_id in
  api_key_ok (app_config w) = true ->
  in_time w start_time timeout = true ->
  outcome (upstream_reply (length (sent w)) req) = Replied r ->
  http_error_msg r = None ->
  resp_json r = inr (JDict d) ->
  d !! "status" = Some (JStr "failed") ->
  poll_loop (S fuel) video_id user start_time timeout poll_interval w =
    (Raise (HTTPException 500
              (JStr (failure_message (default (JStr "Unknown error") (d !! "error"))))),
     after_request w req).
Proof.
  intros req K T Hr He Hj Hs. subst req. unfold poll_request in *.
  rewrite poll_loop_turn by done. cbn zeta.
  unfold poll_verdict, fetch_result, fetch_failure. rewrite Hr, He, Hj.
  cbn [status_verdict]. by rewrite Hs, fetched_ok.
Qed.

(** C18: a poll that cannot be made is not repeated: when the call to the
    provider fails, the loop ends with status 500 and the text of the error,
    one request after it was entered, and the error is in the log as that
    of [get_video]. *)
Theorem poll_loop_no_retry fuel msg video_id user start_time timeout poll_interval w :
  let req := poll_request w video_id in
  api_key_ok (app_config w) = true ->
  in_time w start_time timeout = true ->
  outcome (upstream_reply (length (sent w)) req) = ConnectionFailed msg ->
  poll_loop (S fuel) video_id user start_time timeout poll_interval w =
    (Raise (HTTPException 500 (JStr msg)),
     log_to (emitted logging_ERROR ("Error getting video status: " +:+ msg)
               (Some (PyError ConnectionError msg)))
       (after_request w req)).
Proof.
  intros req K T Hr. subst req. unfold poll_request in *.
  rewrite poll_loop_turn by done. cbn zeta.
  unfold poll_verdict, fetch_result, fetched, fetch_failure. by rewrite Hr.
Qed.

(** The loop of the blocking mode logs nothing of its own: a timeout, a
    job that failed and a job that completed leave no record.  What a run
    of the loop adds to the log is at most one record, at level ERROR, that
    of the poll ([get_video]) whose failure ended the loop with a 500. *)
Theorem poll_loop_log fuel video_id user start_time timeout poll_interval w :
  exists l,
    log_of_loop w (poll_loop fuel video_id user start_time timeout poll_interval w) l.
Proof.
  destruct (api_key_ok (app_config w)) eqn:K; [by apply poll_loop_machine_log|].
  exists []. destruct fuel as [|fuel]; [apply log_of_loop_nil|].
  rewrite poll_loop_keyless by done. apply log_of_loop_nil.
Qed.

(** C35: when the submission is answered with an object without an id (or
    with an empty one), the blocking mode ends with status 500 and sends no
    poll. *)
Theorem video_generations_sync_no_id fuel d form_data user timeout poll_interval w w1 :
  video_generations form_data user w = (Ok (JDict d), w1) ->
  json_truthy (default JNull (d !! "id")) = false ->
  video_generations_sync fuel form_data user timeout poll_interval w =
    (Raise (HTTPException 500 no_id_error), w1).
Proof.
  intros Hs Hi. rewrite run_video_generations_sync, Hs. cbn [dict_get]. by rewrite Hi.
Qed.

(** C34: a timeout that is not positive is not refused: the job is submitted
    and the blocking mode answers 408 without a single poll. *)
Theorem video_generations_sync_no_time fuel d form_data user timeout poll_interval w w1 :
  video_generations form_data user w = (Ok (JDict d), w1) ->
  json_truthy (default JNull (d !! "id")) = true ->
  timeout <= 0 ->
  video_generations_sync (S fuel) form_data user timeout poll_interval w =
    (Raise (HTTPException 408 (JStr (timeout_message timeout (default JNull (d !! "id"))))),
     w1).
Proof.
  intros Hs Hi Ht. rewrite run_video_generations_sync, Hs. cbn [dict_get]. rewrite Hi.
  apply poll_loop_deadline. apply Z.ltb_ge. unfold TICKS_PER_SECOND. lia.
Qed.

(** No handler but [update_config] touches the configuration, none turns
    the clock back, and none takes a request off the record: the world after
    a handler is a later world of the one before. *)
Theorem handlers_forward fuel form_data user (id : string) limit after timeout poll_interval :
  forward (get_config user)
  /\ forward (get_models user)
  /\ forward (video_generations form_data user)
  /\ forward (list_videos user limit after)
  /\ forward (get_video id user)
  /\ forward (get_video_content id user)
  /\ forward (delete_video id user)
  /\ forward (video_generations_sync fuel form_data user timeout poll_interval).
Proof.
  split_and!;
    auto using forward_get_config, forward_get_models, forward_video_generations,
      forward_list_videos, forward_get_video, forward_get_video_content,
      forward_delete_video, forward_video_generations_sync.
Qed.

End SyncClaims.

(** * The properties at concrete runs *)

Lemma poll_loop_refines_witness :
  let v1 := JStr "v1" in
  exists s,
    rtc (transition (observed_verdict (P:=forwarding) (U:=patient) ready v1)
           (observed_latency (P:=forwarding) (U:=patient) ready v1)
           (deadline 300) (pause 5))
        (Polling (now ready - 0) (length (sent ready))) s
    /\ poll_loop (P:=forwarding) (U:=patient) 5 v1 alice 0 300 5 ready =
         outcome_of (P:=forwarding) (U:=patient) ready v1 0 300 s.
Proof.
  apply (poll_loop_refines (P:=forwarding) (U:=patient) 5 (JStr "v1") alice 0 300 5 ready).
  reflexivity.
Defined.

Lemma video_generations_sync_returns_witness :
  let run := video_generations_sync (P:=forwarding) (U:=prompt_service) (sync_fuel 300 5)
               (prompt_only "a cat") alice 300 5 ready in
  run.1 <> OutOfFuel /\ later_world ready run.2.
Proof.
  apply (video_generations_sync_returns (P:=forwarding) (U:=prompt_service)
           (sync_fuel 300 5) (prompt_only "a cat") alice 300 5 ready); [lia | reflexivity].
Defined.

Lemma poll_loop_fuel_monotone_witness :
  poll_loop (P:=forwarding) (U:=patient) 62 (JStr "v1") alice 0 300 5 ready =
    poll_loop (P:=forwarding) (U:=patient) 3 (JStr "v1") alice 0 300 5 ready.
Proof.
  apply (poll_loop_fuel_monotone (P:=forwarding) (U:=patient) 3 62 (JStr "v1") alice
           0 300 5 ready); [lia|].
  vm_compute. discriminate.
Defined.

Lemma poll_loop_busy_witness :
  poll_loop (P:=forwarding) (U:=stalling) 50 (JStr "v1") alice 0 300 0 ready =
    (OutOfFuel,
     {| app_config := app_config ready; now := now ready;
        sent := sent ready ++
                replicate 50 (poll_request (P:=forwarding) ready (JStr "v1"));
        logged := logged ready |}).
Proof.
  apply (poll_loop_busy (P:=forwarding) (U:=stalling) 50 (JStr "v1") alice 0 300 0 ready);
    [reflexivity | lia | reflexivity | intros n; reflexivity | intros n; reflexivity].
Defined.

Lemma poll_loop_timeout_window_witness :
  let v1 := JStr "v1" in
  let end_ := (poll_loop (P:=forwarding) (U:=stalling) 4 v1 alice 0 10 5 ready).2 in
  JStr (timeout_message (P:=forwarding) 10 v1) = JStr (timeout_message (P:=forwarding) 10 v1)
  /\ deadline 10 <= now end_ - 0 < Z.max (now ready - 0 + 1) (deadline 10 + 0 + pause 5).
Proof.
  apply (poll_loop_timeout_window (P:=forwarding) (U:=stalling) 4 0
           (JStr (timeout_message (P:=forwarding) 10 (JStr "v1"))) (JStr "v1") alice
           0 10 5 ready);
    [reflexivity | intros n; vm_compute; discriminate | vm_compute; reflexivity].
Defined.

Lemma poll_loop_pending_then_completed_witness :
  let v1 := JStr "v1" in
  let d : gmap string JSON :=
    <["seconds" := JStr "4"]> (<["size" := JStr "1920x1080"]>
      (<["model" := JStr "sora-2"]> (<["status" := JStr "completed"]>
        (<["id" := JStr "v1"]> ∅)))) in
  poll_loop (P:=forwarding) (U:=patient) 4 v1 alice 0 300 5 ready =
    (Ok (completed_dict (H:=type_repr) v1 d),
     {| app_config := app_config ready;
        now := now ready
               + span (observed_latency (P:=forwarding) (U:=patient) ready v1) (pause 5)
                   (length (sent ready)) 2
               + observed_latency (P:=forwarding) (U:=patient) ready v1
                   (length (sent ready) + 2);
        sent := sent ready ++ replicate 3 (poll_request (P:=forwarding) ready v1);
        logged := logged ready |}).
Proof.
  apply (poll_loop_pending_then_completed (P:=forwarding) (U:=patient) 2 4);
    [reflexivity | intros [|[|i]] Hi; [reflexivity..|lia] | reflexivity
    | intros [|[|[|i]]] Hi; [reflexivity..|lia] | lia].
Defined.

Lemma poll_loop_failed_job_witness :
  let v1 := JStr "v1" in
  let d : gmap string JSON :=
    <["error" := JStr "quota exceeded"]> (<["status" := JStr "failed"]>
      (<["id" := JStr "v1"]> ∅)) in
  poll_loop (P:=forwarding) (U:=out_of_quota) 1 v1 alice 0 300 5 ready =
    (Raise (HTTPException 500
              (JStr (failure_message (P:=forwarding)
                       (default (JStr "Unknown error") (d !! "error"))))),
     after_request (H:=out_of_quota) ready (poll_request (P:=forwarding) ready v1)).
Proof.
  apply (poll_loop_failed_job (P:=forwarding) (U:=out_of_quota) 0 _
           (json_response 200 "OK" (failed_job "v1" (JStr "quota exceeded"))));
    reflexivity.
Defined.

Lemma poll_loop_no_retry_witness :
  let v1 := JStr "v1" in
  poll_loop (P:=forwarding) (U:=unreachable) 62 v1 alice 0 300 5 ready =
    (Raise (HTTPException 500 (JStr "Connection aborted.")),
     log_to
       [{| rec_level := 40;
           rec_message := "Error getting video status: Connection aborted.";
           rec_exc_info := Some (PyError ConnectionError "Connection aborted.") |}]
       (after_request (H:=unreachable) ready (poll_request (P:=forwarding) ready v1))).
Proof.
  apply (poll_loop_no_retry (P:=forwarding) (U:=unreachable) 61 "Connection aborted.");
    reflexivity.
Defined.

Lemma video_generations_sync_no_id_witness :
  let w1 := (video_generations (P:=forwarding) (U:=nameless) (prompt_only "a cat") alice
               ready).2 in
  video_generations_sync (P:=forwarding) (U:=nameless) 62 (prompt_only "a cat") alice 300 5
    ready = (Raise (HTTPException 500 no_id_error), w1).
Proof.
  apply (video_generations_sync_no_id (P:=forwarding) (U:=nameless) 62 ∅); reflexivity.
Defined.

Lemma video_generations_sync_no_time_witness :
  let d : gmap string JSON := <["status" := JStr "queued"]> (<["id" := JStr "v1"]> ∅) in
  let w1 := (video_generations (P:=forwarding) (U:=prompt_service) (prompt_only "a cat")
               alice ready).2 in
  video_generations_sync (P:=forwarding) (U:=prompt_service) 1 (prompt_only "a cat") alice
    0 5 ready =
    (Raise (HTTPException 408
              (JStr (timeout_message (P:=forwarding) 0 (default JNull (d !! "id"))))), w1).
Proof.
  apply (video_generations_sync_no_time (P:=forwarding) (U:=prompt_service) 0);
    [reflexivity | reflexivity | lia].
Defined.

(** The end-to-end scenario of the specification: a prompt with four
    seconds is submitted, the provider accepts the job as queued and reports
    it completed on the first poll; the blocking mode answers with the id,
    the status, the location of the content and the model, size and seconds
    of the provider, after one submission and one poll. *)
Example video_generations_sync_scenario :
  let form_data :=
    {| form_model := None; form_prompt := "a cat"; form_input_reference := None;
       form_seconds := Some "4"; form_size := None; form_quality := None; form_n := 1 |} in
  let run := video_generations_sync (P:=forwarding) (U:=prompt_service) (sync_fuel 300 5)
               form_data alice 300 5 ready in
  run.1 = Ok (JDict (list_to_map [
                ("id", JStr "v1"); ("status", JStr "completed");
                ("url", JStr "/api/v1/videos/v1/content"); ("model", JStr "sora-2");
                ("size", JStr "1920x1080"); ("seconds", JStr "4")]))
  /\ req_method <$> sent run.2 = [POST; GET]
  /\ req_url <$> sent run.2 =
       ["https://api.openai.com/v1/videos"; "https://api.openai.com/v1/videos/v1"].
Proof. by vm_compute. Qed.
