(* ===== verification/Router.v ===== *)
(** * Router: the route table and the life of a request

    [videos.py] declares nine routes on one [APIRouter], in this order:
    GET /config, POST /config/update, GET /models, POST /generations,
    GET /list, GET /{video_id}, GET /{video_id}/content, DELETE /{video_id}
    and POST /generations/sync.  This file models what the framework makes of
    that declaration: a request is given to the first route whose path and
    method match ([dispatch]), its dependencies are resolved (the user, from
    the authorization collaborator [Auth]), its parameters and body are
    validated, the handler runs, and what it returns or raises becomes the
    reply ([serve]).  A sequence of requests is served one after the other
    ([serve_all]).

    The order of the table matters: /list, /config and /models are declared
    before /{video_id}, so a GET of these paths never reaches [get_video]
    ([dispatch_get_one_segment]).  Only [update_config] writes the
    configuration, and only for an admin ([serve_config_change]); the store
    therefore stays typed over any sequence of requests
    ([serve_all_config_typed]), and GET /config never fails its response
    model ([serve_get_config]). *)

From S2P Require Import Prelude PyStr Json Effects Base64 Fixtures Config Submission Client Poller Sync.

#[local] Open Scope videos_scope.
#[local] Open Scope Z_scope.

(** ** The route table *)

(** The handlers, by name. *)
Inductive Route :=
| RGetConfig
| RUpdateConfig
| RGetModels
| RGenerations
| RList
| RGetVideo
| RGetVideoContent
| RDeleteVideo
| RGenerationsSync.

#[export] Instance Route_eq_dec : EqDecision Route.
Proof. solve_decision. Defined.

#[export] Instance Method_eq_dec : EqDecision Method.
Proof. solve_decision. Defined.

(** A segment of a route's path: a literal, or a parameter in braces. *)
Inductive Segment :=
| Lit (s : string)
| Param (name : string).

(** The nine decorators of [videos.py]: the method, the path and the
    handler that each one registers. *)
Definition route_get_config : Method * list Segment * Route :=
  (GET, [Lit "config"], RGetConfig).
Definition route_update_config : Method * list Segment * Route :=
  (POST, [Lit "config"; Lit "update"], RUpdateConfig).
Definition route_get_models : Method * list Segment * Route :=
  (GET, [Lit "models"], RGetModels).
Definition route_video_generations : Method * list Segment * Route :=
  (POST, [Lit "generations"], RGenerations).
Definition route_list_videos : Method * list Segment * Route :=
  (GET, [Lit "list"], RList).
Definition route_get_video : Method * list Segment * Route :=
  (GET, [Param "video_id"], RGetVideo).
Definition route_get_video_content : Method * list Segment * Route :=
  (GET, [Param "video_id"; Lit "content"], RGetVideoContent).
Definition route_delete_video : Method * list Segment * Route :=
  (DELETE, [Param "video_id"], RDeleteVideo).
Definition route_video_generations_sync : Method * list Segment * Route :=
  (POST, [Lit "generations"; Lit "sync"], RGenerationsSync).

(** [router]: the routes that the decorators have registered on it once the
    module is imported, in the order of the file. *)
Definition route_table : list (Method * list Segment * Route) := [
  route_get_config;
  route_update_config;
  route_get_models;
  route_video_generations;
  route_list_videos;
  route_get_video;
  route_get_video_content;
  route_delete_video;
  route_video_generations_sync
].

#[export] Hint Unfold route_table route_get_config route_update_config route_get_models
  route_video_generations route_list_videos route_get_video route_get_video_content
  route_delete_video route_video_generations_sync : routes.

(** A path matches a pattern segment by segment; a parameter takes any
    segment that is not empty.  The result is the values of the parameters. *)
Fixpoint match_path (pattern : list Segment) (path : list string) : option (list string) :=
  match pattern, path with
  | [], [] => Some []
  | Lit s :: pattern', x :: path' =>
      if decide (x = s) then match_path pattern' path' else None
  | Param _ :: pattern', x :: path' =>
      if str_truthy x then cons x <$> match_path pattern' path' else None
  | _, _ => None
  end.

(** What the routing finds for a request. *)
Inductive Match :=
| Full (r : Route) (params : list string)
| Partial
| NoMatch.

(** The first route whose path and method match; failing that, [Partial]
    when some route matches the path under another method. *)
Fixpoint dispatch_in (table : list (Method * list Segment * Route))
    (method : Method) (path : list string) : Match :=
  match table with
  | [] => NoMatch
  | (m, pattern, r) :: table' =>
      match match_path pattern path with
      | Some params =>
          if decide (m = method) then Full r params
          else match dispatch_in table' method path with
               | NoMatch => Partial
               | found => found
               end
      | None => dispatch_in table' method path
      end
  end.

Definition dispatch (method : Method) (path : list string) : Match :=
  dispatch_in route_table method path.

(** ** Requests and replies *)

(** The authorization collaborator: who the bearer of the credentials is, as
    a verified user and as an admin; an admin is a verified user. *)
Class Auth := {
  Credentials : Type;
  get_verified_user : Credentials -> Exn + User;
  get_admin_user : Credentials -> Exn + User;
  admin_is_verified c u : get_admin_user c = inr u -> get_verified_user c = inr u }.

(** A request as it reaches the router: the path is cut into its segments
    after the prefix under which the router is mounted; the query and the
    body are parsed, not yet validated. *)
Record Inbound `{Auth} := {
  in_method : Method;
  in_path : list string;
  in_credentials : Credentials;
  in_query : gmap string JSON;
  in_body : JSON }.

(** A reply: a JSON body under a status, a stream, the framework's answer
    to a request that does not validate, or its answer to an exception that
    no handler for exceptions knows. *)
Inductive Reply :=
| JsonReply (code : Z) (body : JSON)
| StreamReply (sr : StreamingResponse)
| Unprocessable
| InternalServerError.

Definition detail_reply (code : Z) (detail : JSON) : Reply :=
  JsonReply code (JDict {[ "detail" := detail ]}).

(** The reply for an exception that leaves a handler. *)
Definition reply_of_exn (e : Exn) : Reply :=
  match e with
  | HTTPException code detail => detail_reply code detail
  | _ => InternalServerError
  end.

Definition status_of (r : Reply) : Z :=
  match r with
  | JsonReply code _ => code
  | StreamReply _ => 200
  | Unprocessable => 422
  | InternalServerError => 500
  end.

(** ** Validation of parameters and bodies *)

(** A query parameter declared [name: int = dflt]. *)
Definition query_int (query : gmap string JSON) (name : string) (dflt : Z) : option Z :=
  match query !! name with
  | None => Some dflt
  | Some (JInt z) => Some z
  | Some _ => None
  end.

(** A query parameter declared [name: Optional[str] = None]. *)
Definition query_opt_str (query : gmap string JSON) (name : string) : option (option string) :=
  match query !! name with
  | None => Some None
  | Some v => as_opt_str v
  end.

(** A field declared [Optional[str] = None]. *)
Definition field_opt_str (d : gmap string JSON) (name : string) : option (option string) :=
  match d !! name with
  | None => Some None
  | Some v => as_opt_str v
  end.

(** The body of POST /generations against [CreateVideoForm]: [prompt] is
    required, [n] defaults to 1, the rest to [None]. *)
Definition validate_CreateVideoForm (body : JSON) : option CreateVideoForm :=
  match body with
  | JDict d =>
      model ← field_opt_str d "model";
      prompt ← d !! "prompt" ≫= as_str;
      input_reference ← field_opt_str d "input_reference";
      seconds ← field_opt_str d "seconds";
      size ← field_opt_str d "size";
      quality ← field_opt_str d "quality";
      n ← match d !! "n" with
          | None => Some 1
          | Some (JInt z) => Some z
          | Some _ => None
          end;
      Some {| form_model := model; form_prompt := prompt;
              form_input_reference := input_reference; form_seconds := seconds;
              form_size := size; form_quality := quality; form_n := n |}
  | _ => None
  end.

(** [class VideoStatus(BaseModel)]: the status of a job as the module
    declares it. *)
Record VideoStatus := {
  vs_id : string;
  vs_object : string;
  vs_model : string;
  vs_status : string;
  vs_progress : Z;
  vs_created_at : Z;
  vs_size : option string;
  vs_seconds : option string;
  vs_quality : option string }.

Definition as_int (v : JSON) : option Z :=
  match v with JInt z => Some z | _ => None end.

(** A JSON value against [VideoStatus]: the six required fields with their
    types, the three optional ones. *)
Definition validate_VideoStatus (body : JSON) : option VideoStatus :=
  match body with
  | JDict d =>
      id ← d !! "id" ≫= as_str;
      object ← d !! "object" ≫= as_str;
      model ← d !! "model" ≫= as_str;
      status ← d !! "status" ≫= as_str;
      progress ← d !! "progress" ≫= as_int;
      created_at ← d !! "created_at" ≫= as_int;
      size ← field_opt_str d "size";
      seconds ← field_opt_str d "seconds";
      quality ← field_opt_str d "quality";
      Some {| vs_id := id; vs_object := object; vs_model := model; vs_status := status;
              vs_progress := progress; vs_created_at := created_at; vs_size := size;
              vs_seconds := seconds; vs_quality := quality |}
  | _ => None
  end.

(** The body of POST /config/update against [VideosConfig]. *)
Definition validate_config_body (body : JSON) : option VideosConfig :=
  match body with
  | JDict d => validate_VideosConfig d
  | _ => None
  end.

(** ** Serving a request *)

Section Serve.
Context {P : Platform} {U : Upstream} {A : Auth}.

(** A dependency that yields a value or raises. *)
Definition depends {X} (r : Exn + X) : M X := fun w => (res_of r, w).

(** A validated argument, or the reply 422 in place of the handler. *)
Definition validated {X} (arg : option X) (k : X -> M Reply) : M Reply :=
  match arg with
  | Some x => k x
  | None => mret Unprocessable
  end.

(** The endpoint of a route: dependencies, validation, the handler, and the
    serialisation of what it returns.  GET /config checks its answer
    against the response model. *)
Definition endpoint (fuel : nat) (r : Route) (params : list string) (req : Inbound)
  : M Reply :=
  let video_id := default "" (head params) in
  match r with
  | RGetConfig =>
      user ← depends (get_admin_user (in_credentials req));
      d ← get_config user;
      mret (match validate_VideosConfig d with
            | Some _ => JsonReply 200 (JDict d)
            | None => InternalServerError
            end)
  | RUpdateConfig =>
      user ← depends (get_admin_user (in_credentials req));
      validated (validate_config_body (in_body req)) (fun form_data =>
        d ← update_config form_data user;
        mret (JsonReply 200 (JDict d)))
  | RGetModels =>
      user ← depends (get_verified_user (in_credentials req));
      v ← get_models user;
      mret (JsonReply 200 v)
  | RGenerations =>
      user ← depends (get_verified_user (in_credentials req));
      validated (validate_CreateVideoForm (in_body req)) (fun form_data =>
        v ← video_generations form_data user;
        mret (JsonReply 200 v))
  | RList =>
      user ← depends (get_verified_user (in_credentials req));
      validated (query_int (in_query req) "limit" 20) (fun limit =>
      validated (query_opt_str (in_query req) "after") (fun after =>
        v ← list_videos user limit after;
        mret (JsonReply 200 v)))
  | RGetVideo =>
      user ← depends (get_verified_user (in_credentials req));
      v ← get_video video_id user;
      mret (JsonReply 200 v)
  | RGetVideoContent =>
      user ← depends (get_verified_user (in_credentials req));
      sr ← get_video_content video_id user;
      mret (StreamReply sr)
  | RDeleteVideo =>
      user ← depends (get_verified_user (in_credentials req));
      v ← delete_video video_id user;
      mret (JsonReply 200 v)
  | RGenerationsSync =>
      user ← depends (get_verified_user (in_credentials req));
      validated (validate_CreateVideoForm (in_body req)) (fun form_data =>
      validated (query_int (in_query req) "timeout" 300) (fun timeout =>
      validated (query_int (in_query req) "poll_interval" 5) (fun poll_interval =>
        v ← video_generations_sync fuel form_data user timeout poll_interval;
        mret (JsonReply 200 v))))
  end.

(** The exception handlers of the application around an endpoint. *)
Definition guarded (m : M Reply) : M Reply :=
  try_except m (fun e => Some (mret (reply_of_exn e))).

(** One request, from routing to reply. *)
Definition serve (fuel : nat) (req : Inbound) : M Reply :=
  match dispatch (in_method req) (in_path req) with
  | Full r params => guarded (endpoint fuel r params req)
  | Partial => mret (detail_reply 405 (JStr "Method Not Allowed"))
  | NoMatch => mret (detail_reply 404 (JStr "Not Found"))
  end.

(** A sequence of requests, one after the other. *)
Fixpoint serve_all (fuel : nat) (reqs : list Inbound) : M (list Reply) :=
  match reqs with
  | [] => mret []
  | req :: reqs' =>
      reply ← serve fuel req;
      replies ← serve_all fuel reqs';
      mret (reply :: replies)
  end.

End Serve.

(** ** The authorization at concrete runs *)

Definition access_prohibited : Exn :=
  HTTPException 401
    (JStr "You do not have permission to access this resource. Please contact your administrator for assistance.").

Definition not_authenticated : Exn := HTTPException 401 (JStr "Not authenticated").

(** Users are who they say they are; a verified user has the role user or
    admin, an admin the role admin. *)
Definition verified_by_role (c : option User) : Exn + User :=
  match c with
  | Some u =>
      if decide (user_role u = "user" \/ user_role u = "admin") then inr u
      else inl access_prohibited
  | None => inl not_authenticated
  end.

Definition admin_by_role (c : option User) : Exn + User :=
  match c with
  | Some u => if decide (user_role u = "admin") then inr u else inl access_prohibited
  | None => inl not_authenticated
  end.

Lemma admin_by_role_verified c u : admin_by_role c = inr u -> verified_by_role c = inr u.
Proof.
  destruct c as [u'|]; [|done]. cbn. repeat case_decide; naive_solver.
Qed.

Definition by_role : Auth :=
  {| Credentials := option User;
     get_verified_user := verified_by_role;
     get_admin_user := admin_by_role;
     admin_is_verified := admin_by_role_verified |}.

Definition root : User :=
  {| user_id := "u-0"; user_name := "Root"; user_email := "root@example.org";
     user_role := "admin" |}.

Definition guest : User :=
  {| user_id := "u-2"; user_name := "Guest"; user_email := "guest@example.org";
     user_role := "pending" |}.

(** The configuration after a request: what an admin's valid update
    assigns, and the configuration before in every other case. *)
Definition config_after `{Auth} (req : Inbound) (config : gmap string JSON)
  : gmap string JSON :=
  match dispatch (in_method req) (in_path req),
        get_admin_user (in_credentials req),
        validate_config_body (in_body req) with
  | Full RUpdateConfig _, inr _, Some form_data => assign_config form_data config
  | _, _, _ => config
  end.

(** * Properties *)

Section Dispatch.
Implicit Types (x : string) (path : list string).

Lemma match_path_lit s x :
  match_path [Lit s] [x] = if decide (x = s) then Some [] else None.
Proof. cbn. by case_decide. Qed.

Lemma match_path_param name x :
  match_path [Param name] [x] = if str_truthy x then Some [x] else None.
Proof. cbn. by destruct (str_truthy x). Qed.

Lemma match_path_longer seg1 seg2 pattern x : match_path (seg1 :: seg2 :: pattern) [x] = None.
Proof. cbn. destruct seg1; [case_decide|destruct (str_truthy x)]; by destruct seg2. Qed.

(** A full match comes from a row of the table. *)
Lemma dispatch_in_full table method path r params :
  dispatch_in table method path = Full r params ->
  exists pattern, (method, pattern, r) ∈ table /\ match_path pattern path = Some params.
Proof.
  induction table as [|[[m pattern] r'] table IH]; [done|]. cbn [dispatch_in].
  destruct (match_path pattern path) as [ps|] eqn:Hm.
  - case_decide as Hd.
    + intros [= <- <-]. subst m. exists pattern. split; [left|done].
    + destruct (dispatch_in table method path); [|done..].
      intros [= <- <-]. destruct IH as (pat & ? & ?); [done|].
      exists pat. split; [by right|done].
  - intros H. destruct (IH H) as (pat & ? & ?). exists pat. split; [by right|done].
Qed.

(** A request that reaches [update_config] is a POST of /config/update. *)
Lemma dispatch_update_config method path params :
  dispatch method path = Full RUpdateConfig params ->
  method = POST /\ path = ["config"; "update"].
Proof.
  intros (pattern & Hin & Hm)%dispatch_in_full. autounfold with routes in Hin.
  repeat (apply elem_of_cons in Hin as [[=]|Hin]); [|by apply elem_of_nil in Hin].
  subst. split; [done|].
  destruct path as [|a [|b [|c path]]]; cbn in Hm; repeat case_decide; by simplify_eq.
Qed.

End Dispatch.

Section ServeFacts.
Context {P : Platform} {U : Upstream} {A : Auth}.
Implicit Types (w : World) (req : Inbound) (fuel : nat) (r : Route).

Lemma forward_depends {X} (r : Exn + X) : forward (depends r).
Proof. intros w. reflexivity. Qed.

Lemma inert_depends {X} (r : Exn + X) : inert (depends r).
Proof. done. Qed.

Lemma total_depends {X} (r : Exn + X) : total (depends r).
Proof. intros w. by destruct r. Qed.

Lemma forward_validated {X} (arg : option X) k :
  (forall x, forward (k x)) -> forward (validated arg k).
Proof. intros Hk. destruct arg; [apply Hk|]. apply forward_ret. Qed.

Lemma forward_guarded m : forward m -> forward (guarded m).
Proof.
  intros Hm. apply forward_try; [done|]. intros e h [= <-]. apply forward_ret.
Qed.

(** What [guarded] makes of the three outcomes. *)
Lemma run_guarded m w :
  guarded m w =
    match m w with
    | (Ok reply, w') => (Ok reply, w')
    | (Raise e, w') => (Ok (reply_of_exn e), w')
    | (OutOfFuel, w') => (OutOfFuel, w')
    end.
Proof. unfold guarded, try_except. by destruct (m w) as [[reply|e|] w']. Qed.

Lemma run_depends_ok {X B} (r : Exn + X) (k : X -> M B) x w :
  r = inr x -> (depends r ≫= k) w = k x w.
Proof. by intros ->. Qed.

Lemma run_depends_raise {X B} (r : Exn + X) (k : X -> M B) e w :
  r = inl e -> (depends r ≫= k) w = (Raise e, w).
Proof. by intros ->. Qed.

#[local] Hint Resolve inert_depends total_depends : videos.

#[local] Hint Resolve forward_depends forward_get_config forward_get_models
  forward_video_generations forward_list_videos forward_get_video
  forward_get_video_content forward_delete_video forward_video_generations_sync : videos.

(** Every endpoint but that of [update_config] moves the world forward. *)
Lemma forward_endpoint fuel r params req :
  r <> RUpdateConfig -> forward (endpoint fuel r params req).
Proof.
  intros Hr. destruct r; [|done|..]; cbn [endpoint];
    apply forward_bind; auto with videos; intros user;
    repeat (apply forward_validated; intros ?); effects.
Qed.

(** The endpoint of [update_config], case by case. *)
Lemma run_update_endpoint fuel params req w :
  guarded (endpoint fuel RUpdateConfig params req) w =
    match get_admin_user (in_credentials req), validate_config_body (in_body req) with
    | inl e, _ => (Ok (reply_of_exn e), w)
    | inr user, None => (Ok Unprocessable, w)
    | inr user, Some form_data =>
        (Ok (JsonReply 200 (JDict (form_dict form_data))),
         {| app_config := assign_config form_data (app_config w);
            now := now w; sent := sent w; logged := logged w |})
    end.
Proof.
  rewrite run_guarded. cbn [endpoint].
  destruct (get_admin_user _) as [e|user] eqn:Ha.
  - by rewrite (run_depends_raise _ _ e).
  - rewrite (run_depends_ok _ _ user) by done.
    destruct (validate_config_body _) as [form_data|]; [|done].
    cbn [validated]. rewrite run_bind, run_update_config, run_ret.
    by rewrite config_dict_assign.
Qed.

(** A request on the route of [update_config] is answered at once; only
    the configuration changes, to [config_after]. *)
Lemma serve_update_world fuel req params w :
  dispatch (in_method req) (in_path req) = Full RUpdateConfig params ->
  exists reply,
    serve fuel req w =
      (Ok reply, {| app_config := config_after req (app_config w);
                    now := now w; sent := sent w; logged := logged w |}).
Proof.
  intros Hd. unfold serve, config_after. rewrite Hd, run_update_endpoint.
  destruct (get_admin_user (in_credentials req)), (validate_config_body (in_body req));
    eexists; by destruct w.
Qed.

Lemma dispatch_update_or_other method path :
  (exists params, dispatch method path = Full RUpdateConfig params) \/
  (forall params, dispatch method path <> Full RUpdateConfig params).
Proof. destruct (dispatch method path) as [[] params| |]; eauto; by right. Qed.

(** A request on another route leaves the configuration as it is. *)
Lemma config_after_other req config :
  (forall params, dispatch (in_method req) (in_path req) <> Full RUpdateConfig params) ->
  config_after req config = config.
Proof.
  intros Hd. unfold config_after.
  destruct (dispatch _ _) as [[] params| |] eqn:E; try done. by destruct (Hd params).
Qed.

(** The configuration after a request is [config_after]. *)
Lemma serve_config fuel req w :
  app_config (serve fuel req w).2 = config_after req (app_config w).
Proof.
  unfold serve, config_after.
  destruct (dispatch _ _) as [r params| |]; [|done..].
  destruct (decide (r = RUpdateConfig)) as [->|Hr].
  - rewrite run_update_endpoint.
    by destruct (get_admin_user (in_credentials req)), (validate_config_body (in_body req)).
  - transitivity (app_config w); [|by destruct r].
    by apply (forward_guarded _ (forward_endpoint fuel r params req Hr)).
Qed.

(** ** Endpoints up to pointwise equality *)

#[export] Instance guarded_proper : Proper (meq ==> meq) guarded.
Proof. intros m1 m2 Hm. unfold guarded. by rewrite Hm. Qed.

Lemma guarded_raise e : guarded (raise e) =m= mret (reply_of_exn e).
Proof. done. Qed.

Lemma depends_raise {X B} e (k : X -> M B) : (depends (inl e) ≫= k) =m= raise e.
Proof. done. Qed.

(** For a bearer who is not verified every endpoint is a raise. *)
Lemma endpoint_unverified fuel r params req e :
  get_verified_user (in_credentials req) = inl e ->
  exists e', endpoint fuel r params req =m= raise e'.
Proof.
  intros Hv.
  assert (exists e', get_admin_user (in_credentials req) = inl e') as [e' Ha].
  { destruct (get_admin_user _) as [e'|u] eqn:Ha; [eauto|].
    apply admin_is_verified in Ha. congruence. }
  destruct r; cbn [endpoint]; rewrite ?Hv, ?Ha; eexists; apply depends_raise.
Qed.

Lemma serve_no_raise fuel req w e : (serve fuel req w).1 <> Raise e.
Proof.
  unfold serve. destruct (dispatch _ _) as [r params| |]; [|done..].
  rewrite run_guarded. by destruct (endpoint _ _ _ _ _) as [[reply|e'|] w'].
Qed.

Lemma config_after_typed req config :
  config_typed config -> config_typed (config_after req config).
Proof.
  intros Hc. unfold config_after. repeat case_match; auto using config_typed_assign.
Qed.

End ServeFacts.

(** * The properties of the router *)

Section RouterClaims.
Context {P : Platform} {U : Upstream} {A : Auth}.
Implicit Types (w : World) (req : Inbound) (fuel : nat).

(** C39: the order of the declarations decides who answers a GET of one
    segment: /config, /models and /list, declared before /{video_id},
    shadow it, so [get_video] is reached exactly by the other non-empty
    segments; a job whose id is one of these three words cannot be asked
    for. *)
Theorem dispatch_get_one_segment (x : string) :
  dispatch GET [x] =
    if decide (x = "config") then Full RGetConfig []
    else if decide (x = "models") then Full RGetModels []
    else if decide (x = "list") then Full RList []
    else if str_truthy x then Full RGetVideo [x]
    else NoMatch.
Proof.
  unfold dispatch. autounfold with routes. cbn [dispatch_in].
  rewrite !match_path_lit, !match_path_param, !match_path_longer.
  repeat case_decide; try done; subst; try done.
  destruct (str_truthy x); by repeat case_decide.
Qed.

(** C24: only an admin's valid POST of /config/update changes the
    configuration: when the configuration after a request differs from the
    one before, the request is that POST, its bearer is an admin, its body
    validates against VideosConfig, and the change is the assignment of its
    eight values. *)
Theorem serve_config_change fuel req w :
  app_config (serve fuel req w).2 <> app_config w ->
  exists user form_data,
    in_method req = POST /\ in_path req = ["config"; "update"]
    /\ get_admin_user (in_credentials req) = inr user
    /\ validate_config_body (in_body req) = Some form_data
    /\ app_config (serve fuel req w).2 = assign_config form_data (app_config w).
Proof.
  rewrite serve_config. unfold config_after.
  destruct (dispatch _ _) as [[] params| |] eqn:Hd; try done.
  destruct (get_admin_user _) as [e|user]; [done|].
  destruct (validate_config_body _) as [form_data|]; [|done].
  intros _. exists user, form_data. by destruct (dispatch_update_config _ _ _ Hd).
Qed.

(** The configuration stays well typed whatever requests are served:
    from a store that passes the response model, every store along any
    sequence of requests passes it too. *)
Theorem serve_all_config_typed fuel (reqs : list Inbound) w :
  config_typed (app_config w) -> config_typed (app_config (serve_all fuel reqs w).2).
Proof.
  revert w. induction reqs as [|req reqs IH]; intros w Hw; [done|].
  cbn [serve_all]. rewrite run_bind.
  pose proof (serve_config fuel req w) as Hc. pose proof (serve_no_raise fuel req w) as Hr.
  destruct (serve fuel req w) as [[reply|e|] w1]; cbn [fst snd] in *;
    [|by destruct (Hr e)|rewrite Hc; by apply config_after_typed].
  rewrite run_bind. specialize (IH w1). rewrite Hc in IH.
  specialize (IH (config_after_typed _ _ Hw)).
  by destruct (serve_all fuel reqs w1) as [[replies|e|] w2].
Qed.

(** On a well-typed store, GET /config answers an admin with status 200
    and the configuration with its defaults; the response model never
    fails. *)
Theorem serve_get_config fuel req w user :
  in_method req = GET -> in_path req = ["config"] ->
  get_admin_user (in_credentials req) = inr user ->
  config_typed (app_config w) ->
  serve fuel req w = (Ok (JsonReply 200 (JDict (config_dict (app_config w)))), w).
Proof.
  intros Hm Hp Ha [cfg Hc]. unfold serve. rewrite Hm, Hp, dispatch_get_one_segment.
  rewrite decide_True by done. rewrite run_guarded. cbn [endpoint].
  rewrite (run_depends_ok _ _ user) by done.
  by rewrite run_bind, run_get_config, run_ret, Hc.
Qed.

(** A request whose bearer is not a verified user has no effect: the
    configuration, the clock and the record of requests sent to the provider
    are as before, and the caller gets a reply. *)
Theorem serve_unverified_no_effect fuel req w e :
  get_verified_user (in_credentials req) = inl e ->
  exists reply, serve fuel req w = (Ok reply, w).
Proof.
  intros Hv. unfold serve.
  destruct (dispatch _ _) as [r params| |]; [|by eexists..].
  destruct (endpoint_unverified fuel r params req e Hv) as [e' He].
  exists (reply_of_exn e'). by rewrite (guarded_proper _ _ He w), (guarded_raise e' w).
Qed.

(** Every request is answered: with a positive poll interval and the
    fuel of [sync_fuel] for the timeout, serving a request ends with a
    reply, never with an exception and never out of fuel. *)
Theorem serve_returns fuel req w timeout poll_interval :
  query_int (in_query req) "timeout" 300 = Some timeout ->
  query_int (in_query req) "poll_interval" 5 = Some poll_interval ->
  0 < poll_interval -> (sync_fuel timeout poll_interval <= fuel)%nat ->
  exists reply, (serve fuel req w).1 = Ok reply.
Proof.
  intros Ht Hp Hpos Hf.
  assert ((serve fuel req w).1 <> OutOfFuel) as Hfuel; last first.
  { pose proof (serve_no_raise fuel req w) as Hr.
    destruct (serve fuel req w) as [[reply|e|] w']; [by eexists|by destruct (Hr e)|done]. }
  unfold serve. destruct (dispatch _ _) as [r params| |]; [|done..].
  apply total_try; [|intros e h [= <-]; apply total_ret].
  destruct r; cbn [endpoint]; rewrite ?Ht, ?Hp;
    (apply total_bind; [apply total_depends|intros user]);
    repeat match goal with |- total (validated ?a _) => destruct a; cbn [validated] end;
    effects;
    auto using total_video_generations, total_list_videos, total_get_video,
      total_get_video_content, total_delete_video, total_video_generations_sync.
Qed.

(** The status of a job is passed on as the provider sends it: whatever
    JSON value the provider answers with under a successful status is the
    body of the reply 200, whether or not it is a [VideoStatus]; the model
    is declared and no route checks against it. *)
Theorem get_video_status_unchecked fuel req w user video_id r v :
  dispatch (in_method req) (in_path req) = Full RGetVideo [video_id] ->
  get_verified_user (in_credentials req) = inr user ->
  api_key_ok (app_config w) = true ->
  outcome (upstream_reply (length (sent w)) (status_request (app_config w) video_id))
    = Replied r ->
  http_error_msg r = None -> resp_json r = inr v ->
  (serve fuel req w).1 = Ok (JsonReply 200 v).
Proof.
  intros Hd Hu K Ho He Hj. unfold serve. rewrite Hd, run_guarded.
  cbn [endpoint head default from_option id].
  rewrite (run_depends_ok _ _ user) by done. rewrite run_bind, run_get_video by done.
  unfold fetch_result. by rewrite Ho, He, Hj.
Qed.

End RouterClaims.

(** * The properties at concrete runs *)

(** The admin's update that sets the API key, and requests of a user. *)
Definition with_key : VideosConfig :=
  {| ENABLE_VIDEO_GENERATION := true; VIDEO_GENERATION_ENGINE := "openai";
     VIDEO_GENERATION_MODEL := "sora-2"; VIDEO_DURATION := Some "4";
     VIDEO_SIZE := Some "1920x1080"; VIDEO_QUALITY := Some "standard";
     VIDEOS_OPENAI_API_BASE_URL := "https://api.openai.com/v1";
     VIDEOS_OPENAI_API_KEY := "sk-test" |}.

Definition post_update (c : Credentials (Auth:=by_role)) : Inbound (H:=by_role) :=
  {| in_method := POST; in_path := ["config"; "update"]; in_credentials := c;
     in_query := ∅; in_body := JDict (form_dict with_key) |}.

Definition get_the_config (c : Credentials (Auth:=by_role)) : Inbound (H:=by_role) :=
  {| in_method := GET; in_path := ["config"]; in_credentials := c;
     in_query := ∅; in_body := JNull |}.

Definition post_sync (c : Credentials (Auth:=by_role)) : Inbound (H:=by_role) :=
  {| in_method := POST; in_path := ["generations"; "sync"]; in_credentials := c;
     in_query := ∅;
     in_body := JDict (<["seconds" := JStr "4"]> (<["prompt" := JStr "a cat"]> ∅)) |}.

Lemma serve_config_change_witness :
  exists user form_data,
    in_method (post_update (Some root)) = POST
    /\ in_path (post_update (Some root)) = ["config"; "update"]
    /\ get_admin_user (in_credentials (post_update (Some root))) = inr user
    /\ validate_config_body (in_body (post_update (Some root))) = Some form_data
    /\ app_config (serve (P:=forwarding) (U:=prompt_service) 62 (post_update (Some root))
                     (fresh ∅)).2 = assign_config form_data (app_config (fresh ∅)).
Proof.
  apply (serve_config_change (P:=forwarding) (U:=prompt_service) (A:=by_role) 62
           (post_update (Some root)) (fresh ∅)).
  intros H. apply (f_equal (fun c => c !! "VIDEOS_OPENAI_API_KEY")) in H.
  vm_compute in H. discriminate.
Defined.

Lemma serve_all_config_typed_witness :
  config_typed
    (app_config
       (serve_all (P:=forwarding) (U:=prompt_service) (A:=by_role) 62
          [post_update (Some root); post_sync (Some alice)] (fresh ∅)).2).
Proof.
  apply (serve_all_config_typed (P:=forwarding) (U:=prompt_service) (A:=by_role) 62
           [post_update (Some root); post_sync (Some alice)] (fresh ∅)).
  apply config_typed_empty.
Defined.

Lemma serve_get_config_witness :
  serve (P:=forwarding) (U:=prompt_service) (A:=by_role) 62 (get_the_config (Some root))
    (fresh ∅) = (Ok (JsonReply 200 (JDict (config_dict (app_config (fresh ∅))))), fresh ∅).
Proof.
  apply (serve_get_config (P:=forwarding) (U:=prompt_service) (A:=by_role) 62
           (get_the_config (Some root)) (fresh ∅) root);
    [reflexivity | reflexivity | reflexivity | apply config_typed_empty].
Defined.

Lemma serve_unverified_no_effect_witness :
  exists reply,
    serve (P:=forwarding) (U:=prompt_service) (A:=by_role) 62 (post_sync (Some guest)) ready =
      (Ok reply, ready).
Proof.
  apply (serve_unverified_no_effect (P:=forwarding) (U:=prompt_service) (A:=by_role) 62
           (post_sync (Some guest)) ready access_prohibited).
  reflexivity.
Defined.

Lemma serve_returns_witness :
  exists reply,
    (serve (P:=forwarding) (U:=prompt_service) (A:=by_role) 62 (post_sync (Some alice))
       ready).1 = Ok reply.
Proof.
  apply (serve_returns (P:=forwarding) (U:=prompt_service) (A:=by_role) 62
           (post_sync (Some alice)) ready 300 5); [reflexivity | reflexivity | lia | reflexivity].
Defined.

Definition get_status (c : Credentials (Auth:=by_role)) : Inbound (H:=by_role) :=
  {| in_method := GET; in_path := ["v1"]; in_credentials := c;
     in_query := ∅; in_body := JNull |}.

Lemma get_video_status_unchecked_witness :
  validate_VideoStatus (job "v1" "in_progress") = None /\
  (serve (P:=forwarding) (U:=stalling) (A:=by_role) 0 (get_status (Some alice)) ready).1 =
    Ok (JsonReply 200 (job "v1" "in_progress")).
Proof.
  split; [reflexivity|].
  apply (get_video_status_unchecked (P:=forwarding) (U:=stalling) (A:=by_role) 0
           (get_status (Some alice)) ready alice "v1"
           (json_response 200 "OK" (job "v1" "in_progress")) (job "v1" "in_progress"));
    reflexivity.
Defined.

(** A day in the life of the router: a user who asks for the
    configuration is refused, a blocking generation before the admin has set
    the key answers 400 without a request to the provider, the admin's
    update is accepted, and the same generation then completes after one
    submission and one poll. *)
Example serve_all_scenario :
  let run := serve_all (P:=forwarding) (U:=prompt_service) (A:=by_role) 62
               [get_the_config (Some alice); post_sync (Some alice);
                post_update (Some root); post_sync (Some alice)] (fresh ∅) in
  match run.1 with
  | Ok replies => status_of <$> replies
  | _ => []
  end = [401; 400; 200; 200]
  /\ req_method <$> sent run.2 = [POST; GET].
Proof. by vm_compute. Qed.
