(* ===== verification/Async.v ===== *)
(** * Async: the handlers as coroutines

    The handlers of [videos.py] are [async def]s.  Between two [await]s that
    suspend, a handler runs without interruption; at [await
    asyncio.to_thread(...)] and [await asyncio.sleep(...)] it is suspended
    and the event loop runs the handlers of other requests.  The files
    before this one model a handler as one computation from the world before
    to the world after, as if it ran alone.  This file keeps the suspension
    points: a coroutine ([Coro]) runs one block, from the world it is given
    to its next suspension, and leaves a task ([Task]) that is done or waits
    to be resumed, not before its wake-up time.

    The coroutines are built from the same pieces as the sequential
    handlers: the part of a handler before its [try] is an atomic
    computation ([submission_of], [keyed]), the [try] block awaits the
    request ([send_submission_c], [fetch_json_c]), and the loop of the
    blocking mode awaits its polls and its sleeps ([poll_loop_c]).  Run
    alone ([run_solo]), every coroutine is the sequential handler
    ([run_solo_serve_c] and the lemmas before it): what the earlier files
    prove holds of a request that is served with no other in flight.
    [Interleave] lets the blocks of several requests alternate.

    A call to the provider is on the record of requests when the block that
    issues it ends, and the provider's answer to it is the exchange of its
    place in the record: the record is in the order in which the handlers
    issue their calls, and the provider, an arbitrary oracle, stands for
    whatever order the calls are answered in. *)

From S2P Require Import Prelude PyStr Json Effects Base64 Fixtures Config Submission Client Poller Sync Router.

#[local] Set Warnings "-register-all".
#[local] Open Scope videos_scope.
#[local] Open Scope Z_scope.

(** ** Tasks and coroutines *)

(** A task between two blocks: done, with its result, or suspended until
    [wake] ticks at least, with what it does when it is resumed. *)
Inductive Task (A : Type) : Type :=
| Done (r : Res A)
| Waiting (wake : Z) (resume : World -> Task A * World).

Arguments Done {A} r.
Arguments Waiting {A} wake resume.

(** A coroutine: one block, from the world to the task it leaves. *)
Definition Coro (A : Type) : Type := World -> Task A * World.

(** The world in which a task waiting for [wake] is resumed: the clock has
    reached [wake], if it had not passed it already. *)
Definition wake_up (wake : Z) (w : World) : World :=
  {| app_config := app_config w; now := Z.max (now w) wake; sent := sent w; logged := logged w |}.

(** Code without [await]: one atomic step of the block. *)
Definition atomically {A} (m : M A) : Coro A :=
  fun w => let '(r, w') := m w in (Done r, w').

(** Sequencing: the continuation runs in the block in which the task is
    done. *)
Fixpoint task_bind {A B} (t : Task A) (k : A -> Coro B) (w : World) : Task B * World :=
  match t with
  | Done (Ok a) => k a w
  | Done (Raise e) => (Done (Raise e), w)
  | Done OutOfFuel => (Done OutOfFuel, w)
  | Waiting wake resume =>
      (Waiting wake (fun w1 => let '(t1, w2) := resume w1 in task_bind t1 k w2), w)
  end.

Definition c_bind {A B} (c : Coro A) (k : A -> Coro B) : Coro B :=
  fun w => let '(t, w') := c w in task_bind t k w'.

#[export] Instance Coro_ret : MRet Coro := fun A a => atomically (mret a).
#[export] Instance Coro_bind : MBind Coro := fun A B k c => c_bind c k.

(** [try: ... except ...:] around code that awaits: the handler runs in the
    block in which the exception is raised. *)
Fixpoint task_try {A} (t : Task A) (handler : Exn -> option (M A)) (w : World)
  : Task A * World :=
  match t with
  | Done (Raise e) =>
      match handler e with
      | Some h => atomically h w
      | None => (Done (Raise e), w)
      end
  | Done r => (Done r, w)
  | Waiting wake resume =>
      (Waiting wake (fun w1 => let '(t1, w2) := resume w1 in task_try t1 handler w2), w)
  end.

Definition c_try {A} (c : Coro A) (handler : Exn -> option (M A)) : Coro A :=
  fun w => let '(t, w') := c w in task_try t handler w'.

(** The world with one more request on record. *)
Definition posted (req : HttpRequest) (w : World) : World :=
  {| app_config := app_config w; now := now w; sent := sent w ++ [req];
     logged := logged w |}.

(** [await asyncio.to_thread(requests.<method>, ...)]: the request goes out
    in this block; the task waits for the exchange to take its latency and
    then gets the response or the transport error. *)
Definition await_request `{Upstream} (req : HttpRequest) : Coro Response :=
  fun w =>
    let ex := upstream_reply (length (sent w)) req in
    (Waiting (now w + Z.of_N (latency ex))
       (fun w' =>
          (Done match outcome ex with
                | Replied r => Ok r
                | ConnectionFailed msg => Raise (PyError ConnectionError msg)
                end, w')),
     posted req w).

(** [await asyncio.sleep(delay)]. *)
Definition await_sleep (delay : Z) : Coro unit :=
  fun w =>
    (Waiting (now w + Z.max 0 delay * TICKS_PER_SECOND) (fun w' => (Done (Ok tt), w')), w).

(** ** A task run alone *)

(** The task resumed as soon as it may be, again and again, with nothing
    else happening in between. *)
Fixpoint run_task {A} (t : Task A) (w : World) : Res A * World :=
  match t with
  | Done r => (r, w)
  | Waiting wake resume => let '(t', w') := resume (wake_up wake w) in run_task t' w'
  end.

Definition run_solo {A} (c : Coro A) : M A :=
  fun w => let '(t, w') := c w in run_task t w'.

(** ** The handlers *)

Section Handlers.
Context {P : Platform} {U : Upstream}.

(** What [video_generations] does before its [try]: the guards, the
    defaults, the headers, the reference, and the request they make. *)
Definition submission_of (form_data : CreateVideoForm) (user : User) : M HttpRequest :=
  config ← read_config;
  let engine := getattr config "VIDEO_GENERATION_ENGINE" (JStr "openai") in
  if negb (json_eq_str engine "openai") then raise (HTTPException 400 engine_error)
  else
    let api_key := getattr config "VIDEOS_OPENAI_API_KEY" (JStr "") in
    if negb (json_truthy api_key) then raise (HTTPException 400 api_key_error)
    else
      let base_url :=
        getattr config "VIDEOS_OPENAI_API_BASE_URL" (JStr "https://api.openai.com/v1") in
      let headers := build_headers api_key user in
      let data := build_data config form_data in
      '(files, headers, data) ← attach_reference form_data headers data;
      mret (post_request base_url headers data files).

(** The [try] block of [video_generations], awaiting the POST. *)
Definition send_submission_c (req : HttpRequest) : Coro JSON :=
  c_try
    (r ← await_request req;
     atomically (raise_for_status r;;
                 result ← response_json r;
                 log_info ("Video generation initiated: " +:+ py_str result);;
                 mret result))
    submission_handler.

(** [async def video_generations]. *)
Definition video_generations_c (form_data : CreateVideoForm) (user : User) : Coro JSON :=
  req ← atomically (submission_of form_data user);
  send_submission_c req.

(** What the pass-through handlers do before their [try]: the guard on the
    API key, and the request made from the configuration. *)
Definition keyed (request_of : gmap string JSON -> HttpRequest) : M HttpRequest :=
  config ← read_config;
  let api_key := getattr config "VIDEOS_OPENAI_API_KEY" (JStr "") in
  if negb (json_truthy api_key) then raise (HTTPException 400 key_error)
  else mret (request_of config).

(** The [try] block of [list_videos], [get_video] and [delete_video],
    awaiting the request. *)
Definition fetch_json_c (what : string) (req : HttpRequest) : Coro JSON :=
  c_try
    (r ← await_request req;
     atomically (raise_for_status r;; response_json r))
    (client_handler what).

(** [async def list_videos], [get_video], [delete_video]. *)
Definition list_videos_c (user : User) (limit : Z) (after : option string) : Coro JSON :=
  req ← atomically (keyed (fun config => list_request config limit after));
  fetch_json_c "Error listing videos: " req.

Definition get_video_c (video_id : string) (user : User) : Coro JSON :=
  req ← atomically (keyed (fun config => status_request config video_id));
  fetch_json_c "Error getting video status: " req.

Definition delete_video_c (video_id : string) (user : User) : Coro JSON :=
  req ← atomically (keyed (fun config => delete_request config video_id));
  fetch_json_c "Error deleting video: " req.

(** [async def get_video_content]: the streaming GET is awaited, the
    [StreamingResponse] is built in the block that receives the response. *)
Definition get_video_content_c (video_id : string) (user : User) : Coro StreamingResponse :=
  req ← atomically (keyed (fun config => content_request config video_id));
  c_try
    (r ← await_request req;
     atomically (raise_for_status r;;
                 mret (streaming_response video_id r)))
    (client_handler "Error getting video content: ").

(** The [while] loop of [video_generations_sync]: each turn awaits a poll
    and, if the job is still pending, a sleep. *)
Fixpoint poll_loop_c (fuel : nat) (video_id : JSON) (user : User)
    (start_time timeout poll_interval : Z) : Coro JSON :=
  match fuel with
  | O => atomically out_of_fuel
  | S fuel' =>
      t ← atomically time_time;
      if t - start_time <? timeout * TICKS_PER_SECOND then
        status ← get_video_c (py_str video_id) user;
        st ← atomically (py_get status "status" JNull);
        if json_eq_str st "completed" then atomically (completed_response video_id status)
        else if json_eq_str st "failed" then
          atomically (error ← py_get status "error" (JStr "Unknown error");
                      raise (HTTPException 500 (JStr (failure_message error))))
        else
          await_sleep poll_interval;;
          poll_loop_c fuel' video_id user start_time timeout poll_interval
      else atomically (raise (HTTPException 408 (JStr (timeout_message timeout video_id))))
  end.

(** [async def video_generations_sync]. *)
Definition video_generations_sync_c (fuel : nat) (form_data : CreateVideoForm)
    (user : User) (timeout poll_interval : Z) : Coro JSON :=
  result ← video_generations_c form_data user;
  video_id ← atomically (py_get result "id" JNull);
  if negb (json_truthy video_id) then atomically (raise (HTTPException 500 no_id_error))
  else
    start_time ← atomically time_time;
    poll_loop_c fuel video_id user start_time timeout poll_interval.

End Handlers.

(** ** Serving a request *)

Section Serve.
Context {P : Platform} {U : Upstream} {A : Auth}.

Definition validated_c {X} (arg : option X) (k : X -> Coro Reply) : Coro Reply :=
  match arg with
  | Some x => k x
  | None => atomically (mret Unprocessable)
  end.

(** The endpoint of a route, as [Router.endpoint], with the handlers as
    coroutines.  The three handlers on the configuration await nothing (the
    [await get_config] of [update_config] is of a coroutine that never
    suspends; [get_models], a plain [def], reads one attribute), so each is
    one block. *)
Definition endpoint_c (fuel : nat) (r : Route) (params : list string) (req : Inbound)
  : Coro Reply :=
  let video_id := default "" (head params) in
  match r with
  | RGetConfig =>
      atomically (endpoint fuel RGetConfig params req)
  | RUpdateConfig =>
      atomically (endpoint fuel RUpdateConfig params req)
  | RGetModels =>
      atomically (endpoint fuel RGetModels params req)
  | RGenerations =>
      user ← atomically (depends (get_verified_user (in_credentials req)));
      validated_c (validate_CreateVideoForm (in_body req)) (fun form_data =>
        v ← video_generations_c form_data user;
        atomically (mret (JsonReply 200 v)))
  | RList =>
      user ← atomically (depends (get_verified_user (in_credentials req)));
      validated_c (query_int (in_query req) "limit" 20) (fun limit =>
      validated_c (query_opt_str (in_query req) "after") (fun after =>
        v ← list_videos_c user limit after;
        atomically (mret (JsonReply 200 v))))
  | RGetVideo =>
      user ← atomically (depends (get_verified_user (in_credentials req)));
      v ← get_video_c video_id user;
      atomically (mret (JsonReply 200 v))
  | RGetVideoContent =>
      user ← atomically (depends (get_verified_user (in_credentials req)));
      sr ← get_video_content_c video_id user;
      atomically (mret (StreamReply sr))
  | RDeleteVideo =>
      user ← atomically (depends (get_verified_user (in_credentials req)));
      v ← delete_video_c video_id user;
      atomically (mret (JsonReply 200 v))
  | RGenerationsSync =>
      user ← atomically (depends (get_verified_user (in_credentials req)));
      validated_c (validate_CreateVideoForm (in_body req)) (fun form_data =>
      validated_c (query_int (in_query req) "timeout" 300) (fun timeout =>
      validated_c (query_int (in_query req) "poll_interval" 5) (fun poll_interval =>
        v ← video_generations_sync_c fuel form_data user timeout poll_interval;
        atomically (mret (JsonReply 200 v)))))
  end.

(** The exception handlers of the application around an endpoint. *)
Definition guarded_c (c : Coro Reply) : Coro Reply :=
  c_try c (fun e => Some (mret (reply_of_exn e))).

(** One request, from routing to reply, as a coroutine. *)
Definition serve_c (fuel : nat) (req : Inbound) : Coro Reply :=
  match dispatch (in_method req) (in_path req) with
  | Full r params => guarded_c (endpoint_c fuel r params req)
  | Partial => atomically (mret (detail_reply 405 (JStr "Method Not Allowed")))
  | NoMatch => atomically (mret (detail_reply 404 (JStr "Not Found")))
  end.

End Serve.

(** * Properties *)

(** Induction on a task: the hypothesis holds of whatever the task becomes
    when it is resumed. *)
Lemma task_ind {A} (Q : Task A -> Prop) :
  (forall r, Q (Done r)) ->
  (forall wake resume, (forall w, Q (resume w).1) -> Q (Waiting wake resume)) ->
  forall t, Q t.
Proof.
  intros Hd Hw. fix IH 1. intros [r|wake resume]; [apply Hd|].
  apply Hw. intros w. apply IH.
Qed.

(** ** Run alone, the combinators are those of the sequential model *)

Section Solo.
Context `{Upstream}.

Lemma run_solo_atomically {A} (m : M A) : run_solo (atomically m) =m= m.
Proof. intros w. unfold run_solo, atomically. by destruct (m w). Qed.

Lemma run_task_bind {A B} (t : Task A) (k : A -> Coro B) w :
  (let '(t', w') := task_bind t k w in run_task t' w') =
    (let '(r, w1) := run_task t w in
     match r with
     | Ok a => run_solo (k a) w1
     | Raise e => (Raise e, w1)
     | OutOfFuel => (OutOfFuel, w1)
     end).
Proof.
  revert w. induction t as [[a|e|]|wake resume IH] using task_ind; intros w; try done.
  cbn [task_bind run_task]. specialize (IH (wake_up wake w)).
  destruct (resume (wake_up wake w)) as [t1 w2]. apply IH.
Qed.

Lemma run_solo_bind {A B} (c : Coro A) (k : A -> Coro B) :
  run_solo (c ≫= k) =m= run_solo c ≫= (fun a => run_solo (k a)).
Proof.
  intros w. rewrite run_bind. unfold run_solo at 1 2, mbind, Coro_bind, c_bind.
  destruct (c w) as [t w']. rewrite run_task_bind. by destruct (run_task t w') as [[] ?].
Qed.

Lemma run_task_try {A} (t : Task A) handler w :
  (let '(t', w') := task_try t handler w in run_task t' w') =
    try_except (run_task t) handler w.
Proof.
  revert w. induction t as [[a|e|]|wake resume IH] using task_ind; intros w; try done.
  - unfold try_except. cbn. destruct (handler e) as [h|]; [|done].
    unfold atomically. by destruct (h w).
  - unfold try_except in *. cbn [task_try run_task]. specialize (IH (wake_up wake w)).
    destruct (resume (wake_up wake w)) as [t1 w2]. apply IH.
Qed.

Lemma run_solo_try {A} (c : Coro A) handler :
  run_solo (c_try c handler) =m= try_except (run_solo c) handler.
Proof.
  intros w. unfold run_solo at 1, c_try. destruct (c w) as [t w'] eqn:E.
  rewrite run_task_try. unfold try_except, run_solo. by rewrite E.
Qed.

Lemma wake_up_later (w : World) (d : Z) :
  0 <= d ->
  wake_up (now w + d) w =
    {| app_config := app_config w; now := now w + d; sent := sent w; logged := logged w |}.
Proof. intros Hd. unfold wake_up. f_equal. lia. Qed.

Lemma run_solo_request req : run_solo (await_request req) =m= requests_request req.
Proof.
  intros w. unfold run_solo, await_request, requests_request, after_request, posted.
  cbn [run_task]. unfold wake_up. cbn [app_config now sent].
  rewrite Z.max_r by lia. by destruct (outcome _).
Qed.

Lemma run_solo_sleep delay : run_solo (await_sleep delay) =m= asyncio_sleep delay.
Proof.
  intros w. unfold run_solo, await_sleep, asyncio_sleep. cbn [run_task].
  rewrite wake_up_later; [by destruct w|]. unfold TICKS_PER_SECOND. lia.
Qed.

#[export] Instance run_solo_proper {A} :
  Proper (pointwise_relation World eq ==> meq) (@run_solo A).
Proof. intros c1 c2 Hc w. unfold run_solo. by rewrite (Hc w). Qed.

End Solo.

(** ** The first block of a coroutine *)

Section FirstBlock.
Context `{Upstream}.

Lemma run_bind_atomically {A B} (m : M A) (k : A -> Coro B) w :
  (atomically m ≫= k) w =
    match m w with
    | (Ok a, w') => k a w'
    | (Raise e, w') => (Done (Raise e), w')
    | (OutOfFuel, w') => (Done OutOfFuel, w')
    end.
Proof.
  unfold mbind, Coro_bind, c_bind, atomically. by destruct (m w) as [[a|e|] w'].
Qed.

(** A coroutine that waits makes what is sequenced after it, and the [try]
    around it, wait as long. *)
Lemma bind_suspended {A B} (c : Coro A) (k : A -> Coro B) w wake w' :
  (exists resume, c w = (Waiting wake resume, w')) ->
  exists resume, (c ≫= k) w = (Waiting wake resume, w').
Proof. intros [resume E]. unfold mbind, Coro_bind, c_bind. rewrite E. by eexists. Qed.

Lemma try_suspended {A} (c : Coro A) handler w wake w' :
  (exists resume, c w = (Waiting wake resume, w')) ->
  exists resume, c_try c handler w = (Waiting wake resume, w').
Proof. intros [resume E]. unfold c_try. rewrite E. by eexists. Qed.

Lemma await_request_suspended req w :
  exists resume,
    await_request req w =
      (Waiting (now w + Z.of_N (latency (upstream_reply (length (sent w)) req))) resume,
       posted req w).
Proof. by eexists. Qed.

End FirstBlock.

(** [solo]: compare a coroutine run alone with a sequential computation of
    the same structure, piece by piece. *)
Section SoloRules.
Context `{Upstream}.

Lemma solo_bind {A B} (c : Coro A) (k : A -> Coro B) m k' :
  run_solo c =m= m -> (forall a, run_solo (k a) =m= k' a) ->
  run_solo (c ≫= k) =m= m ≫= k'.
Proof. intros Hc Hk. rewrite run_solo_bind, Hc. by setoid_rewrite Hk. Qed.

Lemma solo_try {A} (c : Coro A) handler m :
  run_solo c =m= m -> run_solo (c_try c handler) =m= try_except m handler.
Proof. intros Hc. by rewrite run_solo_try, Hc. Qed.

End SoloRules.

Create HintDb solo discriminated.

#[export] Hint Resolve run_solo_atomically run_solo_request run_solo_sleep : solo.

Ltac solo_step :=
  match goal with
  | |- run_solo (_ ≫= _) =m= _ => apply solo_bind; [|intros ?; cbv beta]
  | |- run_solo (c_try _ _) =m= _ => apply solo_try
  | |- run_solo (if ?b then _ else _) =m= _ => destruct b
  end.

Ltac solo := repeat solo_step; auto with solo.

(** ** Run alone, the handlers are the sequential handlers *)

Section SoloHandlers.
Context {P : Platform} {U : Upstream}.

Lemma run_solo_send_submission req : run_solo (send_submission_c req) =m= send_submission req.
Proof. unfold send_submission_c, send_submission. solo. Qed.

Lemma run_solo_fetch_json what req :
  run_solo (fetch_json_c what req) =m= fetch_json what req.
Proof. unfold fetch_json_c, fetch_json. solo. Qed.

(** The sequential handlers, cut at their [try]. *)
Lemma video_generations_split form_data user :
  video_generations form_data user =m= submission_of form_data user ≫= send_submission.
Proof.
  intros w. unfold video_generations, submission_of. rewrite !run_bind. cbn [read_config].
  repeat (case_match; [done|]). rewrite <- run_bind, (bind_assoc _ _ _ w), !run_bind.
  by destruct (attach_reference _ _ _ w) as [[[[files headers] data]| |] w'].
Qed.

Lemma run_keyed_bind {A} request_of (k : HttpRequest -> M A) w :
  (keyed request_of ≫= k) w =
    if negb (json_truthy (getattr (app_config w) "VIDEOS_OPENAI_API_KEY" (JStr "")))
    then (Raise (HTTPException 400 key_error), w)
    else k (request_of (app_config w)) w.
Proof. unfold keyed. rewrite !run_bind. cbn [read_config]. by destruct (negb _). Qed.

Tactic Notation "split_keyed" reference(handler) :=
  intros w; rewrite run_keyed_bind; unfold handler; rewrite run_bind; cbn [read_config];
  by destruct (negb _).

Lemma list_videos_split user limit after :
  list_videos user limit after =m=
    keyed (fun config => list_request config limit after)
      ≫= fetch_json "Error listing videos: ".
Proof. split_keyed list_videos. Qed.

Lemma get_video_split video_id user :
  get_video video_id user =m=
    keyed (fun config => status_request config video_id)
      ≫= fetch_json "Error getting video status: ".
Proof. split_keyed get_video. Qed.

Lemma delete_video_split video_id user :
  delete_video video_id user =m=
    keyed (fun config => delete_request config video_id)
      ≫= fetch_json "Error deleting video: ".
Proof. split_keyed delete_video. Qed.

Lemma get_video_content_split video_id user :
  get_video_content video_id user =m=
    keyed (fun config => content_request config video_id) ≫= fun req =>
    try_except (r ← requests_request req;
                raise_for_status r;;
                mret (streaming_response video_id r))
      (client_handler "Error getting video content: ").
Proof. split_keyed get_video_content. Qed.

#[local] Hint Resolve run_solo_send_submission run_solo_fetch_json : solo.

Lemma run_solo_video_generations form_data user :
  run_solo (video_generations_c form_data user) =m= video_generations form_data user.
Proof. rewrite video_generations_split. unfold video_generations_c. solo. Qed.

Lemma run_solo_list_videos user limit after :
  run_solo (list_videos_c user limit after) =m= list_videos user limit after.
Proof. rewrite list_videos_split. unfold list_videos_c. solo. Qed.

Lemma run_solo_get_video video_id user :
  run_solo (get_video_c video_id user) =m= get_video video_id user.
Proof. rewrite get_video_split. unfold get_video_c. solo. Qed.

Lemma run_solo_delete_video video_id user :
  run_solo (delete_video_c video_id user) =m= delete_video video_id user.
Proof. rewrite delete_video_split. unfold delete_video_c. solo. Qed.

Lemma run_solo_get_video_content video_id user :
  run_solo (get_video_content_c video_id user) =m= get_video_content video_id user.
Proof. rewrite get_video_content_split. unfold get_video_content_c. solo. Qed.

#[local] Hint Resolve run_solo_video_generations run_solo_get_video : solo.

Lemma run_solo_poll_loop fuel video_id user start_time timeout poll_interval :
  run_solo (poll_loop_c fuel video_id user start_time timeout poll_interval) =m=
    poll_loop fuel video_id user start_time timeout poll_interval.
Proof.
  induction fuel as [|fuel IH]; cbn [poll_loop_c poll_loop]; solo.
Qed.

#[local] Hint Resolve run_solo_poll_loop : solo.

Lemma run_solo_video_generations_sync fuel form_data user timeout poll_interval :
  run_solo (video_generations_sync_c fuel form_data user timeout poll_interval) =m=
    video_generations_sync fuel form_data user timeout poll_interval.
Proof. unfold video_generations_sync_c, video_generations_sync. solo. Qed.

End SoloHandlers.

#[export] Hint Resolve run_solo_video_generations run_solo_list_videos run_solo_get_video
  run_solo_delete_video run_solo_get_video_content run_solo_video_generations_sync : solo.

(** ** Run alone, a request is served as [Router.serve] serves it *)

Section SoloServe.
Context {P : Platform} {U : Upstream} {A : Auth}.

Lemma solo_validated {X} (arg : option X) k k' :
  (forall x, run_solo (k x) =m= k' x) ->
  run_solo (validated_c arg k) =m= validated arg k'.
Proof. intros Hk. destruct arg; [apply Hk|apply run_solo_atomically]. Qed.

Lemma run_solo_endpoint fuel r params req :
  run_solo (endpoint_c fuel r params req) =m= endpoint fuel r params req.
Proof.
  destruct r; cbn [endpoint_c endpoint]; solo;
    repeat (apply solo_validated; intros ?); solo.
Qed.

Lemma run_solo_serve_c fuel req : run_solo (serve_c fuel req) =m= serve fuel req.
Proof.
  unfold serve_c, serve, guarded_c, guarded. case_match; solo.
  apply run_solo_endpoint.
Qed.

(** A [try] around code that awaits nothing is the [try] of the
    sequential model. *)
Lemma c_try_atomically {X} (m : M X) handler w :
  c_try (atomically m) handler w = atomically (try_except m handler) w.
Proof.
  unfold c_try, atomically, try_except. destruct (m w) as [[x|e|] w']; try done.
  cbn [task_try]. by destruct (handler e).
Qed.

(** The three routes on the configuration are served in one block. *)
Lemma serve_c_atomic fuel req r params w :
  dispatch (in_method req) (in_path req) = Full r params ->
  r = RGetConfig \/ r = RUpdateConfig \/ r = RGetModels ->
  serve_c fuel req w = atomically (serve fuel req) w.
Proof.
  intros Hd Hr. unfold serve_c, serve, guarded_c, guarded. rewrite Hd.
  by destruct Hr as [->|[->| ->]]; cbn [endpoint_c]; rewrite c_try_atomically.
Qed.

End SoloServe.
