(* ===== verification/Atomic.v ===== *)
(** * Atomic: the handlers with one await

    Every handler but the blocking mode awaits once, the call to the
    provider, and what it does with the answer depends on nothing else: it
    checks the status, decodes the body and returns.  Its reply is therefore
    settled when the request goes out, whatever other requests do before the
    task is resumed.  [settled t r] says that the task [t] is done with [r]
    or ends with [r] at its next block, in whatever world that block runs,
    and that this block does no more to the world than write to the log;
    [settles c w] that the coroutine [c] started in [w] leaves such a task.
    The rules follow the combinators of [Async]; [settles_run_solo] then
    names the result: that of the coroutine run alone, which is the
    sequential handler.  The blocking mode is no such handler: the turns of
    its loop read the clock and the configuration again ([Interleave]). *)

From S2P Require Import Prelude PyStr Json Effects Base64 Fixtures Config Submission Client Poller Sync Router Async.

#[local] Open Scope videos_scope.
#[local] Open Scope Z_scope.

(** A task that is done with [r], or that ends with [r] when it is resumed,
    adding the same records to the log of whatever world it is resumed in
    and leaving the rest of it as it is. *)
Definition settled {A} (t : Task A) (r : Res A) : Prop :=
  match t with
  | Done r' => r' = r
  | Waiting _ resume => exists l, forall w, resume w = (Done r, log_to l w)
  end.

Definition settles {A} (c : Coro A) (w : World) : Prop := exists r, settled (c w).1 r.

(** A coroutine that is one block, the same in every world. *)
Definition steady {A} (c : Coro A) : Prop :=
  exists r l, forall w, c w = (Done r, log_to l w).

(** * Properties *)

Section Settles.
Context `{Upstream}.

Lemma steady_atomically {A} (m : M A) : constant m -> steady (atomically m).
Proof. intros (r & l & Hm). exists r, l. intros w. unfold atomically. by rewrite Hm. Qed.

Lemma settles_atomically {A} (m : M A) w : settles (atomically m) w.
Proof. unfold settles, atomically. destruct (m w) as [r w']. by exists r. Qed.

Lemma settles_request req w : settles (await_request req) w.
Proof. eexists. exists []. intros w'. by rewrite log_to_nil. Qed.

(** After code that awaits nothing, the coroutine that follows decides. *)
Lemma settles_from {A B} (m : M A) (k : A -> Coro B) w :
  (forall a w', m w = (Ok a, w') -> settles (k a) w') ->
  settles (atomically m ≫= k) w.
Proof.
  intros Hk. unfold settles. rewrite run_bind_atomically.
  destruct (m w) as [[a|e|] w'] eqn:E; [by apply Hk|by eexists..].
Qed.

Lemma settled_bind {A B} (t : Task A) (k : A -> Coro B) w r :
  settled t r -> (forall a, steady (k a)) -> exists r', settled (task_bind t k w).1 r'.
Proof.
  intros Ht Hk. destruct t as [r0|wake resume]; cbn in Ht.
  - subst r0. destruct r as [a|e|]; [|by eexists..].
    destruct (Hk a) as (r' & l' & Hr). exists r'. cbn. by rewrite Hr.
  - destruct Ht as [l Ht]. destruct r as [a|e|].
    + destruct (Hk a) as (r' & l' & Hr). exists r', (l ++ l'). intros w1.
      rewrite Ht. cbn. by rewrite Hr, log_to_app.
    + exists (Raise e), l. intros w1. by rewrite Ht.
    + exists OutOfFuel, l. intros w1. by rewrite Ht.
Qed.

(** After a coroutine that settles, code that is the same in every world. *)
Lemma settles_then {A B} (c : Coro A) (k : A -> Coro B) w :
  settles c w -> (forall a, steady (k a)) -> settles (c ≫= k) w.
Proof.
  intros [r Hc] Hk. unfold settles, mbind, Coro_bind, c_bind.
  destruct (c w) as [t w']. by eapply settled_bind.
Qed.

Lemma settled_try {A} (t : Task A) handler w r :
  settled t r -> (forall e h, handler e = Some h -> constant h) ->
  exists r', settled (task_try t handler w).1 r'.
Proof.
  intros Ht Hh. destruct t as [r0|wake resume]; cbn in Ht.
  - subst r0. destruct r as [a|e|]; [by eexists| |by eexists].
    cbn. destruct (handler e) as [h|] eqn:E; [|by eexists].
    unfold atomically. destruct (h w) as [r' w']. by exists r'.
  - destruct Ht as [l Ht].
    destruct r as [a|e|]; [exists (Ok a), l| |exists OutOfFuel, l];
      try (intros w1; by rewrite Ht).
    destruct (handler e) as [h|] eqn:E.
    + destruct (Hh e h E) as (r' & l' & Hr). exists r', (l ++ l'). intros w1.
      rewrite Ht. cbn. rewrite E. unfold atomically. by rewrite Hr, log_to_app.
    + exists (Raise e), l. intros w1. rewrite Ht. cbn. by rewrite E.
Qed.

Lemma settles_try {A} (c : Coro A) handler w :
  settles c w -> (forall e h, handler e = Some h -> constant h) ->
  settles (c_try c handler) w.
Proof.
  intros [r Hc] Hh. unfold settles, c_try. destruct (c w) as [t w']. by eapply settled_try.
Qed.

(** What a coroutine that settles ends with is what it ends with when it
    runs alone, and it has sent by its first block what it sends at all. *)
Lemma settles_run_solo {A} (c : Coro A) w :
  settles c w ->
  settled (c w).1 (run_solo c w).1 /\
  app_config (c w).2 = app_config (run_solo c w).2 /\
  sent (c w).2 = sent (run_solo c w).2.
Proof.
  intros [r Hc]. unfold run_solo. destruct (c w) as [[r0|wake resume] w1]; [done|].
  cbn in *. destruct Hc as [l Hc]. rewrite Hc. split; [by exists l|done].
Qed.

End Settles.

(** ** The handlers with one await *)

Section SettledHandlers.
Context {P : Platform} {U : Upstream} {A : Auth}.
Implicit Types (w : World) (user : User).

Lemma settles_send_submission req w : settles (send_submission_c req) w.
Proof.
  apply settles_try; [|apply constant_handler_raise, submission_handler_raises].
  apply settles_then; [apply settles_request|]. intros r. apply steady_atomically. effects.
Qed.

Lemma settles_fetch_json what req w : settles (fetch_json_c what req) w.
Proof.
  apply settles_try; [|apply constant_handler_raise, client_handler_raises].
  apply settles_then; [apply settles_request|]. intros r. apply steady_atomically. effects.
Qed.

Lemma settles_video_generations form_data user w :
  settles (video_generations_c form_data user) w.
Proof. apply settles_from. intros req w' _. apply settles_send_submission. Qed.

Lemma settles_list_videos user limit after w : settles (list_videos_c user limit after) w.
Proof. apply settles_from. intros req w' _. apply settles_fetch_json. Qed.

Lemma settles_get_video video_id user w : settles (get_video_c video_id user) w.
Proof. apply settles_from. intros req w' _. apply settles_fetch_json. Qed.

Lemma settles_delete_video video_id user w : settles (delete_video_c video_id user) w.
Proof. apply settles_from. intros req w' _. apply settles_fetch_json. Qed.

Lemma settles_get_video_content video_id user w :
  settles (get_video_content_c video_id user) w.
Proof.
  apply settles_from. intros req w' _.
  apply settles_try; [|apply constant_handler_raise, client_handler_raises].
  apply settles_then; [apply settles_request|]. intros r. apply steady_atomically. effects.
Qed.

Lemma settles_validated {X} (arg : option X) k w :
  (forall x, settles (k x) w) -> settles (validated_c arg k) w.
Proof. intros Hk. destruct arg; [apply Hk|apply settles_atomically]. Qed.

(** Every endpoint but that of the blocking mode. *)
Lemma settles_endpoint fuel r params (req : Inbound) w :
  r <> RGenerationsSync -> settles (endpoint_c fuel r params req) w.
Proof.
  intros Hr.
  destruct r; try done; cbn [endpoint_c]; try apply settles_atomically;
    apply settles_from; intros user w' _; repeat (apply settles_validated; intros ?);
    (apply settles_then; [|intros v; apply steady_atomically; effects]);
    auto using settles_video_generations, settles_list_videos, settles_get_video,
      settles_get_video_content, settles_delete_video.
Qed.

Lemma settles_serve_c fuel (req : Inbound) w :
  (forall params, dispatch (in_method req) (in_path req) <> Full RGenerationsSync params) ->
  settles (serve_c fuel req) w.
Proof.
  intros Hd. unfold serve_c. destruct (dispatch _ _) as [r params| |];
    [|apply settles_atomically..].
  apply settles_try; [|intros e h [= <-]; apply constant_ret].
  apply settles_endpoint. intros ->. by eapply Hd.
Qed.

Lemma settled_serve_c fuel (req : Inbound) w :
  (forall params, dispatch (in_method req) (in_path req) <> Full RGenerationsSync params) ->
  settled (serve_c fuel req w).1 (serve fuel req w).1 /\
  app_config (serve_c fuel req w).2 = app_config (serve fuel req w).2 /\
  sent (serve_c fuel req w).2 = sent (serve fuel req w).2.
Proof.
  intros Hd. rewrite <- (run_solo_serve_c fuel req w).
  by apply settles_run_solo, settles_serve_c.
Qed.

(** The reply of a request is settled when the request arrives, unless
    it is a blocking call: after its first block the task is done, or ends
    at its next block in whatever world that runs, with the reply that the
    sequential model gives in the world of the arrival; and what it sends
    to the provider it has sent in its first block, from the configuration
    of that moment.  An update of the configuration that arrives in between
    changes nothing for it. *)
Theorem serve_c_settled fuel (req : Inbound) w :
  (forall params, dispatch (in_method req) (in_path req) <> Full RGenerationsSync params) ->
  settled (serve_c fuel req w).1 (serve fuel req w).1 /\
  app_config (serve_c fuel req w).2 = app_config (serve fuel req w).2 /\
  sent (serve_c fuel req w).2 = sent (serve fuel req w).2.
Proof. apply settled_serve_c. Qed.

End SettledHandlers.

(** * The property at a concrete run *)

Lemma serve_c_settled_witness :
  let arrival := serve_c (P:=forwarding) (U:=stalling) (A:=by_role) 0
                   (get_status (Some alice)) ready in
  let alone := serve (P:=forwarding) (U:=stalling) (A:=by_role) 0
                 (get_status (Some alice)) ready in
  settled arrival.1 alone.1 /\
  app_config arrival.2 = app_config alone.2 /\ sent arrival.2 = sent alone.2.
Proof.
  apply (serve_c_settled (P:=forwarding) (U:=stalling) (A:=by_role) 0
           (get_status (Some alice)) ready).
  intros params. by vm_compute.
Defined.
