(* ===== verification/Blocks.v ===== *)
(** * Blocks: what the blocks of a coroutine guarantee

    When requests are served concurrently, a handler is resumed in a world
    that the blocks of other handlers have changed since it was suspended.
    What can be said of it is what each of its blocks does to the world in
    which it happens to run.  [task_sat G Q t w] says that every block of the
    task [t] still to come, run in any world in which the clock has reached
    its wake-up time, takes the world to one related to it by the guarantee
    [G], and that the task ends in a result and a world that satisfy [Q];
    [starts G Q c w] says the same of the coroutine [c] started in [w], its
    first block included.

    The rules follow the combinators of [Async]: one rule for [atomically],
    for sequencing, for [try], and for each of the two [await]s
    ([starts_atomically], [starts_bind], [starts_try], [starts_request],
    [starts_sleep]), and their forms for coroutines that keep the guarantee
    wherever they are started ([keeps]).  The guarantees of the handlers are
    proved with them, for any guarantee that allows a request made from the
    configuration to be sent and a record to be written to the log:

    - [sends_configured]: a block of a handler leaves the configuration
      as it is, never turns back the clock and takes nothing off the record
      of requests or off the log; whatever it sends carries the API key and
      goes to the base URL of the configuration in which the block runs
      ([keeps_endpoint], [starts_serve_c]);
    - no block ends out of fuel, under the fuel of [Sync.sync_fuel]: the
      clock that a resumed loop reads has passed its wake-up time, so the
      turns of the loop are bounded as they are when it runs alone
      ([starts_poll_loop], [keeps_video_generations_sync]). *)

From S2P Require Import Prelude PyStr Json Effects Base64 Fixtures Config Submission Client Poller Sync Router Async.

#[local] Open Scope videos_scope.
#[local] Open Scope Z_scope.

(** ** Tasks that keep a guarantee *)

Section Sat.
Context (G : relation World).

(** Every block of [t] still to come keeps [G], in any world in which the
    clock has reached the wake-up time of the task, and [t] ends in a result
    and a world that satisfy [Q].  [w] is the world in which [t] was left;
    only a task that is done looks at it. *)
Fixpoint task_sat {A} (Q : Res A -> World -> Prop) (t : Task A) (w : World) : Prop :=
  match t with
  | Done r => Q r w
  | Waiting wake resume =>
      forall w1, wake <= now w1 ->
        G w1 (resume w1).2 /\ task_sat Q (resume w1).1 (resume w1).2
  end.

(** The same of a coroutine started in [w], its first block included. *)
Definition starts {A} (Q : Res A -> World -> Prop) (c : Coro A) (w : World) : Prop :=
  G w (c w).2 /\ task_sat Q (c w).1 (c w).2.

End Sat.

(** The postcondition that the value of a computation satisfies [Qa] and
    that an exception or the lack of fuel satisfy [Q]. *)
Definition on_value {A B} (Qa : A -> World -> Prop) (Q : Res B -> World -> Prop)
  : Res A -> World -> Prop :=
  fun r w =>
    match r with
    | Ok a => Qa a w
    | Raise e => Q (Raise e) w
    | OutOfFuel => Q OutOfFuel w
    end.

(** The postcondition of the body of a [try] whose handlers lead to [Q]. *)
Definition on_raise {A} (G : relation World) (handler : Exn -> option (M A))
    (Q : Res A -> World -> Prop) : Res A -> World -> Prop :=
  fun r w =>
    match r with
    | Raise e =>
        match handler e with
        | Some h => G w (h w).2 /\ Q (h w).1 (h w).2
        | None => Q (Raise e) w
        end
    | _ => Q r w
    end.

(** The coroutine ends no earlier than [t0] and, unless [excuse], not for
    lack of fuel. *)
Definition ends_after {A} (t0 : Z) (excuse : Prop) : Res A -> World -> Prop :=
  fun r w => t0 <= now w /\ (r = OutOfFuel -> excuse).

(** A coroutine whose blocks keep [G] in whatever world they run. *)
Definition keeps (G : relation World) (excuse : Prop) {A} (c : Coro A) : Prop :=
  forall w, starts G (ends_after (now w) excuse) c w.

(** A request made from a configuration: there is an API key, the request
    carries it, and its URL is under the base URL. *)
Definition configured `{PyRepr} (config : gmap string JSON) (req : HttpRequest) : Prop :=
  api_key_ok config = true /\
  req_headers req !! "Authorization" =
    Some ("Bearer " +:+ py_str (getattr config "VIDEOS_OPENAI_API_KEY" (JStr ""))) /\
  String.prefix
    (py_str (getattr config "VIDEOS_OPENAI_API_BASE_URL" (JStr "https://api.openai.com/v1")))
    (req_url req) = true.

#[export] Instance configured_dec `{PyRepr} config req : Decision (configured config req).
Proof. unfold configured. apply _. Defined.

(** The fuel covers the turns that the loop of the blocking mode can still
    take at [w]: one for each interval that is left before the deadline, one
    for the exit. *)
Definition loop_fuel_ok (fuel : nat) (start_time timeout poll_interval : Z) (w : World)
  : Prop :=
  0 < poll_interval /\ (0 < fuel)%nat /\
  deadline timeout - (now w - start_time) <= (Z.of_nat fuel - 1) * pause poll_interval.

(** The guarantee of the handlers: the configuration stays, the clock and
    the record of requests only grow, and the requests that were added were
    made from the configuration. *)
Definition sends_configured `{PyRepr} (w w' : World) : Prop :=
  later_world w w' /\
  Forall (configured (app_config w)) (drop (length (sent w)) (sent w')).

(** A request is answered: the task ends with a reply, or, if [excuse],
    for lack of fuel. *)
Definition answered (excuse : Prop) : Res Reply -> World -> Prop :=
  fun r _ => (exists reply, r = Ok reply) \/ (r = OutOfFuel /\ excuse).

(** The fuel covers the blocking mode for the timeout and the interval that
    the request asks for (or leaves at their defaults). *)
Definition fuel_covers `{Auth} (fuel : nat) (req : Inbound) : Prop :=
  forall timeout poll_interval,
    query_int (in_query req) "timeout" 300 = Some timeout ->
    query_int (in_query req) "poll_interval" 5 = Some poll_interval ->
    0 < poll_interval /\ (sync_fuel timeout poll_interval <= fuel)%nat.

(** * Properties *)

Section SatRules.
Context (G : relation World) `{!PreOrder G}.

Lemma task_sat_mono {A} (Q Q' : Res A -> World -> Prop) t w :
  (forall r w', Q r w' -> Q' r w') -> task_sat G Q t w -> task_sat G Q' t w.
Proof.
  intros HQ. revert w. induction t as [r|wake resume IH] using task_ind; intros w; cbn.
  - apply HQ.
  - intros Ht w1 Hw. destruct (Ht w1 Hw). auto.
Qed.

Lemma starts_mono {A} (Q Q' : Res A -> World -> Prop) c w :
  (forall r w', Q r w' -> Q' r w') -> starts G Q c w -> starts G Q' c w.
Proof. intros HQ [? ?]. split; [done|]. by eapply task_sat_mono. Qed.

Lemma starts_atomically {A} (Q : Res A -> World -> Prop) (m : M A) w :
  G w (m w).2 -> Q (m w).1 (m w).2 -> starts G Q (atomically m) w.
Proof. unfold starts, atomically. by destruct (m w). Qed.

(** A block, and then what is made of the task it leaves, in the same
    block. *)
Lemma starts_compose {A B} (Q : Res B -> World -> Prop) (c : Coro A)
    (f : Task A -> Coro B) w :
  G w (c w).2 -> starts G Q (f (c w).1) (c w).2 ->
  starts G Q (fun w => let '(t, w') := c w in f t w') w.
Proof.
  unfold starts. destruct (c w) as [t w']. cbn [fst snd]. intros HG [HG' Ht].
  split; [by etrans|done].
Qed.

Lemma task_sat_bind {A B} (Q : Res B -> World -> Prop) (t : Task A) (k : A -> Coro B) w :
  task_sat G (on_value (fun a w' => starts G Q (k a) w') Q) t w ->
  starts G Q (task_bind t k) w.
Proof.
  revert w. induction t as [[a|e|]|wake resume IH] using task_ind; intros w Ht;
    try done.
  split; [done|]. intros w1 Hw. destruct (Ht w1 Hw) as [HG Ht1].
  apply (starts_compose Q resume (fun t => task_bind t k)); [done|]. by apply IH.
Qed.

Lemma starts_bind {A B} (Q : Res B -> World -> Prop) (c : Coro A) (k : A -> Coro B) w :
  starts G (on_value (fun a w' => starts G Q (k a) w') Q) c w ->
  starts G Q (c ≫= k) w.
Proof.
  intros [HG Ht]. apply (starts_compose Q c (fun t => task_bind t k)); [done|].
  by apply task_sat_bind.
Qed.

Lemma task_sat_try {A} (Q : Res A -> World -> Prop) (t : Task A) handler w :
  task_sat G (on_raise G handler Q) t w -> starts G Q (task_try t handler) w.
Proof.
  revert w. induction t as [[a|e|]|wake resume IH] using task_ind; intros w Ht; try done.
  - cbn [task_sat on_raise task_try] in *. destruct (handler e) as [h|]; [|done].
    destruct Ht. by apply starts_atomically.
  - split; [done|]. intros w1 Hw. destruct (Ht w1 Hw) as [HG Ht1].
    apply (starts_compose Q resume (fun t => task_try t handler)); [done|]. by apply IH.
Qed.

Lemma starts_try {A} (Q : Res A -> World -> Prop) (c : Coro A) handler w :
  starts G (on_raise G handler Q) c w -> starts G Q (c_try c handler) w.
Proof.
  intros [HG Ht]. apply (starts_compose Q c (fun t => task_try t handler)); [done|].
  by apply task_sat_try.
Qed.

Lemma starts_request `{Upstream} (Q : Res Response -> World -> Prop) req w :
  G w (posted req w) ->
  (forall r w1, now w <= now w1 -> r <> OutOfFuel -> Q r w1) ->
  starts G Q (await_request req) w.
Proof.
  intros HG HQ. split; [done|]. cbn. intros w1 Hw. split; [done|].
  apply HQ; [lia|]. by destruct (outcome _).
Qed.

Lemma starts_sleep (Q : Res unit -> World -> Prop) delay w :
  (forall w1, now w + Z.max 0 delay * TICKS_PER_SECOND <= now w1 -> Q (Ok tt) w1) ->
  starts G Q (await_sleep delay) w.
Proof. intros HQ. split; [done|]. cbn. intros w1 Hw. split; [done|]. by apply HQ. Qed.

(** ** The rules for coroutines that keep [G] wherever they run *)

Section Keeps.
Context (excuse : Prop).
Hypothesis G_log : forall l w, G w (log_to l w).

Lemma keeps_starts {A} (c : Coro A) t0 w :
  t0 <= now w -> keeps G excuse c -> starts G (ends_after t0 excuse) c w.
Proof.
  intros Ht Hc. eapply starts_mono; [|apply Hc]. intros r w' [? ?]. split; [lia|done].
Qed.

Lemma starts_then {A B} (c : Coro A) (k : A -> Coro B) t0 w :
  starts G (ends_after t0 excuse) c w -> (forall a, keeps G excuse (k a)) ->
  starts G (ends_after t0 excuse) (c ≫= k) w.
Proof.
  intros Hc Hk. apply starts_bind. eapply starts_mono; [|exact Hc].
  intros [a|e|] w' [Ht Hr]; cbn; [by apply keeps_starts|done|split; auto].
Qed.

Lemma keeps_bind {A B} (c : Coro A) (k : A -> Coro B) :
  keeps G excuse c -> (forall a, keeps G excuse (k a)) -> keeps G excuse (c ≫= k).
Proof. intros Hc Hk w. by apply starts_then. Qed.

Lemma keeps_atomically {A} (m : M A) : quiet m -> total m -> keeps G excuse (atomically m).
Proof.
  intros Hq Ht w. specialize (Ht w). destruct (Hq w) as [l Hl].
  apply starts_atomically; rewrite Hl; [apply G_log|]. by split.
Qed.

(** A computation that changes nothing, and then a coroutine that keeps
    [G] in the world in which it is started with the value computed. *)
Lemma starts_from {A B} (m : M A) (k : A -> Coro B) t0 w :
  inert m -> total m -> t0 <= now w ->
  (forall a, m w = (Ok a, w) -> starts G (ends_after t0 excuse) (k a) w) ->
  starts G (ends_after t0 excuse) (atomically m ≫= k) w.
Proof.
  intros Hi Ht Hw Hk. apply starts_bind, starts_atomically; rewrite Hi; [done|].
  specialize (Hi w). specialize (Ht w).
  destruct (m w) as [[a|e|] w'] eqn:E; cbn in *; subst; [by apply Hk|done..].
Qed.

Lemma keeps_from {A B} (m : M A) (k : A -> Coro B) :
  inert m -> total m ->
  (forall a w, m w = (Ok a, w) -> starts G (ends_after (now w) excuse) (k a) w) ->
  keeps G excuse (atomically m ≫= k).
Proof. intros Hi Ht Hk w. apply starts_from; [done..|]. intros a. apply Hk. Qed.

(** A coroutine that keeps [G], and then one that keeps it in the worlds
    in which the first may end. *)
Lemma starts_through {A B} (c : Coro A) (k : A -> Coro B) t0 w :
  t0 <= now w -> keeps G excuse c ->
  (forall a w', now w <= now w' -> starts G (ends_after t0 excuse) (k a) w') ->
  starts G (ends_after t0 excuse) (c ≫= k) w.
Proof.
  intros Hw Hc Hk. apply starts_bind. eapply starts_mono; [|apply Hc].
  intros [a|e|] w' [Ht Hr]; cbn; [by apply Hk|split; [lia|done]|split; [lia|auto]].
Qed.

Lemma starts_caught {A} (c : Coro A) handler t0 w :
  starts G (ends_after t0 excuse) c w ->
  (forall e h, handler e = Some h -> quiet h /\ total h) ->
  starts G (ends_after t0 excuse) (c_try c handler) w.
Proof.
  intros Hc Hh. apply starts_try. eapply starts_mono; [|exact Hc].
  intros [a|e|] w' [Ht Hr]; cbn; [done| |done].
  destruct (handler e) as [h|] eqn:E; [|done].
  destruct (Hh e h E) as [Hq Hto]. specialize (Hto w'). destruct (Hq w') as [l Hl].
  rewrite Hl. split; [apply G_log|]. by split.
Qed.

Lemma keeps_try {A} (c : Coro A) handler :
  keeps G excuse c -> (forall e h, handler e = Some h -> quiet h /\ total h) ->
  keeps G excuse (c_try c handler).
Proof. intros Hc Hh w. by apply starts_caught. Qed.

(** Code that awaits nothing and does no more than log, wherever it runs. *)
Lemma starts_quiet {A} (m : M A) t0 w :
  t0 <= now w -> quiet m -> total m -> starts G (ends_after t0 excuse) (atomically m) w.
Proof. intros Ht Hq Hm. apply keeps_starts; [done|]. by apply keeps_atomically. Qed.

Lemma keeps_sleep delay : keeps G excuse (await_sleep delay).
Proof.
  intros w. apply starts_sleep. intros w1 Hw. split; [|done]. unfold TICKS_PER_SECOND in *. lia.
Qed.

End Keeps.

End SatRules.

(** ** The requests of the handlers are made from the configuration *)

Section Configured.
Context {P : Platform}.
Implicit Types (config : gmap string JSON) (req : HttpRequest).

Lemma configured_list_request config limit after :
  api_key_ok config = true -> configured config (list_request config limit after).
Proof. intros K. split_and!; [done|apply lookup_insert_eq|apply string_prefix_app]. Qed.

Lemma configured_status_request config video_id :
  api_key_ok config = true -> configured config (status_request config video_id).
Proof. intros K. split_and!; [done|apply lookup_insert_eq|apply string_prefix_app]. Qed.

Lemma configured_content_request config video_id :
  api_key_ok config = true -> configured config (content_request config video_id).
Proof. intros K. split_and!; [done|apply lookup_insert_eq|apply string_prefix_app]. Qed.

Lemma configured_delete_request config video_id :
  api_key_ok config = true -> configured config (delete_request config video_id).
Proof. intros K. split_and!; [done|apply lookup_insert_eq|apply string_prefix_app]. Qed.

Lemma inert_keyed request_of : inert (keyed request_of).
Proof. unfold keyed. effects. Qed.

Lemma total_keyed request_of : total (keyed request_of).
Proof. unfold keyed. effects. Qed.

Lemma keyed_configured request_of w req :
  (forall config, api_key_ok config = true -> configured config (request_of config)) ->
  keyed request_of w = (Ok req, w) -> configured (app_config w) req.
Proof.
  intros Hc. unfold keyed. rewrite run_bind. cbn [read_config].
  destruct (json_truthy _) eqn:K; [|done]. intros [= <-]. by apply Hc.
Qed.

#[local] Hint Resolve inert_attach_reference total_attach_reference : videos.

Lemma inert_submission_of form_data user : inert (submission_of form_data user).
Proof. unfold submission_of. effects. Qed.

Lemma total_submission_of form_data user : total (submission_of form_data user).
Proof. unfold submission_of. effects. Qed.

Lemma submission_of_configured form_data user w req :
  submission_of form_data user w = (Ok req, w) -> configured (app_config w) req.
Proof.
  unfold submission_of. rewrite run_bind. cbn [read_config].
  destruct (negb (json_eq_str _ _)); [done|].
  destruct (json_truthy _) eqn:K; [|done]. cbn [negb]. rewrite run_bind.
  destruct (attach_reference _ _ _ w) as [[[[files headers] data]|e|] w1] eqn:E; [|done..].
  intros [= <- <-]. apply attach_reference_authorization in E.
  split_and!; [done| |apply string_prefix_app].
  cbn [post_request req_headers]. by rewrite E, build_headers_authorization.
Qed.

End Configured.

(** ** The blocks of the handlers *)

Section HandlerBlocks.
Context {P : Platform} {U : Upstream}.
Context (G : relation World) `{!PreOrder G} (excuse : Prop).
Hypothesis G_send : forall w req, configured (app_config w) req -> G w (posted req w).
Hypothesis G_log : forall l w, G w (log_to l w).
Implicit Types (w : World) (req : HttpRequest) (user : User).

Lemma starts_await_request req w :
  configured (app_config w) req ->
  starts G (ends_after (now w) excuse) (await_request req) w.
Proof. intros Hc. apply (starts_request G); [by apply G_send|]. by intros r w1 Hw Hr. Qed.

Lemma starts_send_submission req w :
  configured (app_config w) req ->
  starts G (ends_after (now w) excuse) (send_submission_c req) w.
Proof.
  intros Hc. apply (starts_caught G excuse G_log); [|apply quiet_handler_raise, submission_handler_raises].
  apply (starts_then G excuse); [by apply starts_await_request|].
  intros r. apply (keeps_atomically G excuse G_log); effects.
Qed.

Lemma starts_fetch_json what req w :
  configured (app_config w) req ->
  starts G (ends_after (now w) excuse) (fetch_json_c what req) w.
Proof.
  intros Hc. apply (starts_caught G excuse G_log); [|apply quiet_handler_raise, client_handler_raises].
  apply (starts_then G excuse); [by apply starts_await_request|].
  intros r. apply (keeps_atomically G excuse G_log); effects.
Qed.

Lemma keeps_video_generations form_data user :
  keeps G excuse (video_generations_c form_data user).
Proof.
  apply (keeps_from G excuse); [apply inert_submission_of|apply total_submission_of|].
  intros req w E. apply starts_send_submission. by eapply submission_of_configured.
Qed.

Lemma keeps_keyed_fetch what request_of :
  (forall config, api_key_ok config = true -> configured config (request_of config)) ->
  keeps G excuse (atomically (keyed request_of) ≫= fetch_json_c what).
Proof.
  intros Hc. apply (keeps_from G excuse); [apply inert_keyed|apply total_keyed|].
  intros req w E. apply starts_fetch_json. by eapply keyed_configured.
Qed.

Lemma keeps_list_videos user limit after : keeps G excuse (list_videos_c user limit after).
Proof. apply keeps_keyed_fetch. intros config. apply configured_list_request. Qed.

Lemma keeps_get_video video_id user : keeps G excuse (get_video_c video_id user).
Proof. apply keeps_keyed_fetch. intros config. apply configured_status_request. Qed.

Lemma keeps_delete_video video_id user : keeps G excuse (delete_video_c video_id user).
Proof. apply keeps_keyed_fetch. intros config. apply configured_delete_request. Qed.

Lemma keeps_get_video_content video_id user :
  keeps G excuse (get_video_content_c video_id user).
Proof.
  apply (keeps_from G excuse); [apply inert_keyed|apply total_keyed|].
  intros req w E. apply (starts_caught G excuse G_log); [|apply quiet_handler_raise, client_handler_raises].
  apply (starts_then G excuse).
  - apply starts_await_request. eapply keyed_configured; [|done].
    intros config. apply configured_content_request.
  - intros r. apply (keeps_atomically G excuse G_log); effects.
Qed.

(** The loop of the blocking mode: whatever the worlds in which it is
    resumed, the clock in them has passed the time for which it sleeps, and
    the fuel that covers the deadline is never used up. *)
Lemma starts_poll_loop fuel video_id user start_time timeout poll_interval w t0 :
  t0 <= now w -> excuse \/ loop_fuel_ok fuel start_time timeout poll_interval w ->
  starts G (ends_after t0 excuse)
    (poll_loop_c fuel video_id user start_time timeout poll_interval) w.
Proof.
  revert w t0. induction fuel as [|fuel IH]; intros w t0 Ht Hf; cbn [poll_loop_c].
  { apply (starts_atomically G); [done|]. split; [done|]. intros _.
    destruct Hf as [?|(? & ? & ?)]; [done|lia]. }
  apply (starts_from G excuse); [effects..|done|]. intros t [= <-].
  destruct (Z.ltb_spec (now w - start_time) (timeout * TICKS_PER_SECOND)) as [Hlt|Hge];
    [|apply (starts_quiet G excuse G_log); [done|effects..]].
  apply (starts_through G excuse); [done|apply keeps_get_video|]. intros status w1 Hw1.
  apply (starts_from G excuse); [effects..|lia|]. intros st _.
  destruct (json_eq_str st "completed");
    [apply (starts_quiet G excuse G_log);
     [lia|apply inert_quiet, inert_completed_response|apply total_completed_response]|].
  destruct (json_eq_str st "failed");
    [apply (starts_quiet G excuse G_log); [lia|effects..]|].
  apply (starts_bind G), (starts_sleep G). intros w2 Hw2. cbn [on_value].
  unfold TICKS_PER_SECOND in Hw2. apply IH; [lia|].
  destruct Hf as [?|(Hp & Hn & Hm)]; [by left|right].
  unfold loop_fuel_ok, deadline, pause, TICKS_PER_SECOND in *.
  rewrite Z.max_r in * by lia. replace (Z.of_nat (S fuel) - 1) with (Z.of_nat fuel) in Hm by lia.
  split_and!; [done|destruct fuel; lia|lia].
Qed.

Lemma keeps_video_generations_sync fuel form_data user timeout poll_interval :
  excuse \/ 0 < poll_interval /\ (sync_fuel timeout poll_interval <= fuel)%nat ->
  keeps G excuse (video_generations_sync_c fuel form_data user timeout poll_interval).
Proof.
  intros Hf w. unfold video_generations_sync_c.
  apply (starts_through G excuse); [done|apply keeps_video_generations|].
  intros result w1 Hw1. apply (starts_from G excuse); [effects..|done|]. intros video_id _.
  destruct (negb _);
    [apply (starts_quiet G excuse G_log); [done|effects..]|].
  apply (starts_from G excuse); [effects..|done|]. intros t [= <-].
  apply starts_poll_loop; [done|]. destruct Hf as [?|[Hp Hf]]; [by left|right].
  unfold sync_fuel in Hf. destruct fuel as [|fuel]; [lia|].
  destruct (sync_fuel_enough timeout poll_interval 0 fuel) as [? ?]; [lia..|].
  split_and!; [done|lia|]. replace (Z.of_nat (S fuel) - 1) with (Z.of_nat fuel); lia.
Qed.

End HandlerBlocks.

(** ** The blocks of a request that is served *)

Section ServeBlocks.
Context {P : Platform} {U : Upstream} {A : Auth}.
Context (G : relation World) `{!PreOrder G} (excuse : Prop).
Hypothesis G_send : forall w req, configured (app_config w) req -> G w (posted req w).
Hypothesis G_log : forall l w, G w (log_to l w).
Implicit Types (w : World) (req : Inbound) (r : Route).

#[local] Hint Resolve inert_depends total_depends : videos.

Lemma keeps_validated {X} (arg : option X) k :
  (forall x, arg = Some x -> keeps G excuse (k x)) -> keeps G excuse (validated_c arg k).
Proof.
  intros Hk. destruct arg; [by apply Hk|]. apply (keeps_atomically G excuse G_log); effects.
Qed.

Lemma starts_guarded (c : Coro Reply) t0 w :
  starts G (ends_after t0 excuse) c w -> starts G (answered excuse) (guarded_c c) w.
Proof.
  intros Hc. apply (starts_try G). eapply starts_mono; [|exact Hc].
  intros [reply|e|] w' [Ht Hr]; cbn; [left|split; [done|left]|right]; eauto.
Qed.

(** Every endpoint but that of [update_config]. *)
Lemma keeps_endpoint fuel r params req :
  r <> RUpdateConfig -> excuse \/ fuel_covers fuel req ->
  keeps G excuse (endpoint_c fuel r params req).
Proof.
  intros Hr Hf.
  destruct r; [by apply (keeps_atomically G excuse G_log); cbn [endpoint]; effects|done
              |by apply (keeps_atomically G excuse G_log); cbn [endpoint]; effects|..];
    cbn [endpoint_c];
    (apply (keeps_bind G excuse); [apply (keeps_atomically G excuse G_log); effects|intros user]);
    repeat (apply keeps_validated; intros ? ?);
    (apply (keeps_bind G excuse); [|intros ?; apply (keeps_atomically G excuse G_log); effects]);
    auto using keeps_video_generations, keeps_list_videos, keeps_get_video,
      keeps_get_video_content, keeps_delete_video.
  apply (keeps_video_generations_sync G excuse G_send G_log).
  destruct Hf as [?|Hf]; [by left|right]. by apply Hf.
Qed.

Lemma starts_serve_c fuel req w :
  (forall params, dispatch (in_method req) (in_path req) <> Full RUpdateConfig params) ->
  excuse \/ fuel_covers fuel req ->
  starts G (answered excuse) (serve_c fuel req) w.
Proof.
  intros Hd Hf. unfold serve_c. destruct (dispatch _ _) as [r params| |].
  - apply (starts_guarded _ (now w)), keeps_endpoint; [|done]. intros ->. by eapply Hd.
  - apply (starts_atomically G); [done|]. left. by eexists.
  - apply (starts_atomically G); [done|]. left. by eexists.
Qed.

End ServeBlocks.

(** ** [sends_configured] is a guarantee *)

Section SendsConfigured.
Context `{PyRepr}.

#[export] Instance sends_configured_preorder : PreOrder sends_configured.
Proof.
  split.
  - intros w. split; [done|]. by rewrite drop_all.
  - intros w1 w2 w3 [H12 F12] [H23 F23]. split; [by etrans|].
    destruct H12 as (Hc & _ & [k1 E1] & _), H23 as (_ & _ & [k2 E2] & _).
    rewrite E2, drop_app_length, Hc in F23. rewrite E1, drop_app_length in F12.
    rewrite E2, E1, <- (assoc_L app), drop_app_length. by apply Forall_app.
Qed.

Lemma sends_configured_posted w req :
  configured (app_config w) req -> sends_configured w (posted req w).
Proof.
  intros Hc. split; [|by cbn; rewrite drop_app_length; apply Forall_singleton].
  split_and!; [done..|by apply prefix_app_r|done].
Qed.

Lemma sends_configured_clock w t :
  now w <= t ->
  sends_configured w
    {| app_config := app_config w; now := t; sent := sent w; logged := logged w |}.
Proof. intros Ht. split; [done|]. by cbn; rewrite drop_all. Qed.

Lemma sends_configured_log l w : sends_configured w (log_to l w).
Proof. split; [apply later_log_to|]. by cbn; rewrite drop_all. Qed.

End SendsConfigured.
