(* ===== verification/Interleave.v ===== *)
(** * Interleave: requests served concurrently

    The event loop holds the tasks of the requests in flight ([Pool]).  An
    event takes a new request through its first block ([Arrive]), resumes a
    task that waits ([Resume]), or lets time pass ([Elapse]); a schedule is
    a list of events, and [run_events] runs it.  Any order of events is a
    schedule: a task may be resumed late, or never, and requests may arrive
    at any moment.  What holds of every schedule holds of whatever the event
    loop of the server does.

    [Arrive] is the moment at which the handler of a request starts: the
    route is known, the dependencies are resolved and the arguments are
    validated, none of which reads the world.  [get_models], a plain [def]
    that the framework runs in a worker thread, reads one attribute of the
    configuration and is one block like the two other handlers on the
    configuration.

    The theorems:

    - the world after a schedule ([run_events_sat], from the guarantees of
      [Blocks]): the configuration is that of the admin's updates in the
      order of their arrival, whatever is interleaved with them
      ([run_events_config], [run_events_config_typed]); the clock, the
      record of requests and the log only grow ([run_events_monotone]); every request
      that went to the provider was made from a configuration that was in
      force at some moment of the run, with a key that was set
      ([run_events_sends_configured]);
    - every task ends with a reply, never with an exception and, under the
      fuel of [Sync.sync_fuel], never for lack of fuel
      ([run_events_answers]);
    - a task that is resumed often enough ends ([resume_until_done]), and
      the schedule [serial] that serves each request to its end before the
      next arrives gives the replies and the world of [Router.serve_all]
      ([serial_run]): the sequential model is one of the schedules.  This
      lemma relates the two models to each other; it says nothing of the
      program that both do not say;
    - the arrival decides the reply of every request but a blocking call,
      whatever the schedule before and after it ([arrival_decides], from
      [Atomic]);
    - the blocking mode reads the configuration again at each poll
      ([poll_follows_config]): after an update by the admin the polls
      of a job already submitted carry the new key and go to the new base
      URL, and a key that is removed ends the call with status 400
      ([update_while_polling_scenario]). *)

From S2P Require Import Prelude PyStr Json Effects Base64 Fixtures Config Submission Client Poller Sync Router Async Atomic Blocks.

#[local] Open Scope videos_scope.
#[local] Open Scope Z_scope.

(** ** The pool and the events *)

(** The tasks of the requests, in the order of their arrival. *)
Abbreviation Pool := (list (Task Reply)).

Section Pool.
Context {P : Platform} {U : Upstream} {A : Auth}.

Inductive Event :=
| Arrive (req : Inbound)
| Resume (i : nat)
| Elapse (d : N).

(** The world [d] ticks later. *)
Definition advance (d : N) (w : World) : World :=
  {| app_config := app_config w; now := now w + Z.of_N d; sent := sent w;
     logged := logged w |}.

(** One event.  Resuming a task that is done, or that is not there, does
    nothing. *)
Definition step (fuel : nat) (ev : Event) (pool : Pool) (w : World) : Pool * World :=
  match ev with
  | Arrive req => let '(t, w') := serve_c fuel req w in (pool ++ [t], w')
  | Resume i =>
      match pool !! i with
      | Some (Waiting wake resume) =>
          let '(t, w') := resume (wake_up wake w) in (<[i := t]> pool, w')
      | _ => (pool, w)
      end
  | Elapse d => (pool, advance d w)
  end.

Fixpoint run_events (fuel : nat) (evs : list Event) (pool : Pool) (w : World)
  : Pool * World :=
  match evs with
  | [] => (pool, w)
  | ev :: evs' => let '(pool', w') := step fuel ev pool w in run_events fuel evs' pool' w'
  end.

(** The reply of a task, once it has one. *)
Definition reply_of (t : Task Reply) : option Reply :=
  match t with
  | Done (Ok reply) => Some reply
  | _ => None
  end.

(** The configuration after an event: only an arrival can change it. *)
Definition config_step (ev : Event) (config : gmap string JSON) : gmap string JSON :=
  match ev with
  | Arrive req => config_after req config
  | _ => config
  end.

(** The configurations in force in the course of a schedule. *)
Fixpoint configs_along (evs : list Event) (config : gmap string JSON)
  : list (gmap string JSON) :=
  match evs with
  | [] => [config]
  | ev :: evs' => config :: configs_along evs' (config_step ev config)
  end.

(** How often a task is suspended when it runs alone from [w]. *)
Fixpoint suspensions {X} (t : Task X) (w : World) : nat :=
  match t with
  | Done _ => 0
  | Waiting wake resume =>
      S (let '(t', w') := resume (wake_up wake w) in suspensions t' w')
  end.

(** The schedule that serves the requests one after the other: each
    arrives when its predecessor is done, and is resumed until it is done
    itself.  [i] is the place of the first of them in the pool. *)
Fixpoint serial (fuel : nat) (reqs : list Inbound) (i : nat) (w : World) : list Event :=
  match reqs with
  | [] => []
  | req :: reqs' =>
      let '(t, w1) := serve_c fuel req w in
      Arrive req :: replicate (suspensions t w1) (Resume i)
        ++ serial fuel reqs' (S i) (run_task t w1).2
  end.

(** What an event does to the world, whatever the tasks are: the
    configuration is that of [config_step], the clock, the record and the
    log grow, and the requests added were made from the configuration
    before. *)
Definition event_rel (ev : Event) (w w' : World) : Prop :=
  app_config w' = config_step ev (app_config w) /\
  now w <= now w' /\
  sent w `prefix_of` sent w' /\
  logged w `prefix_of` logged w' /\
  Forall (configured (app_config w)) (drop (length (sent w)) (sent w')).

(** What a schedule does to the world: what its events do, in turn. *)
Fixpoint run_rel (evs : list Event) (w w' : World) : Prop :=
  match evs with
  | [] => w' = w
  | ev :: evs' => exists w1, event_rel ev w w1 /\ run_rel evs' w1 w'
  end.

(** The tasks of a pool keep the guarantee of the handlers and end with a
    reply. *)
Definition pool_sat (excuse : Prop) (pool : Pool) : Prop :=
  Forall (fun t => forall w, task_sat sends_configured (answered excuse) t w) pool.

(** The fuel covers the blocking calls among the arrivals of a schedule. *)
Definition schedule_covered (fuel : nat) (evs : list Event) : Prop :=
  Forall (fun ev => match ev with Arrive req => fuel_covers fuel req | _ => True end) evs.

End Pool.

(** * Properties *)

(** ** What a schedule does to the world *)

Section RunRel.
Context {P : Platform} {U : Upstream} {A : Auth}.
Implicit Types (w : World) (ev : Event) (evs : list Event).

Lemma run_rel_config evs w w' :
  run_rel evs w w' ->
  app_config w' = foldl (fun config ev => config_step ev config) (app_config w) evs.
Proof.
  revert w. induction evs as [|ev evs IH]; intros w; cbn; [by intros ->|].
  intros (w1 & (Hc & _) & Hr). rewrite <- Hc. by apply IH.
Qed.

Lemma run_rel_monotone evs w w' :
  run_rel evs w w' ->
  now w <= now w' /\ sent w `prefix_of` sent w' /\ logged w `prefix_of` logged w'.
Proof.
  revert w. induction evs as [|ev evs IH]; intros w; cbn; [by intros ->|].
  intros (w1 & (_ & Hn & Hs & Hl & _) & Hr). destruct (IH _ Hr) as (? & ? & ?).
  split_and!; [lia|by etrans..].
Qed.

Lemma run_rel_sends evs w w' req :
  run_rel evs w w' -> req ∈ drop (length (sent w)) (sent w') ->
  exists config, config ∈ configs_along evs (app_config w) /\ configured config req.
Proof.
  revert w. induction evs as [|ev evs IH]; intros w; cbn.
  { intros ->. rewrite drop_all. by intros ?%elem_of_nil. }
  intros (w1 & (Hc & _ & [k1 E1] & _ & Hk) & Hr) Hreq.
  destruct (run_rel_monotone _ _ _ Hr) as (_ & [k2 E2] & _).
  rewrite E2, E1, <- (assoc_L app), drop_app_length in Hreq.
  rewrite E1, drop_app_length in Hk. apply elem_of_app in Hreq as [Hreq|Hreq].
  - exists (app_config w). split; [by left|]. by eapply Forall_forall.
  - destruct (IH w1 Hr) as (config & Hin & Hconf); [by rewrite E2, drop_app_length|].
    exists config. split; [|done]. right. by rewrite <- Hc.
Qed.

Lemma foldl_config_typed evs config :
  config_typed config ->
  config_typed (foldl (fun config ev => config_step ev config) config evs).
Proof.
  revert config. induction evs as [|[req|i|d] evs IH]; intros config Hc; cbn; auto.
  apply IH. by apply config_after_typed.
Qed.

End RunRel.

(** ** The events keep the guarantee *)

Section Events.
Context {P : Platform} {U : Upstream} {A : Auth}.
Context (fuel : nat) (excuse : Prop).
Implicit Types (w : World) (ev : Event) (evs : list Event) (pool : Pool).

Lemma task_sat_any_world (t : Task Reply) w w' :
  task_sat sends_configured (answered excuse) t w ->
  task_sat sends_configured (answered excuse) t w'.
Proof. by destruct t. Qed.

Lemma event_rel_sends ev w w' :
  config_step ev (app_config w) = app_config w -> sends_configured w w' ->
  event_rel ev w w'.
Proof. intros Hc [(? & ? & ? & ?) ?]. unfold event_rel. rewrite Hc. by split_and!. Qed.

(** The first block of a request. *)
Lemma arrive_sat req w :
  excuse \/ fuel_covers fuel req ->
  event_rel (Arrive req) w (serve_c fuel req w).2 /\
  forall w', task_sat sends_configured (answered excuse) (serve_c fuel req w).1 w'.
Proof.
  intros Hf.
  destruct (dispatch_update_or_other (in_method req) (in_path req)) as [[params Hd]|Hd].
  - rewrite (serve_c_atomic fuel req _ _ w Hd) by auto. unfold atomically.
    destruct (serve_update_world fuel req params w Hd) as [reply E]. rewrite E.
    split; [|intros w'; left; by eexists]. split_and!; [done..|]. by cbn; rewrite drop_all.
  - destruct (starts_serve_c sends_configured excuse (@sends_configured_posted _)
                sends_configured_log fuel req w Hd Hf) as [HG Ht].
    split; [|intros w'; by eapply task_sat_any_world].
    apply event_rel_sends; [|done]. by apply config_after_other.
Qed.

(** A block of a task that is resumed. *)
Lemma resume_sat wake resume w :
  (forall w', task_sat sends_configured (answered excuse) (Waiting wake resume) w') ->
  sends_configured w (resume (wake_up wake w)).2 /\
  forall w', task_sat sends_configured (answered excuse) (resume (wake_up wake w)).1 w'.
Proof.
  intros Ht. destruct (Ht w (wake_up wake w)) as [HG Ht']; [cbn; lia|].
  split; [|intros w'; by eapply task_sat_any_world].
  etrans; [|exact HG]. apply sends_configured_clock. lia.
Qed.

Lemma step_sat ev pool w :
  excuse \/ match ev with Arrive req => fuel_covers fuel req | _ => True end ->
  pool_sat excuse pool ->
  event_rel ev w (step fuel ev pool w).2 /\ pool_sat excuse (step fuel ev pool w).1.
Proof.
  intros Hf Hp. destruct ev as [req|i|d]; cbn [step].
  - destruct (arrive_sat req w Hf) as [He Ht]. destruct (serve_c fuel req w) as [t w'].
    split; [done|]. apply Forall_app. split; [done|]. by apply Forall_singleton.
  - destruct (pool !! i) as [[r|wake resume]|] eqn:E;
      [by split; [apply event_rel_sends|]| |by split; [apply event_rel_sends|]].
    destruct (resume_sat wake resume w) as [HG Ht];
      [exact (Forall_lookup_1 _ pool i _ Hp E)|].
    destruct (resume (wake_up wake w)) as [t w'].
    split; [by apply event_rel_sends|]. by apply Forall_insert.
  - split; [|done]. apply event_rel_sends; [done|]. apply sends_configured_clock. lia.
Qed.

Lemma run_events_sat evs pool w :
  excuse \/ schedule_covered fuel evs -> pool_sat excuse pool ->
  run_rel evs w (run_events fuel evs pool w).2 /\
  pool_sat excuse (run_events fuel evs pool w).1.
Proof.
  revert pool w. induction evs as [|ev evs IH]; intros pool w Hf Hp; [done|].
  cbn [run_events run_rel].
  destruct (step_sat ev pool w) as [He Hp'];
    [destruct Hf as [?|Hf]; [by left|right; by inversion Hf]|done|].
  destruct (step fuel ev pool w) as [pool' w']. cbn [fst snd] in *.
  destruct (IH pool' w') as [Hr Hp'']; [destruct Hf as [?|Hf]; [by left|right; by inversion Hf]|done|].
  split; [by exists w'|done].
Qed.

End Events.

(** From the empty pool every schedule is covered by the guarantee. *)
Lemma run_events_rel {P : Platform} {U : Upstream} {A : Auth} fuel (evs : list Event) w :
  run_rel evs w (run_events fuel evs [] w).2.
Proof.
  by destruct (run_events_sat fuel True evs [] w) as [Hr _]; [left|apply Forall_nil|].
Qed.

(** ** The sequential model is one of the schedules *)

Section Serial.
Context {P : Platform} {U : Upstream} {A : Auth}.
Implicit Types (w : World) (evs : list Event) (pool : Pool) (fuel : nat).

Lemma run_events_app fuel evs1 evs2 pool w :
  run_events fuel (evs1 ++ evs2) pool w =
    let '(pool1, w1) := run_events fuel evs1 pool w in run_events fuel evs2 pool1 w1.
Proof.
  revert pool w. induction evs1 as [|ev evs1 IH]; intros pool w; [done|].
  cbn [app run_events]. destruct (step fuel ev pool w) as [pool' w']. apply IH.
Qed.

(** Resumed as often as it is suspended, and nothing else happening, a task
    ends as it does when it runs alone. *)
Lemma resume_until_done fuel (t : Task Reply) pool i w :
  pool !! i = Some t ->
  run_events fuel (replicate (suspensions t w) (Resume i)) pool w =
    (<[i := Done (run_task t w).1]> pool, (run_task t w).2).
Proof.
  revert pool w. induction t as [r|wake resume IH] using task_ind; intros pool w Hi.
  { cbn [suspensions replicate run_events run_task fst snd]. by rewrite list_insert_id. }
  cbn [suspensions run_task replicate run_events step]. rewrite Hi.
  specialize (IH (wake_up wake w)). destruct (resume (wake_up wake w)) as [t1 w2].
  rewrite IH by (apply list_lookup_insert_eq; by eapply lookup_lt_Some).
  by rewrite list_insert_insert_eq.
Qed.

(** One request, from its arrival to its reply. *)
Lemma run_events_serve fuel req pool w :
  run_events fuel
    (Arrive req :: replicate (suspensions (serve_c fuel req w).1 (serve_c fuel req w).2)
                     (Resume (length pool))) pool w =
    (pool ++ [Done (serve fuel req w).1], (serve fuel req w).2).
Proof.
  rewrite <- (run_solo_serve_c fuel req w). unfold run_solo. cbn [run_events step].
  destruct (serve_c fuel req w) as [t w1]. cbn [fst snd].
  rewrite (resume_until_done _ t) by apply list_lookup_middle, eq_refl.
  destruct (run_task t w1) as [r w2]. cbn [fst snd].
  by rewrite insert_app_r_alt, Nat.sub_diag by done.
Qed.

Lemma serial_run fuel (reqs : list Inbound) pool w replies w' :
  serve_all fuel reqs w = (Ok replies, w') ->
  run_events fuel (serial fuel reqs (length pool) w) pool w =
    (pool ++ ((fun reply => Done (Ok reply)) <$> replies), w').
Proof.
  revert pool w replies. induction reqs as [|req reqs IH]; intros pool w replies.
  { intros [= <- <-]. by rewrite app_nil_r. }
  cbn [serve_all serial]. rewrite run_bind.
  pose proof (run_events_serve fuel req pool w) as Hs.
  pose proof (run_solo_serve_c fuel req w) as Hr. unfold run_solo in Hr.
  destruct (serve_c fuel req w) as [t w1]. cbn [fst snd] in *. rewrite Hr.
  destruct (serve fuel req w) as [[reply|e|] w2]; [|done..]. rewrite run_bind.
  destruct (serve_all fuel reqs w2) as [[replies'|e|] w3] eqn:Ea; [|done..].
  intros [= <- <-]. rewrite app_comm_cons, run_events_app, Hs. cbn [fst snd].
  specialize (IH (pool ++ [Done (Ok reply)]) w2 replies' Ea).
  rewrite length_app, Nat.add_1_r in IH. rewrite IH. by rewrite <- (assoc_L app).
Qed.

End Serial.

(** ** A reply that is settled stays settled *)

Section Settled.
Context {P : Platform} {U : Upstream} {A : Auth}.
Implicit Types (w : World) (evs : list Event) (pool : Pool) (fuel : nat).

Lemma step_settled fuel ev pool w i t r :
  pool !! i = Some t -> settled t r ->
  exists t', (step fuel ev pool w).1 !! i = Some t' /\ settled t' r.
Proof.
  intros Hi Ht. destruct ev as [req|j|d]; cbn [step]; [|.. |by eauto].
  { destruct (serve_c fuel req w) as [t1 w1]. exists t. split; [|done].
    by apply lookup_app_l_Some. }
  destruct (pool !! j) as [[r'|wake resume]|] eqn:Hj; [by eauto| |by eauto].
  destruct (resume (wake_up wake w)) as [t1 w1] eqn:E. cbn [fst].
  destruct (decide (i = j)) as [->|Hij].
  - rewrite Hj in Hi. injection Hi as <-. cbn in Ht. destruct Ht as [l Ht].
    rewrite Ht in E. injection E as <- <-.
    exists (Done r). split; [|done]. apply list_lookup_insert_eq. by eapply lookup_lt_Some.
  - exists t. by rewrite list_lookup_insert_ne.
Qed.

Lemma run_events_settled fuel evs pool w i t r :
  pool !! i = Some t -> settled t r ->
  exists t', (run_events fuel evs pool w).1 !! i = Some t' /\ settled t' r.
Proof.
  revert pool w t. induction evs as [|ev evs IH]; intros pool w t Hi Ht; [by eauto|].
  cbn [run_events]. destruct (step_settled fuel ev pool w i t r Hi Ht) as (t1 & Hi1 & Ht1).
  destruct (step fuel ev pool w) as [pool1 w1]. by eapply IH.
Qed.

End Settled.

(** ** The first block of a turn of the polling loop *)

Section PollBlock.
Context {P : Platform} {U : Upstream}.

Lemma fetch_json_c_suspended what req w :
  exists resume,
    fetch_json_c what req w =
      (Waiting (now w + Z.of_N (latency (upstream_reply (length (sent w)) req))) resume,
       posted req w).
Proof. apply try_suspended, bind_suspended, await_request_suspended. Qed.

(** A turn of the loop before the deadline, in a world with an API key: the
    poll goes out, made from the configuration of that world, and the task
    waits for the answer. *)
Lemma poll_block_keyed fuel video_id user start_time timeout poll_interval w :
  now w - start_time < timeout * TICKS_PER_SECOND ->
  api_key_ok (app_config w) = true ->
  let req := status_request (app_config w) (py_str video_id) in
  exists resume,
    poll_loop_c (S fuel) video_id user start_time timeout poll_interval w =
      (Waiting (now w + Z.of_N (latency (upstream_reply (length (sent w)) req))) resume,
       posted req w).
Proof.
  intros Ht K req. cbn [poll_loop_c]. rewrite run_bind_atomically. cbn [time_time].
  apply Z.ltb_lt in Ht. rewrite Ht. apply bind_suspended.
  unfold get_video_c. rewrite run_bind_atomically. unfold keyed. rewrite run_bind.
  cbn [read_config]. unfold api_key_ok in K. rewrite K. apply fetch_json_c_suspended.
Qed.

(** In a world without an API key the turn ends the call: the exception of
    [get_video] leaves the loop, and nothing is sent. *)
Lemma poll_block_keyless fuel video_id user start_time timeout poll_interval w :
  now w - start_time < timeout * TICKS_PER_SECOND ->
  api_key_ok (app_config w) = false ->
  poll_loop_c (S fuel) video_id user start_time timeout poll_interval w =
    (Done (Raise (HTTPException 400 key_error)), w).
Proof.
  intros Ht K. cbn [poll_loop_c]. rewrite run_bind_atomically. cbn [time_time].
  apply Z.ltb_lt in Ht. rewrite Ht. unfold get_video_c, mbind at 1, Coro_bind, c_bind.
  rewrite run_bind_atomically. unfold keyed. rewrite run_bind.
  cbn [read_config]. unfold api_key_ok in K. by rewrite K.
Qed.

End PollBlock.

(** * The properties of the interleaved runs *)

Section InterleaveClaims.
Context {P : Platform} {U : Upstream} {A : Auth}.
Implicit Types (w : World) (evs : list Event) (fuel : nat).

(** C9: whatever the schedule, every request that goes to the provider was
    made from a configuration that was in force at some moment of the run:
    it carries the API key of that configuration, which is not empty, and
    its URL lies under the base URL of the same configuration.  No request
    mixes the key of one configuration with the base URL of another. *)
Theorem run_events_sends_configured fuel evs w :
  Forall (fun req => exists config,
            config ∈ configs_along evs (app_config w) /\ configured config req)
    (drop (length (sent w)) (sent (run_events fuel evs [] w).2)).
Proof.
  apply Forall_forall. intros req. apply (run_rel_sends evs), run_events_rel.
Qed.

(** C20: whatever the schedule, the configuration at its end is that of the
    admin's valid updates, applied in the order in which they arrived: the
    requests in flight and the moments at which they are resumed do not
    matter, and no block of another handler writes the configuration. *)
Theorem run_events_config fuel evs w :
  app_config (run_events fuel evs [] w).2 =
    foldl (fun config ev => config_step ev config) (app_config w) evs.
Proof.
  apply run_rel_config, run_events_rel.
Qed.

(** C40: the configuration passes the response model of GET /config after
    any schedule, if it did before. *)
Theorem run_events_config_typed fuel evs w :
  config_typed (app_config w) -> config_typed (app_config (run_events fuel evs [] w).2).
Proof.
  intros Hc. rewrite (run_rel_config _ _ _ (run_events_rel fuel evs w)).
  by apply foldl_config_typed.
Qed.

(** Whatever the schedule, the clock is never turned back and nothing is
    taken off the record of requests or off the log. *)
Theorem run_events_monotone fuel evs w :
  now w <= now (run_events fuel evs [] w).2 /\
  sent w `prefix_of` sent (run_events fuel evs [] w).2 /\
  logged w `prefix_of` logged (run_events fuel evs [] w).2.
Proof.
  apply (run_rel_monotone evs), run_events_rel.
Qed.

(** C10: whatever the schedule, a task that is done has a reply: no exception
    escapes the router and, when the fuel covers the blocking calls that
    arrive ([Sync.sync_fuel] of their timeout and interval), no task ends
    for lack of fuel, however late it is resumed. *)
Theorem run_events_answers fuel evs w :
  schedule_covered fuel evs ->
  Forall (fun t => forall r, t = Done r -> exists reply, r = Ok reply)
    (run_events fuel evs [] w).1.
Proof.
  intros Hf. destruct (run_events_sat fuel False evs [] w) as [_ Hp];
    [by right|by apply Forall_nil|].
  eapply Forall_impl; [exact Hp|]. intros t Ht r ->. by destruct (Ht w) as [?|[_ []]].
Qed.

(** A task that is suspended ends when it is resumed as often as it is
    suspended, and it ends as it does when it runs alone. *)
Theorem resumed_task_ends fuel (t : Task Reply) (pool : Pool) i w :
  pool !! i = Some t ->
  (run_events fuel (replicate (suspensions t w) (Resume i)) pool w).1 !! i =
    Some (Done (run_task t w).1).
Proof.
  intros Hi. rewrite resume_until_done by done.
  apply list_lookup_insert_eq. by eapply lookup_lt_Some.
Qed.

(** C22: the arrival decides the reply of a request that is no blocking
    call.  In any schedule, whatever comes before the arrival and after it,
    the task of the request ends with the reply that the sequential model
    gives in the world of the arrival; until it is resumed it waits for
    that reply and nothing that happens in between (an update of the
    configuration, other requests, time) changes it. *)
Theorem arrival_decides fuel evs1 evs2 (req : Inbound) w :
  (forall params, dispatch (in_method req) (in_path req) <> Full RGenerationsSync params) ->
  let before := run_events fuel evs1 [] w in
  exists t,
    (run_events fuel (evs1 ++ Arrive req :: evs2) [] w).1 !! length before.1 = Some t /\
    settled t (serve fuel req before.2).1.
Proof.
  intros Hd before. rewrite run_events_app. subst before.
  destruct (run_events fuel evs1 [] w) as [pool1 w1]. cbn [run_events step fst snd].
  destruct (settled_serve_c fuel req w1 Hd) as [Hs _].
  destruct (serve_c fuel req w1) as [t w2]. cbn [fst] in Hs.
  apply (run_events_settled fuel evs2 _ w2 _ t); [|done]. by apply list_lookup_middle.
Qed.

(** C21: a turn of the polling loop reads the configuration of the world in
    which it runs, not that of the submission: before the deadline and with
    an API key, its first block sends the status request made from that
    configuration and waits for the answer. *)
Theorem poll_follows_config fuel video_id user start_time timeout poll_interval w :
  now w - start_time < timeout * TICKS_PER_SECOND ->
  api_key_ok (app_config w) = true ->
  exists wake resume,
    poll_loop_c (S fuel) video_id user start_time timeout poll_interval w =
      (Waiting wake resume, posted (status_request (app_config w) (py_str video_id)) w).
Proof.
  intros Ht K.
  destruct (poll_block_keyed fuel video_id user start_time timeout poll_interval w Ht K)
    as [resume E]. by eexists _, _.
Qed.

(** A blocking call whose API key is removed while it polls ends at its
    next turn with the exception for status 400, and sends nothing. *)
Theorem poll_key_removed fuel video_id user start_time timeout poll_interval w :
  now w - start_time < timeout * TICKS_PER_SECOND ->
  api_key_ok (app_config w) = false ->
  poll_loop_c (S fuel) video_id user start_time timeout poll_interval w =
    (Done (Raise (HTTPException 400 key_error)), w).
Proof. apply poll_block_keyless. Qed.

End InterleaveClaims.

(** * The properties at concrete runs *)

(** An update by the admin that removes the API key, one that moves to
    another provider, and the request that carries an update. *)
Definition revoked : VideosConfig :=
  {| ENABLE_VIDEO_GENERATION := true; VIDEO_GENERATION_ENGINE := "openai";
     VIDEO_GENERATION_MODEL := "sora-2"; VIDEO_DURATION := Some "4";
     VIDEO_SIZE := Some "1920x1080"; VIDEO_QUALITY := Some "standard";
     VIDEOS_OPENAI_API_BASE_URL := "https://api.openai.com/v1";
     VIDEOS_OPENAI_API_KEY := "" |}.

Definition moved : VideosConfig :=
  {| ENABLE_VIDEO_GENERATION := true; VIDEO_GENERATION_ENGINE := "openai";
     VIDEO_GENERATION_MODEL := "sora-2"; VIDEO_DURATION := Some "4";
     VIDEO_SIZE := Some "1920x1080"; VIDEO_QUALITY := Some "standard";
     VIDEOS_OPENAI_API_BASE_URL := "https://eu.example.org/v1";
     VIDEOS_OPENAI_API_KEY := "sk-eu" |}.

Definition post_config (form_data : VideosConfig) (c : Credentials (Auth:=by_role))
  : Inbound (H:=by_role) :=
  {| in_method := POST; in_path := ["config"; "update"]; in_credentials := c;
     in_query := ∅; in_body := JDict (form_dict form_data) |}.

(** A blocking call arrives, submits, polls once and sleeps; the admin's
    update arrives; the call is resumed. *)
Definition update_while_polling (form_data : VideosConfig) : list (Event (A:=by_role)) :=
  [Arrive (post_sync (Some alice)); Resume 0; Resume 0;
   Arrive (post_config form_data (Some root)); Resume 0].

Lemma schedule_covered_update_while_polling form_data :
  schedule_covered 62 (update_while_polling form_data).
Proof.
  repeat apply Forall_cons_2; try apply Forall_nil; try exact I;
    intros timeout poll_interval [= <-] [= <-]; (split; [done|vm_compute; lia]).
Qed.

Lemma run_events_config_typed_witness :
  config_typed
    (app_config (run_events (P:=forwarding) (U:=stalling) (A:=by_role) 62
                   (update_while_polling moved) [] ready).2).
Proof.
  apply (run_events_config_typed (P:=forwarding) (U:=stalling) (A:=by_role) 62
           (update_while_polling moved) ready).
  vm_compute. by eexists.
Defined.

Lemma run_events_answers_witness :
  Forall (fun t => forall r, t = Done r -> exists reply, r = Ok reply)
    (run_events (P:=forwarding) (U:=stalling) (A:=by_role) 62
       (update_while_polling revoked) [] ready).1.
Proof.
  apply (run_events_answers (P:=forwarding) (U:=stalling) (A:=by_role) 62
           (update_while_polling revoked) ready).
  apply schedule_covered_update_while_polling.
Defined.

Lemma resumed_task_ends_witness :
  let start := serve_c (P:=forwarding) (U:=prompt_service) (A:=by_role) 62
                 (post_sync (Some alice)) ready in
  (run_events (P:=forwarding) (U:=prompt_service) (A:=by_role) 62
     (replicate (suspensions start.1 start.2) (Resume 0)) [start.1] start.2).1 !! 0%nat =
    Some (Done (run_task start.1 start.2).1).
Proof.
  intros start.
  apply (resumed_task_ends (P:=forwarding) (U:=prompt_service) (A:=by_role) 62
           start.1 [start.1] 0 start.2).
  reflexivity.
Defined.

Lemma arrival_decides_witness :
  let evs1 := [Arrive (A:=by_role) (post_sync (Some alice))] in
  let evs2 := [Arrive (post_config revoked (Some root)); Resume 1] in
  let before := run_events (P:=forwarding) (U:=stalling) 62 evs1 [] ready in
  exists t,
    (run_events (P:=forwarding) (U:=stalling) 62
       (evs1 ++ Arrive (get_status (Some alice)) :: evs2) [] ready).1 !! length before.1 =
      Some t /\
    settled t (serve (P:=forwarding) (U:=stalling) 62 (get_status (Some alice)) before.2).1.
Proof.
  intros evs1 evs2.
  apply (arrival_decides (P:=forwarding) (U:=stalling) (A:=by_role) 62 evs1 evs2
           (get_status (Some alice)) ready).
  intros params. by vm_compute.
Defined.

Lemma poll_follows_config_witness :
  exists wake resume,
    poll_loop_c (P:=forwarding) (U:=stalling) 62 (JStr "v1") alice 0 300 5 ready =
      (Waiting wake resume,
       posted (status_request (P:=forwarding) (app_config ready) "v1") ready).
Proof.
  apply (poll_follows_config (P:=forwarding) (U:=stalling) 61 (JStr "v1") alice 0 300 5
           ready); reflexivity.
Defined.

Lemma poll_key_removed_witness :
  poll_loop_c (P:=forwarding) (U:=stalling) 62 (JStr "v1") alice 0 300 5 (fresh ∅) =
    (Done (Raise (HTTPException 400 key_error)), fresh ∅).
Proof.
  apply (poll_key_removed (P:=forwarding) (U:=stalling) 61 (JStr "v1") alice 0 300 5
           (fresh ∅)); reflexivity.
Defined.

(** The admin changes the configuration while a blocking call sleeps
    between two polls.  When the key is removed, the call ends with status
    400 at its next turn, after one submission and one poll, and the update
    is answered with 200.  When the admin moves to another provider, the
    next poll of the job goes to the new base URL with the new key. *)
Example update_while_polling_scenario :
  let run form_data :=
    run_events (P:=forwarding) (U:=stalling) (A:=by_role) 62
      (update_while_polling form_data) [] ready in
  (fmap status_of ∘ reply_of <$> (run revoked).1 = [Some 400; Some 200]
   /\ req_method <$> sent (run revoked).2 = [POST; GET])
  /\ (fmap status_of ∘ reply_of <$> (run moved).1 = [None; Some 200]
      /\ req_url <$> sent (run moved).2 =
           ["https://api.openai.com/v1/videos"; "https://api.openai.com/v1/videos/v1";
            "https://eu.example.org/v1/videos/v1"]
      /\ (fun req => req_headers req !! "Authorization") <$> sent (run moved).2 =
           [Some "Bearer sk-test"; Some "Bearer sk-test"; Some "Bearer sk-eu"]).
Proof. by vm_compute. Qed.
