(* ===== verification/Startup.v ===== *)
(** * Startup: what the import of the module does

    Before any route exists, the import of [videos.py] runs the statements
    at the top of the file.  Two of them have an effect outside the module:
    the level of the logger is set (modelled in [Effects], [log_level]), and
    the directory [VIDEO_CACHE_DIR], [CACHE_DIR / "video" / "generations"],
    is created with [mkdir(parents=True, exist_ok=True)].  This file models
    the second: a file system as a finite map from paths to what is there,
    the system call [os.mkdir] with the three errors it can answer here, and
    [Path.mkdir] of [pathlib] over it, with its recursion into the parents.

    A path is the list of its components from the last to the first, so
    that [p / name] is [name :: p] and the parent of a path is its tail; the
    root is the empty list and is always a directory.

    The theorems: when no file is in the way the import creates exactly the
    directories that are missing on the way to [VIDEO_CACHE_DIR] and raises
    nothing ([mkdir_parents_creates]); importing twice is importing once
    ([import_videos_idempotent]); when a file is in the way the import
    raises, so that the router is never registered ([mkdir_parents_obstructed]);
    raising or not, it removes and changes nothing that was there
    ([mkdir_parents_keeps]). *)

From S2P Require Import Prelude Effects Fixtures.

(** ** The file system *)

Inductive Node := Dir | File.

#[export] Instance Node_eq_dec : EqDecision Node.
Proof. solve_decision. Defined.

(** The errors of [os.mkdir] and [os.stat] that depend on what is in the
    file system. *)
Inductive OSError := FileExistsError | FileNotFoundError | NotADirectoryError.

#[export] Instance OSError_eq_dec : EqDecision OSError.
Proof. solve_decision. Defined.

(** A path, by its components from the last to the first. *)
Abbreviation Path := (list string).

(** What there is at each path below the root. *)
Abbreviation FS := (gmap Path Node).

(** [path / name] *)
Definition joinpath (path : Path) (name : string) : Path := name :: path.

(** The system resolves [path] as a directory: every component on the way
    is there and is a directory. *)
Fixpoint resolve_dir (path : Path) (fs : FS) : OSError + unit :=
  match path with
  | [] => inr tt
  | _ :: parent =>
      match resolve_dir parent fs with
      | inl e => inl e
      | inr _ =>
          match fs !! path with
          | Some Dir => inr tt
          | Some File => inl NotADirectoryError
          | None => inl FileNotFoundError
          end
      end
  end.

(** [Path.is_dir()]: [stat] succeeds and finds a directory. *)
Definition is_dir (path : Path) (fs : FS) : bool :=
  match resolve_dir path fs with
  | inr _ => true
  | inl _ => false
  end.

(** [os.mkdir(path)]: the parent must resolve as a directory and nothing
    may be at [path]. *)
Definition os_mkdir (path : Path) (fs : FS) : (OSError + unit) * FS :=
  match path with
  | [] => (inl FileExistsError, fs)
  | _ :: parent =>
      match resolve_dir parent fs with
      | inl e => (inl e, fs)
      | inr _ =>
          match fs !! path with
          | Some _ => (inl FileExistsError, fs)
          | None => (inr tt, <[path := Dir]> fs)
          end
      end
  end.

(** What [Path.mkdir] does with an error of [os.mkdir] other than
    [FileNotFoundError]: it is raised again unless [exist_ok] is set and
    the path is a directory. *)
Definition unless_exists (exist_ok : bool) (path : Path) (e : OSError) (fs : FS)
  : (OSError + unit) * FS :=
  if exist_ok && is_dir path fs then (inr tt, fs) else (inl e, fs).

(** [Path.mkdir(parents=False, exist_ok=exist_ok)] *)
Definition mkdir_flat (exist_ok : bool) (path : Path) (fs : FS) : (OSError + unit) * FS :=
  match os_mkdir path fs with
  | (inr _, fs') => (inr tt, fs')
  | (inl FileNotFoundError, fs') => (inl FileNotFoundError, fs')
  | (inl e, fs') => unless_exists exist_ok path e fs'
  end.

(** [Path.mkdir(parents=True, exist_ok=exist_ok)]: when the parent is
    missing it is made first, with its own parents, and the directory is
    then made with [parents=False]. *)
Fixpoint mkdir_parents (exist_ok : bool) (path : Path) (fs : FS) : (OSError + unit) * FS :=
  match os_mkdir path fs with
  | (inr _, fs') => (inr tt, fs')
  | (inl FileNotFoundError, fs') =>
      match path with
      | [] => (inl FileNotFoundError, fs')
      | _ :: parent =>
          match mkdir_parents true parent fs' with
          | (inr _, fs1) => mkdir_flat exist_ok path fs1
          | (inl e, fs1) => (inl e, fs1)
          end
      end
  | (inl e, fs') => unless_exists exist_ok path e fs'
  end.

(** ** The import *)

Section ImportVideos.
Context {P : Platform}.

(** [VIDEO_CACHE_DIR = CACHE_DIR / "video" / "generations"] *)
Definition VIDEO_CACHE_DIR : Path := joinpath (joinpath CACHE_DIR "video") "generations".

(** [VIDEO_CACHE_DIR.mkdir(parents=True, exist_ok=True)] *)
Definition import_videos (fs : FS) : (OSError + unit) * FS :=
  mkdir_parents true VIDEO_CACHE_DIR fs.

End ImportVideos.

(** ** Specification *)

(** The directories on the way to [path], [path] included, the root left
    out. *)
Fixpoint ancestors (path : Path) : list Path :=
  match path with
  | [] => []
  | _ :: parent => path :: ancestors parent
  end.

(** The file system with every directory on the way to [path]. *)
Definition with_dirs (path : Path) (fs : FS) : FS :=
  foldr (fun p fs' => <[p := Dir]> fs') fs (ancestors path).

(** A file is in the way to [path]. *)
Definition obstructed (path : Path) (fs : FS) : Prop :=
  Exists (fun p => fs !! p = Some File) (ancestors path).

(** * Properties *)

Section Resolve.
Implicit Types (path p : Path) (fs : FS).

Lemma ancestors_longer path p : p ∈ ancestors path -> (0 < length p <= length path)%nat.
Proof.
  induction path as [|name parent IH]; cbn [ancestors]; [by intros ?%elem_of_nil|].
  intros [->|Hp%IH]%elem_of_cons; cbn; lia.
Qed.

Lemma not_ancestor_of_parent name parent : name :: parent ∉ ancestors parent.
Proof. intros Hp%ancestors_longer. cbn in Hp. lia. Qed.

(** A path resolves as a directory exactly when every step on the way is
    one. *)
Lemma resolve_dir_ok path fs :
  resolve_dir path fs = inr tt <-> Forall (fun p => fs !! p = Some Dir) (ancestors path).
Proof.
  induction path as [|name parent IH]; cbn [resolve_dir ancestors]; [by split|].
  rewrite Forall_cons, <- IH. destruct (resolve_dir parent fs) as [e|[]].
  - split; [done|by intros [_ ?]].
  - destruct (fs !! (name :: parent)) as [[]|]; split; try done; by intros [? _].
Qed.

(** With no file in the way, a path that does not resolve lacks a
    directory. *)
Lemma resolve_dir_missing path fs e :
  ~ obstructed path fs -> resolve_dir path fs = inl e -> e = FileNotFoundError.
Proof.
  unfold obstructed.
  induction path as [|name parent IH]; cbn [resolve_dir ancestors]; [done|].
  rewrite Exists_cons. intros Hn.
  destruct (resolve_dir parent fs) as [e'|[]]; [intros [= <-]; apply IH; tauto|].
  destruct (fs !! (name :: parent)) as [[]|]; [done|tauto|by intros [= <-]].
Qed.

(** What is at a path that is not on the way does not matter. *)
Lemma resolve_dir_insert path p n fs :
  p ∉ ancestors path -> resolve_dir path (<[p := n]> fs) = resolve_dir path fs.
Proof.
  induction path as [|name parent IH]; cbn [resolve_dir ancestors]; [done|].
  intros [Hne Hp]%not_elem_of_cons. by rewrite IH, lookup_insert_ne.
Qed.

Lemma with_dirs_cons name parent fs :
  with_dirs (name :: parent) fs = <[name :: parent := Dir]> (with_dirs parent fs).
Proof. done. Qed.

Lemma lookup_with_dirs path p fs :
  with_dirs path fs !! p = if decide (p ∈ ancestors path) then Some Dir else fs !! p.
Proof.
  induction path as [|name parent IH]; cbn [ancestors]; [by rewrite decide_False by apply not_elem_of_nil|].
  rewrite with_dirs_cons. destruct (decide (p = name :: parent)) as [->|Hne].
  - rewrite lookup_insert_eq, decide_True by apply list_elem_of_here. done.
  - rewrite lookup_insert_ne, IH by done.
    destruct (decide (p ∈ ancestors parent)) as [Hp|Hp].
    + by rewrite decide_True by by apply list_elem_of_further.
    + rewrite decide_False; [done|]. by intros [?|?]%elem_of_cons.
Qed.

(** A path that resolves has all its directories. *)
Lemma with_dirs_resolved path fs : resolve_dir path fs = inr tt -> with_dirs path fs = fs.
Proof.
  intros Hr%resolve_dir_ok. apply map_eq. intros p. rewrite lookup_with_dirs.
  destruct (decide _) as [Hp|]; [|done]. symmetry. by eapply Forall_forall in Hr.
Qed.

Lemma resolve_with_dirs path fs : resolve_dir path (with_dirs path fs) = inr tt.
Proof.
  apply resolve_dir_ok, Forall_forall. intros p Hp.
  by rewrite lookup_with_dirs, decide_True.
Qed.

Lemma is_dir_resolved path fs : resolve_dir path fs = inr tt -> is_dir path fs = true.
Proof. unfold is_dir. by intros ->. Qed.

Lemma is_dir_file name parent fs :
  fs !! (name :: parent) = Some File -> is_dir (name :: parent) fs = false.
Proof.
  intros Hf. unfold is_dir. cbn [resolve_dir]. rewrite Hf.
  by destruct (resolve_dir parent fs) as [|[]].
Qed.

Lemma is_dir_parent name parent fs e :
  resolve_dir parent fs = inl e -> is_dir (name :: parent) fs = false.
Proof. intros Hr. unfold is_dir. cbn [resolve_dir]. by rewrite Hr. Qed.

End Resolve.

Section Mkdir.
Implicit Types (path p : Path) (fs : FS).

(** [os.mkdir] when the parent resolves. *)
Lemma os_mkdir_resolved name parent fs :
  resolve_dir parent fs = inr tt ->
  os_mkdir (name :: parent) fs =
    match fs !! (name :: parent) with
    | Some _ => (inl FileExistsError, fs)
    | None => (inr tt, <[name :: parent := Dir]> fs)
    end.
Proof. intros Hr. cbn [os_mkdir]. by rewrite Hr. Qed.

Lemma os_mkdir_unresolved name parent fs e :
  resolve_dir parent fs = inl e -> os_mkdir (name :: parent) fs = (inl e, fs).
Proof. intros Hr. cbn [os_mkdir]. by rewrite Hr. Qed.

(** Making a directory whose parent resolves, when no file is at its
    place: it is there afterwards, made or found. *)
Lemma mkdir_last exist_ok name parent fs :
  resolve_dir parent fs = inr tt -> fs !! (name :: parent) <> Some File ->
  exist_ok = true ->
  mkdir_flat exist_ok (name :: parent) fs = (inr tt, <[name :: parent := Dir]> fs)
  /\ mkdir_parents exist_ok (name :: parent) fs = (inr tt, <[name :: parent := Dir]> fs).
Proof.
  intros Hr Hf ->. unfold mkdir_flat. cbn [mkdir_parents].
  rewrite os_mkdir_resolved by done.
  destruct (fs !! (name :: parent)) as [[]|] eqn:E; [|done..].
  unfold unless_exists. rewrite is_dir_resolved; [by rewrite insert_id|].
  cbn [resolve_dir]. by rewrite Hr, E.
Qed.

(** The same when a file is at its place. *)
Lemma mkdir_last_file exist_ok name parent fs :
  resolve_dir parent fs = inr tt -> fs !! (name :: parent) = Some File ->
  mkdir_flat exist_ok (name :: parent) fs = (inl FileExistsError, fs)
  /\ mkdir_parents exist_ok (name :: parent) fs = (inl FileExistsError, fs).
Proof.
  intros Hr Hf. unfold mkdir_flat. cbn [mkdir_parents].
  rewrite os_mkdir_resolved, Hf by done. unfold unless_exists.
  by rewrite is_dir_file, andb_false_r.
Qed.

(** The recursion into a parent that is missing. *)
Lemma mkdir_parents_missing exist_ok name parent fs :
  resolve_dir parent fs = inl FileNotFoundError ->
  mkdir_parents exist_ok (name :: parent) fs =
    match mkdir_parents true parent fs with
    | (inr _, fs1) => mkdir_flat exist_ok (name :: parent) fs1
    | (inl e, fs1) => (inl e, fs1)
    end.
Proof. intros Hr. cbn [mkdir_parents]. by rewrite (os_mkdir_unresolved _ _ _ _ Hr). Qed.

Lemma mkdir_parents_blocked exist_ok name parent fs :
  resolve_dir parent fs = inl NotADirectoryError ->
  mkdir_parents exist_ok (name :: parent) fs = (inl NotADirectoryError, fs).
Proof.
  intros Hr. cbn [mkdir_parents]. rewrite (os_mkdir_unresolved _ _ _ _ Hr).
  unfold unless_exists. by rewrite (is_dir_parent _ _ _ _ Hr), andb_false_r.
Qed.

Lemma not_obstructed_cons name parent fs :
  ~ obstructed (name :: parent) fs <->
  fs !! (name :: parent) <> Some File /\ ~ obstructed parent fs.
Proof. unfold obstructed. cbn [ancestors]. rewrite Exists_cons. tauto. Qed.

(** With no file in the way, [mkdir] with [parents] and [exist_ok] makes
    the directories that are missing and raises nothing. *)
Lemma mkdir_parents_with_dirs path fs :
  ~ obstructed path fs -> mkdir_parents true path fs = (inr tt, with_dirs path fs).
Proof.
  revert fs. induction path as [|name parent IH]; intros fs; [done|].
  intros [Hf Hn]%not_obstructed_cons. rewrite with_dirs_cons.
  destruct (resolve_dir parent fs) as [e|[]] eqn:Hr.
  - apply (resolve_dir_missing _ _ _ Hn) in Hr as Hr'. subst e.
    rewrite (mkdir_parents_missing _ _ _ _ Hr), (IH _ Hn).
    apply mkdir_last; [apply resolve_with_dirs| |done].
    by rewrite lookup_with_dirs, decide_False by apply not_ancestor_of_parent.
  - rewrite (with_dirs_resolved _ _ Hr). by apply mkdir_last.
Qed.

(** With a file in the way it raises, for the file. *)
Lemma mkdir_parents_raises path fs :
  obstructed path fs ->
  (mkdir_parents true path fs).1 = inl NotADirectoryError
  \/ (mkdir_parents true path fs).1 = inl FileExistsError.
Proof.
  revert fs. induction path as [|name parent IH]; intros fs; [by intros ?%Exists_nil|].
  intros Ho. destruct (decide (obstructed parent fs)) as [Hp|Hn].
  - destruct (resolve_dir parent fs) as [[]|[]] eqn:Hr.
    + cbn [mkdir_parents]. rewrite (os_mkdir_unresolved _ _ _ _ Hr).
      unfold unless_exists. rewrite (is_dir_parent _ _ _ _ Hr), andb_false_r. by right.
    + rewrite (mkdir_parents_missing _ _ _ _ Hr).
      destruct (IH fs Hp) as [He|He];
        destruct (mkdir_parents true parent fs) as [[e|[]] fs1]; cbn in He; simplify_eq; auto.
    + rewrite (mkdir_parents_blocked _ _ _ _ Hr). by left.
    + apply resolve_dir_ok in Hr. exfalso.
      apply Exists_exists in Hp as (p & Hin & Hf).
      eapply Forall_forall in Hr; [|done]. congruence.
  - unfold obstructed in Ho. cbn [ancestors] in Ho. apply Exists_cons in Ho as [Hf|?]; [|done].
    right. destruct (resolve_dir parent fs) as [e|[]] eqn:Hr.
    + apply (resolve_dir_missing _ _ _ Hn) in Hr as Hr'. subst e.
      rewrite (mkdir_parents_missing _ _ _ _ Hr), (mkdir_parents_with_dirs _ _ Hn).
      refine (f_equal fst (proj1 (mkdir_last_file true name parent _ _ _)));
        [apply resolve_with_dirs|].
      by rewrite lookup_with_dirs, decide_False by apply not_ancestor_of_parent.
    + by rewrite (proj2 (mkdir_last_file true name parent fs Hr Hf)).
Qed.

End Mkdir.

Section Keeps.
Implicit Types (path : Path) (fs : FS).

Lemma os_mkdir_keeps path fs : fs ⊆ (os_mkdir path fs).2.
Proof.
  destruct path as [|name parent]; [done|]. cbn [os_mkdir].
  destruct (resolve_dir parent fs) as [e|[]]; [done|].
  destruct (fs !! (name :: parent)) eqn:E; [done|]. by apply insert_subseteq.
Qed.

Lemma unless_exists_world exist_ok path e fs : (unless_exists exist_ok path e fs).2 = fs.
Proof. unfold unless_exists. by destruct (_ && _). Qed.

Lemma mkdir_flat_world exist_ok path fs :
  (mkdir_flat exist_ok path fs).2 = (os_mkdir path fs).2.
Proof.
  unfold mkdir_flat. destruct (os_mkdir path fs) as [[[]|[]] fs']; try done;
    apply unless_exists_world.
Qed.

Lemma mkdir_flat_keeps exist_ok path fs : fs ⊆ (mkdir_flat exist_ok path fs).2.
Proof. rewrite mkdir_flat_world. apply os_mkdir_keeps. Qed.

Lemma mkdir_parents_subseteq exist_ok path fs : fs ⊆ (mkdir_parents exist_ok path fs).2.
Proof.
  revert exist_ok fs. induction path as [|name parent IH]; intros exist_ok fs.
  { cbn [mkdir_parents os_mkdir]. by rewrite unless_exists_world. }
  cbn [mkdir_parents]. pose proof (os_mkdir_keeps (name :: parent) fs) as Hk.
  destruct (os_mkdir (name :: parent) fs) as [[[]|[]] fs']; cbn [snd] in *;
    try done; try by rewrite unless_exists_world.
  specialize (IH true fs').
  destruct (mkdir_parents true parent fs') as [[e|[]] fs1]; cbn [snd] in *; [by etrans|].
  etrans; [done|]. etrans; [done|]. apply mkdir_flat_keeps.
Qed.

End Keeps.

#[export] Instance obstructed_dec path fs : Decision (obstructed path fs).
Proof. unfold obstructed. apply _. Defined.

(** * The properties of the import *)

Section StartupClaims.
Context {P : Platform}.
Implicit Types (fs : FS).

(** When no file is in the way, the import of the module makes the
    directories that are missing on the way to [VIDEO_CACHE_DIR], the cache
    directory and its two levels below it, leaves everything else as it is
    and raises nothing; the directory is there afterwards. *)
Theorem import_videos_creates fs :
  ~ obstructed VIDEO_CACHE_DIR fs ->
  import_videos fs = (inr tt, with_dirs VIDEO_CACHE_DIR fs)
  /\ is_dir VIDEO_CACHE_DIR (with_dirs VIDEO_CACHE_DIR fs) = true.
Proof.
  intros Hn. split; [by apply mkdir_parents_with_dirs|].
  apply is_dir_resolved, resolve_with_dirs.
Qed.

(** Importing the module a second time (a reload, a second worker on the
    same disk) finds the directory and changes nothing. *)
Theorem import_videos_idempotent fs :
  ~ obstructed VIDEO_CACHE_DIR fs ->
  import_videos (import_videos fs).2 = (inr tt, (import_videos fs).2).
Proof.
  intros Hn. unfold import_videos. rewrite (mkdir_parents_with_dirs _ fs Hn). cbn [snd].
  pose proof (resolve_with_dirs VIDEO_CACHE_DIR fs) as Hr.
  rewrite mkdir_parents_with_dirs, (with_dirs_resolved _ _ Hr); [done|].
  apply resolve_dir_ok in Hr. intros (p & Hp & Hf)%Exists_exists.
  eapply Forall_forall in Hr; [|done]. congruence.
Qed.

(** C32: when a file is where the cache directory or one of the directories
    on the way to it should be, the import raises [NotADirectoryError] or
    [FileExistsError]: the module is not loaded and none of its routes is
    registered. *)
Theorem import_videos_obstructed fs :
  obstructed VIDEO_CACHE_DIR fs ->
  (import_videos fs).1 = inl NotADirectoryError
  \/ (import_videos fs).1 = inl FileExistsError.
Proof. apply mkdir_parents_raises. Qed.

(** Whether it raises or not, the import removes nothing and changes
    nothing that was there. *)
Theorem import_videos_keeps fs : fs ⊆ (import_videos fs).2.
Proof. apply mkdir_parents_subseteq. Qed.

End StartupClaims.

(** * The properties at concrete runs *)

(** A disk on which the data directory of the application exists and the
    cache does not. *)
Definition fresh_disk : FS :=
  {[ ["app"] := Dir; ["backend"; "app"] := Dir; ["data"; "backend"; "app"] := Dir ]}.

(** The same with a file named video in the cache directory. *)
Definition cluttered_disk : FS :=
  <[ ["video"; "cache"; "data"; "backend"; "app"] := File ]>
    (<[ ["cache"; "data"; "backend"; "app"] := Dir ]> fresh_disk).

Lemma import_videos_creates_witness :
  import_videos (P:=forwarding) fresh_disk =
    (inr tt, with_dirs (VIDEO_CACHE_DIR (P:=forwarding)) fresh_disk)
  /\ is_dir (VIDEO_CACHE_DIR (P:=forwarding))
       (with_dirs (VIDEO_CACHE_DIR (P:=forwarding)) fresh_disk) = true.
Proof.
  apply (import_videos_creates (P:=forwarding) fresh_disk).
  apply (bool_decide_unpack _). by vm_compute.
Defined.

Lemma import_videos_idempotent_witness :
  import_videos (P:=forwarding) (import_videos (P:=forwarding) fresh_disk).2 =
    (inr tt, (import_videos (P:=forwarding) fresh_disk).2).
Proof.
  apply (import_videos_idempotent (P:=forwarding) fresh_disk).
  apply (bool_decide_unpack _). by vm_compute.
Defined.

Lemma import_videos_obstructed_witness :
  (import_videos (P:=forwarding) cluttered_disk).1 = inl NotADirectoryError
  \/ (import_videos (P:=forwarding) cluttered_disk).1 = inl FileExistsError.
Proof.
  apply (import_videos_obstructed (P:=forwarding) cluttered_disk).
  apply (bool_decide_unpack _). by vm_compute.
Defined.

(** On a fresh disk the import makes three directories; with a file named
    video in the cache directory it raises. *)
Example import_videos_scenario :
  let disk := (import_videos (P:=forwarding) fresh_disk).2 in
  disk !! ["cache"; "data"; "backend"; "app"] = Some Dir
  /\ disk !! ["video"; "cache"; "data"; "backend"; "app"] = Some Dir
  /\ disk !! ["generations"; "video"; "cache"; "data"; "backend"; "app"] = Some Dir
  /\ (import_videos (P:=forwarding) cluttered_disk).1 = inl NotADirectoryError.
Proof. by vm_compute. Qed.
