(* ===== verification/Budget.v ===== *)
(** * Budget: how many requests a handler sends

    Every handler but the blocking mode calls the provider once.  The
    blocking mode submits the job and then polls it, once per turn of its
    loop, and a turn that does not end the loop sleeps [poll_interval]
    seconds: before the deadline there is room for [timeout /
    poll_interval] polls, rounded up, and no more.  This file proves that
    bound for the coroutine of [Async], whatever the worlds in which its
    blocks are resumed: a block that is resumed late finds the clock
    further on, never further back, so that lateness costs polls and never
    adds one.

    [task_within t0 n t w] says that the blocks of the task [t] still to
    come, run in any worlds in which the clock has reached its wake-up time,
    add at most [n] requests to the record between them and take nothing
    off it, and that the task ends no earlier than [t0];
    [starts_within t0 n c w] says the same of the coroutine [c] started in
    [w], its first block included.  The rules follow the combinators of
    [Async], as those of [Blocks] do.

    [request_budget] is what a request may send by its route, and
    [pool_within] the invariant of the event loop of [Interleave]: what
    has been sent, and what the tasks of the pool may still send, is
    within the budgets of the requests that have arrived.  The bounds ask
    for a positive interval ([paced]); without one the loop has no bound
    ([Sync.poll_loop_busy]). *)

From S2P Require Import Prelude PyStr Json Effects Base64 Fixtures Config Submission Client Poller Sync Router Async Atomic Blocks Interleave.

#[local] Open Scope videos_scope.
#[local] Open Scope Z_scope.

(** The number of requests that a block from [w] to [w'] has added to the
    record. *)
Definition added (w w' : World) : nat := (length (sent w') - length (sent w))%nat.

(** A block that takes nothing off the record and adds at most [n]
    requests. *)
Definition adds_at_most (n : nat) (w w' : World) : Prop :=
  sent w `prefix_of` sent w' /\ (added w w' <= n)%nat.

Fixpoint task_within {A} (t0 : Z) (n : nat) (t : Task A) (w : World) : Prop :=
  match t with
  | Done _ => t0 <= now w
  | Waiting wake resume =>
      forall w1, wake <= now w1 ->
        adds_at_most n w1 (resume w1).2 /\
        task_within t0 (n - added w1 (resume w1).2) (resume w1).1 (resume w1).2
  end.

Definition starts_within {A} (t0 : Z) (n : nat) (c : Coro A) (w : World) : Prop :=
  adds_at_most n w (c w).2 /\ task_within t0 (n - added w (c w).2) (c w).1 (c w).2.

(** The polls that can still start when [e] ticks of the timeout have
    passed: one per interval that has begun before the deadline. *)
Definition polls_left (timeout poll_interval e : Z) : nat :=
  Z.to_nat ((deadline timeout - e + pause poll_interval - 1) / pause poll_interval).

(** The polls of a blocking call: the timeout over the interval, rounded
    up. *)
Definition max_polls (timeout poll_interval : Z) : nat := polls_left timeout poll_interval 0.

(** ** The budget of a request and of a schedule *)

Section Budgets.
Context {P : Platform} {U : Upstream} {A : Auth}.

(** What the endpoint of a route may send: nothing on the configuration,
    one request on the pass-through routes and on the submission, the
    submission and the polls in the blocking mode (nothing when the query
    is refused). *)
Definition route_budget (r : Route) (req : Inbound) : nat :=
  match r with
  | RGetConfig | RUpdateConfig | RGetModels => 0
  | RGenerationsSync =>
      match query_int (in_query req) "timeout" 300,
            query_int (in_query req) "poll_interval" 5 with
      | Some timeout, Some poll_interval => 1 + max_polls timeout poll_interval
      | _, _ => 0
      end
  | _ => 1
  end.

Definition request_budget (req : Inbound) : nat :=
  match dispatch (in_method req) (in_path req) with
  | Full r _ => route_budget r req
  | _ => 0
  end.

(** The interval of a blocking call is positive. *)
Definition paced_route (r : Route) (req : Inbound) : bool :=
  match r, query_int (in_query req) "poll_interval" 5 with
  | RGenerationsSync, Some poll_interval => bool_decide (0 < poll_interval)
  | _, _ => true
  end.

Definition paced (req : Inbound) : bool :=
  match dispatch (in_method req) (in_path req) with
  | Full r _ => paced_route r req
  | _ => true
  end.

Definition event_budget (ev : Event) : nat :=
  match ev with
  | Arrive req => request_budget req
  | _ => 0
  end.

(** The budget of a schedule: those of the requests that arrive. *)
Definition schedule_budget (evs : list Event) : nat := sum_list_with event_budget evs.

Definition event_paced (ev : Event) : bool :=
  match ev with
  | Arrive req => paced req
  | _ => true
  end.

Definition schedule_paced (evs : list Event) : bool := forallb event_paced evs.

(** What has been sent since [w0], and what the tasks of the pool may
    still send, are within [total]. *)
Definition task_budget (n : nat) (t : Task Reply) : Prop :=
  exists t0 w, task_within t0 n t w.

Definition pool_within (total : nat) (w0 : World) (pool : Pool) (w : World) : Prop :=
  exists budgets,
    Forall2 task_budget budgets pool /\
    sent w0 `prefix_of` sent w /\
    (added w0 w + sum_list budgets <= total)%nat.

End Budgets.

(** * Properties *)

Section Counting.
Implicit Types (w : World) (n : nat).

Lemma added_refl w : added w w = 0%nat.
Proof. unfold added. lia. Qed.

Lemma adds_at_most_refl n w : adds_at_most n w w.
Proof. split; [done|]. rewrite added_refl. lia. Qed.

Lemma added_trans w1 w2 w3 :
  sent w1 `prefix_of` sent w2 -> sent w2 `prefix_of` sent w3 ->
  added w1 w3 = (added w1 w2 + added w2 w3)%nat.
Proof.
  intros [k1 E1] [k2 E2]. unfold added. rewrite E2, E1, !length_app. lia.
Qed.

(** Two blocks in a row, the second within what the first has left. *)
Lemma adds_at_most_trans n w1 w2 w3 :
  adds_at_most n w1 w2 -> adds_at_most (n - added w1 w2) w2 w3 ->
  adds_at_most n w1 w3 /\ (n - added w1 w3 = n - added w1 w2 - added w2 w3)%nat.
Proof.
  intros [Hp1 Hn1] [Hp2 Hn2]. unfold adds_at_most. rewrite (added_trans w1 w2 w3) by done.
  split; [split; [by etrans|]|]; lia.
Qed.

Lemma adds_at_most_mono n n' w w' : (n <= n')%nat -> adds_at_most n w w' -> adds_at_most n' w w'.
Proof. intros Hn [? ?]. split; [done|lia]. Qed.

(** Writing to the log adds nothing to the record. *)
Lemma adds_at_most_log n l w : adds_at_most n w (log_to l w).
Proof. apply (adds_at_most_refl n w). Qed.

End Counting.

Section WithinRules.
Context `{Upstream}.
Implicit Types (w : World) (n : nat).

Lemma task_within_mono {A} t0 t0' n n' (t : Task A) w :
  t0' <= t0 -> (n <= n')%nat -> task_within t0 n t w -> task_within t0' n' t w.
Proof.
  intros Ht. revert n n' w.
  induction t as [r|wake resume IH] using task_ind; intros n n' w Hn; cbn; [lia|].
  intros Hr w1 Hw. destruct (Hr w1 Hw) as [Ha Ht1].
  split; [by eapply adds_at_most_mono|]. eapply IH; [|done]. lia.
Qed.

Lemma starts_within_mono {A} t0 t0' n n' (c : Coro A) w :
  t0' <= t0 -> (n <= n')%nat -> starts_within t0 n c w -> starts_within t0' n' c w.
Proof.
  intros Ht Hn [Ha Hc]. split; [by eapply adds_at_most_mono|].
  eapply task_within_mono; [done| |done]. lia.
Qed.

(** A block, and then what is made of the task it leaves, in the same
    block. *)
Lemma starts_within_compose {A B} t0 n (c : Coro A) (f : Task A -> Coro B) w :
  adds_at_most n w (c w).2 ->
  starts_within t0 (n - added w (c w).2) (f (c w).1) (c w).2 ->
  starts_within t0 n (fun w => let '(t, w') := c w in f t w') w.
Proof.
  unfold starts_within. destruct (c w) as [t w']. cbn [fst snd]. intros Ha [Ha' Ht].
  destruct (adds_at_most_trans _ _ _ _ Ha Ha') as [Hs ->]. by split.
Qed.

Lemma starts_within_done {A} t0 n (r : Res A) w :
  t0 <= now w -> starts_within t0 n (fun w => (Done r, w)) w.
Proof. intros Ht. split; [apply adds_at_most_refl|done]. Qed.

(** Sequencing: the continuation has what the task has left of [n1], and
    [n2]. *)
Lemma task_within_bind {A B} t0 n1 n2 (t : Task A) (k : A -> Coro B) w :
  task_within t0 n1 t w ->
  (forall a w', t0 <= now w' -> starts_within t0 n2 (k a) w') ->
  starts_within t0 (n1 + n2) (task_bind t k) w.
Proof.
  intros Ht Hk. revert n1 w Ht.
  induction t as [[a|e|]|wake resume IH] using task_ind; intros n1 w Ht; cbn in Ht.
  - apply (starts_within_mono t0 t0 n2 (n1 + n2) (k a)); [lia|lia|by apply Hk].
  - by apply starts_within_done.
  - by apply starts_within_done.
  - split; [apply adds_at_most_refl|]. rewrite added_refl, Nat.sub_0_r.
    intros w1 Hw. destruct (Ht w1 Hw) as [Ha Ht1].
    apply (starts_within_compose t0 (n1 + n2) resume (fun t => task_bind t k)).
    + eapply adds_at_most_mono; [|done]. lia.
    + destruct Ha as [_ Ha].
      replace (n1 + n2 - added w1 (resume w1).2)%nat
        with (n1 - added w1 (resume w1).2 + n2)%nat by lia.
      by apply IH.
Qed.

Lemma starts_within_then {A B} t0 n1 n2 (c : Coro A) (k : A -> Coro B) w :
  starts_within t0 n1 c w ->
  (forall a w', t0 <= now w' -> starts_within t0 n2 (k a) w') ->
  starts_within t0 (n1 + n2) (c ≫= k) w.
Proof.
  intros [Ha Ht] Hk. apply (starts_within_compose t0 (n1 + n2) c (fun t => task_bind t k)).
  - eapply adds_at_most_mono; [|done]. lia.
  - destruct Ha as [? Ha].
    replace (n1 + n2 - added w (c w).2)%nat with (n1 - added w (c w).2 + n2)%nat by lia.
    by apply task_within_bind.
Qed.

(** A coroutine that ends in its first block and sends nothing. *)
Lemma starts_within_end {A} t0 n (c : Coro A) w r w' :
  c w = (Done r, w') -> sent w' = sent w -> t0 <= now w' -> starts_within t0 n c w.
Proof.
  intros E Hs Ht. unfold starts_within, adds_at_most, added. rewrite E. cbn [fst snd task_within].
  rewrite Hs. split_and!; [done|lia|done].
Qed.

(** Code that awaits nothing and does no more than log. *)
Lemma starts_within_atomically {A} t0 n (m : M A) w :
  quiet m -> t0 <= now w -> starts_within t0 n (atomically m) w.
Proof.
  intros Hq Ht. destruct (Hq w) as [l Hl].
  apply (starts_within_end t0 n _ w (m w).1 (log_to l w)); [|done..].
  unfold atomically. destruct (m w) as [r w']. cbn [fst snd] in *. by subst w'.
Qed.

(** Code that changes nothing, and then a coroutine with the value
    computed. *)
Lemma starts_within_from {A B} t0 n (m : M A) (k : A -> Coro B) w :
  inert m -> t0 <= now w ->
  (forall a, m w = (Ok a, w) -> starts_within t0 n (k a) w) ->
  starts_within t0 n (atomically m ≫= k) w.
Proof.
  intros Hi Ht Hk. specialize (Hi w).
  unfold starts_within, mbind, Coro_bind, c_bind, atomically in *. cbn beta.
  destruct (m w) as [[a|e|] w'] eqn:E; cbn [snd] in Hi; subst w'; cbn [task_bind];
    [by apply Hk|by apply (starts_within_done t0 n)..].
Qed.

Lemma task_within_try {A} t0 n (t : Task A) handler w :
  task_within t0 n t w -> (forall e h, handler e = Some h -> quiet h) ->
  starts_within t0 n (task_try t handler) w.
Proof.
  intros Ht Hh. revert n w Ht.
  induction t as [[a|e|]|wake resume IH] using task_ind; intros n w Ht; cbn in Ht.
  - by apply starts_within_done.
  - cbn [task_try]. destruct (handler e) as [h|] eqn:E; [|by apply starts_within_done].
    apply starts_within_atomically; [by eapply Hh|done].
  - by apply starts_within_done.
  - split; [apply adds_at_most_refl|]. rewrite added_refl, Nat.sub_0_r.
    intros w1 Hw. destruct (Ht w1 Hw) as [Ha Ht1].
    apply (starts_within_compose t0 n resume (fun t => task_try t handler)); [done|].
    by apply IH.
Qed.

Lemma starts_within_caught {A} t0 n (c : Coro A) handler w :
  starts_within t0 n c w -> (forall e h, handler e = Some h -> quiet h) ->
  starts_within t0 n (c_try c handler) w.
Proof.
  intros [Ha Ht] Hh.
  apply (starts_within_compose t0 n c (fun t => task_try t handler)); [done|].
  by apply task_within_try.
Qed.

(** The two awaits: a request is one request, a sleep is none and ends no
    earlier than it should. *)
Lemma starts_within_request n req w :
  (0 < n)%nat -> starts_within (now w) n (await_request req) w.
Proof.
  intros Hn. split.
  - split; [by apply prefix_app_r|]. unfold added. cbn. rewrite length_app. cbn. lia.
  - cbn. intros w1 Hw. split; [apply adds_at_most_refl|lia].
Qed.

Lemma starts_within_sleep n delay w :
  starts_within (now w + Z.max 0 delay * TICKS_PER_SECOND) n (await_sleep delay) w.
Proof.
  split; [apply adds_at_most_refl|]. cbn. intros w1 Hw.
  split; [apply adds_at_most_refl|done].
Qed.

(** What a task has sent when it has run alone is within its budget. *)
Lemma task_within_run_task {A} t0 n (t : Task A) w :
  task_within t0 n t w ->
  sent w `prefix_of` sent (run_task t w).2 /\ (added w (run_task t w).2 <= n)%nat.
Proof.
  revert n w. induction t as [r|wake resume IH] using task_ind; intros n w Ht; cbn.
  { split; [done|]. rewrite added_refl. lia. }
  destruct (Ht (wake_up wake w)) as [Ha Ht1]; [cbn; lia|].
  specialize (IH (wake_up wake w) _ _ Ht1).
  destruct (resume (wake_up wake w)) as [t1 w1]. cbn [fst snd] in *.
  destruct (adds_at_most_trans n (wake_up wake w) w1 (run_task t1 w1).2 Ha IH) as [[Hp Hn] _].
  done.
Qed.

Lemma starts_within_run_solo {A} t0 n (c : Coro A) w :
  starts_within t0 n c w ->
  sent w `prefix_of` sent (run_solo c w).2 /\ (added w (run_solo c w).2 <= n)%nat.
Proof.
  intros [Ha Ht]. unfold run_solo. apply task_within_run_task in Ht.
  destruct (c w) as [t w1]. cbn [fst snd] in *.
  by destruct (adds_at_most_trans n w w1 (run_task t w1).2 Ha Ht) as [[Hp Hn] _].
Qed.

End WithinRules.

(** ** The polls that a deadline leaves room for *)

Section PollsLeft.
Context (timeout poll_interval : Z).
Hypothesis interval_pos : 0 < poll_interval.

Lemma pause_pos : 0 < pause poll_interval.
Proof. unfold pause, TICKS_PER_SECOND. lia. Qed.

(** Before the deadline there is room for a poll. *)
Lemma polls_left_in_time e :
  e < deadline timeout -> (0 < polls_left timeout poll_interval e)%nat.
Proof.
  intros He. pose proof pause_pos as Hp. unfold polls_left. Z.div_mod_to_equations. nia.
Qed.

(** A pause later there is room for one poll less. *)
Lemma polls_left_later e e' :
  e + pause poll_interval <= e' ->
  (polls_left timeout poll_interval e' <= polls_left timeout poll_interval e - 1)%nat.
Proof.
  intros He. pose proof pause_pos as Hp. unfold polls_left. Z.div_mod_to_equations. nia.
Qed.

(** In seconds: the timeout over the interval, rounded up. *)
Lemma max_polls_seconds :
  max_polls timeout poll_interval = Z.to_nat ((timeout + poll_interval - 1) / poll_interval).
Proof.
  unfold max_polls, polls_left, deadline, pause, TICKS_PER_SECOND.
  rewrite Z.max_r by lia. f_equal. Z.div_mod_to_equations. nia.
Qed.

(** The polls of a call start before the deadline, and the deadline is
    reached when they are over. *)
Lemma max_polls_in_time (i : nat) :
  (i < max_polls timeout poll_interval)%nat ->
  Z.of_nat i * pause poll_interval < deadline timeout.
Proof.
  pose proof pause_pos as Hp. unfold max_polls, polls_left. Z.div_mod_to_equations. nia.
Qed.

Lemma max_polls_deadline :
  deadline timeout <= Z.of_nat (max_polls timeout poll_interval) * pause poll_interval.
Proof.
  pose proof pause_pos as Hp. unfold max_polls, polls_left. Z.div_mod_to_equations. nia.
Qed.

End PollsLeft.


(** ** The handlers *)

Section HandlerBudget.
Context {P : Platform} {U : Upstream}.
Implicit Types (w : World) (n : nat).

(** A handler, and then its value made into a reply. *)
Lemma starts_within_reply {X Y} t0 n (c : Coro X) (f : X -> M Y) w :
  starts_within t0 n c w -> (forall x, quiet (f x)) ->
  starts_within t0 n (x ← c; atomically (f x)) w.
Proof.
  intros Hc Hf. rewrite <- (Nat.add_0_r n). apply starts_within_then; [done|].
  intros x w' Hw. by apply starts_within_atomically.
Qed.

(** A [try] block around one request. *)
Lemma starts_within_attempt {X} (f : Response -> M X) handler req w :
  (forall r, quiet (f r)) -> (forall e h, handler e = Some h -> raising h) ->
  starts_within (now w) 1 (c_try (r ← await_request req; atomically (f r)) handler) w.
Proof.
  intros Hf Hh. apply starts_within_caught; [|intros e h E; by eapply raising_quiet, Hh].
  apply starts_within_reply; [apply starts_within_request; lia|done].
Qed.

Lemma starts_within_send_submission req w :
  starts_within (now w) 1 (send_submission_c req) w.
Proof. apply starts_within_attempt; [intros r; effects|apply submission_handler_raises]. Qed.

Lemma starts_within_fetch_json what req w :
  starts_within (now w) 1 (fetch_json_c what req) w.
Proof.
  apply starts_within_attempt; [intros r; effects|intros e h; apply client_handler_raises].
Qed.

Lemma starts_within_video_generations form_data user w :
  starts_within (now w) 1 (video_generations_c form_data user) w.
Proof.
  apply starts_within_from; [apply inert_submission_of|done|].
  intros req _. apply starts_within_send_submission.
Qed.

Lemma starts_within_keyed_fetch what request_of w :
  starts_within (now w) 1 (atomically (keyed request_of) ≫= fetch_json_c what) w.
Proof.
  apply starts_within_from; [apply inert_keyed|done|].
  intros req _. apply starts_within_fetch_json.
Qed.

Lemma starts_within_list_videos user limit after w :
  starts_within (now w) 1 (list_videos_c user limit after) w.
Proof. apply starts_within_keyed_fetch. Qed.

Lemma starts_within_get_video video_id user w :
  starts_within (now w) 1 (get_video_c video_id user) w.
Proof. apply starts_within_keyed_fetch. Qed.

Lemma starts_within_delete_video video_id user w :
  starts_within (now w) 1 (delete_video_c video_id user) w.
Proof. apply starts_within_keyed_fetch. Qed.

Lemma starts_within_get_video_content video_id user w :
  starts_within (now w) 1 (get_video_content_c video_id user) w.
Proof.
  apply starts_within_from; [apply inert_keyed|done|]. intros req _.
  apply starts_within_attempt; [intros r; effects|intros e h; apply client_handler_raises].
Qed.

(** The loop of the blocking mode: each turn that polls finds the clock a
    pause further on than the turn before it. *)
Lemma starts_within_poll_loop fuel video_id user start_time timeout poll_interval w t0 :
  0 < poll_interval -> t0 <= now w ->
  starts_within t0 (polls_left timeout poll_interval (now w - start_time))
    (poll_loop_c fuel video_id user start_time timeout poll_interval) w.
Proof.
  intros Hp. revert w t0. induction fuel as [|fuel IH]; intros w t0 Ht; cbn [poll_loop_c].
  { apply starts_within_atomically; [effects|done]. }
  apply starts_within_from; [effects|done|]. intros t [= <-].
  destruct (Z.ltb_spec (now w - start_time) (timeout * TICKS_PER_SECOND)) as [Hlt|Hge];
    [|apply starts_within_atomically; [effects|done]].
  pose proof (polls_left_in_time timeout poll_interval Hp _ Hlt) as Hn.
  pose proof (pause_pos poll_interval Hp) as Hpause.
  apply (starts_within_mono (now w) t0
           (1 + (polls_left timeout poll_interval (now w - start_time) - 1))); [done|lia|].
  apply starts_within_then; [apply starts_within_get_video|]. intros status w1 Hw1.
  apply starts_within_from; [effects|done|]. intros st _.
  destruct (json_eq_str st "completed");
    [apply starts_within_atomically;
     [apply inert_quiet, inert_completed_response|done]|].
  destruct (json_eq_str st "failed"); [apply starts_within_atomically; [effects|done]|].
  apply (starts_within_mono (now w1 + pause poll_interval) (now w)
           (0 + (polls_left timeout poll_interval (now w - start_time) - 1))); [lia|lia|].
  apply starts_within_then; [apply starts_within_sleep|]. intros [] w2 Hw2.
  eapply starts_within_mono; [| |by apply (IH w2 (now w1 + pause poll_interval))]; [lia|].
  apply polls_left_later; [done|lia].
Qed.

Lemma starts_within_video_generations_sync fuel form_data user timeout poll_interval w :
  0 < poll_interval ->
  starts_within (now w) (1 + max_polls timeout poll_interval)
    (video_generations_sync_c fuel form_data user timeout poll_interval) w.
Proof.
  intros Hp. unfold video_generations_sync_c.
  apply starts_within_then; [apply starts_within_video_generations|]. intros result w1 Hw1.
  apply starts_within_from; [effects|done|]. intros video_id _.
  destruct (negb _); [apply starts_within_atomically; [effects|done]|].
  apply starts_within_from; [effects|done|]. intros t [= <-].
  pose proof (starts_within_poll_loop fuel video_id user (now w1) timeout poll_interval
                w1 (now w) Hp Hw1) as Hl.
  by rewrite Z.sub_diag in Hl.
Qed.

End HandlerBudget.

(** ** A request that is served *)

Section ServeBudget.
Context {P : Platform} {U : Upstream} {A : Auth}.
Implicit Types (w : World) (n : nat) (req : Inbound) (r : Route).

#[local] Hint Resolve inert_depends inert_get_config inert_get_models : videos.

Lemma starts_within_validated {X} t0 n (arg : option X) k w :
  t0 <= now w -> (forall x, arg = Some x -> starts_within t0 n (k x) w) ->
  starts_within t0 n (validated_c arg k) w.
Proof.
  intros Ht Hk. destruct arg; [by apply Hk|]. apply starts_within_atomically; [effects|done].
Qed.

Lemma starts_within_guarded t0 n (c : Coro Reply) w :
  starts_within t0 n c w -> starts_within t0 n (guarded_c c) w.
Proof. intros Hc. apply starts_within_caught; [done|]. intros e h [= <-]. effects. Qed.

Lemma paced_route_sync req poll_interval :
  paced_route RGenerationsSync req = true ->
  query_int (in_query req) "poll_interval" 5 = Some poll_interval -> 0 < poll_interval.
Proof. unfold paced_route. intros Hp E. rewrite E in Hp. by apply bool_decide_eq_true in Hp. Qed.

(** The endpoint of the blocking mode. *)
Lemma starts_within_sync_endpoint fuel params req w :
  paced_route RGenerationsSync req = true ->
  starts_within (now w) (route_budget RGenerationsSync req)
    (endpoint_c fuel RGenerationsSync params req) w.
Proof.
  intros Hp. cbn [endpoint_c route_budget].
  apply starts_within_from; [effects|done|]. intros user _.
  apply starts_within_validated; [done|]. intros form_data _.
  apply starts_within_validated; [done|]. intros timeout ->.
  apply starts_within_validated; [done|]. intros poll_interval E. rewrite E.
  apply starts_within_reply; [|intros v; effects].
  apply starts_within_video_generations_sync. by eapply paced_route_sync.
Qed.

(** Every endpoint but that of [update_config]. *)
Lemma starts_within_endpoint fuel r params req w :
  r <> RUpdateConfig -> paced_route r req = true ->
  starts_within (now w) (route_budget r req) (endpoint_c fuel r params req) w.
Proof.
  intros Hr Hp.
  destruct r; [by apply starts_within_atomically; [cbn [endpoint]; effects|]|done
              |by apply starts_within_atomically; [cbn [endpoint]; effects|]|..];
    [..|by apply starts_within_sync_endpoint];
    cbn [endpoint_c route_budget];
    (apply starts_within_from; [effects|done|]; intros user _);
    repeat (apply starts_within_validated; [done|]; intros ? _);
    (apply starts_within_reply; [|intros v; effects]);
    auto using starts_within_video_generations, starts_within_list_videos,
      starts_within_get_video, starts_within_delete_video, starts_within_get_video_content.
Qed.

(** A request, from routing to reply, sends no more than its budget. *)
Lemma starts_within_serve_c fuel req w :
  paced req = true -> starts_within (now w) (request_budget req) (serve_c fuel req) w.
Proof.
  intros Hp.
  destruct (dispatch_update_or_other (in_method req) (in_path req)) as [[params Hd]|Hd].
  - destruct (serve_update_world fuel req params w Hd) as [reply E].
    eapply (starts_within_end _ _ (serve_c fuel req) w).
    { rewrite (serve_c_atomic fuel req _ _ w Hd) by auto. unfold atomically.
      rewrite E. reflexivity. }
    all: reflexivity.
  - unfold serve_c, request_budget, paced in *.
    destruct (dispatch _ _) as [r params| |] eqn:E;
      [|apply starts_within_atomically; [effects|done]..].
    apply starts_within_guarded, starts_within_endpoint; [|done]. intros ->. by eapply Hd.
Qed.

End ServeBudget.

(** ** A schedule *)

Section PoolBudget.
Context {P : Platform} {U : Upstream} {A : Auth}.
Context (fuel : nat).
Implicit Types (w : World) (ev : Event) (evs : list Event) (pool : Pool) (total : nat).

(** A request that arrives brings its budget. *)
Lemma pool_within_arrive total w0 pool w req :
  paced req = true -> pool_within total w0 pool w ->
  pool_within (total + request_budget req) w0
    (pool ++ [(serve_c fuel req w).1]) (serve_c fuel req w).2.
Proof.
  intros Hp (budgets & Hb & Hs & Hn).
  destruct (starts_within_serve_c fuel req w Hp) as [[Hs' Hn'] Ht].
  exists (budgets ++ [request_budget req - added w (serve_c fuel req w).2])%nat.
  split_and!; [|by etrans|].
  - apply Forall2_app; [done|]. repeat constructor. by eexists _, _.
  - rewrite (added_trans w0 w) by done. rewrite sum_list_with_app. cbn. lia.
Qed.

(** A block of a task is paid from the budget of the task. *)
Lemma pool_within_resume total w0 pool w i wake resume :
  pool !! i = Some (Waiting wake resume) -> pool_within total w0 pool w ->
  pool_within total w0
    (<[i := (resume (wake_up wake w)).1]> pool) (resume (wake_up wake w)).2.
Proof.
  intros E (budgets & Hb & Hs & Hn).
  destruct (Forall2_lookup_r _ _ _ _ _ Hb E) as (n & En & t0 & w1 & Ht).
  destruct (Ht (wake_up wake w)) as [[Hs' Hn'] Ht']; [cbn; lia|].
  change (added (wake_up wake w)) with (added w) in *. cbn [wake_up sent] in Hs'.
  exists (<[i := (n - added w (resume (wake_up wake w)).2)%nat]> budgets).
  split_and!; [|by etrans|].
  - apply Forall2_insert; [done|]. by eexists _, _.
  - rewrite (added_trans w0 w) by done.
    pose proof (sum_list_insert budgets i n (n - added w (resume (wake_up wake w)).2) En).
    lia.
Qed.

Lemma pool_within_step total w0 ev pool w :
  event_paced ev = true -> pool_within total w0 pool w ->
  pool_within (total + event_budget ev) w0 (step fuel ev pool w).1 (step fuel ev pool w).2.
Proof.
  intros Hp Hw. destruct ev as [req|i|d]; cbn [step event_budget]; rewrite ?Nat.add_0_r.
  - pose proof (pool_within_arrive total w0 pool w req Hp Hw).
    by destruct (serve_c fuel req w).
  - destruct (pool !! i) as [[r|wake resume]|] eqn:E; [done| |done].
    pose proof (pool_within_resume total w0 pool w i wake resume E Hw).
    by destruct (resume (wake_up wake w)).
  - done.
Qed.

Lemma pool_within_run total w0 evs pool w :
  schedule_paced evs = true -> pool_within total w0 pool w ->
  pool_within (total + schedule_budget evs) w0
    (run_events fuel evs pool w).1 (run_events fuel evs pool w).2.
Proof.
  revert total pool w.
  induction evs as [|ev evs IH]; intros total pool w Hp Hw; cbn [run_events].
  { unfold schedule_budget. cbn. by rewrite Nat.add_0_r. }
  apply andb_true_iff in Hp as [Hp1 Hp2].
  pose proof (pool_within_step total w0 ev pool w Hp1 Hw) as Hstep.
  destruct (step fuel ev pool w) as [pool' w']. unfold schedule_budget in *.
  cbn [sum_list_with]. rewrite Nat.add_assoc. by apply IH.
Qed.

End PoolBudget.

(** ** Requests served one after the other *)

Section SerialBudget.
Context {P : Platform} {U : Upstream} {A : Auth}.
Implicit Types (w : World) (req : Inbound).

Lemma serve_budget fuel req w :
  paced req = true -> adds_at_most (request_budget req) w (serve fuel req w).2.
Proof.
  intros Hp. rewrite <- (run_solo_serve_c fuel req w).
  exact (starts_within_run_solo _ _ _ _ (starts_within_serve_c fuel req w Hp)).
Qed.

Lemma serve_all_budget fuel (reqs : list Inbound) w :
  forallb paced reqs = true ->
  adds_at_most (sum_list_with request_budget reqs) w (serve_all fuel reqs w).2.
Proof.
  revert w. induction reqs as [|req reqs IH]; intros w Hp; [apply adds_at_most_refl|].
  apply andb_true_iff in Hp as [Hp1 Hp2]. cbn [serve_all sum_list_with].
  pose proof (serve_budget fuel req w Hp1) as H1. rewrite run_bind.
  destruct (serve fuel req w) as [[reply|e|] w1]; cbn [snd] in H1;
    [|eapply adds_at_most_mono; [|done]; lia..].
  specialize (IH w1 Hp2). rewrite run_bind.
  assert (adds_at_most (request_budget req + sum_list_with request_budget reqs) w
            (serve_all fuel reqs w1).2) as H2.
  { destruct (adds_at_most_trans (request_budget req + sum_list_with request_budget reqs)
                w w1 (serve_all fuel reqs w1).2) as [H2 _]; [| |done];
      (eapply adds_at_most_mono; [|done]); destruct H1; lia. }
  by destruct (serve_all fuel reqs w1) as [[replies|e|] w2].
Qed.

End SerialBudget.

(** ** The bound is reached *)

(** C17: the bound on the polls is reached: a provider that answers at once
    and never finishes the job is polled [max_polls timeout poll_interval]
    times, an interval apart, and the loop ends with status 408 when the
    polls are over, having logged nothing. *)
Theorem poll_loop_budget_reached {P : Platform} {U : Upstream}
    fuel video_id user timeout poll_interval w :
  api_key_ok (app_config w) = true -> 0 < poll_interval ->
  (forall n, observed_verdict w video_id n = Pending) ->
  (forall n, observed_latency w video_id n = 0) ->
  (max_polls timeout poll_interval < fuel)%nat ->
  poll_loop fuel video_id user (now w) timeout poll_interval w =
    (Raise (HTTPException 408 (JStr (timeout_message timeout video_id))),
     {| app_config := app_config w;
        now := now w + Z.of_nat (max_polls timeout poll_interval) * pause poll_interval;
        sent := sent w ++ replicate (max_polls timeout poll_interval) (poll_request w video_id);
        logged := logged w |}).
Proof.
  intros K Hp Hv Hl Hf. rewrite poll_loop_machine by done. unfold machine.
  rewrite Z.sub_diag.
  rewrite (poller_run_pending_timeout _ _ _ _ (max_polls timeout poll_interval));
    rewrite ?span_pauses by done; [|done| |by apply max_polls_deadline|done].
  - cbn [outcome_of]. unfold world_at. rewrite Z.add_0_l.
    by replace (length (sent w) + max_polls timeout poll_interval - length (sent w))%nat
      with (max_polls timeout poll_interval) by lia.
  - intros i Hi. rewrite span_pauses by done. by apply max_polls_in_time.
Qed.

(** C15: whatever the order in which the requests arrive and their blocks are
    resumed, and however late, the requests that a schedule sends to the
    provider are within the budgets of the requests that arrive in it: none
    for a request on the configuration or one that no route serves, one for
    a submission or a pass-through call, and for a blocking call one
    submission and as many polls as there are intervals before its timeout,
    provided that its interval is positive. *)
Theorem run_events_budget {P : Platform} {U : Upstream} {A : Auth} fuel (evs : list Event) w :
  schedule_paced evs = true ->
  (length (sent (run_events fuel evs [] w).2) <= length (sent w) + schedule_budget evs)%nat.
Proof.
  intros Hp. destruct (pool_within_run fuel 0 w evs [] w Hp) as (budgets & _ & [k Hs] & Hn).
  { exists []. split_and!; [constructor|done|unfold added; cbn; lia]. }
  unfold added in Hn. rewrite Hs, length_app in *. lia.
Qed.

(** C16: a blocking call with a positive interval sends the submission and at
    most one poll per interval of its timeout, an interval that has begun
    counted as a whole: [1 + ceil (timeout / poll_interval)] requests,
    whatever the provider answers and however long it takes. *)
Theorem video_generations_sync_budget {P : Platform} {U : Upstream}
    fuel form_data user timeout poll_interval w :
  0 < poll_interval ->
  (length (sent (video_generations_sync fuel form_data user timeout poll_interval w).2)
   <= length (sent w) + 1 + max_polls timeout poll_interval)%nat
  /\ max_polls timeout poll_interval = Z.to_nat ((timeout + poll_interval - 1) / poll_interval).
Proof.
  intros Hp. split; [|by apply max_polls_seconds].
  rewrite <- (run_solo_video_generations_sync fuel form_data user timeout poll_interval w).
  destruct (starts_within_run_solo (now w) _ _ w
              (starts_within_video_generations_sync fuel form_data user timeout poll_interval
                 w Hp)) as [[k Hs] Hn].
  unfold added in Hn. rewrite Hs, length_app in *. lia.
Qed.

(** * The properties at concrete runs *)

Lemma run_events_budget_witness :
  (length (sent (run_events (P:=forwarding) (U:=stalling) (A:=by_role) 62
                   (update_while_polling moved) [] ready).2)
   <= length (sent ready) + schedule_budget (update_while_polling moved))%nat.
Proof.
  apply (run_events_budget (P:=forwarding) (U:=stalling) (A:=by_role) 62
           (update_while_polling moved) ready).
  reflexivity.
Defined.

Lemma video_generations_sync_budget_witness :
  (length (sent (video_generations_sync (P:=forwarding) (U:=stalling) 62
                   (prompt_only "a cat") alice 300 5 ready).2)
   <= length (sent ready) + 1 + max_polls 300 5)%nat
  /\ max_polls 300 5 = Z.to_nat ((300 + 5 - 1) / 5).
Proof.
  apply (video_generations_sync_budget (P:=forwarding) (U:=stalling) 62
           (prompt_only "a cat") alice 300 5 ready).
  lia.
Defined.

Lemma poll_loop_budget_reached_witness :
  poll_loop (P:=forwarding) (U:=stalling) 62 (JStr "v1") alice (now ready) 300 5 ready =
    (Raise (HTTPException 408 (JStr (timeout_message (P:=forwarding) 300 (JStr "v1")))),
     {| app_config := app_config ready;
        now := now ready + Z.of_nat (max_polls 300 5) * pause 5;
        sent := sent ready ++
                replicate (max_polls 300 5) (poll_request (P:=forwarding) ready (JStr "v1"));
        logged := logged ready |}).
Proof.
  apply (poll_loop_budget_reached (P:=forwarding) (U:=stalling) 62 (JStr "v1") alice 300 5
           ready); [reflexivity|lia|intros n; reflexivity..|vm_compute; lia].
Defined.

(** The whole call: sixty polls in five minutes, every five seconds, after
    the submission, and the call ends with status 408. *)
Example video_generations_sync_budget_reached :
  let run := video_generations_sync (P:=forwarding) (U:=stalling) 62
               (prompt_only "a cat") alice 300 5 ready in
  (exists detail, run.1 = Raise (HTTPException 408 detail))
  /\ length (sent run.2) = (1 + max_polls 300 5)%nat
  /\ max_polls 300 5 = 60%nat.
Proof. vm_compute. split; [by eexists|done]. Qed.
