(* ===== verification/Taxonomy.v ===== *)
(** * Taxonomy: what the handlers return and what they raise

    Section 7 of the specification names the errors of the proxy and the
    status of each: [Unconfigured] and [UnsupportedEngine] (400),
    [UpstreamError] (the status of the provider), [GenerationFailed] (500),
    [Timeout] (408), [MalformedUpstreamResponse] (500) and any internal
    fault (500).  This file states that taxonomy ([Fault], [fault_status],
    [fault_detail]) and measures every handler against it.

    The measure is a specification by postconditions: [yields Q E m] says
    that [m] returns a value of [Q] or raises an exception of [E], in
    whatever world it runs.  It has one rule per combinator of [Effects]
    (return, raise, bind, [try] with its [except] clauses) and one per
    primitive, so that the exceptions of a handler are found by following
    its text.  The result for each handler is the set of faults it raises
    and the Python exceptions that leave it uncaught; [serve_status] turns
    that into the statuses a caller of the router can see.

    The postconditions do not look at the world.  They therefore hold of
    the handlers as coroutines, in whatever worlds their blocks are
    resumed: [c_yields] is the same specification over the tasks of
    [Async], with the rules of [Blocks] under the guarantee that allows
    everything ([anyhow]), and [run_events_status] is the result for every
    schedule of the event loop. *)

From S2P Require Import Prelude PyStr Json Effects Base64 Binascii Fixtures Config Submission Client Poller Sync Router Async Atomic Blocks Interleave.

#[local] Open Scope videos_scope.
#[local] Open Scope Z_scope.

(** ** The faults of the specification *)

Inductive Fault :=
| Unconfigured (submitting : bool)
| UnsupportedEngine
| UpstreamError (statusCode : Z) (message : JSON)
| GenerationFailed (error : JSON)
| Timeout (timeout : Z) (jobId : JSON)
| MalformedUpstreamResponse
| InternalFault (text : string).

(** The status of a fault. *)
Definition fault_status (f : Fault) : Z :=
  match f with
  | Unconfigured _ | UnsupportedEngine => 400
  | UpstreamError statusCode _ => statusCode
  | Timeout _ _ => 408
  | GenerationFailed _ | MalformedUpstreamResponse | InternalFault _ => 500
  end.

Section Faults.
Context {P : Platform} {U : Upstream}.

(** The detail with which the code raises it. *)
Definition fault_detail (f : Fault) : JSON :=
  match f with
  | Unconfigured submitting => if submitting then api_key_error else key_error
  | UnsupportedEngine => engine_error
  | UpstreamError _ message => message
  | GenerationFailed error => JStr (failure_message error)
  | Timeout timeout jobId => JStr (timeout_message timeout jobId)
  | MalformedUpstreamResponse => no_id_error
  | InternalFault text => JStr text
  end.

Definition exn_of_fault (f : Fault) : Exn :=
  HTTPException (fault_status f) (fault_detail f).

(** A status that the provider answered with, and that is an error status. *)
Definition provider_status (code : Z) : Prop :=
  exists n req r,
    outcome (upstream_reply n req) = Replied r /\ status_code r = code
    /\ 400 <= code < 600.

(** An [UpstreamError] carries a status of the provider. *)
Definition fault_known (f : Fault) : Prop :=
  match f with
  | UpstreamError statusCode _ => provider_status statusCode
  | _ => True
  end.

(** The exception is a fault among [allowed]. *)
Definition raises_fault (allowed : Fault -> bool) (e : Exn) : Prop :=
  exists f, allowed f = true /\ fault_known f /\ e = exn_of_fault f.

(** The exception is a Python error of one of [classes], which no [except]
    clause of the module turns into a fault. *)
Definition uncaught (classes : list ExnClass) (e : Exn) : Prop :=
  exists cls msg, e = PyError cls msg /\ cls ∈ classes.

(** The faults of the pass-through handlers, of the submission, and of the
    blocking mode. *)
Definition client_fault (f : Fault) : bool :=
  match f with
  | Unconfigured false | InternalFault _ => true
  | _ => false
  end.

Definition submission_fault (f : Fault) : bool :=
  match f with
  | Unconfigured true | UnsupportedEngine | UpstreamError _ _ | InternalFault _ => true
  | _ => false
  end.

Definition poll_fault (f : Fault) : bool :=
  match f with
  | GenerationFailed _ | Timeout _ _ => true
  | _ => client_fault f
  end.

(** What the blocking mode lets out: a fault, whichever, or one of the three
    Python errors that no [except] clause of the module catches. *)
Definition sync_error (e : Exn) : Prop :=
  raises_fault (fun _ => true) e
  \/ uncaught [ValueError; BinasciiError; AttributeError] e.

(** The answer of the blocking mode for a job that completed. *)
Definition completed_answer (v : JSON) : Prop :=
  exists video_id d, v = completed_dict video_id d.

(** ** Postconditions *)

(** [m] returns a value of [Q] or raises an exception of [E]. *)
Definition yields {A} (Q : A -> Prop) (E : Exn -> Prop) (m : M A) : Prop :=
  forall w, match (m w).1 with
            | Ok a => Q a
            | Raise e => E e
            | OutOfFuel => True
            end.

(** [m] raises nothing. *)
Definition safe {A} (m : M A) : Prop := yields (fun _ => True) (fun _ => False) m.

(** The same of a result. *)
Definition res_in {A} (Q : A -> Prop) (E : Exn -> Prop) (r : Res A) : Prop :=
  match r with
  | Ok a => Q a
  | Raise e => E e
  | OutOfFuel => True
  end.

(** The guarantee that allows every change of the world. *)
Definition anyhow : relation World := fun _ _ => True.

(** The coroutine [c] ends in a value of [Q] or an exception of [E], in
    whatever worlds its blocks are resumed. *)
Definition c_yields {A} (Q : A -> Prop) (E : Exn -> Prop) (c : Coro A) : Prop :=
  forall w, starts anyhow (fun r _ => res_in Q E r) c w.

(** ** The statuses of the router *)

(** The statuses that the router and its handlers answer with of their
    own. *)
Definition proxy_statuses : list Z := [200; 400; 404; 405; 408; 422; 500].

(** A response that the provider gave. *)
Definition provided (r : Response) : Prop :=
  exists n req, outcome (upstream_reply n req) = Replied r.

(** What the calls of a [try] block raise: the failure of the connection,
    the [HTTPError] that [raise_for_status] makes of an error status of the
    provider, and the failure of [r.json()]. *)
Definition call_error (e : Exn) : Prop :=
  match e with
  | PyError cls _ => cls = ConnectionError \/ cls = JSONDecodeError
  | HTTPError msg r => provided r /\ http_error_msg r = Some msg
  | HTTPException _ _ => False
  end.

End Faults.

Section Statuses.
Context {P : Platform} {U : Upstream} {A : Auth}.

(** The reply is the refusal of the authorization collaborator. *)
Definition refused (c : Credentials) (reply : Reply) : Prop :=
  exists e, (get_verified_user c = inl e \/ get_admin_user c = inl e)
            /\ reply = reply_of_exn e.

(** What a caller with credentials [c] may be answered. *)
Definition reply_ok (c : Credentials) (reply : Reply) : Prop :=
  status_of reply ∈ proxy_statuses \/ provider_status (status_of reply) \/ refused c reply.

(** A task whose blocks, in whatever worlds they are resumed, lead to a
    reply that some caller may be answered, and to no exception. *)
Definition fine (t : Task Reply) : Prop :=
  forall w, task_sat anyhow (fun r _ => res_in (fun reply => exists c, reply_ok c reply)
                                          (fun _ => False) r) t w.

(** What a task of the pool may end in: a reply that some caller may be
    answered, and no exception. *)
Definition task_fine (t : Task Reply) : Prop :=
  match t with
  | Done (Ok reply) => exists c, reply_ok c reply
  | Done (Raise e) => False
  | _ => True
  end.

End Statuses.

(** * Properties *)

Section Yields.
Context {P : Platform} {U : Upstream}.
Context {A B : Type}.
Implicit Types (Q : A -> Prop) (R : B -> Prop) (E : Exn -> Prop) (m : M A) (w : World).

Lemma yields_ret Q E (a : A) : Q a -> yields Q E (mret a).
Proof. by intros Ha w. Qed.

Lemma yields_raise Q E e : E e -> yields Q E (raise e).
Proof. by intros He w. Qed.

Lemma yields_out_of_fuel Q E : yields Q E out_of_fuel.
Proof. by intros w. Qed.

Lemma yields_mono Q Q' E E' m :
  yields Q E m -> (forall a, Q a -> Q' a) -> (forall e, E e -> E' e) -> yields Q' E' m.
Proof. intros Hm HQ HE w. specialize (Hm w). destruct (m w).1; auto. Qed.

Lemma yields_bind Q R E m (k : A -> M B) :
  yields Q E m -> (forall a, Q a -> yields R E (k a)) -> yields R E (m ≫= k).
Proof.
  intros Hm Hk w. specialize (Hm w). rewrite run_bind.
  destruct (m w) as [[a|e|] w']; cbn in *; [by apply Hk|done..].
Qed.

(** [try] with its [except] clauses: an exception of the body is handled
    by the clause that matches it and leaves the block when none does. *)
Lemma yields_try Q E E' m handler :
  yields Q E' m ->
  (forall e, E' e -> match handler e with Some h => yields Q E h | None => E e end) ->
  yields Q E (try_except m handler).
Proof.
  intros Hm Hh w. specialize (Hm w). unfold try_except.
  destruct (m w) as [[a|e|] w']; cbn in *; [done| |done].
  specialize (Hh e Hm). destruct (handler e) as [h|]; [apply Hh|done].
Qed.

Lemma yields_meq Q E m m' : m =m= m' -> yields Q E m -> yields Q E m'.
Proof. intros Hm H w. rewrite <- (Hm w). apply H. Qed.

Lemma safe_yields Q E m : safe m -> (forall a, Q a) -> yields Q E m.
Proof. intros Hm HQ. eapply yields_mono; [exact Hm|auto|done]. Qed.

Lemma safe_bind E R m (k : A -> M B) :
  safe m -> (forall a, yields R E (k a)) -> yields R E (m ≫= k).
Proof.
  intros Hm Hk. apply (yields_bind (fun _ => True)); [|auto].
  by apply safe_yields.
Qed.

End Yields.

#[export] Instance yields_proper {A} (Q : A -> Prop) E :
  Proper (meq ==> iff) (yields Q E).
Proof. intros m m' Hm. split; apply yields_meq; [done|by symmetry]. Qed.

(** ** The primitives *)

Section Primitives.
Context {P : Platform} {U : Upstream}.

Lemma safe_read_config : safe read_config.
Proof. by intros w. Qed.

Lemma safe_write_config c : safe (write_config c).
Proof. by intros w. Qed.

Lemma safe_time_time : safe time_time.
Proof. by intros w. Qed.

Lemma safe_asyncio_sleep d : safe (asyncio_sleep d).
Proof. by intros w. Qed.

Lemma safe_log_info message : safe (log_info message).
Proof. by intros w. Qed.

Lemma safe_log_exception message e : safe (log_exception message e).
Proof. by intros w. Qed.

Lemma yields_requests_request req : yields provided call_error (requests_request req).
Proof.
  intros w. unfold requests_request.
  destruct (outcome _) eqn:Hex; cbn; [by left|by eexists _, _].
Qed.

Lemma yields_raise_for_status r :
  provided r -> yields (fun _ => True) call_error (raise_for_status r).
Proof. intros Hr w. unfold raise_for_status. by destruct (http_error_msg r) eqn:Hm. Qed.

Lemma yields_response_json r : yields (fun _ => True) call_error (response_json r).
Proof. intros w. unfold response_json. destruct (resp_json r); [by right|done]. Qed.

Lemma yields_py_get v key dflt :
  yields (fun _ => True) (uncaught [AttributeError]) (py_get v key dflt).
Proof.
  intros w. unfold py_get. destruct (dict_get v key dflt); [done|].
  eexists _, _. split; [done|by repeat constructor].
Qed.

Lemma yields_py_get_other (Q : JSON -> Prop) v key dflt :
  dict_get v key dflt = None -> yields Q (uncaught [AttributeError]) (py_get v key dflt).
Proof.
  intros Hv w. unfold py_get. rewrite Hv. eexists _, _. split; [done|by repeat constructor].
Qed.

(** The status of an [HTTPError] is an error status. *)
Lemma http_error_msg_status r msg : http_error_msg r = Some msg -> 400 <= status_code r < 600.
Proof.
  intros Hm. destruct (decide (400 <= status_code r < 600)) as [|Hs]; [done|].
  rewrite http_error_msg_ok in Hm by lia. done.
Qed.

Lemma call_error_status msg r : call_error (HTTPError msg r) -> provider_status (status_code r).
Proof.
  intros [(n & req & Hr) Hm]. exists n, req, r. eauto using http_error_msg_status.
Qed.

End Primitives.

#[export] Hint Resolve safe_read_config safe_write_config safe_time_time safe_asyncio_sleep
  safe_log_info safe_log_exception yields_requests_request yields_response_json
  yields_py_get : videos.

(** ** The handlers *)

Section Handlers.
Context {P : Platform} {U : Upstream}.
Implicit Types (user : User) (req : HttpRequest).

(** *** The configuration *)

Lemma safe_get_config user : safe (get_config user).
Proof. by intros w. Qed.

Lemma safe_update_config form_data user : safe (update_config form_data user).
Proof. by intros w. Qed.

Lemma safe_get_models user : safe (get_models user).
Proof. intros w. unfold get_models. rewrite run_bind. cbn. by destruct (json_eq_str _ _). Qed.

(** *** The pass-through handlers *)

(** The body of the [try] blocks: a call, the check of its status, and what
    is made of the response. *)
Lemma yields_checked {A} (Q : A -> Prop) r (m : M A) :
  provided r -> yields Q call_error m -> yields Q call_error (raise_for_status r;; m).
Proof.
  intros Hr Hm. apply (yields_bind (fun _ => True)); [by apply yields_raise_for_status|auto].
Qed.

Lemma yields_call {A} (Q : A -> Prop) req (k : Response -> M A) :
  (forall r, provided r -> yields Q call_error (k r)) ->
  yields Q call_error (r ← requests_request req; raise_for_status r;; k r).
Proof.
  intros Hk. apply (yields_bind provided); [apply yields_requests_request|].
  intros r Hr. apply yields_checked; auto.
Qed.

(** The [except Exception] clause: whatever the body raised is an internal
    fault. *)
Lemma yields_client_handler {A} (Q : A -> Prop) what e :
  match client_handler (A:=A) what e with
  | Some h => yields Q (raises_fault client_fault) h
  | None => raises_fault client_fault e
  end.
Proof.
  cbn. apply safe_bind; [apply safe_log_exception|]. intros _.
  apply yields_raise. by exists (InternalFault (exn_str e)).
Qed.

Lemma yields_fetch_json what req :
  yields (fun _ => True) (raises_fault client_fault) (fetch_json what req).
Proof.
  apply (yields_try _ _ call_error).
  - apply yields_call. intros r _. apply yields_response_json.
  - intros e _. apply yields_client_handler.
Qed.

(** The guard on the API key, and what follows it. *)
Lemma yields_keyed {A} (Q : A -> Prop) (k : gmap string JSON -> M A) :
  (forall config, yields Q (raises_fault client_fault) (k config)) ->
  yields Q (raises_fault client_fault)
    (config ← read_config;
     if negb (json_truthy (getattr config "VIDEOS_OPENAI_API_KEY" (JStr "")))
     then raise (HTTPException 400 key_error) else k config).
Proof.
  intros Hk. apply safe_bind; [apply safe_read_config|]. intros config.
  destruct (negb _); [|done]. apply yields_raise. by exists (Unconfigured false).
Qed.

(** The guard and the request, as the coroutines have them. *)
Lemma yields_keyed_request request_of :
  yields (fun _ => True) (raises_fault client_fault) (keyed request_of).
Proof. apply yields_keyed. intros config. by apply yields_ret. Qed.

Lemma yields_list_videos user limit after :
  yields (fun _ => True) (raises_fault client_fault) (list_videos user limit after).
Proof. apply yields_keyed. intros config. apply yields_fetch_json. Qed.

Lemma yields_get_video video_id user :
  yields (fun _ => True) (raises_fault client_fault) (get_video video_id user).
Proof. apply yields_keyed. intros config. apply yields_fetch_json. Qed.

Lemma yields_delete_video video_id user :
  yields (fun _ => True) (raises_fault client_fault) (delete_video video_id user).
Proof. apply yields_keyed. intros config. apply yields_fetch_json. Qed.

Lemma yields_get_video_content video_id user :
  yields (fun sr => exists r, provided r /\ sr = streaming_response video_id r)
    (raises_fault client_fault) (get_video_content video_id user).
Proof.
  apply yields_keyed. intros config. apply (yields_try _ _ call_error).
  - apply yields_call. intros r Hr. apply yields_ret. eauto.
  - intros e _. apply yields_client_handler.
Qed.

End Handlers.

(** *** The submission *)

Section SubmissionFaults.
Context {P : Platform} {U : Upstream}.
Implicit Types (user : User) (form_data : CreateVideoForm) (req : HttpRequest).

(** What [base64.b64decode] raises. *)
Lemma b64decode_uncaught s e : b64decode s = inl e -> uncaught [ValueError; BinasciiError] e.
Proof.
  unfold b64decode. destruct (forallb _ _); [destruct (a2b_base64 _)|]; intros [= <-].
  all: eexists _, _; split; [done|by repeat constructor].
Qed.

(** The reference is built ahead of the [try] block: the error of an
    unpacking and the errors of the decoder leave the handler as they are. *)
Lemma yields_reference_file ref :
  yields (fun _ => True) (uncaught [ValueError; BinasciiError]) (reference_file ref).
Proof.
  unfold reference_file.
  assert (uncaught [ValueError; BinasciiError] (PyError ValueError unpack_error)) as Hu.
  { eexists _, _. split; [done|by repeat constructor]. }
  destruct (str_split _ _ _) as [|header [|encoded [|]]]; try by apply yields_raise.
  destruct (b64decode encoded) as [e|image] eqn:Hd; [|by apply yields_ret].
  apply yields_raise. eauto using b64decode_uncaught.
Qed.

Lemma safe_py_del headers key : is_Some (headers !! key) -> safe (py_del headers key).
Proof. intros [v Hv]. unfold py_del. rewrite Hv. by apply yields_ret. Qed.

Lemma yields_attach_reference form_data headers data :
  is_Some (headers !! "Content-Type") ->
  yields (fun _ => True) (uncaught [ValueError; BinasciiError])
    (attach_reference form_data headers data).
Proof.
  intros Hc. unfold attach_reference.
  repeat case_match; try by apply yields_ret.
  apply (yields_bind (fun _ => True)); [apply yields_reference_file|]. intros part _.
  apply safe_bind; [by apply safe_py_del|]. intros headers'. by apply yields_ret.
Qed.

(** The two [except] clauses of the submission: the error status of the
    provider is an [UpstreamError] with that status, anything else an
    internal fault. *)
Lemma yields_submission_handler e :
  call_error e ->
  match submission_handler e with
  | Some h => yields (fun _ => True) (raises_fault submission_fault) h
  | None => raises_fault submission_fault e
  end.
Proof.
  intros He. destruct e as [code detail|msg r|cls msg]; cbn.
  - done.
  - apply yields_raise. exists (UpstreamError (status_code r) (error_detail msg r)).
    split_and!; [done| |done]. by apply (call_error_status msg).
  - apply safe_bind; [apply safe_log_exception|]. intros _.
    apply yields_raise. by exists (InternalFault msg).
Qed.

(** What the [try] block does with the response. *)
Lemma yields_submission_body r :
  provided r ->
  yields (fun _ => True) call_error
    (raise_for_status r;;
     result ← response_json r;
     log_info ("Video generation initiated: " +:+ py_str result);;
     mret result).
Proof.
  intros Hr. apply yields_checked; [done|].
  apply (yields_bind (fun _ => True)); [apply yields_response_json|]. intros result _.
  apply safe_bind; [apply safe_log_info|]. intros _. by apply yields_ret.
Qed.

Lemma yields_send_submission req :
  yields (fun _ => True) (raises_fault submission_fault) (send_submission req).
Proof.
  apply (yields_try _ _ call_error); [|apply yields_submission_handler].
  apply (yields_bind provided); [apply yields_requests_request|].
  apply yields_submission_body.
Qed.

(** The handler up to its [try] block: the guards and the reference. *)
Lemma yields_submission_of form_data user :
  yields (fun _ => True)
    (fun e => raises_fault submission_fault e \/ uncaught [ValueError; BinasciiError] e)
    (submission_of form_data user).
Proof.
  apply safe_bind; [apply safe_read_config|]. intros config. cbv beta zeta.
  destruct (negb _); [apply yields_raise; left; by exists UnsupportedEngine|].
  destruct (negb _); [apply yields_raise; left; by exists (Unconfigured true)|].
  apply (yields_bind (fun _ => True)).
  - eapply yields_mono; [apply yields_attach_reference|done|by right].
    eexists. apply build_headers_content_type.
  - intros [[files headers] data] _. by apply yields_ret.
Qed.

Lemma yields_video_generations form_data user :
  yields (fun _ => True)
    (fun e => raises_fault submission_fault e \/ uncaught [ValueError; BinasciiError] e)
    (video_generations form_data user).
Proof.
  rewrite video_generations_split.
  apply (yields_bind (fun _ => True)); [apply yields_submission_of|]. intros req _.
  eapply yields_mono; [apply yields_send_submission|done|by left].
Qed.

End SubmissionFaults.

(** *** The blocking mode *)

Section SyncFaults.
Context {P : Platform} {U : Upstream}.
Implicit Types (user : User) (form_data : CreateVideoForm) (e : Exn).

Lemma raises_fault_mono (allowed allowed' : Fault -> bool) e :
  (forall f, allowed f = true -> allowed' f = true) ->
  raises_fault allowed e -> raises_fault allowed' e.
Proof. intros Hsub (f & Hf & Hk & ->). exists f. auto. Qed.

Lemma uncaught_mono (classes classes' : list ExnClass) e :
  classes ⊆ classes' -> uncaught classes e -> uncaught classes' e.
Proof. intros Hsub (cls & msg & -> & Hc). exists cls, msg. auto. Qed.

Lemma client_poll_fault f : client_fault f = true -> poll_fault f = true.
Proof. by destruct f. Qed.

Lemma raises_fault_any (allowed : Fault -> bool) e :
  raises_fault allowed e -> raises_fault (fun _ => true) e.
Proof. by apply raises_fault_mono. Qed.

(** What a turn of the loop makes of a fault of [get_video] and of the
    [AttributeError] of a status that is no object. *)
Lemma poll_error_client e :
  raises_fault client_fault e -> raises_fault poll_fault e \/ uncaught [AttributeError] e.
Proof. left. eauto using raises_fault_mono, client_poll_fault. Qed.

Lemma sync_error_attribute e : uncaught [AttributeError] e -> sync_error e.
Proof.
  right. eapply uncaught_mono; [|done].
  intros cls. rewrite !elem_of_cons, elem_of_nil. tauto.
Qed.

Lemma sync_error_submission e :
  raises_fault submission_fault e \/ uncaught [ValueError; BinasciiError] e -> sync_error e.
Proof.
  intros [He|He]; [left|right].
  - eauto using raises_fault_any.
  - eapply uncaught_mono; [|done]. intros cls. rewrite !elem_of_cons, elem_of_nil. tauto.
Qed.

Lemma sync_error_poll e :
  raises_fault poll_fault e \/ uncaught [AttributeError] e -> sync_error e.
Proof.
  intros [He|He]; [left|by apply sync_error_attribute].
  eauto using raises_fault_any.
Qed.

Lemma yields_completed_response video_id status :
  yields completed_answer (uncaught [AttributeError]) (completed_response video_id status).
Proof.
  destruct status as [| | | | |d];
    try (apply (yields_bind (fun _ => False)); [by apply yields_py_get_other|done]).
  intros w. rewrite run_completed_response. by exists video_id, d.
Qed.

Lemma yields_poll_loop fuel video_id user start_time timeout poll_interval :
  yields completed_answer (fun e => raises_fault poll_fault e \/ uncaught [AttributeError] e)
    (poll_loop fuel video_id user start_time timeout poll_interval).
Proof.
  induction fuel as [|fuel IH]; [apply yields_out_of_fuel|]. cbn [poll_loop].
  apply safe_bind; [apply safe_time_time|]. intros t. cbv beta.
  destruct (_ <? _); [|apply yields_raise; left; by exists (Timeout timeout video_id)].
  apply (yields_bind (fun _ => True)).
  { eapply yields_mono; [apply yields_get_video|done|apply poll_error_client]. }
  intros status _. apply (yields_bind (fun _ => True)).
  { eapply yields_mono; [apply yields_py_get|done|by right]. }
  intros st _. destruct (json_eq_str st "completed").
  { eapply yields_mono; [apply yields_completed_response|done|by right]. }
  destruct (json_eq_str st "failed"); [|by apply safe_bind; [apply safe_asyncio_sleep|]].
  apply (yields_bind (fun _ => True)).
  { eapply yields_mono; [apply yields_py_get|done|by right]. }
  intros error _. apply yields_raise. left. by exists (GenerationFailed error).
Qed.

Lemma yields_video_generations_sync fuel form_data user timeout poll_interval :
  yields completed_answer sync_error
    (video_generations_sync fuel form_data user timeout poll_interval).
Proof.
  apply (yields_bind (fun _ => True)).
  { eapply yields_mono; [apply yields_video_generations|done|apply sync_error_submission]. }
  intros result _. apply (yields_bind (fun _ => True)).
  { eapply yields_mono; [apply yields_py_get|done|apply sync_error_attribute]. }
  intros video_id _.
  destruct (negb _); [apply yields_raise; left; by exists MalformedUpstreamResponse|].
  apply safe_bind; [apply safe_time_time|]. intros start_time.
  eapply yields_mono; [apply yields_poll_loop|done|apply sync_error_poll].
Qed.

End SyncFaults.

(** ** The statuses of the replies *)

Section ServeStatus.
Context {P : Platform} {U : Upstream} {A : Auth}.
Implicit Types (c : Credentials) (reply : Reply) (e : Exn) (req : Inbound).

Lemma proxy_status_ok c reply : status_of reply ∈ proxy_statuses -> reply_ok c reply.
Proof. by left. Qed.

Lemma fault_reply_ok c allowed e : raises_fault allowed e -> reply_ok c (reply_of_exn e).
Proof.
  intros (f & _ & Hk & ->).
  destruct f; first [by right; left | left; by repeat constructor].
Qed.

Lemma uncaught_reply_ok c classes e : uncaught classes e -> reply_ok c (reply_of_exn e).
Proof. intros (cls & msg & -> & _). left. by repeat constructor. Qed.

Lemma sync_error_reply_ok c e : sync_error e -> reply_ok c (reply_of_exn e).
Proof. intros [He|He]; eauto using fault_reply_ok, uncaught_reply_ok. Qed.

(** A dependency on the authorization: its refusal is the reply. *)
Lemma yields_verified c :
  yields (fun _ => True) (fun e => reply_ok c (reply_of_exn e))
    (depends (get_verified_user c)).
Proof.
  intros w. unfold depends. destruct (get_verified_user c) as [e|user] eqn:Hc; [|done].
  right; right. exists e. auto.
Qed.

Lemma yields_admin c :
  yields (fun _ => True) (fun e => reply_ok c (reply_of_exn e))
    (depends (get_admin_user c)).
Proof.
  intros w. unfold depends. destruct (get_admin_user c) as [e|user] eqn:Hc; [|done].
  right; right. exists e. auto.
Qed.

Lemma yields_validated {X} c (E : Exn -> Prop) (arg : option X) (k : X -> M Reply) :
  (forall x, yields (reply_ok c) E (k x)) -> yields (reply_ok c) E (validated arg k).
Proof.
  intros Hk. destruct arg as [x|]; [apply Hk|].
  apply yields_ret. left. by repeat constructor.
Qed.

(** A handler whose answer is sent as JSON under status 200. *)
Lemma yields_json_reply c (Q : JSON -> Prop) (E : Exn -> Prop) (m : M JSON) :
  yields Q E m -> (forall e, E e -> reply_ok c (reply_of_exn e)) ->
  yields (reply_ok c) (fun e => reply_ok c (reply_of_exn e)) (v ← m; mret (JsonReply 200 v)).
Proof.
  intros Hm HE. apply (yields_bind Q); [by eapply yields_mono|].
  intros v _. apply yields_ret. left. by repeat constructor.
Qed.

Lemma yields_endpoint fuel r params req :
  yields (reply_ok (in_credentials req))
    (fun e => reply_ok (in_credentials req) (reply_of_exn e)) (endpoint fuel r params req).
Proof.
  set (c := in_credentials req).
  destruct r; cbn [endpoint];
    (apply (yields_bind (fun _ => True)); [first [apply yields_verified|apply yields_admin]|]);
    intros user _; repeat (apply yields_validated; intros ?).
  - apply safe_bind; [apply safe_get_config|]. intros d.
    apply yields_ret. left. destruct (validate_VideosConfig d); by repeat constructor.
  - apply safe_bind; [apply safe_update_config|]. intros d.
    apply yields_ret. left. by repeat constructor.
  - eapply yields_json_reply; [apply safe_get_models|done].
  - eapply yields_json_reply; [apply yields_video_generations|].
    intros e [He|He]; eauto using fault_reply_ok, uncaught_reply_ok.
  - eapply yields_json_reply; [apply yields_list_videos|]. eauto using fault_reply_ok.
  - eapply yields_json_reply; [apply yields_get_video|]. eauto using fault_reply_ok.
  - apply (yields_bind (fun _ => True)).
    + eapply yields_mono; [apply yields_get_video_content|done|eauto using fault_reply_ok].
    + intros sr _. apply yields_ret. left. by repeat constructor.
  - eapply yields_json_reply; [apply yields_delete_video|]. eauto using fault_reply_ok.
  - eapply yields_json_reply; [apply yields_video_generations_sync|].
    eauto using sync_error_reply_ok.
Qed.

Lemma yields_serve fuel req :
  yields (reply_ok (in_credentials req)) (fun _ => False) (serve fuel req).
Proof.
  unfold serve. destruct (dispatch _ _) as [r params| |].
  - apply (yields_try _ _ (fun e => reply_ok (in_credentials req) (reply_of_exn e)));
      [apply yields_endpoint|]. intros e He. by apply yields_ret.
  - apply yields_ret. left. by repeat constructor.
  - apply yields_ret. left. by repeat constructor.
Qed.

End ServeStatus.

(** ** The handlers as coroutines *)

#[export] Instance anyhow_preorder : PreOrder anyhow.
Proof. by split. Qed.

Section CoroRules.
Context {P : Platform} {U : Upstream}.
Context {A B : Type}.
Implicit Types (Q : A -> Prop) (R : B -> Prop) (E : Exn -> Prop) (c : Coro A) (w : World).

Lemma c_yields_atomically Q E (m : M A) : yields Q E m -> c_yields Q E (atomically m).
Proof. intros Hm w. apply (starts_atomically anyhow); [done|apply Hm]. Qed.

Lemma c_yields_mono Q Q' E E' c :
  c_yields Q E c -> (forall a, Q a -> Q' a) -> (forall e, E e -> E' e) -> c_yields Q' E' c.
Proof.
  intros Hc HQ HE w. eapply starts_mono; [|apply Hc].
  intros [a|e|] _; cbn; auto.
Qed.

Lemma c_yields_bind Q R E c (k : A -> Coro B) :
  c_yields Q E c -> (forall a, Q a -> c_yields R E (k a)) -> c_yields R E (c ≫= k).
Proof.
  intros Hc Hk w. apply (starts_bind anyhow). eapply starts_mono; [|apply Hc].
  intros [a|e|] w' Hr; cbn in *; [by apply Hk|done..].
Qed.

Lemma c_yields_try Q E E' c handler :
  c_yields Q E' c ->
  (forall e, E' e -> match handler e with Some h => yields Q E h | None => E e end) ->
  c_yields Q E (c_try c handler).
Proof.
  intros Hc Hh w. apply (starts_try anyhow). eapply starts_mono; [|apply Hc].
  intros [a|e|] w' Hr; cbn in *; [done| |done].
  specialize (Hh e Hr). destruct (handler e) as [h|]; [split; [done|apply Hh]|done].
Qed.

End CoroRules.

Section CoroHandlers.
Context {P : Platform} {U : Upstream}.
Implicit Types (user : User) (form_data : CreateVideoForm) (req : HttpRequest).

Lemma c_yields_request req : c_yields provided call_error (await_request req).
Proof.
  intros w. split; [done|]. cbn. intros w1 _. split; [done|]. cbn.
  destruct (outcome _) eqn:Hex; cbn; [by left|by eexists _, _].
Qed.

Lemma c_yields_sleep (Q : unit -> Prop) E delay : Q tt -> c_yields Q E (await_sleep delay).
Proof. intros HQ w. split; [done|]. cbn. intros w1 _. by split. Qed.

(** A [try] block that awaits its request and does the rest in the block
    that receives the response. *)
Lemma c_yields_call {X} (Q : X -> Prop) E req (m : Response -> M X) handler :
  (forall r, provided r -> yields Q call_error (m r)) ->
  (forall e, call_error e ->
     match handler e with Some h => yields Q E h | None => E e end) ->
  c_yields Q E (c_try (r ← await_request req; atomically (m r)) handler).
Proof.
  intros Hm Hh. apply (c_yields_try _ _ call_error); [|done].
  apply (c_yields_bind provided); [apply c_yields_request|].
  intros r Hr. by apply c_yields_atomically, Hm.
Qed.

Lemma c_yields_send_submission req :
  c_yields (fun _ => True) (raises_fault submission_fault) (send_submission_c req).
Proof. apply c_yields_call; [apply yields_submission_body|apply yields_submission_handler]. Qed.

Lemma c_yields_video_generations form_data user :
  c_yields (fun _ => True)
    (fun e => raises_fault submission_fault e \/ uncaught [ValueError; BinasciiError] e)
    (video_generations_c form_data user).
Proof.
  apply (c_yields_bind (fun _ => True)).
  - apply c_yields_atomically, yields_submission_of.
  - intros req _. eapply c_yields_mono; [apply c_yields_send_submission|done|by left].
Qed.

Lemma c_yields_fetch_json what req :
  c_yields (fun _ => True) (raises_fault client_fault) (fetch_json_c what req).
Proof.
  apply c_yields_call; [|intros e _; apply yields_client_handler].
  intros r Hr. by apply yields_checked; [|apply yields_response_json].
Qed.

Lemma c_yields_keyed_fetch what request_of :
  c_yields (fun _ => True) (raises_fault client_fault)
    (req ← atomically (keyed request_of); fetch_json_c what req).
Proof.
  apply (c_yields_bind (fun _ => True)); [apply c_yields_atomically, yields_keyed_request|].
  intros req _. apply c_yields_fetch_json.
Qed.

Lemma c_yields_get_video_content video_id user :
  c_yields (fun _ => True) (raises_fault client_fault) (get_video_content_c video_id user).
Proof.
  apply (c_yields_bind (fun _ => True)); [apply c_yields_atomically, yields_keyed_request|].
  intros req _. apply c_yields_call; [|intros e _; apply yields_client_handler].
  intros r Hr. by apply yields_checked; [|apply yields_ret].
Qed.

Lemma c_yields_poll_loop fuel video_id user start_time timeout poll_interval :
  c_yields completed_answer (fun e => raises_fault poll_fault e \/ uncaught [AttributeError] e)
    (poll_loop_c fuel video_id user start_time timeout poll_interval).
Proof.
  induction fuel as [|fuel IH]; [apply c_yields_atomically, yields_out_of_fuel|].
  cbn [poll_loop_c].
  apply (c_yields_bind (fun _ => True));
    [by apply c_yields_atomically, safe_yields; [apply safe_time_time|]|].
  intros t _. cbv beta.
  destruct (_ <? _);
    [|apply c_yields_atomically, yields_raise; left; by exists (Timeout timeout video_id)].
  apply (c_yields_bind (fun _ => True)).
  { eapply c_yields_mono; [apply c_yields_keyed_fetch|done|apply poll_error_client]. }
  intros status _. apply (c_yields_bind (fun _ => True)).
  { apply c_yields_atomically. eapply yields_mono; [apply yields_py_get|done|by right]. }
  intros st _. destruct (json_eq_str st "completed").
  { apply c_yields_atomically.
    eapply yields_mono; [apply yields_completed_response|done|by right]. }
  destruct (json_eq_str st "failed").
  - apply c_yields_atomically, (yields_bind (fun _ => True)).
    { eapply yields_mono; [apply yields_py_get|done|by right]. }
    intros error _. apply yields_raise. left. by exists (GenerationFailed error).
  - apply (c_yields_bind (fun _ => True)); [by apply c_yields_sleep|]. by intros _ _.
Qed.

Lemma c_yields_video_generations_sync fuel form_data user timeout poll_interval :
  c_yields completed_answer sync_error
    (video_generations_sync_c fuel form_data user timeout poll_interval).
Proof.
  apply (c_yields_bind (fun _ => True)).
  { eapply c_yields_mono; [apply c_yields_video_generations|done|apply sync_error_submission]. }
  intros result _. apply (c_yields_bind (fun _ => True)).
  { apply c_yields_atomically.
    eapply yields_mono; [apply yields_py_get|done|apply sync_error_attribute]. }
  intros video_id _.
  destruct (negb _);
    [apply c_yields_atomically, yields_raise; left; by exists MalformedUpstreamResponse|].
  apply (c_yields_bind (fun _ => True));
    [by apply c_yields_atomically, safe_yields; [apply safe_time_time|]|].
  intros start_time _.
  eapply c_yields_mono; [apply c_yields_poll_loop|done|apply sync_error_poll].
Qed.

End CoroHandlers.

(** ** The replies under every schedule *)

Section PoolStatus.
Context {P : Platform} {U : Upstream} {A : Auth}.
Implicit Types (c : Credentials) (req : Inbound) (w : World) (pool : Pool).

Lemma c_yields_validated {X} c (E : Exn -> Prop) (arg : option X) (k : X -> Coro Reply) :
  (forall x, c_yields (reply_ok c) E (k x)) -> c_yields (reply_ok c) E (validated_c arg k).
Proof.
  intros Hk. destruct arg as [x|]; [apply Hk|].
  apply c_yields_atomically, yields_ret. left. by repeat constructor.
Qed.

Lemma c_yields_json_reply c (Q : JSON -> Prop) (E : Exn -> Prop) (h : Coro JSON) :
  c_yields Q E h -> (forall e, E e -> reply_ok c (reply_of_exn e)) ->
  c_yields (reply_ok c) (fun e => reply_ok c (reply_of_exn e))
    (v ← h; atomically (mret (JsonReply 200 v))).
Proof.
  intros Hh HE. apply (c_yields_bind Q); [by eapply c_yields_mono|].
  intros v _. apply c_yields_atomically, yields_ret. left. by repeat constructor.
Qed.

Lemma c_yields_endpoint fuel r params req :
  c_yields (reply_ok (in_credentials req))
    (fun e => reply_ok (in_credentials req) (reply_of_exn e)) (endpoint_c fuel r params req).
Proof.
  set (c := in_credentials req).
  destruct r; cbn [endpoint_c]; try apply c_yields_atomically, yields_endpoint;
    (apply (c_yields_bind (fun _ => True)); [apply c_yields_atomically, yields_verified|]);
    intros user _; repeat (apply c_yields_validated; intros ?).
  - eapply c_yields_json_reply; [apply c_yields_video_generations|].
    intros e [He|He]; eauto using fault_reply_ok, uncaught_reply_ok.
  - eapply c_yields_json_reply; [apply c_yields_keyed_fetch|]. eauto using fault_reply_ok.
  - eapply c_yields_json_reply; [apply c_yields_keyed_fetch|]. eauto using fault_reply_ok.
  - apply (c_yields_bind (fun _ => True)).
    + eapply c_yields_mono;
        [apply c_yields_get_video_content|done|eauto using fault_reply_ok].
    + intros sr _. apply c_yields_atomically, yields_ret. left. by repeat constructor.
  - eapply c_yields_json_reply; [apply c_yields_keyed_fetch|]. eauto using fault_reply_ok.
  - eapply c_yields_json_reply; [apply c_yields_video_generations_sync|].
    eauto using sync_error_reply_ok.
Qed.

Lemma c_yields_serve fuel req :
  c_yields (reply_ok (in_credentials req)) (fun _ => False) (serve_c fuel req).
Proof.
  unfold serve_c. destruct (dispatch _ _) as [r params| |].
  - apply (c_yields_try _ _ (fun e => reply_ok (in_credentials req) (reply_of_exn e)));
      [apply c_yields_endpoint|]. intros e He. by apply yields_ret.
  - apply c_yields_atomically, yields_ret. left. by repeat constructor.
  - apply c_yields_atomically, yields_ret. left. by repeat constructor.
Qed.

(** The task that the arrival of a request leaves is fine, and a fine task
    leaves a fine task when it is resumed. *)
Lemma fine_arrive fuel req w : fine (serve_c fuel req w).1.
Proof.
  intros w'. destruct (c_yields_serve fuel req w) as [_ Ht].
  eapply task_sat_mono; [|destruct (serve_c fuel req w).1; exact Ht].
  intros [reply|e|] _; cbn; eauto.
Qed.

Lemma fine_resume wake resume w : fine (Waiting wake resume) -> fine (resume (wake_up wake w)).1.
Proof.
  intros Ht w'. destruct (Ht w (wake_up wake w)) as [_ Ht']; [cbn; lia|].
  by destruct (resume _).1.
Qed.

Lemma fine_step fuel ev pool w : Forall fine pool -> Forall fine (step fuel ev pool w).1.
Proof.
  intros Hp. destruct ev as [req|i|d]; cbn [step]; [| |done].
  - pose proof (fine_arrive fuel req w) as Ht. destruct (serve_c fuel req w) as [t w'].
    apply Forall_app. split; [done|]. by apply Forall_singleton.
  - destruct (pool !! i) as [[r|wake resume]|] eqn:Hi; [done| |done].
    pose proof (fine_resume wake resume w (Forall_lookup_1 _ pool i _ Hp Hi)) as Ht.
    destruct (resume (wake_up wake w)) as [t w']. by apply Forall_insert.
Qed.

Lemma fine_run_events fuel evs pool w :
  Forall fine pool -> Forall fine (run_events fuel evs pool w).1.
Proof.
  revert pool w. induction evs as [|ev evs IH]; intros pool w Hp; [done|].
  cbn [run_events]. pose proof (fine_step fuel ev pool w Hp) as Hs.
  destruct (step fuel ev pool w) as [pool' w']. by apply IH.
Qed.

Lemma fine_task_fine t : fine t -> task_fine t.
Proof. intros Ht. destruct t as [[reply|e|]|]; try done; apply (Ht (fresh ∅)). Qed.

End PoolStatus.

(** ** The contract of the handlers *)

Section TaxonomyClaims.
Context {P : Platform} {U : Upstream} {A : Auth}.
Implicit Types (user : User) (form_data : CreateVideoForm) (w : World).

(** The pass-through handlers know two faults: the missing key and the
    internal fault.  An error status of the provider is never passed on by
    them. *)
Lemma pass_through_faults user video_id limit after :
  yields (fun _ => True) (raises_fault client_fault) (list_videos user limit after)
  /\ yields (fun _ => True) (raises_fault client_fault) (get_video video_id user)
  /\ yields (fun _ => True) (raises_fault client_fault) (delete_video video_id user)
  /\ yields (fun _ => True) (raises_fault client_fault) (get_video_content video_id user).
Proof.
  split_and!;
    eauto using yields_list_videos, yields_get_video, yields_delete_video.
  eapply yields_mono; [apply yields_get_video_content|done..].
Qed.

(** C13: what POST /generations/sync can end in.  It returns the answer for a
    completed job (id, status completed, the content URL, model, size and
    seconds), or it raises a fault of the taxonomy with the status and the
    detail of that fault, the status of an [UpstreamError] being an error
    status that the provider answered with, or it lets out one of three
    Python errors that no [except] clause catches: the [ValueError] and the
    [binascii.Error] of a malformed data URI, and the [AttributeError] of an
    answer of the provider that is no JSON object. *)
Theorem video_generations_sync_taxonomy fuel form_data user timeout poll_interval w :
  match (video_generations_sync fuel form_data user timeout poll_interval w).1 with
  | Ok v => exists video_id d, v = completed_dict video_id d
  | Raise e =>
      (exists f, fault_known f /\ e = exn_of_fault f)
      \/ (exists cls msg,
            e = PyError cls msg /\ cls ∈ [ValueError; BinasciiError; AttributeError])
  | OutOfFuel => True
  end.
Proof.
  pose proof (yields_video_generations_sync fuel form_data user timeout poll_interval w) as H.
  destruct (_.1) as [v|e|]; [done| |done].
  destruct H as [(f & _ & Hk & ->)|He]; [left; eauto|by right].
Qed.

(** The statuses of the router.  Whatever the request, the configuration
    and the provider, a reply has one of the statuses 200, 400, 404, 405,
    408, 422 and 500, or an error status that the provider answered with, or
    it is the refusal of the authorization collaborator; and no exception
    leaves the service of a request. *)
Theorem serve_status fuel (req : Inbound) w :
  match (serve fuel req w).1 with
  | Ok reply =>
      status_of reply ∈ proxy_statuses
      \/ provider_status (status_of reply)
      \/ refused (in_credentials req) reply
  | Raise e => False
  | OutOfFuel => True
  end.
Proof. apply yields_serve. Qed.

(** C14: the statuses of the replies under every schedule of the event
    loop.  Whatever requests arrive, in whatever order their blocks are
    resumed and however late, every task that is done has a reply, and the
    reply has one of the statuses 200, 400, 404, 405, 408, 422 and 500, or
    an error status that the provider answered with, or is a refusal of the
    authorization collaborator. *)
Theorem run_events_status fuel (evs : list Event) w :
  Forall (fun t => match t with
                   | Done (Ok reply) =>
                       exists c, status_of reply ∈ proxy_statuses
                                 \/ provider_status (status_of reply)
                                 \/ refused c reply
                   | Done (Raise e) => False
                   | _ => True
                   end) (run_events fuel evs [] w).1.
Proof. eapply Forall_impl; [by apply fine_run_events|]. apply fine_task_fine. Qed.

End TaxonomyClaims.

(** ** The three errors that are not caught, at concrete runs *)

(** A provider that answers the submission with a JSON list: [result.get]
    raises, and the caller of the router gets the framework's 500. *)
Example video_generations_sync_attribute_error :
  (video_generations_sync (P:=forwarding) (U:=scripted [answers (JList [])]) 3
     (prompt_only "a cat") alice 10 5 ready).1
  = Raise (PyError AttributeError "'list' object has no attribute 'get'")
  /\ (serve (P:=forwarding) (U:=scripted [answers (JList [])]) (A:=by_role) 3
        (post_sync (Some alice)) ready).1 = Ok InternalServerError.
Proof. by vm_compute. Qed.

(** The provider's own error status on a submission is the status of the
    reply: 429 is none of the statuses of the proxy. *)
Example serve_provider_status :
  match (serve (P:=forwarding) (U:=throttling) (A:=by_role) 3
           (post_sync (Some alice)) ready).1 with
  | Ok reply => status_of reply
  | _ => 0
  end = 429.
Proof. by vm_compute. Qed.
